(** * Primary battery runtime estimator: a shallow embedding

    The two programs of the repository, [battery_runtime_app.py] (lithium
    metal and alkaline chemistries, with a discharge mode) and
    [lithium_battery_runtime_app.py] (lithium metal only), each define a class
    [Battery].  Both are embedded here, in the modules [Generalized] and
    [Lithium], over one model of the Python values they compute with.

    Numbers are kept as the interpreter has them: an [int] is an unbounded
    integer, a [float] is an IEEE 754 binary64 number (Rocq's primitive
    [float], so every literal and operation rounds as CPython's does), and a
    cell read from a pandas data frame is a [numpy.float64], whose arithmetic
    differs from that of [float] in one respect the programs depend on: a
    division by zero gives an infinity or a NaN where [float] raises
    [ZeroDivisionError]. *)

From Stdlib Require Import ZArith List String Bool Lia.
From Stdlib Require Import Floats.
From Stdlib Require Import Reals Lra.
Import ListNotations.

Set Warnings "-inexact-float".
Local Open Scope string_scope.
Local Open Scope Z_scope.

(** ** Python values, exceptions and results *)

(** The values the two programs store and compute with.  [bool] is a subclass
    of [int] in Python ([True] is the integer 1 for [isinstance] and for
    arithmetic), so a boolean argument is the [VInt] it equals. *)
Inductive value : Type :=
| VNone
| VInt (n : Z)
| VFloat (x : float)
| VNp (x : float)
| VStr (s : string).

Inductive exn : Type :=
| AttributeError
| TypeError
| ZeroDivisionError
| OverflowError
| KeyError.

Inductive result (A : Type) : Type :=
| Ok (a : A)
| Raise (e : exn).

Arguments Ok {A} a.
Arguments Raise {A} e.

Definition bind {A B : Type} (r : result A) (k : A -> result B) : result B :=
  match r with
  | Ok a => k a
  | Raise e => Raise e
  end.

Notation "x <- r ;; k" := (bind r (fun x => k))
  (at level 61, r at next level, right associativity).

(** ** Binary64 helpers *)

(** [float(n)] for an [int]: the nearest binary64 number, ties to even;
    CPython raises [OverflowError] when that would be an infinity. *)
Definition float_of_int (n : Z) : result float :=
  match binary_normalize prec emax n 0 false with
  | S754_infinity _ => Raise OverflowError
  | sf => Ok (SF2Prim sf)
  end.

(** The exact order between an integer and a binary64 number ([None] when the
    float is a NaN), as CPython compares an [int] with a [float]. *)
Definition compare_int_float (n : Z) (x : float) : option comparison :=
  match Prim2SF x with
  | S754_nan => None
  | S754_infinity s => Some (if s then Gt else Lt)
  | S754_zero _ => Some (n ?= 0)
  | S754_finite s m e =>
      let v := if s then Z.neg m else Z.pos m in
      Some (match e with
            | Z.neg p => (n * 2 ^ Z.pos p ?= v)
            | _ => (n ?= v * 2 ^ e)
            end)
  end.

Definition compare_float (x y : float) : option comparison :=
  match (x ?= y)%float with
  | FEq => Some Eq
  | FLt => Some Lt
  | FGt => Some Gt
  | FNotComparable => None
  end.

(** The quotient of two integers as a binary64 number, correctly rounded
    (ties to even), as [int / int] computes it. *)
Definition float_of_ratio (n d : Z) : spec_float :=
  match n, d with
  | Z0, _ => S754_zero (d <? 0)
  | _, Z0 => S754_nan
  | _, _ =>
      let '(q, e, l) := SFdiv_core_binary prec emax (Z.abs n) 0 (Z.abs d) 0 in
      binary_round_aux prec emax (xorb (n <? 0) (d <? 0)) q e l
  end.

(** The nearest integer to [n / d] for [0 < d], ties to the even one. *)
Definition round_half_even (n d : Z) : Z :=
  let q := n / d in
  match 2 * (n mod d) ?= d with
  | Lt => q
  | Gt => q + 1
  | Eq => if Z.even q then q else q + 1
  end.

(** [round(x, ndigits)] on a [float], for the small positive [ndigits] the
    programs use (2 and 3): CPython rounds the exact value of [x] to that many
    decimals, ties to even, and returns the binary64 number nearest to the
    decimal it obtained.  Infinities and NaN are returned as they are. *)
Definition float_round (x : float) (ndigits : Z) : float :=
  match Prim2SF x with
  | S754_finite s m e =>
      let p := 10 ^ ndigits in
      let k := match e with
               | Z.neg a => round_half_even (Z.pos m * p) (2 ^ Z.pos a)
               | _ => Z.pos m * 2 ^ e * p
               end in
      if k =? 0 then SF2Prim (S754_zero s)
      else SF2Prim (float_of_ratio (if s then - k else k) p)
  | _ => x
  end.

(** C's [rint] in the default rounding mode: the nearest integral binary64
    number, ties to even, with the sign of the argument. *)
Definition two52 : float := 4503599627370496%float.

Definition rint (x : float) : float :=
  let a := abs x in
  if (a <? two52)%float then
    let r := ((a + two52) - two52)%float in
    if get_sign x then (- r)%float else r
  else x.

(** [round(x, ndigits)] on a [numpy.float64], for [0 <= ndigits]: numpy
    scales, rounds to an integer and scales back, each step in binary64. *)
Definition np_round (x : float) (ndigits : Z) : float :=
  match float_of_int (10 ^ ndigits) with
  | Ok f => (rint (x * f) / f)%float
  | Raise _ => x
  end.

(** ** Python's operators on these values *)

Definition is_numeric (v : value) : bool :=
  match v with
  | VInt _ | VFloat _ | VNp _ => true
  | _ => false
  end.

(** [isinstance(v, int)] and [isinstance(v, float)]; [numpy.float64] is a
    subclass of [float]. *)
Definition isinstance_int (v : value) : bool :=
  match v with VInt _ => true | _ => false end.

Definition isinstance_float (v : value) : bool :=
  match v with VFloat _ | VNp _ => true | _ => false end.

(** A numeric operand as a binary64 number, with whether it is a numpy
    scalar.  None of the two programs applies an arithmetic operator to a
    string, so [TypeError] for a string operand is all that is modelled. *)
Definition as_float (v : value) : result (bool * float) :=
  match v with
  | VInt n => x <- float_of_int n ;; Ok (false, x)
  | VFloat x => Ok (false, x)
  | VNp x => Ok (true, x)
  | _ => Raise TypeError
  end.

Definition mk_float (np : bool) (x : float) : value :=
  if np then VNp x else VFloat x.

Definition arith (iop : Z -> Z -> Z) (fop : float -> float -> float)
    (a b : value) : result value :=
  if negb (is_numeric a && is_numeric b) then Raise TypeError
  else match a, b with
       | VInt m, VInt n => Ok (VInt (iop m n))
       | _, _ =>
           x <- as_float a ;;
           y <- as_float b ;;
           Ok (mk_float (fst x || fst y) (fop (snd x) (snd y)))
       end.

Definition py_add : value -> value -> result value := arith Z.add PrimFloat.add.
Definition py_sub : value -> value -> result value := arith Z.sub PrimFloat.sub.
Definition py_mul : value -> value -> result value := arith Z.mul PrimFloat.mul.

(** [a / b].  Between two [int]s the exact quotient is rounded once; a
    [float] divisor equal to zero raises [ZeroDivisionError], unless an
    operand is a [numpy.float64], which follows IEEE 754. *)
Definition py_truediv (a b : value) : result value :=
  if negb (is_numeric a && is_numeric b) then Raise TypeError
  else match a, b with
       | VInt m, VInt n =>
           if n =? 0 then Raise ZeroDivisionError
           else match float_of_ratio m n with
                | S754_infinity _ => Raise OverflowError
                | sf => Ok (VFloat (SF2Prim sf))
                end
       | _, _ =>
           x <- as_float a ;;
           y <- as_float b ;;
           if fst x || fst y then Ok (VNp (snd x / snd y))
           else if (snd y =? 0)%float then Raise ZeroDivisionError
           else Ok (VFloat (snd x / snd y))
       end.

(** The order of two numbers, [None] when a NaN is involved.  An [int] and a
    [float] are compared by their exact values. *)
Definition py_compare (a b : value) : result (option comparison) :=
  match a, b with
  | VInt m, VInt n => Ok (Some (m ?= n))
  | VInt m, (VFloat y | VNp y) => Ok (compare_int_float m y)
  | (VFloat x | VNp x), VInt n => Ok (option_map CompOpp (compare_int_float n x))
  | (VFloat x | VNp x), (VFloat y | VNp y) => Ok (compare_float x y)
  | _, _ => Raise TypeError
  end.

Definition py_lt (a b : value) : result bool :=
  c <- py_compare a b ;; Ok (match c with Some Lt => true | _ => false end).
Definition py_le (a b : value) : result bool :=
  c <- py_compare a b ;; Ok (match c with Some (Lt | Eq) => true | _ => false end).
Definition py_gt (a b : value) : result bool :=
  c <- py_compare a b ;; Ok (match c with Some Gt => true | _ => false end).
Definition py_ge (a b : value) : result bool :=
  c <- py_compare a b ;; Ok (match c with Some (Gt | Eq) => true | _ => false end).

(** [a == b]: never raises; values of unrelated types are unequal. *)
Definition py_eq (a b : value) : bool :=
  match a, b with
  | VNone, VNone => true
  | VStr s, VStr t => String.eqb s t
  | _, _ =>
      match py_compare a b with
      | Ok (Some Eq) => true
      | _ => false
      end
  end.

(** [round(v, ndigits)] with [0 <= ndigits]: an [int] is returned as it is. *)
Definition py_round (v : value) (ndigits : Z) : result value :=
  match v with
  | VInt n => Ok (VInt n)
  | VFloat x => Ok (VFloat (float_round x ndigits))
  | VNp x => Ok (VNp (np_round x ndigits))
  | _ => Raise TypeError
  end.

(** A dictionary returned by [battery_details]: a key is bound to a value or
    to an inner dictionary. *)
Inductive detail : Type :=
| DValue (v : value)
| DDict (d : list (string * value)).

Fixpoint lookup {A : Type} (k : string) (d : list (string * A)) : result A :=
  match d with
  | [] => Raise KeyError
  | (k', v) :: d' => if String.eqb k k' then Ok v else lookup k d'
  end.

(** [d[k1][k2]]. *)
Definition lookup2 (k1 : string) (k2 : value) (d : list (string * detail))
    : result value :=
  inner <- lookup k1 d ;;
  match inner, k2 with
  | DDict d', VStr k => lookup k d'
  | DDict _, _ => Raise KeyError
  | DValue _, _ => Raise TypeError
  end.

(** An attribute that [__init__] may have failed to create. *)
Definition getattr (field : option value) : result value :=
  match field with
  | Some v => Ok v
  | None => Raise AttributeError
  end.

(** A method body that assigns attributes one after the other: the object
    is threaded through, and an exception leaves it as the statements executed
    so far have made it. *)
Definition stmt (S : Type) : Type := S -> S * result unit.

Definition assign {S : Type} (set : value -> S -> S) (rhs : S -> result value)
    : stmt S :=
  fun self =>
    match rhs self with
    | Ok v => (set v self, Ok tt)
    | Raise e => (self, Raise e)
    end.

Definition seq {S : Type} (s1 s2 : stmt S) : stmt S :=
  fun self =>
    match s1 self with
    | (self', Ok _) => s2 self'
    | (self', Raise e) => (self', Raise e)
    end.

(** ** [battery_runtime_app.py] *)
Module Generalized.

(** The reference workbook.  [calculate_temperature_factor] reads its curves
    with [pandas.read_excel] from a workbook that is not part of the sources.
    A sheet is taken as it is read: a list of rows in file order, each cell a
    [numpy.float64]. *)
Record row : Type := {
  current : float;      (* "Constant Current Discharge / mA" *)
  temperature : float;  (* "Operating Temperature / °C" *)
  factor : float        (* "Temperature Factor" *)
}.

Definition workbook : Type := string -> list row.

(** The instance dictionary of a [Battery].  The six attributes written
    through a validating setter are absent ([None] here) until a setter has
    accepted a value; the others are created by [__init__]. *)
Record Battery : Type := {
  _battery_type : option value;
  _battery_capacity : option value;
  _operating_temp : option value;
  _load_current : option value;
  _load_duration_per_day : option value;
  _sleep_current : option value;
  _sleep_duration_per_day : value;
  _average_current_draw : value;
  _self_discharge_rate : float;
  _max_shelf_life : Z;
  _min_operating_temp : Z;
  _max_operating_temp : Z;
  _temperature_factor : value;
  _effective_battery_capacity : value;
  _battery_runtime : value;
  _current_discharge_mode : value;
  _low_current_discharge : Z;
  _medium_current_discharge : Z;
  _high_current_discharge : Z
}.

(** Assignments [self._x = v], one per attribute that is assigned after
    construction. *)
Definition assign_battery_type (v : value) (self : Battery) : Battery :=
  {| _battery_type := Some v;
     _battery_capacity := _battery_capacity self;
     _operating_temp := _operating_temp self;
     _load_current := _load_current self;
     _load_duration_per_day := _load_duration_per_day self;
     _sleep_current := _sleep_current self;
     _sleep_duration_per_day := _sleep_duration_per_day self;
     _average_current_draw := _average_current_draw self;
     _self_discharge_rate := _self_discharge_rate self;
     _max_shelf_life := _max_shelf_life self;
     _min_operating_temp := _min_operating_temp self;
     _max_operating_temp := _max_operating_temp self;
     _temperature_factor := _temperature_factor self;
     _effective_battery_capacity := _effective_battery_capacity self;
     _battery_runtime := _battery_runtime self;
     _current_discharge_mode := _current_discharge_mode self;
     _low_current_discharge := _low_current_discharge self;
     _medium_current_discharge := _medium_current_discharge self;
     _high_current_discharge := _high_current_discharge self |}.

Definition assign_battery_capacity (v : value) (self : Battery) : Battery :=
  {| _battery_type := _battery_type self;
     _battery_capacity := Some v;
     _operating_temp := _operating_temp self;
     _load_current := _load_current self;
     _load_duration_per_day := _load_duration_per_day self;
     _sleep_current := _sleep_current self;
     _sleep_duration_per_day := _sleep_duration_per_day self;
     _average_current_draw := _average_current_draw self;
     _self_discharge_rate := _self_discharge_rate self;
     _max_shelf_life := _max_shelf_life self;
     _min_operating_temp := _min_operating_temp self;
     _max_operating_temp := _max_operating_temp self;
     _temperature_factor := _temperature_factor self;
     _effective_battery_capacity := _effective_battery_capacity self;
     _battery_runtime := _battery_runtime self;
     _current_discharge_mode := _current_discharge_mode self;
     _low_current_discharge := _low_current_discharge self;
     _medium_current_discharge := _medium_current_discharge self;
     _high_current_discharge := _high_current_discharge self |}.

Definition assign_operating_temp (v : value) (self : Battery) : Battery :=
  {| _battery_type := _battery_type self;
     _battery_capacity := _battery_capacity self;
     _operating_temp := Some v;
     _load_current := _load_current self;
     _load_duration_per_day := _load_duration_per_day self;
     _sleep_current := _sleep_current self;
     _sleep_duration_per_day := _sleep_duration_per_day self;
     _average_current_draw := _average_current_draw self;
     _self_discharge_rate := _self_discharge_rate self;
     _max_shelf_life := _max_shelf_life self;
     _min_operating_temp := _min_operating_temp self;
     _max_operating_temp := _max_operating_temp self;
     _temperature_factor := _temperature_factor self;
     _effective_battery_capacity := _effective_battery_capacity self;
     _battery_runtime := _battery_runtime self;
     _current_discharge_mode := _current_discharge_mode self;
     _low_current_discharge := _low_current_discharge self;
     _medium_current_discharge := _medium_current_discharge self;
     _high_current_discharge := _high_current_discharge self |}.

Definition assign_load_current (v : value) (self : Battery) : Battery :=
  {| _battery_type := _battery_type self;
     _battery_capacity := _battery_capacity self;
     _operating_temp := _operating_temp self;
     _load_current := Some v;
     _load_duration_per_day := _load_duration_per_day self;
     _sleep_current := _sleep_current self;
     _sleep_duration_per_day := _sleep_duration_per_day self;
     _average_current_draw := _average_current_draw self;
     _self_discharge_rate := _self_discharge_rate self;
     _max_shelf_life := _max_shelf_life self;
     _min_operating_temp := _min_operating_temp self;
     _max_operating_temp := _max_operating_temp self;
     _temperature_factor := _temperature_factor self;
     _effective_battery_capacity := _effective_battery_capacity self;
     _battery_runtime := _battery_runtime self;
     _current_discharge_mode := _current_discharge_mode self;
     _low_current_discharge := _low_current_discharge self;
     _medium_current_discharge := _medium_current_discharge self;
     _high_current_discharge := _high_current_discharge self |}.

Definition assign_load_duration_per_day (v : value) (self : Battery) : Battery :=
  {| _battery_type := _battery_type self;
     _battery_capacity := _battery_capacity self;
     _operating_temp := _operating_temp self;
     _load_current := _load_current self;
     _load_duration_per_day := Some v;
     _sleep_current := _sleep_current self;
     _sleep_duration_per_day := _sleep_duration_per_day self;
     _average_current_draw := _average_current_draw self;
     _self_discharge_rate := _self_discharge_rate self;
     _max_shelf_life := _max_shelf_life self;
     _min_operating_temp := _min_operating_temp self;
     _max_operating_temp := _max_operating_temp self;
     _temperature_factor := _temperature_factor self;
     _effective_battery_capacity := _effective_battery_capacity self;
     _battery_runtime := _battery_runtime self;
     _current_discharge_mode := _current_discharge_mode self;
     _low_current_discharge := _low_current_discharge self;
     _medium_current_discharge := _medium_current_discharge self;
     _high_current_discharge := _high_current_discharge self |}.

Definition assign_sleep_current (v : value) (self : Battery) : Battery :=
  {| _battery_type := _battery_type self;
     _battery_capacity := _battery_capacity self;
     _operating_temp := _operating_temp self;
     _load_current := _load_current self;
     _load_duration_per_day := _load_duration_per_day self;
     _sleep_current := Some v;
     _sleep_duration_per_day := _sleep_duration_per_day self;
     _average_current_draw := _average_current_draw self;
     _self_discharge_rate := _self_discharge_rate self;
     _max_shelf_life := _max_shelf_life self;
     _min_operating_temp := _min_operating_temp self;
     _max_operating_temp := _max_operating_temp self;
     _temperature_factor := _temperature_factor self;
     _effective_battery_capacity := _effective_battery_capacity self;
     _battery_runtime := _battery_runtime self;
     _current_discharge_mode := _current_discharge_mode self;
     _low_current_discharge := _low_current_discharge self;
     _medium_current_discharge := _medium_current_discharge self;
     _high_current_discharge := _high_current_discharge self |}.

(** The three chemistry constants are always assigned together. *)
Definition assign_limits (lo hi shelf : Z) (self : Battery) : Battery :=
  {| _battery_type := _battery_type self;
     _battery_capacity := _battery_capacity self;
     _operating_temp := _operating_temp self;
     _load_current := _load_current self;
     _load_duration_per_day := _load_duration_per_day self;
     _sleep_current := _sleep_current self;
     _sleep_duration_per_day := _sleep_duration_per_day self;
     _average_current_draw := _average_current_draw self;
     _self_discharge_rate := _self_discharge_rate self;
     _max_shelf_life := shelf;
     _min_operating_temp := lo;
     _max_operating_temp := hi;
     _temperature_factor := _temperature_factor self;
     _effective_battery_capacity := _effective_battery_capacity self;
     _battery_runtime := _battery_runtime self;
     _current_discharge_mode := _current_discharge_mode self;
     _low_current_discharge := _low_current_discharge self;
     _medium_current_discharge := _medium_current_discharge self;
     _high_current_discharge := _high_current_discharge self |}.

Definition assign_sleep_duration_per_day (v : value) (self : Battery) : Battery :=
  {| _battery_type := _battery_type self;
     _battery_capacity := _battery_capacity self;
     _operating_temp := _operating_temp self;
     _load_current := _load_current self;
     _load_duration_per_day := _load_duration_per_day self;
     _sleep_current := _sleep_current self;
     _sleep_duration_per_day := v;
     _average_current_draw := _average_current_draw self;
     _self_discharge_rate := _self_discharge_rate self;
     _max_shelf_life := _max_shelf_life self;
     _min_operating_temp := _min_operating_temp self;
     _max_operating_temp := _max_operating_temp self;
     _temperature_factor := _temperature_factor self;
     _effective_battery_capacity := _effective_battery_capacity self;
     _battery_runtime := _battery_runtime self;
     _current_discharge_mode := _current_discharge_mode self;
     _low_current_discharge := _low_current_discharge self;
     _medium_current_discharge := _medium_current_discharge self;
     _high_current_discharge := _high_current_discharge self |}.

Definition assign_average_current_draw (v : value) (self : Battery) : Battery :=
  {| _battery_type := _battery_type self;
     _battery_capacity := _battery_capacity self;
     _operating_temp := _operating_temp self;
     _load_current := _load_current self;
     _load_duration_per_day := _load_duration_per_day self;
     _sleep_current := _sleep_current self;
     _sleep_duration_per_day := _sleep_duration_per_day self;
     _average_current_draw := v;
     _self_discharge_rate := _self_discharge_rate self;
     _max_shelf_life := _max_shelf_life self;
     _min_operating_temp := _min_operating_temp self;
     _max_operating_temp := _max_operating_temp self;
     _temperature_factor := _temperature_factor self;
     _effective_battery_capacity := _effective_battery_capacity self;
     _battery_runtime := _battery_runtime self;
     _current_discharge_mode := _current_discharge_mode self;
     _low_current_discharge := _low_current_discharge self;
     _medium_current_discharge := _medium_current_discharge self;
     _high_current_discharge := _high_current_discharge self |}.

Definition assign_current_discharge_mode (v : value) (self : Battery) : Battery :=
  {| _battery_type := _battery_type self;
     _battery_capacity := _battery_capacity self;
     _operating_temp := _operating_temp self;
     _load_current := _load_current self;
     _load_duration_per_day := _load_duration_per_day self;
     _sleep_current := _sleep_current self;
     _sleep_duration_per_day := _sleep_duration_per_day self;
     _average_current_draw := _average_current_draw self;
     _self_discharge_rate := _self_discharge_rate self;
     _max_shelf_life := _max_shelf_life self;
     _min_operating_temp := _min_operating_temp self;
     _max_operating_temp := _max_operating_temp self;
     _temperature_factor := _temperature_factor self;
     _effective_battery_capacity := _effective_battery_capacity self;
     _battery_runtime := _battery_runtime self;
     _current_discharge_mode := v;
     _low_current_discharge := _low_current_discharge self;
     _medium_current_discharge := _medium_current_discharge self;
     _high_current_discharge := _high_current_discharge self |}.

Definition assign_temperature_factor (v : value) (self : Battery) : Battery :=
  {| _battery_type := _battery_type self;
     _battery_capacity := _battery_capacity self;
     _operating_temp := _operating_temp self;
     _load_current := _load_current self;
     _load_duration_per_day := _load_duration_per_day self;
     _sleep_current := _sleep_current self;
     _sleep_duration_per_day := _sleep_duration_per_day self;
     _average_current_draw := _average_current_draw self;
     _self_discharge_rate := _self_discharge_rate self;
     _max_shelf_life := _max_shelf_life self;
     _min_operating_temp := _min_operating_temp self;
     _max_operating_temp := _max_operating_temp self;
     _temperature_factor := v;
     _effective_battery_capacity := _effective_battery_capacity self;
     _battery_runtime := _battery_runtime self;
     _current_discharge_mode := _current_discharge_mode self;
     _low_current_discharge := _low_current_discharge self;
     _medium_current_discharge := _medium_current_discharge self;
     _high_current_discharge := _high_current_discharge self |}.

Definition assign_effective_battery_capacity (v : value) (self : Battery) : Battery :=
  {| _battery_type := _battery_type self;
     _battery_capacity := _battery_capacity self;
     _operating_temp := _operating_temp self;
     _load_current := _load_current self;
     _load_duration_per_day := _load_duration_per_day self;
     _sleep_current := _sleep_current self;
     _sleep_duration_per_day := _sleep_duration_per_day self;
     _average_current_draw := _average_current_draw self;
     _self_discharge_rate := _self_discharge_rate self;
     _max_shelf_life := _max_shelf_life self;
     _min_operating_temp := _min_operating_temp self;
     _max_operating_temp := _max_operating_temp self;
     _temperature_factor := _temperature_factor self;
     _effective_battery_capacity := v;
     _battery_runtime := _battery_runtime self;
     _current_discharge_mode := _current_discharge_mode self;
     _low_current_discharge := _low_current_discharge self;
     _medium_current_discharge := _medium_current_discharge self;
     _high_current_discharge := _high_current_discharge self |}.

Definition assign_battery_runtime (v : value) (self : Battery) : Battery :=
  {| _battery_type := _battery_type self;
     _battery_capacity := _battery_capacity self;
     _operating_temp := _operating_temp self;
     _load_current := _load_current self;
     _load_duration_per_day := _load_duration_per_day self;
     _sleep_current := _sleep_current self;
     _sleep_duration_per_day := _sleep_duration_per_day self;
     _average_current_draw := _average_current_draw self;
     _self_discharge_rate := _self_discharge_rate self;
     _max_shelf_life := _max_shelf_life self;
     _min_operating_temp := _min_operating_temp self;
     _max_operating_temp := _max_operating_temp self;
     _temperature_factor := _temperature_factor self;
     _effective_battery_capacity := _effective_battery_capacity self;
     _battery_runtime := v;
     _current_discharge_mode := _current_discharge_mode self;
     _low_current_discharge := _low_current_discharge self;
     _medium_current_discharge := _medium_current_discharge self;
     _high_current_discharge := _high_current_discharge self |}.

(** *** Properties *)

Definition battery_type (self : Battery) := getattr (_battery_type self).
Definition battery_capacity (self : Battery) := getattr (_battery_capacity self).
Definition operating_temp (self : Battery) := getattr (_operating_temp self).
Definition load_current (self : Battery) := getattr (_load_current self).
Definition load_duration_per_day (self : Battery) :=
  getattr (_load_duration_per_day self).
Definition sleep_current (self : Battery) := getattr (_sleep_current self).

Definition sleep_duration_per_day (self : Battery) := _sleep_duration_per_day self.
Definition average_current_draw (self : Battery) := _average_current_draw self.
Definition self_discharge_rate (self : Battery) := VFloat (_self_discharge_rate self).
Definition max_shelf_life (self : Battery) := VInt (_max_shelf_life self).
Definition min_operating_temp (self : Battery) := VInt (_min_operating_temp self).
Definition max_operating_temp (self : Battery) := VInt (_max_operating_temp self).
Definition temperature_factor (self : Battery) := _temperature_factor self.
Definition effective_battery_capacity (self : Battery) :=
  _effective_battery_capacity self.
Definition battery_runtime (self : Battery) := _battery_runtime self.
Definition current_discharge_mode (self : Battery) := _current_discharge_mode self.
Definition low_current_discharge (self : Battery) := VInt (_low_current_discharge self).
Definition medium_current_discharge (self : Battery) :=
  VInt (_medium_current_discharge self).
Definition high_current_discharge (self : Battery) :=
  VInt (_high_current_discharge self).

(** *** Setters

    Each one assigns when its test holds and does nothing otherwise.  [and]
    and [or] evaluate their right operand only when needed. *)

Definition set_battery_type (v : value) (self : Battery) : result Battery :=
  if py_eq v (VStr "Lithium Metal") || py_eq v (VStr "Alkaline")
  then Ok (assign_battery_type v self)
  else Ok self.

Definition set_battery_capacity (v : value) (self : Battery) : result Battery :=
  c <- (if isinstance_int v then py_ge v (VInt 0) else Ok false) ;;
  if c then Ok (assign_battery_capacity v self) else Ok self.

Definition set_operating_temp (v : value) (self : Battery) : result Battery :=
  if isinstance_int v || isinstance_float v
  then Ok (assign_operating_temp v self)
  else Ok self.

Definition set_load_current (v : value) (self : Battery) : result Battery :=
  c <- (if isinstance_int v || isinstance_float v
        then py_ge v (VInt 0) else Ok false) ;;
  if c then Ok (assign_load_current v self) else Ok self.

Definition set_load_duration_per_day (v : value) (self : Battery)
    : result Battery :=
  if isinstance_int v || isinstance_float v then
    c1 <- py_ge v (VInt 0) ;;
    c2 <- (if c1 then py_le v (VInt 86400) else Ok false) ;;
    if c2 then Ok (assign_load_duration_per_day v self) else Ok self
  else Ok self.

Definition set_sleep_current (v : value) (self : Battery) : result Battery :=
  c <- (if isinstance_int v || isinstance_float v
        then py_ge v (VInt 0) else Ok false) ;;
  if c then Ok (assign_sleep_current v self) else Ok self.

(** *** [__init__]

    The object as [__init__] finds it has no attribute.  The attributes that
    [__init__] creates unconditionally are given their initial values here
    already: nothing reads them before the constructor returns. *)
Definition blank : Battery :=
  {| _battery_type := None;
     _battery_capacity := None;
     _operating_temp := None;
     _load_current := None;
     _load_duration_per_day := None;
     _sleep_current := None;
     _sleep_duration_per_day := VNone;
     _average_current_draw := VInt 0;
     _self_discharge_rate := 0.01%float;
     _max_shelf_life := 25;
     _min_operating_temp := -40;
     _max_operating_temp := 60;
     _temperature_factor := VNone;
     _effective_battery_capacity := VNone;
     _battery_runtime := VNone;
     _current_discharge_mode := VNone;
     _low_current_discharge := 25;
     _medium_current_discharge := 250;
     _high_current_discharge := 1000 |}.

Definition __init__ (battery_type battery_capacity operating_temp load_current
    load_duration_per_day sleep_current : value) : result Battery :=
  self <- set_battery_type battery_type blank ;;
  self <- set_battery_capacity battery_capacity self ;;
  self <- set_operating_temp operating_temp self ;;
  self <- set_load_current load_current self ;;
  self <- set_load_duration_per_day load_duration_per_day self ;;
  set_sleep_current sleep_current self.

(** *** Methods *)

Definition battery_details (self : Battery) : result (list (string * detail)) :=
  v1 <- battery_type self ;;
  v2 <- battery_capacity self ;;
  v3 <- operating_temp self ;;
  v4 <- load_current self ;;
  v5 <- load_duration_per_day self ;;
  v6 <- sleep_current self ;;
  Ok [ ("Battery Type", DValue v1);
       ("Battery Capacity (mAh)", DValue v2);
       ("Current Operating Temperature (°C)", DValue v3);
       ("Load Current (mA)", DValue v4);
       ("Load Duration Per Day (s)", DValue v5);
       ("Sleep Current (mA)", DValue v6);
       ("Sleep Duration Per Day (s)", DValue (sleep_duration_per_day self));
       ("Average Current Draw (mA)", DValue (average_current_draw self));
       ("Annual Self-discharge Rate", DValue (self_discharge_rate self));
       ("Max Shelf Life (Years)", DValue (max_shelf_life self));
       ("Operating Temperature Range (°C)",
         DDict [ ("Min", min_operating_temp self);
                 ("Max", max_operating_temp self) ]);
       ("Temperature Factor", DValue (temperature_factor self));
       ("Effective Battery Capacity (mAh)",
         DValue (effective_battery_capacity self));
       ("Battery Runtime (Days)", DValue (battery_runtime self));
       ("Current Discharge Mode", DValue (current_discharge_mode self));
       ("Constant Current Discharge Limits (mA)",
         DDict [ ("Low", low_current_discharge self);
                 ("Medium", medium_current_discharge self);
                 ("High", high_current_discharge self) ]) ].

(** The [for] loop of [calculate_temperature_factor] over the rows [row] and
    [row+1] of the data frame; falling out of the loop returns [None]. *)
Fixpoint interpolate (t : value) (df : list row) : result value :=
  match df with
  | r :: ((r' :: _) as rest) =>
      c1 <- py_lt t (VNp (temperature r)) ;;
      c2 <- (if c1 then py_ge t (VNp (temperature r')) else Ok false) ;;
      if c2 then
        let x1 := VNp (temperature r') in
        let y1 := VNp (factor r') in
        let x2 := VNp (temperature r) in
        let y2 := VNp (factor r) in
        dy <- py_sub y2 y1 ;;
        dx <- py_sub x2 x1 ;;
        slope <- py_truediv dy dx ;;
        dt <- py_sub t x1 ;;
        p <- py_mul slope dt ;;
        py_add y1 p
      else interpolate t rest
  | _ => Ok VNone
  end.

(** [df.loc[0, "Temperature Factor"]]. *)
Definition first_factor (df : list row) : result value :=
  match df with
  | r :: _ => Ok (VNp (factor r))
  | [] => Raise KeyError
  end.

Definition calculate_temperature_factor (xlsx : workbook) (self : Battery)
    : result value :=
  t <- operating_temp self ;;
  below <- py_lt t (min_operating_temp self) ;;
  outside <- (if below then Ok true else py_gt t (max_operating_temp self)) ;;
  if outside then Ok (VFloat 0)
  else
    ty <- battery_type self ;;
    let sheet_name :=
      if py_eq ty (VStr "Alkaline") then "Alkaline Temperature Factor"
      else "Li Temperature Factor" in
    let df := xlsx sheet_name in
    details <- battery_details self ;;
    limit <- lookup2 "Constant Current Discharge Limits (mA)"
               (current_discharge_mode self) details ;;
    let df := filter (fun r => py_eq (VNp (current r)) limit) df in
    if py_eq t (max_operating_temp self) then first_factor df
    else interpolate t df.

(** The sum that [calculate_runtime] divides by. *)
Definition total_daily_consumption (self : Battery) : result value :=
  i <- load_current self ;;
  d <- load_duration_per_day self ;;
  h <- py_truediv d (VInt 3600) ;;
  daily_load_contribution <- py_mul i h ;;
  i' <- sleep_current self ;;
  h' <- py_truediv (sleep_duration_per_day self) (VInt 3600) ;;
  daily_sleep_contribution <- py_mul i' h' ;;
  s <- py_add daily_load_contribution daily_sleep_contribution ;;
  q <- py_mul (self_discharge_rate self) (effective_battery_capacity self) ;;
  q' <- py_truediv q (VInt 365) ;;
  py_add s q'.

(** [battery_runtime] as first assigned, before the shelf-life test. *)
Definition unclamped_runtime (self : Battery) : result value :=
  total <- total_daily_consumption self ;;
  py_truediv (effective_battery_capacity self) total.

Definition calculate_runtime (self : Battery) : result value :=
  if py_eq (effective_battery_capacity self) (VInt 0) then Ok (VInt 0)
  else
    battery_runtime <- unclamped_runtime self ;;
    y <- py_truediv battery_runtime (VInt 365) ;;
    c <- py_ge y (max_shelf_life self) ;;
    battery_runtime <- (if c then py_mul (max_shelf_life self) (VInt 365)
                        else Ok battery_runtime) ;;
    py_round battery_runtime 2.

Definition update_current_discharge_mode (self : Battery) : result value :=
  c <- py_le (average_current_draw self) (low_current_discharge self) ;;
  if c then Ok (VStr "Low")
  else
    c' <- py_le (average_current_draw self) (medium_current_discharge self) ;;
    if c' then Ok (VStr "Medium") else Ok (VStr "High").

(** The expression assigned to [_average_current_draw]. *)
Definition average_current_draw_expr (self : Battery) : result value :=
  i <- load_current self ;;
  d <- load_duration_per_day self ;;
  a <- py_mul i d ;;
  a <- py_truediv a (VInt 86400) ;;
  i' <- sleep_current self ;;
  b <- py_mul i' (sleep_duration_per_day self) ;;
  b <- py_truediv b (VInt 86400) ;;
  s <- py_add a b ;;
  py_round s 3.

Definition update_battery_properties (xlsx : workbook) (self : Battery)
    : Battery * result value :=
  let body :=
    seq (fun self => (assign_limits (-40) 60 25 self, Ok tt))
    (seq (fun self =>
            match battery_type self with
            | Ok ty =>
                if py_eq ty (VStr "Alkaline")
                then (assign_limits (-18) 55 10 self, Ok tt)
                else (self, Ok tt)
            | Raise e => (self, Raise e)
            end)
    (seq (assign assign_sleep_duration_per_day
            (fun self => d <- load_duration_per_day self ;; py_sub (VInt 86400) d))
    (seq (assign assign_average_current_draw average_current_draw_expr)
    (seq (assign assign_current_discharge_mode update_current_discharge_mode)
    (seq (assign assign_temperature_factor (calculate_temperature_factor xlsx))
    (seq (assign assign_effective_battery_capacity
            (fun self =>
               c <- battery_capacity self ;;
               py_mul (temperature_factor self) c))
         (assign assign_battery_runtime calculate_runtime))))))) in
  match body self with
  | (self', Ok _) => (self', Ok (VInt 0))
  | (self', Raise e) => (self', Raise e)
  end.

End Generalized.

(** ** [lithium_battery_runtime_app.py] *)
Module Lithium.

(** The sheet "Temperature Factor" of this program's workbook, as read: rows
    in file order, each cell a [numpy.float64]. *)
Record row : Type := {
  temperature : float;  (* "Operating Temperature" *)
  factor : float        (* "Temperature Factor" *)
}.

Record Battery : Type := {
  _battery_capacity : option value;
  _operating_temp : option value;
  _load_current : option value;
  _load_duration_per_day : option value;
  _sleep_current : option value;
  _sleep_duration_per_day : value;
  _self_discharge_rate : float;
  _max_shelf_life : Z;
  _min_operating_temp : Z;
  _max_operating_temp : Z;
  _temperature_factor : value;
  _effective_battery_capacity : value;
  _battery_runtime : value
}.

Definition assign_battery_capacity (v : value) (self : Battery) : Battery :=
  {| _battery_capacity := Some v;
     _operating_temp := _operating_temp self;
     _load_current := _load_current self;
     _load_duration_per_day := _load_duration_per_day self;
     _sleep_current := _sleep_current self;
     _sleep_duration_per_day := _sleep_duration_per_day self;
     _self_discharge_rate := _self_discharge_rate self;
     _max_shelf_life := _max_shelf_life self;
     _min_operating_temp := _min_operating_temp self;
     _max_operating_temp := _max_operating_temp self;
     _temperature_factor := _temperature_factor self;
     _effective_battery_capacity := _effective_battery_capacity self;
     _battery_runtime := _battery_runtime self |}.

Definition assign_operating_temp (v : value) (self : Battery) : Battery :=
  {| _battery_capacity := _battery_capacity self;
     _operating_temp := Some v;
     _load_current := _load_current self;
     _load_duration_per_day := _load_duration_per_day self;
     _sleep_current := _sleep_current self;
     _sleep_duration_per_day := _sleep_duration_per_day self;
     _self_discharge_rate := _self_discharge_rate self;
     _max_shelf_life := _max_shelf_life self;
     _min_operating_temp := _min_operating_temp self;
     _max_operating_temp := _max_operating_temp self;
     _temperature_factor := _temperature_factor self;
     _effective_battery_capacity := _effective_battery_capacity self;
     _battery_runtime := _battery_runtime self |}.

Definition assign_load_current (v : value) (self : Battery) : Battery :=
  {| _battery_capacity := _battery_capacity self;
     _operating_temp := _operating_temp self;
     _load_current := Some v;
     _load_duration_per_day := _load_duration_per_day self;
     _sleep_current := _sleep_current self;
     _sleep_duration_per_day := _sleep_duration_per_day self;
     _self_discharge_rate := _self_discharge_rate self;
     _max_shelf_life := _max_shelf_life self;
     _min_operating_temp := _min_operating_temp self;
     _max_operating_temp := _max_operating_temp self;
     _temperature_factor := _temperature_factor self;
     _effective_battery_capacity := _effective_battery_capacity self;
     _battery_runtime := _battery_runtime self |}.

Definition assign_load_duration_per_day (v : value) (self : Battery) : Battery :=
  {| _battery_capacity := _battery_capacity self;
     _operating_temp := _operating_temp self;
     _load_current := _load_current self;
     _load_duration_per_day := Some v;
     _sleep_current := _sleep_current self;
     _sleep_duration_per_day := _sleep_duration_per_day self;
     _self_discharge_rate := _self_discharge_rate self;
     _max_shelf_life := _max_shelf_life self;
     _min_operating_temp := _min_operating_temp self;
     _max_operating_temp := _max_operating_temp self;
     _temperature_factor := _temperature_factor self;
     _effective_battery_capacity := _effective_battery_capacity self;
     _battery_runtime := _battery_runtime self |}.

Definition assign_sleep_current (v : value) (self : Battery) : Battery :=
  {| _battery_capacity := _battery_capacity self;
     _operating_temp := _operating_temp self;
     _load_current := _load_current self;
     _load_duration_per_day := _load_duration_per_day self;
     _sleep_current := Some v;
     _sleep_duration_per_day := _sleep_duration_per_day self;
     _self_discharge_rate := _self_discharge_rate self;
     _max_shelf_life := _max_shelf_life self;
     _min_operating_temp := _min_operating_temp self;
     _max_operating_temp := _max_operating_temp self;
     _temperature_factor := _temperature_factor self;
     _effective_battery_capacity := _effective_battery_capacity self;
     _battery_runtime := _battery_runtime self |}.

Definition assign_sleep_duration_per_day (v : value) (self : Battery) : Battery :=
  {| _battery_capacity := _battery_capacity self;
     _operating_temp := _operating_temp self;
     _load_current := _load_current self;
     _load_duration_per_day := _load_duration_per_day self;
     _sleep_current := _sleep_current self;
     _sleep_duration_per_day := v;
     _self_discharge_rate := _self_discharge_rate self;
     _max_shelf_life := _max_shelf_life self;
     _min_operating_temp := _min_operating_temp self;
     _max_operating_temp := _max_operating_temp self;
     _temperature_factor := _temperature_factor self;
     _effective_battery_capacity := _effective_battery_capacity self;
     _battery_runtime := _battery_runtime self |}.

Definition assign_temperature_factor (v : value) (self : Battery) : Battery :=
  {| _battery_capacity := _battery_capacity self;
     _operating_temp := _operating_temp self;
     _load_current := _load_current self;
     _load_duration_per_day := _load_duration_per_day self;
     _sleep_current := _sleep_current self;
     _sleep_duration_per_day := _sleep_duration_per_day self;
     _self_discharge_rate := _self_discharge_rate self;
     _max_shelf_life := _max_shelf_life self;
     _min_operating_temp := _min_operating_temp self;
     _max_operating_temp := _max_operating_temp self;
     _temperature_factor := v;
     _effective_battery_capacity := _effective_battery_capacity self;
     _battery_runtime := _battery_runtime self |}.

Definition assign_effective_battery_capacity (v : value) (self : Battery) : Battery :=
  {| _battery_capacity := _battery_capacity self;
     _operating_temp := _operating_temp self;
     _load_current := _load_current self;
     _load_duration_per_day := _load_duration_per_day self;
     _sleep_current := _sleep_current self;
     _sleep_duration_per_day := _sleep_duration_per_day self;
     _self_discharge_rate := _self_discharge_rate self;
     _max_shelf_life := _max_shelf_life self;
     _min_operating_temp := _min_operating_temp self;
     _max_operating_temp := _max_operating_temp self;
     _temperature_factor := _temperature_factor self;
     _effective_battery_capacity := v;
     _battery_runtime := _battery_runtime self |}.

Definition assign_battery_runtime (v : value) (self : Battery) : Battery :=
  {| _battery_capacity := _battery_capacity self;
     _operating_temp := _operating_temp self;
     _load_current := _load_current self;
     _load_duration_per_day := _load_duration_per_day self;
     _sleep_current := _sleep_current self;
     _sleep_duration_per_day := _sleep_duration_per_day self;
     _self_discharge_rate := _self_discharge_rate self;
     _max_shelf_life := _max_shelf_life self;
     _min_operating_temp := _min_operating_temp self;
     _max_operating_temp := _max_operating_temp self;
     _temperature_factor := _temperature_factor self;
     _effective_battery_capacity := _effective_battery_capacity self;
     _battery_runtime := v |}.

(** *** Properties *)

Definition battery_capacity (self : Battery) := getattr (_battery_capacity self).
Definition operating_temp (self : Battery) := getattr (_operating_temp self).
Definition load_current (self : Battery) := getattr (_load_current self).
Definition load_duration_per_day (self : Battery) :=
  getattr (_load_duration_per_day self).
Definition sleep_current (self : Battery) := getattr (_sleep_current self).

Definition sleep_duration_per_day (self : Battery) := _sleep_duration_per_day self.
Definition self_discharge_rate (self : Battery) := VFloat (_self_discharge_rate self).
Definition max_shelf_life (self : Battery) := VInt (_max_shelf_life self).
Definition min_operating_temp (self : Battery) := VInt (_min_operating_temp self).
Definition max_operating_temp (self : Battery) := VInt (_max_operating_temp self).
Definition temperature_factor (self : Battery) := _temperature_factor self.
Definition effective_battery_capacity (self : Battery) :=
  _effective_battery_capacity self.
Definition battery_runtime (self : Battery) := _battery_runtime self.

(** *** Setters *)

Definition set_battery_capacity (v : value) (self : Battery) : result Battery :=
  c <- (if isinstance_int v then py_gt v (VInt 0) else Ok false) ;;
  if c then Ok (assign_battery_capacity v self) else Ok self.

Definition set_operating_temp (v : value) (self : Battery) : result Battery :=
  if isinstance_int v || isinstance_float v
  then Ok (assign_operating_temp v self)
  else Ok self.

Definition set_load_current (v : value) (self : Battery) : result Battery :=
  c <- (if isinstance_int v || isinstance_float v
        then py_ge v (VInt 0) else Ok false) ;;
  if c then Ok (assign_load_current v self) else Ok self.

Definition set_load_duration_per_day (v : value) (self : Battery)
    : result Battery :=
  if isinstance_int v || isinstance_float v then
    c1 <- py_ge v (VInt 0) ;;
    c2 <- (if c1 then py_le v (VInt 86400) else Ok false) ;;
    if c2 then Ok (assign_load_duration_per_day v self) else Ok self
  else Ok self.

Definition set_sleep_current (v : value) (self : Battery) : result Battery :=
  c <- (if isinstance_int v || isinstance_float v
        then py_ge v (VInt 0) else Ok false) ;;
  if c then Ok (assign_sleep_current v self) else Ok self.

(** *** [__init__] *)

Definition blank : Battery :=
  {| _battery_capacity := None;
     _operating_temp := None;
     _load_current := None;
     _load_duration_per_day := None;
     _sleep_current := None;
     _sleep_duration_per_day := VNone;
     _self_discharge_rate := 0.01%float;
     _max_shelf_life := 25;
     _min_operating_temp := -40;
     _max_operating_temp := 60;
     _temperature_factor := VNone;
     _effective_battery_capacity := VNone;
     _battery_runtime := VNone |}.

Definition __init__ (battery_capacity operating_temp load_current
    load_duration_per_day sleep_current : value) : result Battery :=
  self <- set_battery_capacity battery_capacity blank ;;
  self <- set_operating_temp operating_temp self ;;
  self <- set_load_current load_current self ;;
  self <- set_load_duration_per_day load_duration_per_day self ;;
  set_sleep_current sleep_current self.

(** *** Methods *)

Definition battery_details (self : Battery) : result (list (string * value)) :=
  v1 <- battery_capacity self ;;
  v2 <- operating_temp self ;;
  v3 <- load_current self ;;
  v4 <- load_duration_per_day self ;;
  v5 <- sleep_current self ;;
  Ok [ ("Battery Capacity (mAh)", v1);
       ("Operating Temperature (°C)", v2);
       ("Load Current (mA)", v3);
       ("Load Duration Per Day (s)", v4);
       ("Sleep Current (mA)", v5);
       ("Sleep Duration Per Day (s)", sleep_duration_per_day self);
       ("Annual Self-discharge Rate", self_discharge_rate self);
       ("Max Shelf Life (Years)", max_shelf_life self);
       ("Min Operating Temperature (°C)", min_operating_temp self);
       ("Max Operating Temperature (°C)", max_operating_temp self);
       ("Temperature Factor", temperature_factor self);
       ("Effective Battery Capacity (mAh)", effective_battery_capacity self);
       ("Battery Runtime (Days)", battery_runtime self) ].

Fixpoint interpolate (t : value) (df : list row) : result value :=
  match df with
  | r :: ((r' :: _) as rest) =>
      c1 <- py_lt t (VNp (temperature r)) ;;
      c2 <- (if c1 then py_ge t (VNp (temperature r')) else Ok false) ;;
      if c2 then
        let x1 := VNp (temperature r') in
        let y1 := VNp (factor r') in
        let x2 := VNp (temperature r) in
        let y2 := VNp (factor r) in
        dy <- py_sub y2 y1 ;;
        dx <- py_sub x2 x1 ;;
        slope <- py_truediv dy dx ;;
        dt <- py_sub t x1 ;;
        p <- py_mul slope dt ;;
        py_add y1 p
      else interpolate t rest
  | _ => Ok VNone
  end.

Definition calculate_temperature_factor (sheet : list row) (self : Battery)
    : result value :=
  t <- operating_temp self ;;
  below <- py_lt t (min_operating_temp self) ;;
  outside <- (if below then Ok true else py_gt t (max_operating_temp self)) ;;
  if outside then Ok (VFloat 0)
  else
    flat <- py_ge t (VInt (-10)) ;;
    if flat then Ok (VFloat 1)
    else interpolate t sheet.

Definition total_daily_consumption (self : Battery) : result value :=
  i <- load_current self ;;
  d <- load_duration_per_day self ;;
  h <- py_truediv d (VInt 3600) ;;
  daily_load_contribution <- py_mul i h ;;
  i' <- sleep_current self ;;
  h' <- py_truediv (sleep_duration_per_day self) (VInt 3600) ;;
  daily_sleep_contribution <- py_mul i' h' ;;
  s <- py_add daily_load_contribution daily_sleep_contribution ;;
  q <- py_mul (self_discharge_rate self) (effective_battery_capacity self) ;;
  q' <- py_truediv q (VInt 365) ;;
  py_add s q'.

Definition unclamped_runtime (self : Battery) : result value :=
  total <- total_daily_consumption self ;;
  py_truediv (effective_battery_capacity self) total.

Definition calculate_runtime (self : Battery) : result value :=
  battery_runtime <- unclamped_runtime self ;;
  y <- py_truediv battery_runtime (VInt 365) ;;
  c <- py_ge y (max_shelf_life self) ;;
  if c then py_mul (max_shelf_life self) (VInt 365)
  else Ok battery_runtime.

Definition update_battery_properties (sheet : list row) (self : Battery)
    : Battery * result value :=
  let body :=
    seq (assign assign_sleep_duration_per_day
           (fun self => d <- load_duration_per_day self ;; py_sub (VInt 86400) d))
    (seq (assign assign_temperature_factor (calculate_temperature_factor sheet))
    (seq (assign assign_effective_battery_capacity
            (fun self =>
               c <- battery_capacity self ;;
               py_mul (temperature_factor self) c))
         (assign assign_battery_runtime calculate_runtime))) in
  match body self with
  | (self', Ok _) => (self', Ok (VInt 0))
  | (self', Raise e) => (self', Raise e)
  end.

End Lithium.

(** ** The constraints of the settable parameters (spec section 4.1)

    The constraint each settable parameter enforces, in the words of the
    specification.  [v >= 0] and [v <= 86400] are the orders of Python, which
    compares an [int] and a [float] by their exact values. *)
Definition ge_value (a b : value) : Prop := py_ge a b = Ok true.
Definition gt_value (a b : value) : Prop := py_gt a b = Ok true.
Definition le_value (a b : value) : Prop := py_le a b = Ok true.

Definition numeric (v : value) : Prop := is_numeric v = true.
Definition integer (v : value) : Prop := isinstance_int v = true.

Definition chemistry_ok (v : value) : Prop :=
  v = VStr "Lithium Metal" \/ v = VStr "Alkaline".
Definition capacity_ok (v : value) : Prop := integer v /\ ge_value v (VInt 0).
Definition capacity_ok_lithium (v : value) : Prop :=
  integer v /\ gt_value v (VInt 0).
Definition temperature_ok (v : value) : Prop := numeric v.
Definition current_ok (v : value) : Prop := numeric v /\ ge_value v (VInt 0).
Definition duration_ok (v : value) : Prop :=
  numeric v /\ ge_value v (VInt 0) /\ le_value v (VInt 86400).

(** * Binary64 arithmetic

    The primitive operations are specified by the standard library as
    [SpecFloat]'s functions on significands and exponents.  This part relates
    those functions to the real numbers they round. *)

Lemma digits2_pos_log2 (p : positive) :
  Z.pos (digits2_pos p) = Z.log2 (Z.pos p) + 1.
Proof.
  induction p as [p IH|p IH|]; simpl digits2_pos.
  - rewrite Pos2Z.inj_succ, IH. rewrite Pos2Z.inj_xI.
    rewrite Z.log2_succ_double by lia. lia.
  - rewrite Pos2Z.inj_succ, IH. rewrite Pos2Z.inj_xO.
    rewrite Z.log2_double by lia. lia.
  - reflexivity.
Qed.

Lemma digits2_pos_bounds (p : positive) :
  2 ^ (Z.pos (digits2_pos p) - 1) <= Z.pos p < 2 ^ Z.pos (digits2_pos p).
Proof.
  rewrite digits2_pos_log2.
  replace (Z.log2 (Z.pos p) + 1 - 1) with (Z.log2 (Z.pos p)) by lia.
  replace (Z.log2 (Z.pos p) + 1) with (Z.succ (Z.log2 (Z.pos p))) by lia.
  apply Z.log2_spec. lia.
Qed.

(** [iter_pos f p] applies [f] [p] times. *)
Lemma iter_pos_nat {A : Type} (f : A -> A) (p : positive) (x : A) :
  SpecFloat.iter_pos f p x = Nat.iter (Pos.to_nat p) f x.
Proof.
  revert x. induction p as [p IH|p IH|]; intros x; simpl SpecFloat.iter_pos.
  - rewrite !IH. rewrite Pos2Nat.inj_xI.
    replace (S (2 * Pos.to_nat p))%nat with (Pos.to_nat p + (Pos.to_nat p + 1))%nat by lia.
    rewrite !Nat.iter_add. simpl. reflexivity.
  - rewrite !IH. rewrite Pos2Nat.inj_xO.
    replace (2 * Pos.to_nat p)%nat with (Pos.to_nat p + Pos.to_nat p)%nat by lia.
    rewrite Nat.iter_add. reflexivity.
  - reflexivity.
Qed.

Lemma shr_1_nonneg (m : Z) (r s : bool) :
  0 <= m ->
  shr_1 {| shr_m := m; shr_r := r; shr_s := s |} =
  {| shr_m := m / 2; shr_r := Z.odd m; shr_s := r || s |}.
Proof.
  intros Hm. destruct m as [|p|p]; try lia.
  - reflexivity.
  - destruct p as [p|p|]; simpl shr_1.
    + replace (Z.pos p~1 / 2) with (Z.pos p); [reflexivity|].
      rewrite Pos2Z.inj_xI. apply Z.div_unique with 1; lia.
    + replace (Z.pos p~0 / 2) with (Z.pos p); [reflexivity|].
      rewrite Pos2Z.inj_xO. apply Z.div_unique with 0; lia.
    + reflexivity.
Qed.

(** A shift record locates a real number [u]: [shr_m] is its integer part and
    the round and sticky bits say where its fractional part lies with respect
    to one half. *)
Definition locates (mrs : shr_record) (u : R) : Prop :=
  let m := IZR (shr_m mrs) in
  match shr_r mrs, shr_s mrs with
  | false, false => u = m
  | false, true => (m < u < m + /2)%R
  | true, false => u = (m + /2)%R
  | true, true => (m + /2 < u < m + 1)%R
  end.

Lemma locates_shr_1 (mrs : shr_record) (u : R) :
  0 <= shr_m mrs -> locates mrs u -> locates (shr_1 mrs) (u / 2)%R.
Proof.
  destruct mrs as [m r s]. intros Hm H. cbn [shr_m] in Hm.
  rewrite shr_1_nonneg by assumption.
  unfold locates in *; simpl in *.
  pose proof (Z.div_mod m 2 ltac:(lia)) as Hdm.
  pose proof (Zmod_odd m) as Hodd.
  assert (Hm2 : IZR m = (2 * IZR (m / 2) + IZR (m mod 2))%R).
  { rewrite Hdm at 1. rewrite plus_IZR, mult_IZR. reflexivity. }
  rewrite Hodd in Hm2.
  destruct (Z.odd m); destruct r, s; simpl; lra.
Qed.

(** Powers of two with an integer exponent. *)
Definition pow2 (e : Z) : R := powerRZ 2 e.

Lemma pow2_add (a b : Z) : pow2 (a + b) = (pow2 a * pow2 b)%R.
Proof. unfold pow2. apply powerRZ_add. lra. Qed.

Lemma pow2_pos (e : Z) : (0 < pow2 e)%R.
Proof. unfold pow2. apply powerRZ_lt. lra. Qed.

Lemma pow2_0 : pow2 0 = 1%R.
Proof. reflexivity. Qed.

Lemma pow2_1 : pow2 1 = 2%R.
Proof. unfold pow2. simpl. lra. Qed.

Lemma pow2_opp (e : Z) : pow2 (- e) = (/ pow2 e)%R.
Proof. unfold pow2. apply powerRZ_neg'. Qed.

Lemma pow2_IZR (z : Z) : 0 <= z -> pow2 z = IZR (2 ^ z).
Proof.
  intros Hz. destruct z as [|p|p]; try lia.
  - reflexivity.
  - unfold pow2. change (2 ^ Z.pos p) with (Z.pow_pos 2 p).
    now rewrite Zpower_pos_powerRZ.
Qed.

Lemma pow2_ge_1 (z : Z) : 0 <= z -> (1 <= pow2 z)%R.
Proof.
  intros Hz. rewrite pow2_IZR by assumption.
  apply IZR_le. pose proof (Z.pow_pos_nonneg 2 z). lia.
Qed.

Lemma pow2_le (a b : Z) : a <= b -> (pow2 a <= pow2 b)%R.
Proof.
  intros H. replace b with (a + (b - a)) by lia. rewrite pow2_add.
  pose proof (pow2_pos a). pose proof (pow2_ge_1 (b - a) ltac:(lia)). nra.
Qed.

Lemma pow2_lt (a b : Z) : a < b -> (pow2 a < pow2 b)%R.
Proof.
  intros H. replace b with (a + 1 + (b - a - 1)) by lia. rewrite !pow2_add, pow2_1.
  pose proof (pow2_pos a). pose proof (pow2_ge_1 (b - a - 1) ltac:(lia)). nra.
Qed.

Lemma pow2_succ (a : Z) : pow2 (a + 1) = (2 * pow2 a)%R.
Proof. rewrite pow2_add, pow2_1. lra. Qed.

Lemma pow2_pred (a : Z) : pow2 (a - 1) = (pow2 a / 2)%R.
Proof.
  replace a with (a - 1 + 1) at 2 by lia. rewrite pow2_succ. lra.
Qed.

Lemma shr_1_m_nonneg (mrs : shr_record) : 0 <= shr_m mrs -> 0 <= shr_m (shr_1 mrs).
Proof.
  destruct mrs as [m r s]. cbn [shr_m]. intros H.
  rewrite shr_1_nonneg by assumption. cbn [shr_m]. apply Z.div_pos; lia.
Qed.

Lemma locates_iter (n : nat) (mrs : shr_record) (u : R) :
  0 <= shr_m mrs -> locates mrs u ->
  0 <= shr_m (Nat.iter n shr_1 mrs) /\
  locates (Nat.iter n shr_1 mrs) (u / pow2 (Z.of_nat n))%R.
Proof.
  intros Hm Hl. induction n as [|n [IH1 IH2]].
  - cbn [Nat.iter Z.of_nat]. split; [assumption|]. rewrite pow2_0.
    now replace (u / 1)%R with u by lra.
  - cbn [Nat.iter]. split; [now apply shr_1_m_nonneg|].
    rewrite Nat2Z.inj_succ. unfold Z.succ. rewrite pow2_succ.
    replace (u / (2 * pow2 (Z.of_nat n)))%R with (u / pow2 (Z.of_nat n) / 2)%R.
    + now apply locates_shr_1.
    + pose proof (pow2_pos (Z.of_nat n)). field. lra.
Qed.

Lemma locates_shr (mrs : shr_record) (e n : Z) (u : R) :
  0 <= shr_m mrs -> locates mrs u ->
  let e' := e + Z.max 0 n in
  snd (shr mrs e n) = e' /\
  0 <= shr_m (fst (shr mrs e n)) /\
  locates (fst (shr mrs e n)) (u / pow2 (Z.max 0 n))%R.
Proof.
  intros Hm Hl. destruct n as [|p|p]; cbn [shr fst snd Z.max Z.compare].
  - rewrite Z.add_0_r, pow2_0. replace (u / 1)%R with u by lra. auto.
  - rewrite iter_pos_nat.
    destruct (locates_iter (Pos.to_nat p) mrs u Hm Hl) as [H1 H2].
    rewrite positive_nat_Z in H2. auto.
  - rewrite Z.add_0_r, pow2_0. replace (u / 1)%R with u by lra. auto.
Qed.

(** Rounding to the nearest integer, ties to even. *)
Definition is_RNE (u : R) (k : Z) : Prop :=
  (IZR k - /2 <= u <= IZR k + /2)%R /\
  (u = (IZR k - /2)%R \/ u = (IZR k + /2)%R -> Z.even k = true).

Lemma even_succ_odd (m : Z) : Z.even m = false -> Z.even (m + 1) = true.
Proof.
  intros H. rewrite Z.even_add, H. reflexivity.
Qed.

Lemma rne_locates (mrs : shr_record) (u : R) :
  locates mrs u ->
  is_RNE u (round_nearest_even (shr_m mrs) (loc_of_shr_record mrs)).
Proof.
  destruct mrs as [m [|] [|]]; unfold locates, is_RNE; cbn; intros H.
  - rewrite plus_IZR. split; [lra|]. intros [E|E]; lra.
  - destruct (Z.even m) eqn:Ev.
    + split; [lra|]. auto.
    + rewrite plus_IZR. split; [lra|]. intros _. now apply even_succ_odd.
  - split; [lra|]. intros [E|E]; lra.
  - split; [lra|]. intros [E|E]; lra.
Qed.

Lemma is_RNE_mono (u u' : R) (k k' : Z) :
  (u <= u')%R -> is_RNE u k -> is_RNE u' k' -> k <= k'.
Proof.
  intros Hu [[H1 H2] H3] [[H1' H2'] H3'].
  destruct (Z_le_gt_dec k k') as [|Hgt]; [assumption|exfalso].
  assert (Hk : (IZR k' + 1 <= IZR k)%R).
  { rewrite <- plus_IZR. apply IZR_le. lia. }
  assert (E1 : u = (IZR k - /2)%R) by lra.
  assert (E2 : u' = (IZR k' + /2)%R) by lra.
  assert (E3 : IZR k = (IZR k' + 1)%R) by lra.
  rewrite <- plus_IZR in E3. apply eq_IZR in E3.
  specialize (H3 (or_introl E1)). specialize (H3' (or_intror E2)).
  subst k. rewrite Z.even_add, H3' in H3. discriminate.
Qed.

Lemma is_RNE_unique (u : R) (k k' : Z) : is_RNE u k -> is_RNE u k' -> k = k'.
Proof.
  intros H H'.
  pose proof (is_RNE_mono u u k k' (Rle_refl u) H H').
  pose proof (is_RNE_mono u u k' k (Rle_refl u) H' H). lia.
Qed.

Lemma is_RNE_exact (k : Z) : is_RNE (IZR k) k.
Proof. split; [lra|]. intros [E|E]; lra. Qed.

(** ** Rounding to binary64 *)

Abbreviation emin64 := (-1074)%Z.

Lemma fexp_eq (e : Z) : fexp prec emax e = Z.max (e - 53) emin64.
Proof. reflexivity. Qed.

(** [E] is the exponent of the binary64 numbers around the real [v >= 0]. *)
Definition cexp (v : R) (E : Z) : Prop :=
  emin64 <= E /\ (v < pow2 (E + 53))%R /\ (E = emin64 \/ (pow2 (E + 52) <= v)%R).

(** The binary64 number of sign [sx] with integer significand [0 <= k <= 2^53]
    at exponent [E]: the carry into the next binade is renormalized, and an
    exponent out of range is an infinity. *)
Definition pack (sx : bool) (k E : Z) : spec_float :=
  match k with
  | Z0 => S754_zero sx
  | Zpos p =>
      if k =? 2 ^ 53 then
        if E + 1 <=? 971 then S754_finite sx (2 ^ 52)%positive (E + 1)
        else S754_infinity sx
      else if E <=? 971 then S754_finite sx p E else S754_infinity sx
  | Zneg _ => S754_nan
  end.

(** [f] is the real [v >= 0] rounded to the nearest binary64 number (ties to
    even), with sign [sx]. *)
Definition Rounds (v : R) (sx : bool) (f : spec_float) : Prop :=
  exists E k, cexp v E /\ is_RNE (v / pow2 E) k /\ f = pack sx k E.

Lemma cexp_unique (v : R) (E E' : Z) : cexp v E -> cexp v E' -> E = E'.
Proof.
  intros (H1 & H2 & H3) (H1' & H2' & H3').
  destruct (Z.lt_trichotomy E E') as [Hlt|[Heq|Hgt]]; [exfalso|assumption|exfalso].
  - destruct H3' as [H3'|H3']; [lia|].
    pose proof (pow2_le (E + 53) (E' + 52) ltac:(lia)). lra.
  - destruct H3 as [H3|H3]; [lia|].
    pose proof (pow2_le (E' + 53) (E + 52) ltac:(lia)). lra.
Qed.

Lemma Rounds_unique (v : R) (sx : bool) (f g : spec_float) :
  Rounds v sx f -> Rounds v sx g -> f = g.
Proof.
  intros (E & k & HE & Hk & ->) (E' & k' & HE' & Hk' & ->).
  pose proof (cexp_unique _ _ _ HE HE'). subst E'.
  pose proof (is_RNE_unique _ _ _ Hk Hk'). now subst k'.
Qed.

Lemma shr_record_of_loc_m (m : Z) (l : location) : shr_m (shr_record_of_loc m l) = m.
Proof. destruct l as [|[]]; reflexivity. Qed.

Lemma is_RNE_nonneg (u : R) (k : Z) : (0 <= u)%R -> is_RNE u k -> 0 <= k.
Proof.
  intros Hu [[H1 H2] H3].
  destruct (Z_le_gt_dec 0 k) as [|Hgt]; [assumption|exfalso].
  assert (IZR k <= -1)%R by (apply IZR_le; lia). lra.
Qed.

Lemma is_RNE_upper (u : R) (k b : Z) : (u < IZR b)%R -> is_RNE u k -> k <= b.
Proof.
  intros Hu [[H1 H2] H3].
  destruct (Z_le_gt_dec k b) as [|Hgt]; [assumption|exfalso].
  assert (IZR b + 1 <= IZR k)%R by (rewrite <- plus_IZR; apply IZR_le; lia). lra.
Qed.

Lemma is_RNE_lower (u : R) (k b : Z) : (IZR b <= u)%R -> is_RNE u k -> b <= k.
Proof.
  intros Hu [[H1 H2] H3].
  destruct (Z_le_gt_dec b k) as [|Hgt]; [assumption|exfalso].
  assert (IZR k + 1 <= IZR b)%R by (rewrite <- plus_IZR; apply IZR_le; lia). lra.
Qed.

Lemma Zdigits2_le_53 (k : Z) : 0 < k < 2 ^ 53 -> Zdigits2 k <= 53.
Proof.
  intros [H1 H2]. destruct k as [|p|p]; try lia. cbn [Zdigits2].
  pose proof (digits2_pos_bounds p) as [Hb _].
  destruct (Z_le_gt_dec (Z.pos (digits2_pos p)) 53) as [|Hgt]; [assumption|exfalso].
  assert (2 ^ 53 <= 2 ^ (Z.pos (digits2_pos p) - 1)) by (apply Z.pow_le_mono_r; lia).
  lia.
Qed.

(** The second normalisation step of [binary_round_aux]. *)
Lemma renormalize (sx : bool) (k E : Z) :
  emin64 <= E -> 0 <= k <= 2 ^ 53 ->
  (let '(mrs, e) := shr_fexp prec emax k E loc_Exact in
   match shr_m mrs with
   | Z0 => S754_zero sx
   | Zpos m => if e <=? emax - prec then S754_finite sx m e else S754_infinity sx
   | Zneg _ => S754_nan
   end) = pack sx k E.
Proof.
  intros HE Hk. unfold shr_fexp. rewrite fexp_eq.
  destruct (Z.eq_dec k (2 ^ 53)) as [->|Hne].
  - change (Zdigits2 (2 ^ 53)) with 54.
    replace (Z.max (54 + E - 53) emin64 - E) with 1 by lia.
    cbn. reflexivity.
  - destruct k as [|p|p]; try lia.
    + cbn [Zdigits2]. replace (Z.max (0 + E - 53) emin64 - E) with
        (Z.min 0 (Z.max (- 53) (emin64 - E))) by lia.
      destruct (Z.max (-53) (emin64 - E)) eqn:Em; try lia; reflexivity.
    + pose proof (Zdigits2_le_53 (Z.pos p) ltac:(lia)) as Hd.
      assert (Hn : Z.max (Zdigits2 (Z.pos p) + E - 53) emin64 - E <= 0) by lia.
      unfold pack. destruct (Z.eqb_spec (Z.pos p) (2 ^ 53)) as [|_]; [contradiction|].
      destruct (Z.max (Zdigits2 (Z.pos p) + E - 53) emin64 - E) eqn:En; try lia;
        reflexivity.
Qed.

Theorem binary_round_aux_spec (sx : bool) (m e : Z) (l : location) (v : R) :
  0 <= m -> (0 <= v)%R ->
  locates (shr_record_of_loc m l) (v / pow2 e)%R ->
  e <= fexp prec emax (Zdigits2 m + e) ->
  cexp v (fexp prec emax (Zdigits2 m + e)) ->
  Rounds v sx (binary_round_aux prec emax sx m e l).
Proof.
  intros Hm Hv Hloc Hn Hc.
  set (E := fexp prec emax (Zdigits2 m + e)) in *.
  unfold binary_round_aux, shr_fexp. fold E.
  pose proof (locates_shr (shr_record_of_loc m l) e (E - e) (v / pow2 e)%R) as Hs.
  rewrite shr_record_of_loc_m in Hs. specialize (Hs Hm Hloc).
  cbv zeta in Hs. destruct Hs as (Hs1 & Hs2 & Hs3).
  destruct (shr (shr_record_of_loc m l) e (E - e)) as [mrs' e'] eqn:Eshr.
  cbn [fst snd] in *.
  replace (e + Z.max 0 (E - e)) with E in Hs1 by lia. subst e'.
  replace (v / pow2 e / pow2 (Z.max 0 (E - e)))%R with (v / pow2 E)%R in Hs3.
  2:{ replace E with (e + Z.max 0 (E - e)) at 1 by lia. rewrite pow2_add.
      pose proof (pow2_pos e). pose proof (pow2_pos (Z.max 0 (E - e))).
      field. lra. }
  apply rne_locates in Hs3.
  set (k := round_nearest_even (shr_m mrs') (loc_of_shr_record mrs')) in *.
  destruct Hc as (Hc1 & Hc2 & Hc3).
  assert (Hu0 : (0 <= v / pow2 E)%R).
  { pose proof (pow2_pos E). apply Rmult_le_pos; [assumption|].
    left. now apply Rinv_0_lt_compat. }
  assert (Hu1 : (v / pow2 E < IZR (2 ^ 53))%R).
  { rewrite <- pow2_IZR by lia. rewrite pow2_add in Hc2.
    pose proof (pow2_pos E). apply Rmult_lt_reg_r with (pow2 E); [assumption|].
    unfold Rdiv. rewrite Rmult_assoc, Rinv_l by lra. lra. }
  pose proof (is_RNE_nonneg _ _ Hu0 Hs3) as Hk0.
  pose proof (is_RNE_upper _ _ _ Hu1 Hs3) as Hk1.
  exists E, k. split; [now repeat split|]. split; [assumption|].
  apply (renormalize sx k E); lia.
Qed.

Lemma locates_bounds (m : Z) (l : location) (u : R) :
  locates (shr_record_of_loc m l) u -> (IZR m <= u < IZR m + 1)%R.
Proof. destruct l as [|[]]; unfold locates; cbn; lra. Qed.

Lemma Zdigits2_bounds (m : Z) :
  0 < m -> 2 ^ (Zdigits2 m - 1) <= m < 2 ^ Zdigits2 m.
Proof. destruct m as [|p|p]; try lia. intros _. apply digits2_pos_bounds. Qed.

Lemma Zdigits2_pos (m : Z) : 0 < m -> 0 < Zdigits2 m.
Proof. destruct m; simpl; lia. Qed.

Lemma Zdigits2_unique (m d : Z) : 2 ^ (d - 1) <= m < 2 ^ d -> 0 < d -> Zdigits2 m = d.
Proof.
  intros [H1 H2] Hd.
  assert (Hm : 0 < m) by (pose proof (Z.pow_pos_nonneg 2 (d - 1)); lia).
  pose proof (Zdigits2_bounds m Hm) as [H3 H4].
  pose proof (Zdigits2_pos m Hm).
  destruct (Z.lt_trichotomy (Zdigits2 m) d) as [Hlt|[Heq|Hgt]]; [exfalso|assumption|exfalso].
  - assert (2 ^ Zdigits2 m <= 2 ^ (d - 1)) by (apply Z.pow_le_mono_r; lia). lia.
  - assert (2 ^ d <= 2 ^ (Zdigits2 m - 1)) by (apply Z.pow_le_mono_r; lia). lia.
Qed.

Lemma Zdigits2_ge (m a : Z) : 0 <= a -> 2 ^ a <= m -> a + 1 <= Zdigits2 m.
Proof.
  intros Ha H.
  assert (Hm : 0 < m) by (pose proof (Z.pow_pos_nonneg 2 a); lia).
  pose proof (Zdigits2_bounds m Hm) as [H3 H4].
  destruct (Z_le_gt_dec (a + 1) (Zdigits2 m)) as [|Hgt]; [assumption|exfalso].
  pose proof (Zdigits2_pos m Hm).
  assert (2 ^ Zdigits2 m <= 2 ^ a) by (apply Z.pow_le_mono_r; lia). lia.
Qed.

Lemma cexp_located (m e : Z) (l : location) (v : R) :
  0 < m -> locates (shr_record_of_loc m l) (v / pow2 e)%R ->
  cexp v (fexp prec emax (Zdigits2 m + e)).
Proof.
  intros Hm Hl. apply locates_bounds in Hl.
  pose proof (Zdigits2_bounds m Hm) as [Hd1 Hd2].
  pose proof (Zdigits2_pos m Hm) as Hd0.
  set (d := Zdigits2 m) in *.
  pose proof (pow2_pos e) as He.
  assert (Hv1 : (IZR m * pow2 e <= v)%R).
  { apply Rmult_le_reg_r with (/ pow2 e)%R; [now apply Rinv_0_lt_compat|].
    rewrite Rmult_assoc, Rinv_r by lra. unfold Rdiv in Hl. lra. }
  assert (Hv2 : (v < (IZR m + 1) * pow2 e)%R).
  { apply Rmult_lt_reg_r with (/ pow2 e)%R; [now apply Rinv_0_lt_compat|].
    rewrite Rmult_assoc, Rinv_r by lra. unfold Rdiv in Hl. lra. }
  assert (Hm1 : (pow2 (d - 1) <= IZR m)%R).
  { rewrite pow2_IZR by lia. now apply IZR_le. }
  assert (Hm2 : (IZR m + 1 <= pow2 d)%R).
  { rewrite pow2_IZR by lia. rewrite <- plus_IZR. apply IZR_le. lia. }
  assert (Hlo : (pow2 (d - 1 + e) <= v)%R) by (rewrite pow2_add; nra).
  assert (Hhi : (v < pow2 (d + e))%R) by (rewrite pow2_add; nra).
  rewrite fexp_eq. unfold cexp. split; [lia|]. split.
  - pose proof (pow2_le (d + e) (Z.max (d + e - 53) emin64 + 53) ltac:(lia)). lra.
  - destruct (Z_le_gt_dec (d + e - 53) emin64) as [Hle|Hgt].
    + left. lia.
    + right. replace (Z.max (d + e - 53) emin64 + 52) with (d - 1 + e) by lia.
      assumption.
Qed.

Lemma locates_exact (m : Z) : locates (shr_record_of_loc m loc_Exact) (IZR m).
Proof. reflexivity. Qed.

(** Rounding an integer significand known exactly. *)
Lemma binary_round_aux_exact (sx : bool) (m e : Z) :
  0 < m -> e <= fexp prec emax (Zdigits2 m + e) ->
  Rounds (IZR m * pow2 e) sx (binary_round_aux prec emax sx m e loc_Exact).
Proof.
  intros Hm Hn. pose proof (pow2_pos e) as He.
  assert (Hloc : locates (shr_record_of_loc m loc_Exact) (IZR m * pow2 e / pow2 e)%R).
  { replace (IZR m * pow2 e / pow2 e)%R with (IZR m) by (field; lra).
    apply locates_exact. }
  apply binary_round_aux_spec; try assumption; try lia.
  - assert (0 < IZR m)%R by (apply IZR_lt; lia). nra.
  - now apply cexp_located with loc_Exact.
Qed.

Lemma iter_xO (d p : positive) : Z.pos (Pos.iter xO p d) = Z.pos p * 2 ^ Z.pos d.
Proof.
  change (Pos.iter xO p d) with (shift_pos d p).
  rewrite shift_pos_correct. change (Zpower_pos 2 d) with (2 ^ Z.pos d). lia.
Qed.

Lemma shl_align_spec (mx : positive) (ex ex' : Z) :
  snd (shl_align mx ex ex') = Z.min ex ex' /\
  Z.pos (fst (shl_align mx ex ex')) = Z.pos mx * 2 ^ (ex - Z.min ex ex').
Proof.
  unfold shl_align. destruct (ex' - ex) as [|d|d] eqn:Ed; cbn [fst snd].
  - split; [lia|]. replace (ex - Z.min ex ex') with 0 by lia. lia.
  - split; [lia|]. replace (ex - Z.min ex ex') with 0 by lia. lia.
  - split; [lia|]. rewrite iter_xO. f_equal. f_equal. lia.
Qed.

Lemma Zdigits2_shift (m k : Z) : 0 < m -> 0 <= k -> Zdigits2 (m * 2 ^ k) = Zdigits2 m + k.
Proof.
  intros Hm Hk. pose proof (Zdigits2_bounds m Hm) as [H1 H2].
  pose proof (Zdigits2_pos m Hm).
  apply Zdigits2_unique; [|lia].
  replace (Zdigits2 m + k - 1) with (Zdigits2 m - 1 + k) by lia.
  rewrite !Z.pow_add_r by lia.
  pose proof (Z.pow_pos_nonneg 2 k ltac:(lia) Hk). nia.
Qed.

Lemma IZR_pow2_mul (m k e : Z) :
  0 <= k -> (IZR (m * 2 ^ k) * pow2 (e - k) = IZR m * pow2 e)%R.
Proof.
  intros Hk. rewrite mult_IZR, <- pow2_IZR by assumption.
  replace e with (k + (e - k)) at 2 by lia. rewrite pow2_add. ring.
Qed.

Theorem binary_round_spec (sx : bool) (p : positive) (e : Z) :
  Rounds (IZR (Z.pos p) * pow2 e) sx (binary_round prec emax sx p e).
Proof.
  unfold binary_round.
  set (E0 := fexp prec emax (Z.pos (digits2_pos p) + e)).
  pose proof (shl_align_spec p e E0) as [H1 H2].
  destruct (shl_align p e E0) as [m' e'] eqn:Es. cbn [fst snd] in *.
  assert (Hk : 0 <= e - e') by lia.
  replace (IZR (Z.pos p) * pow2 e)%R with (IZR (Z.pos m') * pow2 e')%R.
  2:{ rewrite H2, <- H1. replace e' with (e - (e - e')) at 2 by lia.
      now apply IZR_pow2_mul. }
  apply binary_round_aux_exact; [lia|].
  rewrite H2, <- H1, Zdigits2_shift by lia.
  change (Zdigits2 (Z.pos p)) with (Z.pos (digits2_pos p)).
  replace (Z.pos (digits2_pos p) + (e - e') + e') with (Z.pos (digits2_pos p) + e) by lia.
  fold E0. lia.
Qed.

(** The value of a binary64 number. *)
Definition F2R (s : bool) (m : positive) (e : Z) : R :=
  ((if s then -1 else 1) * IZR (Z.pos m) * pow2 e)%R.

Definition B2R (f : spec_float) : R :=
  match f with
  | S754_finite s m e => F2R s m e
  | _ => 0%R
  end.

Definition signed (s : bool) (v : R) : R := if s then (- v)%R else v.

(** [binary_normalize m e] rounds [m * 2^e]. *)
Theorem binary_normalize_spec (m e : Z) (szero : bool) :
  match m with
  | Z0 => binary_normalize prec emax m e szero = S754_zero szero
  | _ => Rounds (IZR (Z.abs m) * pow2 e) (m <? 0) (binary_normalize prec emax m e szero)
  end.
Proof.
  destruct m as [|p|p]; [reflexivity| |]; apply binary_round_spec.
Qed.

Lemma aligned_value (s : bool) (m : positive) (e ez : Z) :
  ez <= e ->
  (IZR (cond_Zopp s (Z.pos (fst (shl_align m e ez)))) * pow2 ez)%R = F2R s m e.
Proof.
  intros H. pose proof (shl_align_spec m e ez) as [_ H2]. rewrite H2.
  replace (Z.min e ez) with ez by lia.
  unfold F2R. destruct s; cbn [cond_Zopp].
  - rewrite opp_IZR.
    pose proof (IZR_pow2_mul (Z.pos m) (e - ez) e ltac:(lia)) as Hm.
    replace (e - (e - ez)) with ez in Hm by lia. lra.
  - pose proof (IZR_pow2_mul (Z.pos m) (e - ez) e ltac:(lia)) as Hm.
    replace (e - (e - ez)) with ez in Hm by lia. lra.
Qed.

(** The result of rounding the integer [n] scaled by [2^e], sign included. *)
Definition rounds_signed (v : R) (f : spec_float) : Prop :=
  (v = 0%R -> f = S754_zero false) /\
  (0 < v -> Rounds v false f)%R /\
  (v < 0 -> Rounds (- v) true f)%R.

Lemma binary_normalize_signed (n e : Z) :
  rounds_signed (IZR n * pow2 e) (binary_normalize prec emax n e false).
Proof.
  pose proof (pow2_pos e) as He.
  pose proof (binary_normalize_spec n e false) as H.
  destruct n as [|p|p]; unfold rounds_signed.
  - rewrite H. repeat split; intros; try reflexivity; lra.
  - assert (0 < IZR (Z.pos p))%R by (apply IZR_lt; lia).
    repeat split; intros; try nra. exact H.
  - assert (IZR (Z.neg p) < 0)%R by (apply IZR_lt; lia).
    repeat split; intros; try nra.
    replace (- (IZR (Z.neg p) * pow2 e))%R with (IZR (Z.abs (Z.neg p)) * pow2 e)%R.
    + exact H.
    + change (Z.abs (Z.neg p)) with (- Z.neg p). rewrite opp_IZR. ring.
Qed.

Theorem SFadd_finite (sx sy : bool) (mx my : positive) (ex ey : Z) :
  rounds_signed (F2R sx mx ex + F2R sy my ey)
    (SFadd prec emax (S754_finite sx mx ex) (S754_finite sy my ey)).
Proof.
  cbn [SFadd]. set (ez := Z.min ex ey).
  rewrite <- (aligned_value sx mx ex ez), <- (aligned_value sy my ey ez) by lia.
  rewrite <- Rmult_plus_distr_r, <- plus_IZR.
  apply binary_normalize_signed.
Qed.

Theorem SFsub_finite (sx sy : bool) (mx my : positive) (ex ey : Z) :
  rounds_signed (F2R sx mx ex - F2R sy my ey)
    (SFsub prec emax (S754_finite sx mx ex) (S754_finite sy my ey)).
Proof.
  cbn [SFsub]. set (ez := Z.min ex ey).
  rewrite <- (aligned_value sx mx ex ez), <- (aligned_value sy my ey ez) by lia.
  rewrite <- Rmult_minus_distr_r, <- minus_IZR.
  apply binary_normalize_signed.
Qed.

(** What validity says of a finite number. *)
Lemma valid_finite (s : bool) (m : positive) (e : Z) :
  valid_binary (S754_finite s m e) = true ->
  emin64 <= e <= 971 /\ Z.pos (digits2_pos m) <= 53 /\
  (e = emin64 \/ Z.pos (digits2_pos m) = 53).
Proof.
  unfold SpecFloat.valid_binary, SpecFloat.bounded, SpecFloat.canonical_mantissa.
  rewrite andb_true_iff, Z.eqb_eq, Z.leb_le, fexp_eq.
  change (emax - prec) with 971. lia.
Qed.

Lemma valid_mantissa_bound (s : bool) (m : positive) (e : Z) :
  valid_binary (S754_finite s m e) = true -> Z.pos m < 2 ^ 53.
Proof.
  intros H. apply valid_finite in H. destruct H as (_ & Hd & _).
  pose proof (digits2_pos_bounds m) as [_ Hb].
  assert (2 ^ Z.pos (digits2_pos m) <= 2 ^ 53) by (apply Z.pow_le_mono_r; lia). lia.
Qed.

(** The value of a rounded number. *)
Lemma pack_value (sx : bool) (k E : Z) :
  0 <= k ->
  match pack sx k E with
  | S754_infinity _ => 971 < E \/ (k = 2 ^ 53 /\ 971 <= E)
  | S754_nan => False
  | f => B2R f = signed sx (IZR k * pow2 E)
  end.
Proof.
  intros Hk. unfold pack. destruct k as [|p|p]; try lia.
  - cbn. destruct sx; cbn; lra.
  - destruct (Z.eqb_spec (Z.pos p) (2 ^ 53)) as [Ep|Ep].
    + destruct (Z.leb_spec (E + 1) 971); [|lia].
      cbn [B2R]. unfold F2R. rewrite Ep, pow2_succ.
      change (IZR (Z.pos (2 ^ 52))) with (IZR (2 ^ 52)).
      replace (IZR (2 ^ 53)) with (2 * IZR (2 ^ 52))%R.
      * destruct sx; cbn [signed]; ring.
      * rewrite <- mult_IZR. reflexivity.
    + destruct (Z.leb_spec E 971); [|lia].
      cbn [B2R]. unfold F2R. destruct sx; cbn [signed]; ring.
Qed.

(** ** The day length: [(86400 - x) + x = 86400] in binary64 *)

Definition day : spec_float := S754_finite false 5937362789990400 (-36).

Lemma pow2_m36 : (pow2 (-36) * 68719476736 = 1)%R.
Proof.
  change 68719476736%R with (IZR (2 ^ 36)). rewrite <- pow2_IZR by lia.
  rewrite <- pow2_add. reflexivity.
Qed.

Lemma day_value : B2R day = 86400%R.
Proof.
  cbn [B2R day]. unfold F2R.
  change (IZR (Z.pos 5937362789990400)) with (IZR (86400 * 68719476736)).
  rewrite mult_IZR. pose proof pow2_m36. lra.
Qed.

Lemma Rounds_day (v : R) :
  (- pow2 (-37) <= v - 86400 <= pow2 (-37))%R -> Rounds v false day.
Proof.
  intros Hv.
  pose proof pow2_m36 as H36.
  assert (H37 : (pow2 (-37) = pow2 (-36) / 2)%R) by (apply (pow2_pred (-36))).
  assert (H17 : pow2 17 = 131072%R) by (rewrite pow2_IZR by lia; reflexivity).
  assert (H16 : pow2 16 = 65536%R) by (rewrite pow2_IZR by lia; reflexivity).
  pose proof (pow2_pos (-36)) as Hp.
  assert (Hsmall : (pow2 (-36) < 1)%R) by nra.
  exists (-36), 5937362789990400. split; [|split].
  - unfold cexp. split; [lia|]. split.
    + change (-36 + 53) with 17. lra.
    + right. change (-36 + 52) with 16. lra.
  - assert (Hq : (v / pow2 (-36) = v * 68719476736)%R).
    { apply Rmult_eq_reg_r with (pow2 (-36)); [|lra].
      unfold Rdiv. rewrite Rmult_assoc, Rinv_l by lra. nra. }
    rewrite Hq. split.
    + lra.
    + intros _. reflexivity.
  - reflexivity.
Qed.

Lemma rounded_error (v : R) (E k : Z) :
  is_RNE (v / pow2 E) k ->
  (- pow2 (E - 1) <= IZR k * pow2 E - v <= pow2 (E - 1))%R.
Proof.
  intros [[H1 H2] _]. pose proof (pow2_pos E) as Hp. rewrite pow2_pred.
  assert (Hv : (v = v / pow2 E * pow2 E)%R) by (field; lra).
  set (u := (v / pow2 E)%R) in *. rewrite Hv.
  split; nra.
Qed.

Lemma pack_positive (k E : Z) :
  0 < k <= 2 ^ 53 -> E + 1 <= 971 ->
  exists m e, pack false k E = S754_finite false m e /\
              F2R false m e = (IZR k * pow2 E)%R.
Proof.
  intros Hk HE. pose proof (pack_value false k E ltac:(lia)) as Hv.
  unfold pack in *. destruct k as [|p|p]; try lia.
  destruct (Z.eqb_spec (Z.pos p) (2 ^ 53)).
  - destruct (Z.leb_spec (E + 1) 971); [|lia]. eexists _, _. split; [reflexivity|].
    exact Hv.
  - destruct (Z.leb_spec E 971); [|lia]. eexists _, _. split; [reflexivity|].
    exact Hv.
Qed.

Lemma SFleb_finite_pos (m m' : positive) (e e' : Z) :
  SFleb (S754_finite false m e) (S754_finite false m' e') = true ->
  e < e' \/ (e = e' /\ Z.pos m <= Z.pos m').
Proof.
  unfold SFleb, SFcompare.
  destruct (Z.compare_spec e e') as [Ee|Ee|Ee]; try discriminate; [|left; lia].
  intros Hle. right. split; [assumption|].
  rewrite Pos.compare_cont_spec in Hle. unfold Pos.switch_Eq in Hle.
  destruct (Pos.compare_spec m m') as [Em|Em|Em]; try discriminate; lia.
Qed.

Theorem sub_add_day (x : spec_float) :
  valid_binary x = true ->
  SFleb (S754_zero false) x = true -> SFleb x day = true ->
  SFadd prec emax (SFsub prec emax day x) x = day.
Proof.
  intros Hvalid H0 Hle.
  destruct x as [s|s| |s m e]; try discriminate.
  - reflexivity.
  - destruct s; try discriminate.
  - destruct s; [discriminate|]. clear H0.
    pose proof (valid_finite _ _ _ Hvalid) as (He & Hd & _).
    pose proof (valid_mantissa_bound _ _ _ Hvalid) as Hm.
    pose proof (pow2_pos e) as Hpe.
    pose proof pow2_m36 as H36.
    assert (Hm0 : (0 < IZR (Z.pos m))%R) by (apply IZR_lt; lia).
    (* the order, read on exponent and significand *)
    assert (Hord : e < -36 \/ (e = -36 /\ Z.pos m <= 5937362789990400)).
    { apply SFleb_finite_pos. exact Hle. }
    set (vx := F2R false m e).
    assert (Hvx : vx = (IZR (Z.pos m) * pow2 e)%R) by (unfold vx, F2R; ring).
    assert (Hx0 : (0 < vx)%R) by (rewrite Hvx; nra).
    (* 86400 - x is an integer multiple of 2^e *)
    assert (HN : exists N : Z, (86400 - vx)%R = (IZR N * pow2 e)%R /\
                 (N = 0 -> e = -36 /\ m = 5937362789990400%positive) /\ 0 <= N).
    { exists (5937362789990400 * 2 ^ (-36 - e) - Z.pos m). split; [|split].
      - rewrite minus_IZR, Rmult_minus_distr_r, <- Hvx.
        pose proof (IZR_pow2_mul 5937362789990400 (-36 - e) (-36) ltac:(lia)) as Hs.
        replace (-36 - (-36 - e)) with e in Hs by lia. rewrite Hs.
        replace (IZR 5937362789990400 * pow2 (-36))%R with (B2R day)
          by (cbn [B2R day]; unfold F2R; ring).
        rewrite day_value. reflexivity.
      - intros HN0. destruct Hord as [Hlt|[Heq Hmle]].
        + exfalso. assert (2 <= 2 ^ (-36 - e)).
          { change 2 with (2 ^ 1) at 1. apply Z.pow_le_mono_r; lia. }
          nia.
        + split; [assumption|]. subst e. change (2 ^ (-36 - -36)) with 1 in HN0. lia.
      - destruct Hord as [Hlt|[Heq Hmle]].
        + assert (2 <= 2 ^ (-36 - e)).
          { change 2 with (2 ^ 1) at 1. apply Z.pow_le_mono_r; lia. }
          nia.
        + subst e. change (2 ^ (-36 - -36)) with 1. lia. }
    destruct HN as (N & HNv & HN0 & HNpos).
    pose proof (SFsub_finite false false 5937362789990400 m (-36) e) as Hsub.
    change (F2R false 5937362789990400 (-36)) with (B2R day) in Hsub.
    rewrite day_value in Hsub. fold vx in Hsub. fold day in Hsub.
    destruct Hsub as (Hz & Hp & _).
    destruct (Z.eq_dec N 0) as [EN|EN].
    + (* x = 86400 *)
      rewrite Hz by (rewrite HNv, EN; lra).
      destruct (HN0 EN) as [-> ->]. reflexivity.
    + assert (HN1 : (1 <= IZR N)%R) by (apply IZR_le; lia).
      assert (Hv0 : (0 < 86400 - vx)%R) by (rewrite HNv; nra).
      specialize (Hp Hv0). destruct Hp as (E & k & HcE & Hk & Hs1).
      pose proof (rounded_error _ _ _ Hk) as Herr.
      destruct HcE as (HE1 & HE2 & HE3).
      assert (HE : E <= -36).
      { destruct HE3 as [->|HE3]; [lia|].
        destruct (Z_le_gt_dec E (-36)) as [|Hgt]; [assumption|exfalso].
        pose proof (pow2_le 17 (E + 52) ltac:(lia)) as Hl.
        rewrite pow2_IZR in Hl by lia. change (IZR (2 ^ 17)) with 131072%R in Hl. lra. }
      assert (Hk0 : 0 < k).
      { apply (is_RNE_lower _ _ 1) in Hk; [lia|].
        pose proof (pow2_pos E) as HpE.
        apply Rmult_le_reg_r with (pow2 E); [assumption|].
        unfold Rdiv. rewrite Rmult_assoc, Rinv_l by lra.
        destruct HE3 as [->|HE3].
        - pose proof (pow2_le (-1074) e ltac:(lia)). nra.
        - pose proof (pow2_le E (E + 52) ltac:(lia)). lra. }
      assert (Hk1 : k <= 2 ^ 53).
      { apply (is_RNE_upper _ _ (2 ^ 53)) in Hk; [assumption|].
        pose proof (pow2_pos E) as HpE. rewrite <- pow2_IZR by lia.
        rewrite pow2_add in HE2.
        apply Rmult_lt_reg_r with (pow2 E); [assumption|].
        unfold Rdiv. rewrite Rmult_assoc, Rinv_l by lra. lra. }
      destruct (pack_positive k E ltac:(lia) ltac:(lia)) as (m1 & e1 & Hpk & Hval).
      rewrite Hs1, Hpk.
      pose proof (SFadd_finite false false m1 m e1 e) as Hadd.
      fold vx in Hadd. rewrite Hval in Hadd.
      destruct Hadd as (_ & Hadd & _).
      assert (Hk0' : (0 < IZR k)%R) by (apply IZR_lt; lia).
      pose proof (pow2_pos E) as HpE.
      specialize (Hadd ltac:(nra)).
      apply (Rounds_unique _ _ _ _ Hadd).
      apply Rounds_day.
      replace (IZR k * pow2 E + vx - 86400)%R with (IZR k * pow2 E - (86400 - vx))%R by ring.
      pose proof (pow2_le (E - 1) (-37) ltac:(lia)). lra.
Qed.

(** ** Order *)

Inductive cmp_R (a b : R) : comparison -> Prop :=
| cmp_Lt : (a < b)%R -> cmp_R a b Lt
| cmp_Eq : a = b -> cmp_R a b Eq
| cmp_Gt : (b < a)%R -> cmp_R a b Gt.

Lemma cmp_R_opp (a b : R) (c : comparison) :
  cmp_R a b c -> cmp_R (- a) (- b) (CompOpp c).
Proof. intros [H|H|H]; cbn; constructor; lra. Qed.

Lemma cmp_R_Z (a b : Z) : cmp_R (IZR a) (IZR b) (a ?= b).
Proof.
  destruct (Z.compare_spec a b) as [H|H|H]; constructor.
  - now subst.
  - now apply IZR_lt.
  - now apply IZR_lt.
Qed.

Lemma F2R_pos (m : positive) (e : Z) : (0 < F2R false m e)%R.
Proof.
  unfold F2R. pose proof (pow2_pos e).
  assert (0 < IZR (Z.pos m))%R by (apply IZR_lt; lia). nra.
Qed.

Lemma F2R_neg (m : positive) (e : Z) : F2R true m e = (- F2R false m e)%R.
Proof. unfold F2R. ring. Qed.

Lemma F2R_lt_exp (m m' : positive) (e e' : Z) :
  valid_binary (S754_finite false m e) = true ->
  valid_binary (S754_finite false m' e') = true ->
  e < e' -> (F2R false m e < F2R false m' e')%R.
Proof.
  intros Hv Hv' Hlt.
  pose proof (valid_mantissa_bound _ _ _ Hv) as Hm.
  apply valid_finite in Hv, Hv'.
  destruct Hv as (He & _ & _). destruct Hv' as (He' & _ & [Hc|Hc]); [lia|].
  pose proof (digits2_pos_bounds m') as [Hb _]. rewrite Hc in Hb.
  change (2 ^ (53 - 1)) with (2 ^ 52) in Hb.
  unfold F2R.
  assert (H1 : (IZR (Z.pos m) < pow2 53)%R).
  { rewrite pow2_IZR by lia. now apply IZR_lt. }
  assert (H2 : (pow2 52 <= IZR (Z.pos m'))%R).
  { rewrite pow2_IZR by lia. now apply IZR_le. }
  pose proof (pow2_pos e). pose proof (pow2_pos e').
  pose proof (pow2_le (53 + e) (52 + e') ltac:(lia)) as Hp.
  rewrite !pow2_add in Hp. nra.
Qed.

Lemma SFcompare_pos (m m' : positive) (e e' : Z) :
  valid_binary (S754_finite false m e) = true ->
  valid_binary (S754_finite false m' e') = true ->
  cmp_R (F2R false m e) (F2R false m' e')
    match e ?= e' with
    | Lt => Lt
    | Gt => Gt
    | Eq => Pos.compare_cont Eq m m'
    end.
Proof.
  intros Hv Hv'.
  destruct (Z.compare_spec e e') as [Ee|Ee|Ee].
  - subst e'. rewrite Pos.compare_cont_spec. unfold Pos.switch_Eq.
    pose proof (pow2_pos e). unfold F2R.
    destruct (Pos.compare_spec m m') as [H1|H1|H1]; constructor.
    + now subst.
    + assert (IZR (Z.pos m) < IZR (Z.pos m'))%R by (apply IZR_lt; lia). nra.
    + assert (IZR (Z.pos m') < IZR (Z.pos m))%R by (apply IZR_lt; lia). nra.
  - constructor. now apply F2R_lt_exp.
  - constructor. now apply F2R_lt_exp.
Qed.

Definition finite_or_zero (f : spec_float) : bool :=
  match f with
  | S754_zero _ | S754_finite _ _ _ => true
  | _ => false
  end.

Lemma valid_abs (s s' : bool) (m : positive) (e : Z) :
  valid_binary (S754_finite s m e) = valid_binary (S754_finite s' m e).
Proof. reflexivity. Qed.

Theorem SFcompare_spec (x y : spec_float) :
  valid_binary x = true -> valid_binary y = true ->
  finite_or_zero x = true -> finite_or_zero y = true ->
  exists c, SFcompare x y = Some c /\ cmp_R (B2R x) (B2R y) c.
Proof.
  intros Hx Hy Fx Fy.
  destruct x as [sx|sx| |sx mx ex]; try discriminate;
    destruct y as [sy|sy| |sy my ey]; try discriminate; cbn [SFcompare B2R].
  - eexists; split; [reflexivity|]. now constructor.
  - pose proof (F2R_pos my ey). eexists; split; [reflexivity|].
    destruct sy; constructor; rewrite ?F2R_neg; lra.
  - pose proof (F2R_pos mx ex). eexists; split; [reflexivity|].
    destruct sx; constructor; rewrite ?F2R_neg; lra.
  - pose proof (F2R_pos mx ex). pose proof (F2R_pos my ey).
    eexists; split; [reflexivity|].
    destruct sx, sy.
    + rewrite !F2R_neg.
      pose proof (SFcompare_pos mx my ex ey Hx Hy) as Hc.
      apply cmp_R_opp in Hc.
      destruct (ex ?= ey); cbn in Hc |- *; exact Hc.
    + constructor. rewrite F2R_neg. lra.
    + constructor. rewrite F2R_neg. lra.
    + now apply SFcompare_pos.
Qed.


(** ** Primitive floats *)

Lemma Prim2SF_day : Prim2SF 86400 = day.
Proof. reflexivity. Qed.

Lemma Prim2SF_zero : Prim2SF 0 = S754_zero false.
Proof. reflexivity. Qed.

(** In binary64, for every [x] between 0 and 86400,
    [(86400 - x) + x] is 86400 exactly. *)
Theorem prim_sub_add_day (x : float) :
  (0 <=? x)%float = true -> (x <=? 86400)%float = true ->
  ((86400 - x) + x)%float = 86400%float.
Proof.
  rewrite !leb_spec, Prim2SF_day, Prim2SF_zero. intros H0 H1.
  apply Prim2SF_inj. rewrite add_spec, sub_spec, Prim2SF_day.
  apply sub_add_day; [apply Prim2SF_valid|assumption|assumption].
Qed.

Lemma cmp_R_scale (a b k : R) (c : comparison) :
  (0 < k)%R -> cmp_R (a * k) (b * k) c -> cmp_R a b c.
Proof. intros Hk [H|H|H]; constructor; nra. Qed.

(** [compare_int_float] is the order of the exact values. *)
Theorem compare_int_float_spec (n : Z) (x : float) :
  finite_or_zero (Prim2SF x) = true ->
  exists c, compare_int_float n x = Some c /\ cmp_R (IZR n) (B2R (Prim2SF x)) c.
Proof.
  unfold compare_int_float. destruct (Prim2SF x) as [s|s| |s m e]; try discriminate;
    intros _; cbn [B2R].
  - eexists; split; [reflexivity|]. apply cmp_R_Z.
  - eexists; split; [reflexivity|].
    assert (Hv : F2R s m e = (IZR (if s then Z.neg m else Z.pos m) * pow2 e)%R).
    { unfold F2R. destruct s; [|ring].
      change (Z.neg m) with (- Z.pos m). rewrite opp_IZR. ring. }
    rewrite Hv. set (v := if s then Z.neg m else Z.pos m).
    destruct e as [|p|p].
    + rewrite pow2_0, Rmult_1_r. replace (v * 2 ^ 0) with v by lia. apply cmp_R_Z.
    + rewrite pow2_IZR, <- mult_IZR by lia. apply cmp_R_Z.
    + apply cmp_R_scale with (pow2 (Z.pos p)); [apply pow2_pos|].
      rewrite Rmult_assoc, <- pow2_add.
      replace (Z.neg p + Z.pos p) with 0 by lia. rewrite pow2_0, Rmult_1_r.
      rewrite pow2_IZR, <- mult_IZR by lia. apply cmp_R_Z.
Qed.

(** ** Values in range *)

Lemma cmp_R_le (a b : R) (c : comparison) :
  cmp_R a b c -> (c = Lt \/ c = Eq <-> (a <= b)%R).
Proof. intros [H|H|H]; split; intros; try lra; intuition congruence. Qed.

Lemma cmp_R_ge (a b : R) (c : comparison) :
  cmp_R a b c -> (c = Gt \/ c = Eq <-> (b <= a)%R).
Proof. intros [H|H|H]; split; intros; try lra; intuition congruence. Qed.

Lemma SFleb_spec (x y : spec_float) :
  valid_binary x = true -> valid_binary y = true ->
  finite_or_zero x = true -> finite_or_zero y = true ->
  (SFleb x y = true <-> (B2R x <= B2R y)%R).
Proof.
  intros Hx Hy Fx Fy.
  destruct (SFcompare_spec x y Hx Hy Fx Fy) as (c & Hc & Hr).
  unfold SFleb. rewrite Hc. rewrite <- (cmp_R_le _ _ _ Hr).
  destruct c; intuition congruence.
Qed.

Lemma SFltb_spec (x y : spec_float) :
  valid_binary x = true -> valid_binary y = true ->
  finite_or_zero x = true -> finite_or_zero y = true ->
  (SFltb x y = true <-> (B2R x < B2R y)%R).
Proof.
  intros Hx Hy Fx Fy.
  destruct (SFcompare_spec x y Hx Hy Fx Fy) as (c & Hc & Hr).
  unfold SFltb. rewrite Hc.
  destruct Hr; split; intros; try lra; try discriminate; reflexivity.
Qed.

(** A float accepted as a load duration lies between 0 and 86400. *)
Lemma duration_float_range (x : float) :
  py_ge (VFloat x) (VInt 0) = Ok true -> py_le (VFloat x) (VInt 86400) = Ok true ->
  (0 <=? x)%float = true /\ (x <=? 86400)%float = true.
Proof.
  unfold py_ge, py_le. cbn [py_compare bind]. intros H0 H1.
  assert (F : finite_or_zero (Prim2SF x) = true).
  { unfold compare_int_float in H0, H1.
    destruct (Prim2SF x) as [s|[|]| |s m e]; try reflexivity; cbn in H0, H1;
      discriminate. }
  destruct (compare_int_float_spec 0 x F) as (c0 & E0 & R0).
  destruct (compare_int_float_spec 86400 x F) as (c1 & E1 & R1).
  rewrite E0 in H0. rewrite E1 in H1. cbn in H0, H1.
  apply cmp_R_le in R0. apply cmp_R_ge in R1.
  assert (B0 : (0 <= B2R (Prim2SF x))%R).
  { apply R0. destruct c0; try discriminate; auto. }
  assert (B1 : (B2R (Prim2SF x) <= 86400)%R).
  { apply R1. destruct c1; try discriminate; auto. }
  rewrite !leb_spec, Prim2SF_day, Prim2SF_zero.
  split.
  - apply SFleb_spec; try apply Prim2SF_valid; try reflexivity; assumption.
  - apply SFleb_spec; try apply Prim2SF_valid; try reflexivity; try assumption.
    rewrite day_value. assumption.
Qed.

Lemma float_of_int_day : float_of_int 86400 = Ok 86400%float.
Proof. reflexivity. Qed.

(** For every accepted load duration [d], Python evaluates
    [(86400 - d) + d == 86400] to [True]. *)
Theorem day_split_value (d : value) :
  duration_ok d ->
  exists s t, py_sub (VInt 86400) d = Ok s /\ py_add s d = Ok t /\
              py_eq t (VInt 86400) = true.
Proof.
  intros (Hn & H0 & H1). destruct d as [ |n|x|x|s]; try discriminate.
  - exists (VInt (86400 - n)), (VInt 86400). split; [reflexivity|].
    split; [|reflexivity].
    change (py_add (VInt (86400 - n)) (VInt n)) with (Ok (VInt (86400 - n + n))).
    do 2 f_equal. lia.
  - destruct (duration_float_range x H0 H1) as [R0 R1].
    exists (VFloat (86400 - x)), (VFloat 86400). split; [reflexivity|].
    split; [|reflexivity].
    change (py_add (VFloat (86400 - x)) (VFloat x))
      with (Ok (VFloat ((86400 - x) + x))).
    now rewrite prim_sub_add_day.
  - assert (H0' : py_ge (VFloat x) (VInt 0) = Ok true) by exact H0.
    assert (H1' : py_le (VFloat x) (VInt 86400) = Ok true) by exact H1.
    destruct (duration_float_range x H0' H1') as [R0 R1].
    exists (VNp (86400 - x)), (VNp 86400). split; [reflexivity|].
    split; [|reflexivity].
    change (py_add (VNp (86400 - x)) (VNp x)) with (Ok (VNp ((86400 - x) + x))).
    now rewrite prim_sub_add_day.
Qed.

(** ** Rounded numbers are binary64 numbers *)

Lemma Rdiv_pow2_lt (v : R) (E a : Z) :
  (v < pow2 (E + a))%R -> (v / pow2 E < pow2 a)%R.
Proof.
  intros H. rewrite pow2_add in H. pose proof (pow2_pos E).
  apply Rmult_lt_reg_r with (pow2 E); [assumption|].
  unfold Rdiv. rewrite Rmult_assoc, Rinv_l by lra. lra.
Qed.

Lemma Rdiv_pow2_le (v : R) (E a : Z) :
  (pow2 (E + a) <= v)%R -> (pow2 a <= v / pow2 E)%R.
Proof.
  intros H. rewrite pow2_add in H. pose proof (pow2_pos E).
  apply Rmult_le_reg_r with (pow2 E); [assumption|].
  unfold Rdiv. rewrite Rmult_assoc, Rinv_l by lra. lra.
Qed.

Lemma Rdiv_pow2_nonneg (v : R) (E : Z) : (0 <= v)%R -> (0 <= v / pow2 E)%R.
Proof.
  intros H. pose proof (pow2_pos E). apply Rmult_le_pos; [assumption|].
  left. now apply Rinv_0_lt_compat.
Qed.

(** The significand chosen for [v] at its exponent. *)
Lemma rounded_significand (v : R) (E k : Z) :
  (0 <= v)%R -> cexp v E -> is_RNE (v / pow2 E) k ->
  0 <= k <= 2 ^ 53 /\ (E = emin64 \/ 2 ^ 52 <= k).
Proof.
  intros Hv (HE1 & HE2 & HE3) Hk. split; [split|].
  - apply (is_RNE_nonneg (v / pow2 E)); [now apply Rdiv_pow2_nonneg|assumption].
  - apply (is_RNE_upper (v / pow2 E)); [|assumption].
    rewrite <- pow2_IZR by lia. now apply Rdiv_pow2_lt.
  - destruct HE3 as [HE3|HE3]; [now left|right].
    apply (is_RNE_lower (v / pow2 E)); [|assumption].
    rewrite <- pow2_IZR by lia. now apply Rdiv_pow2_le.
Qed.

Lemma Zdigits2_53 (k : Z) : 2 ^ 52 <= k < 2 ^ 53 -> Zdigits2 k = 53.
Proof. intros H. apply Zdigits2_unique; [exact H|lia]. Qed.

Lemma pack_valid (sx : bool) (k E : Z) :
  emin64 <= E -> 0 <= k <= 2 ^ 53 -> (E = emin64 \/ 2 ^ 52 <= k) ->
  valid_binary (pack sx k E) = true.
Proof.
  intros HE Hk Hn. unfold pack. destruct k as [|p|p]; try lia; [reflexivity|].
  destruct (Z.eqb_spec (Z.pos p) (2 ^ 53)) as [Ep|Ep].
  - destruct (Z.leb_spec (E + 1) 971); [|reflexivity].
    unfold SpecFloat.valid_binary, SpecFloat.bounded, SpecFloat.canonical_mantissa.
    rewrite andb_true_iff, Z.eqb_eq, Z.leb_le, fexp_eq.
    change (Z.pos (digits2_pos (2 ^ 52))) with 53.
    change (emax - prec) with 971. lia.
  - destruct (Z.leb_spec E 971); [|reflexivity].
    unfold SpecFloat.valid_binary, SpecFloat.bounded, SpecFloat.canonical_mantissa.
    rewrite andb_true_iff, Z.eqb_eq, Z.leb_le, fexp_eq.
    change (emax - prec) with 971.
    change (Z.pos (digits2_pos p)) with (Zdigits2 (Z.pos p)).
    destruct Hn as [->|Hn].
    + pose proof (Zdigits2_le_53 (Z.pos p) ltac:(lia)). lia.
    + rewrite (Zdigits2_53 (Z.pos p)) by lia. lia.
Qed.

Theorem Rounds_valid (v : R) (sx : bool) (f : spec_float) :
  (0 <= v)%R -> Rounds v sx f -> valid_binary f = true.
Proof.
  intros Hv (E & k & HE & Hk & ->).
  destruct (rounded_significand v E k Hv HE Hk) as [H1 H2].
  destruct HE as (HE & _). now apply pack_valid.
Qed.

(** A rounded number is a zero, a finite number or an infinity of the sign
    asked for. *)
Lemma pack_shape (sx : bool) (k E : Z) :
  0 <= k ->
  match pack sx k E with
  | S754_zero s | S754_infinity s | S754_finite s _ _ => s = sx
  | S754_nan => False
  end.
Proof.
  intros Hk. unfold pack. destruct k as [|p|p]; try lia; [reflexivity|].
  destruct (Z.pos p =? 2 ^ 53).
  - now destruct (E + 1 <=? 971).
  - now destruct (E <=? 971).
Qed.

Lemma Rounds_shape (v : R) (sx : bool) (f : spec_float) :
  (0 <= v)%R -> Rounds v sx f ->
  match f with
  | S754_zero s | S754_infinity s | S754_finite s _ _ => s = sx
  | S754_nan => False
  end.
Proof.
  intros Hv (E & k & HE & Hk & ->).
  destruct (rounded_significand v E k Hv HE Hk) as [[H1 _] _].
  now apply pack_shape.
Qed.

(** No overflow below [2^1023]. *)
Lemma Rounds_no_overflow (v : R) (sx : bool) (f : spec_float) :
  (0 <= v <= pow2 1023)%R -> Rounds v sx f -> finite_or_zero f = true.
Proof.
  intros [Hv0 Hv1] (E & k & HE & Hk & ->).
  destruct (rounded_significand v E k Hv0 HE Hk) as [[H1 H2] H3].
  destruct HE as (HE1 & HE2 & HE3).
  assert (HE : E <= 971).
  { destruct HE3 as [->|HE3]; [lia|].
    destruct (Z_le_gt_dec E 971) as [|Hgt]; [assumption|exfalso].
    pose proof (pow2_lt 1023 (E + 52) ltac:(lia)). lra. }
  unfold pack. destruct k as [|p|p]; try lia; [reflexivity|].
  destruct (Z.eqb_spec (Z.pos p) (2 ^ 53)) as [Ep|Ep].
  - destruct (Z.leb_spec (E + 1) 971); [reflexivity|exfalso].
    assert (E = 971) by lia. subst E.
    destruct Hk as [[Hk _] _]. rewrite Ep in Hk.
    assert (Hq : (v / pow2 971 <= pow2 52)%R).
    { pose proof (pow2_pos 971).
      apply Rmult_le_reg_r with (pow2 971); [assumption|].
      unfold Rdiv. rewrite Rmult_assoc, Rinv_l by lra.
      rewrite <- pow2_add. change (52 + 971) with 1023. lra. }
    rewrite <- pow2_IZR in Hk by lia.
    pose proof (pow2_succ 52) as Hs. change (52 + 1) with 53 in Hs.
    pose proof (pow2_ge_1 52 ltac:(lia)). lra.
  - destruct (Z.leb_spec E 971); [reflexivity|lia].
Qed.

(** ** Conversions from [int] *)

Lemma float_of_int_spec (n : Z) (x : float) :
  float_of_int n = Ok x ->
  Prim2SF x = binary_normalize prec emax n 0 false /\
  finite_or_zero (Prim2SF x) = true.
Proof.
  unfold float_of_int. intros H.
  pose proof (binary_normalize_spec n 0 false) as Hs.
  set (f := binary_normalize prec emax n 0 false) in *.
  assert (Hx : x = SF2Prim f) by (destruct f; congruence).
  assert (Hv : valid_binary f = true /\ finite_or_zero f = true).
  { destruct n as [|p|p].
    - rewrite Hs. split; reflexivity.
    - assert (H0 : (0 <= IZR (Z.abs (Z.pos p)) * pow2 0)%R).
      { rewrite pow2_0, Rmult_1_r. apply IZR_le. lia. }
      split; [now apply (Rounds_valid _ _ _ H0 Hs)|].
      pose proof (Rounds_shape _ _ _ H0 Hs). destruct f; try reflexivity;
        [discriminate|contradiction].
    - assert (H0 : (0 <= IZR (Z.abs (Z.neg p)) * pow2 0)%R).
      { rewrite pow2_0, Rmult_1_r. apply IZR_le. lia. }
      split; [now apply (Rounds_valid _ _ _ H0 Hs)|].
      pose proof (Rounds_shape _ _ _ H0 Hs). destruct f; try reflexivity;
        [discriminate|contradiction]. }
  destruct Hv as [Hv Hf]. subst x. rewrite Prim2SF_SF2Prim by assumption. auto.
Qed.

Lemma float_of_int_small (n : Z) :
  Z.abs n <= 2 ^ 1023 -> exists x, float_of_int n = Ok x.
Proof.
  intros Hn. unfold float_of_int.
  pose proof (binary_normalize_spec n 0 false) as Hs.
  set (f := binary_normalize prec emax n 0 false) in *.
  assert (Hf : finite_or_zero f = true).
  { destruct n as [|p|p]; [now rewrite Hs| |];
      apply (Rounds_no_overflow _ _ _ ) in Hs; try assumption;
      rewrite pow2_0, Rmult_1_r, pow2_IZR by lia;
      split; apply IZR_le; lia. }
  destruct f; try discriminate; eauto.
Qed.

(** ** Multiplication and division *)

Theorem SFmul_finite (sx sy : bool) (mx my : positive) (ex ey : Z) :
  valid_binary (S754_finite sx mx ex) = true ->
  valid_binary (S754_finite sy my ey) = true ->
  Rounds (F2R false mx ex * F2R false my ey) (xorb sx sy)
    (SFmul prec emax (S754_finite sx mx ex) (S754_finite sy my ey)).
Proof.
  intros Hx Hy. cbn [SFmul].
  replace (F2R false mx ex * F2R false my ey)%R
    with (IZR (Z.pos (mx * my)) * pow2 (ex + ey))%R.
  2:{ unfold F2R. rewrite Pos2Z.inj_mul, mult_IZR, pow2_add. ring. }
  apply binary_round_aux_exact; [lia|].
  apply valid_finite in Hx, Hy.
  destruct Hx as (Hex & Hdx & Hcx). destruct Hy as (Hey & Hdy & Hcy).
  pose proof (digits2_pos_bounds mx) as [Hbx _].
  pose proof (digits2_pos_bounds my) as [Hby _].
  set (dx := Z.pos (digits2_pos mx)) in *. set (dy := Z.pos (digits2_pos my)) in *.
  assert (Hdx0 : 1 <= dx) by (unfold dx; lia).
  assert (Hdy0 : 1 <= dy) by (unfold dy; lia).
  assert (HD : dx + dy - 1 <= Zdigits2 (Z.pos (mx * my))).
  { replace (dx + dy - 1) with (dx - 1 + (dy - 1) + 1) by lia.
    apply Zdigits2_ge; [lia|].
    rewrite Z.pow_add_r, Pos2Z.inj_mul by lia.
    apply Z.mul_le_mono_nonneg; try assumption; apply Z.pow_nonneg; lia. }
  rewrite fexp_eq. lia.
Qed.

Lemma new_location_spec (q n k : Z) :
  0 < n -> 0 <= k < n ->
  locates (shr_record_of_loc q (new_location n k)) (IZR q + IZR k / IZR n)%R.
Proof.
  intros Hn Hk.
  assert (Hn' : (0 < IZR n)%R) by (now apply IZR_lt).
  assert (Hk0 : (0 <= IZR k)%R) by (apply IZR_le; lia).
  assert (Hk1 : (IZR k < IZR n)%R) by (apply IZR_lt; lia).
  set (u := (IZR k / IZR n)%R).
  assert (Hu : (u * IZR n = IZR k)%R) by (unfold u; field; lra).
  assert (Hu0 : (0 <= u)%R).
  { unfold u. apply Rmult_le_pos; [assumption|]. left. now apply Rinv_0_lt_compat. }
  assert (Hu1 : (u < 1)%R) by nra.
  assert (Hhalf : forall c, (2 * k ?= n) = c ->
            match c with
            | Lt => (u < /2)%R | Eq => u = (/2)%R | Gt => (/2 < u)%R
            end).
  { intros c <-. destruct (Z.compare_spec (2 * k) n) as [E|E|E].
    - apply (f_equal IZR) in E. rewrite mult_IZR in E. nra.
    - apply IZR_lt in E. rewrite mult_IZR in E. nra.
    - apply IZR_lt in E. rewrite mult_IZR in E. nra. }
  unfold new_location.
  destruct (Z.even n) eqn:Ev.
  - unfold new_location_even. destruct (Z.eqb_spec k 0) as [->|Hk'].
    + unfold locates; cbn. unfold u. rewrite Rdiv_0_l. lra.
    + assert (0 < u)%R.
      { assert (0 < IZR k)%R by (apply IZR_lt; lia). nra. }
      specialize (Hhalf _ eq_refl).
      destruct (2 * k ?= n); unfold locates; cbn; lra.
  - unfold new_location_odd. destruct (Z.eqb_spec k 0) as [->|Hk'].
    + unfold locates; cbn. unfold u. rewrite Rdiv_0_l. lra.
    + assert (0 < u)%R.
      { assert (0 < IZR k)%R by (apply IZR_lt; lia). nra. }
      assert (Hodd : 2 * k <> n).
      { intros <-. rewrite Z.even_mul in Ev. discriminate. }
      destruct (Z.compare_spec (2 * k + 1) n) as [E|E|E].
      * assert (Hc : (2 * k ?= n) = Lt) by (apply Z.compare_lt_iff; lia).
        specialize (Hhalf _ Hc). unfold locates; cbn. lra.
      * assert (Hc : (2 * k ?= n) = Lt) by (apply Z.compare_lt_iff; lia).
        specialize (Hhalf _ Hc). unfold locates; cbn. lra.
      * assert (Hc : (2 * k ?= n) = Gt) by (apply Z.compare_gt_iff; lia).
        specialize (Hhalf _ Hc). unfold locates; cbn. lra.
Qed.

(** The quotient of two positive integers scaled by powers of two, rounded. *)
Theorem div_core_spec (sx : bool) (m1 m2 e1 e2 : Z) :
  0 < m1 -> 0 < m2 ->
  let '(q, e, l) := SFdiv_core_binary prec emax m1 e1 m2 e2 in
  Rounds ((IZR m1 * pow2 e1) / (IZR m2 * pow2 e2)) sx
    (binary_round_aux prec emax sx q e l).
Proof.
  intros H1 H2. unfold SFdiv_core_binary.
  set (d1 := Zdigits2 m1). set (d2 := Zdigits2 m2).
  set (X := d1 + e1 - (d2 + e2)).
  set (e' := Z.min (fexp prec emax X) (e1 - e2)).
  set (s := e1 - e2 - e').
  assert (Hs : 0 <= s) by (unfold s, e'; lia).
  set (m' := match s with Z.pos _ => Z.shiftl m1 s | Z0 => m1 | Z.neg _ => 0 end).
  assert (Hm' : m' = m1 * 2 ^ s).
  { unfold m'. destruct s as [|p|p]; try lia.
    - now rewrite Z.shiftl_mul_pow2 by lia. }
  clearbody m'.
  pose proof (Z.div_eucl_eq m' m2 ltac:(lia)) as Hde.
  pose proof (Z.mod_pos_bound m' m2 H2) as Hr.
  unfold Z.modulo in Hr.
  destruct (Z.div_eucl m' m2) as [q r] eqn:Edm.
  assert (Hq0 : 0 <= q).
  { assert (0 <= m') by (rewrite Hm'; pose proof (Z.pow_nonneg 2 s); nia). nia. }
  set (v := (IZR m1 * pow2 e1 / (IZR m2 * pow2 e2))%R).
  pose proof (pow2_pos e1) as Hp1. pose proof (pow2_pos e2) as Hp2.
  pose proof (pow2_pos e') as Hpe.
  assert (Hm1 : (0 < IZR m1)%R) by (now apply IZR_lt).
  assert (Hm2 : (0 < IZR m2)%R) by (now apply IZR_lt).
  assert (Hv0 : (0 < v)%R).
  { unfold v. apply Rmult_lt_0_compat; [nra|]. apply Rinv_0_lt_compat. nra. }
  assert (Hvq : (v / pow2 e' = IZR q + IZR r / IZR m2)%R).
  { assert (Hm'R : IZR m' = (IZR m1 * pow2 s)%R).
    { rewrite Hm', mult_IZR, pow2_IZR by assumption. reflexivity. }
    assert (Hdiv : (IZR m' = IZR m2 * IZR q + IZR r)%R).
    { rewrite Hde at 1. rewrite plus_IZR, mult_IZR. reflexivity. }
    assert (He1 : pow2 e1 = (pow2 s * pow2 e2 * pow2 e')%R).
    { rewrite <- !pow2_add. f_equal. unfold s. lia. }
    unfold v. rewrite He1. field_simplify; try lra.
    rewrite <- Hm'R, Hdiv. field. lra. }
  assert (Hloc : locates (shr_record_of_loc q (new_location m2 r)) (v / pow2 e')%R).
  { rewrite Hvq. now apply new_location_spec. }
  (* enough significand bits *)
  assert (Hbig : emin64 < e' -> 2 ^ 52 <= q).
  { intros He'.
    assert (HfX : fexp prec emax X = X - 53) by (rewrite fexp_eq; unfold e' in He'; rewrite fexp_eq in He'; lia).
    assert (He'X : e' <= X - 53) by (unfold e'; lia).
    pose proof (Zdigits2_bounds m1 H1) as [Hb1 _].
    pose proof (Zdigits2_bounds m2 H2) as [_ Hb2].
    pose proof (Zdigits2_pos m1 H1). pose proof (Zdigits2_pos m2 H2).
    fold d1 in Hb1, H. fold d2 in Hb2, H0.
    assert (Hs53 : 53 - d1 + d2 <= s) by (unfold s, X in *; lia).
    assert (Hqd : q = m' / m2).
    { unfold Z.div. now rewrite Edm. }
    rewrite Hqd. apply Z.div_le_lower_bound; [assumption|].
    rewrite Hm'.
    assert (Ha : 2 ^ (d1 - 1) * 2 ^ s <= m1 * 2 ^ s).
    { apply Z.mul_le_mono_nonneg_r; [apply Z.pow_nonneg; lia|assumption]. }
    rewrite <- Z.pow_add_r in Ha by lia.
    assert (Hb : 2 ^ (d2 + 52) <= 2 ^ (d1 - 1 + s)) by (apply Z.pow_le_mono_r; lia).
    rewrite Z.pow_add_r in Hb by lia.
    assert (Hc : m2 * 2 ^ 52 <= 2 ^ d2 * 2 ^ 52).
    { apply Z.mul_le_mono_nonneg_r; lia. }
    lia. }
  assert (Hn : e' <= fexp prec emax (Zdigits2 q + e')).
  { rewrite fexp_eq.
    destruct (Z_le_gt_dec e' emin64) as [Hle|Hgt]; [lia|].
    specialize (Hbig ltac:(lia)).
    pose proof (Zdigits2_ge q 52 ltac:(lia) Hbig). lia. }
  apply binary_round_aux_spec; try assumption; try lra.
  destruct (Z.eq_dec q 0) as [->|Hq].
  - cbn [Zdigits2]. rewrite fexp_eq.
    assert (He' : e' <= emin64).
    { destruct (Z_le_gt_dec e' emin64) as [|Hgt]; [assumption|].
      specialize (Hbig ltac:(lia)). lia. }
    replace (Z.max (0 + e' - 53) emin64) with emin64 by lia.
    unfold cexp. split; [lia|]. split; [|now left].
    rewrite Rplus_0_l in Hvq.
    assert (Hfrac : (IZR r / IZR m2 < 1)%R).
    { apply Rmult_lt_reg_r with (IZR m2); [assumption|].
      unfold Rdiv. rewrite Rmult_assoc, Rinv_l by lra.
      assert (IZR r < IZR m2)%R by (apply IZR_lt; lia). lra. }
    assert (Hv1 : (v < pow2 e')%R).
    { assert (v = v / pow2 e' * pow2 e')%R by (field; lra). nra. }
    pose proof (pow2_le e' (emin64 + 53) ltac:(lia)). lra.
  - apply cexp_located with (l := new_location m2 r); [lia|assumption].
Qed.

Theorem SFdiv_finite (sx sy : bool) (mx my : positive) (ex ey : Z) :
  Rounds (F2R false mx ex / F2R false my ey) (xorb sx sy)
    (SFdiv prec emax (S754_finite sx mx ex) (S754_finite sy my ey)).
Proof.
  cbn [SFdiv].
  pose proof (div_core_spec (xorb sx sy) (Z.pos mx) (Z.pos my) ex ey
                ltac:(lia) ltac:(lia)) as H.
  destruct (SFdiv_core_binary prec emax (Z.pos mx) ex (Z.pos my) ey) as [[q e] l].
  unfold F2R. rewrite !Rmult_1_l. exact H.
Qed.

(** [int / int]: the exact quotient, rounded once. *)
Lemma float_of_ratio_spec (n d : Z) :
  0 < n -> 0 < d ->
  Rounds (IZR n / IZR d) false (float_of_ratio n d).
Proof.
  intros Hn Hd. unfold float_of_ratio.
  destruct n as [|p|p]; try lia. destruct d as [|p'|p']; try lia.
  pose proof (div_core_spec false (Z.pos p) (Z.pos p') 0 0 ltac:(lia) ltac:(lia)) as H.
  cbn [Z.abs Z.ltb Z.compare xorb].
  destruct (SFdiv_core_binary prec emax (Z.pos p) 0 (Z.pos p') 0) as [[q e] l].
  rewrite pow2_0, !Rmult_1_r in H. exact H.
Qed.

(** ** Rounding is monotone *)

Lemma SFleb_finite_pos_intro (m m' : positive) (e e' : Z) :
  e < e' \/ (e = e' /\ Z.pos m <= Z.pos m') ->
  SFleb (S754_finite false m e) (S754_finite false m' e') = true.
Proof.
  intros H. unfold SFleb, SFcompare.
  destruct (Z.compare_spec e e') as [Ee|Ee|Ee]; try reflexivity; [|lia].
  rewrite Pos.compare_cont_spec. unfold Pos.switch_Eq.
  destruct (Pos.compare_spec m m') as [Em|Em|Em]; try reflexivity; lia.
Qed.

Lemma pack_le (k E k' E' : Z) :
  0 <= k <= 2 ^ 53 -> 0 <= k' <= 2 ^ 53 ->
  (E = E' /\ k <= k') \/ (E < E' /\ 2 ^ 52 <= k') ->
  SFleb (pack false k E) (pack false k' E') = true.
Proof.
  intros Hk Hk' H.
  assert (E52 : Z.pos (2 ^ 52) = 2 ^ 52) by reflexivity.
  assert (P52 : 0 < 2 ^ 52) by reflexivity.
  assert (P53 : 2 ^ 53 = 2 * 2 ^ 52) by reflexivity.
  unfold pack. destruct k as [|p|p]; try lia.
  - destruct k' as [|p'|p']; try lia; [reflexivity|].
    destruct (Z.pos p' =? 2 ^ 53); [destruct (E' + 1 <=? 971)|destruct (E' <=? 971)];
      reflexivity.
  - destruct k' as [|p'|p']; try lia.
    destruct (Z.eqb_spec (Z.pos p) (2 ^ 53)) as [Ep|Ep];
      destruct (Z.eqb_spec (Z.pos p') (2 ^ 53)) as [Ep'|Ep'].
    + destruct (Z.leb_spec (E + 1) 971); destruct (Z.leb_spec (E' + 1) 971);
        try reflexivity; try lia.
      apply SFleb_finite_pos_intro. lia.
    + destruct (Z.leb_spec (E + 1) 971); destruct (Z.leb_spec E' 971);
        try reflexivity; try lia.
      apply SFleb_finite_pos_intro. rewrite E52. lia.
    + destruct (Z.leb_spec E 971); destruct (Z.leb_spec (E' + 1) 971);
        try reflexivity; try lia.
      apply SFleb_finite_pos_intro. lia.
    + destruct (Z.leb_spec E 971); destruct (Z.leb_spec E' 971);
        try reflexivity; try lia.
      apply SFleb_finite_pos_intro. lia.
Qed.

Theorem Rounds_mono (v w : R) (f g : spec_float) :
  (0 <= v <= w)%R -> Rounds v false f -> Rounds w false g ->
  SFleb f g = true.
Proof.
  intros [Hv Hvw] (E & k & HE & Hk & ->) (E' & k' & HE' & Hk' & ->).
  assert (Hw : (0 <= w)%R) by lra.
  destruct (rounded_significand v E k Hv HE Hk) as [H1 H2].
  destruct (rounded_significand w E' k' Hw HE' Hk') as [H1' H2'].
  assert (HEE : E <= E').
  { destruct (Z_le_gt_dec E E') as [|Hgt]; [assumption|exfalso].
    destruct HE as (HEa & HEb & [->|HEc]); destruct HE' as (HEa' & HEb' & HEc'); [lia|].
    pose proof (pow2_le (E' + 53) (E + 52) ltac:(lia)). lra. }
  apply pack_le; try assumption.
  destruct (Z.eq_dec E E') as [<-|Hne].
  - left. split; [reflexivity|].
    apply (is_RNE_mono (v / pow2 E) (w / pow2 E)); try assumption.
    pose proof (pow2_pos E). unfold Rdiv.
    apply Rmult_le_compat_r; [|assumption]. left. now apply Rinv_0_lt_compat.
  - right. split; [lia|]. destruct HE as (HEa & _). destruct H2' as [->|H2']; [lia|assumption].
Qed.

(** A binary64 number rounds to itself. *)
Lemma Rounds_self (s : bool) (m : positive) (e : Z) :
  valid_binary (S754_finite s m e) = true ->
  Rounds (F2R false m e) s (S754_finite s m e).
Proof.
  intros Hvalid.
  pose proof (valid_mantissa_bound _ _ _ Hvalid) as Hm.
  apply valid_finite in Hvalid. destruct Hvalid as (He & Hd & Hc).
  pose proof (digits2_pos_bounds m) as [Hlo _].
  pose proof (pow2_pos e) as Hpe.
  assert (Hval : F2R false m e = (IZR (Z.pos m) * pow2 e)%R) by (unfold F2R; ring).
  exists e, (Z.pos m). split; [|split].
  - unfold cexp. split; [lia|]. rewrite Hval. split.
    + rewrite (Z.add_comm e 53), pow2_add, (pow2_IZR 53) by lia.
      apply Rmult_lt_compat_r; [assumption|]. now apply IZR_lt.
    + destruct Hc as [->|Hc]; [now left|right].
      rewrite Hc in Hlo. change (53 - 1) with 52 in Hlo.
      rewrite (Z.add_comm e 52), pow2_add, (pow2_IZR 52) by lia.
      apply Rmult_le_compat_r; [lra|]. now apply IZR_le.
  - replace (F2R false m e / pow2 e)%R with (IZR (Z.pos m)).
    + apply is_RNE_exact.
    + rewrite Hval. field. lra.
  - unfold pack. destruct (Z.eqb_spec (Z.pos m) (2 ^ 53)) as [Ep|Ep]; [lia|].
    destruct (Z.leb_spec e 971); [reflexivity|lia].
Qed.

(** ** Non-negative numbers

    The numbers the runtime computation handles are zeros, positive finite
    numbers and [+inf]. *)
Definition nonneg (f : spec_float) : bool :=
  valid_binary f &&
  match f with
  | S754_zero _ => true
  | S754_finite s _ _ | S754_infinity s => negb s
  | S754_nan => false
  end.

(** [f] is the non-negative real [v] rounded to nearest: a zero of either
    sign when [v] is 0. *)
Definition rounds_nn (v : R) (f : spec_float) : Prop :=
  (v = 0%R /\ exists s, f = S754_zero s) \/ ((0 < v)%R /\ Rounds v false f).

Lemma nonneg_shape (f : spec_float) :
  nonneg f = true ->
  match f with
  | S754_zero _ => True
  | S754_finite s _ _ | S754_infinity s => s = false
  | S754_nan => False
  end.
Proof.
  unfold nonneg. intros H. apply andb_true_iff in H. destruct H as [_ H].
  destruct f as [s|[|]| |[|] m e]; try discriminate; reflexivity || exact I.
Qed.

Lemma rounds_nn_nonneg (v : R) (f : spec_float) : rounds_nn v f -> nonneg f = true.
Proof.
  intros [[_ [s ->]]|[Hv H]]; [reflexivity|].
  unfold nonneg. rewrite (Rounds_valid v false f) by (lra || assumption).
  pose proof (Rounds_shape v false f ltac:(lra) H) as Hs.
  destruct f as [s|s| |s m e]; try contradiction; subst; reflexivity.
Qed.

Lemma rounds_nn_value (v : R) (f : spec_float) : rounds_nn v f -> (0 <= v)%R.
Proof. intros [[-> _]|[Hv _]]; lra. Qed.

Lemma rounds_nn_mono (v w : R) (f g : spec_float) :
  (v <= w)%R -> rounds_nn v f -> rounds_nn w g -> SFleb f g = true.
Proof.
  intros Hvw [[-> [s ->]]|[Hv Hf]] Hg.
  - pose proof (nonneg_shape _ (rounds_nn_nonneg _ _ Hg)) as Hn.
    destruct g as [s'|[|]| |[|] m e]; try discriminate; try contradiction; reflexivity.
  - destruct Hg as [[-> _]|[Hw Hg]]; [lra|].
    apply (Rounds_mono v w); try assumption. lra.
Qed.

Lemma rounds_nn_self (f : spec_float) :
  nonneg f = true -> finite_or_zero f = true -> rounds_nn (B2R f) f.
Proof.
  unfold nonneg. intros Hn Hf. apply andb_true_iff in Hn. destruct Hn as [Hv Hs].
  destruct f as [s|s| |[|] m e]; try discriminate.
  - left. split; [reflexivity|now exists s].
  - right. split; [apply F2R_pos|]. cbn [B2R]. now apply Rounds_self.
Qed.

Lemma nonneg_valid (f : spec_float) : nonneg f = true -> valid_binary f = true.
Proof. unfold nonneg. intros H. apply andb_true_iff in H. tauto. Qed.

Lemma nonneg_B2R (f : spec_float) : nonneg f = true -> (0 <= B2R f)%R.
Proof.
  unfold nonneg. intros H. apply andb_true_iff in H. destruct H as [_ H].
  destruct f as [s|s| |[|] m e]; try discriminate; cbn [B2R]; try lra.
  left. apply F2R_pos.
Qed.

Lemma SFleb_inf (f : spec_float) :
  nonneg f = true -> SFleb f (S754_infinity false) = true.
Proof.
  unfold nonneg. intros H. apply andb_true_iff in H. destruct H as [_ H].
  destruct f as [s|[|]| |[|] m e]; try discriminate; reflexivity.
Qed.

Lemma SFleb_cases (x y : spec_float) :
  nonneg x = true -> nonneg y = true -> SFleb x y = true ->
  y = S754_infinity false \/
  (finite_or_zero x = true /\ finite_or_zero y = true /\ (B2R x <= B2R y)%R).
Proof.
  intros Hx Hy Hle.
  pose proof (nonneg_shape _ Hx) as Sx. pose proof (nonneg_shape _ Hy) as Sy.
  destruct y as [s|s| |s m e]; try contradiction; subst; try (now left); right.
  - assert (Hfx : finite_or_zero x = true).
    { destruct x as [s'|s'| |s' m' e']; try contradiction; subst;
        try discriminate; reflexivity. }
    repeat split; try assumption.
    apply SFleb_spec; auto using nonneg_valid.
  - assert (Hfx : finite_or_zero x = true).
    { destruct x as [s'|s'| |s' m' e']; try contradiction; subst;
        try discriminate; reflexivity. }
    repeat split; try assumption.
    apply SFleb_spec; auto using nonneg_valid.
Qed.

(** ** The four operations on non-negative numbers *)

Lemma SFadd_nn (x y : spec_float) :
  nonneg x = true -> nonneg y = true ->
  finite_or_zero x = true -> finite_or_zero y = true ->
  rounds_nn (B2R x + B2R y) (SFadd prec emax x y).
Proof.
  intros Hx Hy Fx Fy.
  pose proof (nonneg_shape _ Hx) as Sx. pose proof (nonneg_shape _ Hy) as Sy.
  destruct x as [sx|sx| |sx mx ex]; try discriminate;
    destruct y as [sy|sy| |sy my ey]; try discriminate; subst.
  - left. split; [cbn [B2R]; lra|]. cbn [SFadd].
    destruct sx, sy; eauto.
  - cbn [SFadd]. replace (B2R (S754_zero sx) + B2R (S754_finite false my ey))%R
      with (B2R (S754_finite false my ey)) by (cbn [B2R]; lra).
    now apply rounds_nn_self.
  - cbn [SFadd]. replace (B2R (S754_finite false mx ex) + B2R (S754_zero sy))%R
      with (B2R (S754_finite false mx ex)) by (cbn [B2R]; lra).
    now apply rounds_nn_self.
  - right. cbn [B2R].
    pose proof (F2R_pos mx ex). pose proof (F2R_pos my ey).
    split; [lra|]. apply SFadd_finite. lra.
Qed.

Lemma SFadd_inf_l (y : spec_float) :
  nonneg y = true ->
  SFadd prec emax (S754_infinity false) y = S754_infinity false.
Proof.
  intros Hy. pose proof (nonneg_shape _ Hy) as Sy.
  destruct y as [sy|sy| |sy my ey]; try contradiction; subst; reflexivity.
Qed.

Lemma SFadd_inf_r (x : spec_float) :
  nonneg x = true ->
  SFadd prec emax x (S754_infinity false) = S754_infinity false.
Proof.
  intros Hx. pose proof (nonneg_shape _ Hx) as Sx.
  destruct x as [sx|sx| |sx mx ex]; try contradiction; subst; reflexivity.
Qed.

Lemma nonneg_cases (x : spec_float) :
  nonneg x = true -> x = S754_infinity false \/ finite_or_zero x = true.
Proof.
  intros Hx. pose proof (nonneg_shape _ Hx) as Sx.
  destruct x as [sx|sx| |sx mx ex]; try contradiction; subst; auto.
Qed.

Lemma SFadd_nonneg (x y : spec_float) :
  nonneg x = true -> nonneg y = true -> nonneg (SFadd prec emax x y) = true.
Proof.
  intros Hx Hy.
  destruct (nonneg_cases x Hx) as [->|Fx]; [now rewrite SFadd_inf_l|].
  destruct (nonneg_cases y Hy) as [->|Fy]; [now rewrite SFadd_inf_r|].
  apply (rounds_nn_nonneg (B2R x + B2R y)). now apply SFadd_nn.
Qed.

Lemma SFadd_mono_l (x1 x2 y : spec_float) :
  nonneg x1 = true -> nonneg x2 = true -> nonneg y = true ->
  SFleb x1 x2 = true ->
  SFleb (SFadd prec emax x1 y) (SFadd prec emax x2 y) = true.
Proof.
  intros H1 H2 Hy Hle.
  destruct (nonneg_cases y Hy) as [->|Fy].
  { now rewrite !SFadd_inf_r. }
  destruct (SFleb_cases x1 x2 H1 H2 Hle) as [->|(F1 & F2 & Hv)].
  { rewrite (SFadd_inf_l y Hy). apply SFleb_inf. now apply SFadd_nonneg. }
  apply (rounds_nn_mono (B2R x1 + B2R y) (B2R x2 + B2R y)).
  - lra.
  - now apply SFadd_nn.
  - now apply SFadd_nn.
Qed.

Lemma SFadd_mono_r (x y1 y2 : spec_float) :
  nonneg x = true -> nonneg y1 = true -> nonneg y2 = true ->
  SFleb y1 y2 = true ->
  SFleb (SFadd prec emax x y1) (SFadd prec emax x y2) = true.
Proof.
  intros Hx H1 H2 Hle.
  destruct (nonneg_cases x Hx) as [->|Fx].
  { now rewrite !SFadd_inf_l. }
  destruct (SFleb_cases y1 y2 H1 H2 Hle) as [->|(F1 & F2 & Hv)].
  { rewrite (SFadd_inf_r x Hx). apply SFleb_inf. now apply SFadd_nonneg. }
  apply (rounds_nn_mono (B2R x + B2R y1) (B2R x + B2R y2)).
  - lra.
  - now apply SFadd_nn.
  - now apply SFadd_nn.
Qed.

Lemma SFmul_nn (x y : spec_float) :
  nonneg x = true -> nonneg y = true ->
  finite_or_zero x = true -> finite_or_zero y = true ->
  rounds_nn (B2R x * B2R y) (SFmul prec emax x y).
Proof.
  intros Hx Hy Fx Fy.
  pose proof (nonneg_shape _ Hx) as Sx. pose proof (nonneg_shape _ Hy) as Sy.
  pose proof (nonneg_valid _ Hx) as Vx. pose proof (nonneg_valid _ Hy) as Vy.
  destruct x as [sx|sx| |sx mx ex]; try discriminate;
    destruct y as [sy|sy| |sy my ey]; try discriminate; subst;
    try (left; split; [cbn [B2R]; lra|cbn [SFmul]; eauto]).
  right. cbn [B2R].
  pose proof (F2R_pos mx ex). pose proof (F2R_pos my ey).
  split; [now apply Rmult_lt_0_compat|].
  now apply (SFmul_finite false false).
Qed.

Lemma SFmul_mono_l (x1 x2 y : spec_float) :
  nonneg x1 = true -> nonneg x2 = true -> nonneg y = true ->
  finite_or_zero x1 = true -> finite_or_zero x2 = true ->
  finite_or_zero y = true ->
  SFleb x1 x2 = true ->
  SFleb (SFmul prec emax x1 y) (SFmul prec emax x2 y) = true.
Proof.
  intros H1 H2 Hy F1 F2 Fy Hle.
  apply (rounds_nn_mono (B2R x1 * B2R y) (B2R x2 * B2R y)).
  - apply Rmult_le_compat_r; [now apply nonneg_B2R|].
    apply SFleb_spec; auto using nonneg_valid.
  - now apply SFmul_nn.
  - now apply SFmul_nn.
Qed.

(** A positive finite number. *)
Definition positive_finite (f : spec_float) : bool :=
  valid_binary f &&
  match f with
  | S754_finite false _ _ => true
  | _ => false
  end.

Lemma positive_finite_shape (f : spec_float) :
  positive_finite f = true ->
  exists m e, f = S754_finite false m e /\
              valid_binary (S754_finite false m e) = true.
Proof.
  unfold positive_finite. intros H. apply andb_true_iff in H. destruct H as [V H].
  destruct f as [s|s| |[|] m e]; try discriminate. eauto.
Qed.

Lemma positive_finite_nonneg (f : spec_float) :
  positive_finite f = true -> nonneg f = true /\ finite_or_zero f = true /\ (0 < B2R f)%R.
Proof.
  intros H. destruct (positive_finite_shape f H) as (m & e & -> & V).
  unfold nonneg. rewrite V. repeat split. apply F2R_pos.
Qed.

Lemma SFdiv_nn (x y : spec_float) :
  nonneg x = true -> finite_or_zero x = true -> positive_finite y = true ->
  rounds_nn (B2R x / B2R y) (SFdiv prec emax x y).
Proof.
  intros Hx Fx Hy.
  pose proof (nonneg_shape _ Hx) as Sx.
  destruct (positive_finite_shape y Hy) as (my & ey & -> & Vy).
  destruct x as [sx|sx| |sx mx ex]; try discriminate; subst.
  - left. split; [cbn [B2R]; unfold Rdiv; lra|cbn [SFdiv]; eauto].
  - right. cbn [B2R].
    pose proof (F2R_pos mx ex). pose proof (F2R_pos my ey).
    split; [apply Rmult_lt_0_compat; [assumption|now apply Rinv_0_lt_compat]|].
    apply (SFdiv_finite false false).
Qed.

(** Division by a positive constant is monotone, [+inf] included. *)
Lemma SFdiv_nonneg_l (x c : spec_float) :
  nonneg x = true -> positive_finite c = true ->
  nonneg (SFdiv prec emax x c) = true.
Proof.
  intros Hx Hc.
  destruct (nonneg_cases x Hx) as [->|Fx].
  - destruct (positive_finite_shape c Hc) as (m & e & -> & V). reflexivity.
  - apply (rounds_nn_nonneg (B2R x / B2R c)). now apply SFdiv_nn.
Qed.

Lemma SFdiv_mono_l (x1 x2 c : spec_float) :
  nonneg x1 = true -> nonneg x2 = true -> positive_finite c = true ->
  SFleb x1 x2 = true ->
  SFleb (SFdiv prec emax x1 c) (SFdiv prec emax x2 c) = true.
Proof.
  intros H1 H2 Hc Hle.
  destruct (SFleb_cases x1 x2 H1 H2 Hle) as [->|(F1 & F2 & Hv)].
  { replace (SFdiv prec emax (S754_infinity false) c) with (S754_infinity false).
    - apply SFleb_inf. now apply SFdiv_nonneg_l.
    - destruct (positive_finite_shape c Hc) as (m & e & -> & V). reflexivity. }
  destruct (positive_finite_nonneg c Hc) as (_ & _ & Hpos).
  apply (rounds_nn_mono (B2R x1 / B2R c) (B2R x2 / B2R c)).
  - unfold Rdiv. apply Rmult_le_compat_r; [|assumption].
    left. now apply Rinv_0_lt_compat.
  - now apply SFdiv_nn.
  - now apply SFdiv_nn.
Qed.

(** A divisor that is [+0], positive or [+inf]. *)
Definition plus_signed (f : spec_float) : bool :=
  valid_binary f &&
  match f with
  | S754_zero s | S754_finite s _ _ | S754_infinity s => negb s
  | S754_nan => false
  end.

Lemma plus_signed_cases (f : spec_float) :
  plus_signed f = true ->
  f = S754_zero false \/ f = S754_infinity false \/ positive_finite f = true.
Proof.
  unfold plus_signed, positive_finite. intros H. apply andb_true_iff in H.
  destruct H as [V H]. rewrite V.
  destruct f as [[|]|[|]| |[|] m e]; try discriminate; auto.
Qed.

Lemma plus_signed_nonneg (f : spec_float) : plus_signed f = true -> nonneg f = true.
Proof.
  intros H. destruct (plus_signed_cases f H) as [->|[->|H']]; try reflexivity.
  now apply positive_finite_nonneg.
Qed.

Lemma SFdiv_nonneg_r (c t : spec_float) :
  positive_finite c = true -> plus_signed t = true ->
  nonneg (SFdiv prec emax c t) = true.
Proof.
  intros Hc Ht. destruct (positive_finite_shape c Hc) as (m & e & -> & V).
  destruct (plus_signed_cases t Ht) as [->|[->|H']]; try reflexivity.
  apply (rounds_nn_nonneg (B2R (S754_finite false m e) / B2R t)).
  apply SFdiv_nn; try assumption; try reflexivity.
Qed.

(** A positive quantity divided by a larger divisor is smaller. *)
Lemma SFdiv_antitone (c t1 t2 : spec_float) :
  positive_finite c = true -> plus_signed t1 = true -> plus_signed t2 = true ->
  SFleb t1 t2 = true ->
  SFleb (SFdiv prec emax c t2) (SFdiv prec emax c t1) = true.
Proof.
  intros Hc H1 H2 Hle.
  pose proof (SFdiv_nonneg_r c t1 Hc H1) as N1.
  pose proof (SFdiv_nonneg_r c t2 Hc H2) as N2.
  destruct (positive_finite_nonneg c Hc) as (Nc & Fc & Pc).
  destruct (positive_finite_shape c Hc) as (m & e & Ec & V).
  destruct (plus_signed_cases t1 H1) as [->|[->|P1]].
  - subst c. cbn [SFdiv xorb]. now apply SFleb_inf.
  - destruct (plus_signed_cases t2 H2) as [->|[->|P2]].
    + discriminate.
    + subst c. reflexivity.
    + destruct (positive_finite_shape t2 P2) as (m2 & e2 & -> & V2). discriminate.
  - destruct (plus_signed_cases t2 H2) as [->|[->|P2]].
    + destruct (positive_finite_shape t1 P1) as (m1 & e1 & -> & V1). discriminate.
    + subst c.
      pose proof (nonneg_shape _ N1) as S1.
      destruct (SFdiv prec emax (S754_finite false m e) t1) as [s|s| |s m' e'];
        try contradiction; subst; reflexivity.
    + destruct (positive_finite_nonneg t1 P1) as (Nt1 & Ft1 & Pt1).
      destruct (positive_finite_nonneg t2 P2) as (Nt2 & Ft2 & Pt2).
      apply (rounds_nn_mono (B2R c / B2R t2) (B2R c / B2R t1)).
      * unfold Rdiv. apply Rmult_le_compat_l; [lra|].
        apply Rinv_le_contravar; [assumption|].
        apply SFleb_spec; auto using nonneg_valid.
      * now apply SFdiv_nn.
      * now apply SFdiv_nn.
Qed.

Lemma SFsub_nn (x y : spec_float) :
  nonneg x = true -> nonneg y = true ->
  finite_or_zero x = true -> finite_or_zero y = true ->
  (B2R y <= B2R x)%R ->
  rounds_nn (B2R x - B2R y) (SFsub prec emax x y).
Proof.
  intros Hx Hy Fx Fy Hle.
  pose proof (nonneg_shape _ Hx) as Sx. pose proof (nonneg_shape _ Hy) as Sy.
  destruct x as [sx|sx| |sx mx ex]; try discriminate;
    destruct y as [sy|sy| |sy my ey]; try discriminate; subst.
  - left. split; [cbn [B2R]; lra|]. cbn [SFsub].
    destruct sx, sy; eauto.
  - exfalso. cbn [B2R] in Hle. pose proof (F2R_pos my ey). lra.
  - cbn [SFsub]. replace (B2R (S754_finite false mx ex) - B2R (S754_zero sy))%R
      with (B2R (S754_finite false mx ex)) by (cbn [B2R]; lra).
    now apply rounds_nn_self.
  - cbn [B2R] in *.
    pose proof (SFsub_finite false false mx my ex ey) as (H0 & Hp & _).
    destruct (Rle_lt_or_eq_dec _ _ Hle) as [Hlt|Heq].
    + right. split; [lra|]. apply Hp. lra.
    + left. split; [lra|]. exists false. apply H0. lra.
Qed.

(** A real number that is at least [2^a] does not round to zero. *)
Lemma Rounds_lower (a : Z) (v : R) (f : spec_float) :
  emin64 <= a -> (pow2 a <= v)%R -> Rounds v false f ->
  f = S754_infinity false \/
  (positive_finite f = true /\ (pow2 a <= B2R f)%R).
Proof.
  intros Ha Hv HR.
  pose proof (pow2_pos a) as Hpa.
  pose proof (Rounds_valid v false f ltac:(lra) HR) as Vf.
  destruct HR as (E & k & HE & Hk & Hf).
  destruct (rounded_significand v E k ltac:(lra) HE Hk) as [H1 H2].
  pose proof (pow2_pos E) as HpE.
  assert (Hkv : (pow2 a <= IZR k * pow2 E)%R /\ 0 < k).
  { destruct (Z_le_gt_dec E a) as [Hle|Hgt].
    - assert (Hu : (IZR (2 ^ (a - E)) <= v / pow2 E)%R).
      { rewrite <- pow2_IZR by lia. apply Rdiv_pow2_le.
        replace (E + (a - E)) with a by lia. assumption. }
      pose proof (is_RNE_lower _ _ _ Hu Hk) as Hkl.
      pose proof (Z.pow_pos_nonneg 2 (a - E) ltac:(lia) ltac:(lia)).
      split; [|lia].
      replace a with ((a - E) + E) at 1 by lia. rewrite pow2_add.
      apply Rmult_le_compat_r; [lra|].
      rewrite pow2_IZR by lia. now apply IZR_le.
    - destruct HE as (HE1 & _). destruct H2 as [->|H2]; [lia|].
      split; [|lia].
      apply Rle_trans with (pow2 (52 + E)).
      + apply pow2_le. lia.
      + rewrite pow2_add. apply Rmult_le_compat_r; [lra|].
        rewrite pow2_IZR by lia. now apply IZR_le. }
  destruct Hkv as [Hkv Hk0].
  pose proof (pack_value false k E ltac:(lia)) as Hpv.
  pose proof (pack_shape false k E ltac:(lia)) as Hps.
  rewrite <- Hf in Hpv, Hps.
  destruct f as [s|s| |s m e]; try contradiction; subst s.
  - exfalso. cbn [B2R signed] in Hpv. lra.
  - now left.
  - right. unfold positive_finite. rewrite Vf. split; [reflexivity|].
    rewrite Hpv. cbn [signed]. assumption.
Qed.

Lemma SFleb_total (x y : spec_float) :
  nonneg x = true -> nonneg y = true ->
  SFleb x y = true \/ SFleb y x = true.
Proof.
  intros Hx Hy.
  destruct (nonneg_cases y Hy) as [->|Fy]; [left; now apply SFleb_inf|].
  destruct (nonneg_cases x Hx) as [->|Fx]; [right; now apply SFleb_inf|].
  destruct (Rle_or_lt (B2R x) (B2R y)) as [H|H].
  - left. apply SFleb_spec; auto using nonneg_valid.
  - right. apply SFleb_spec; auto using nonneg_valid. lra.
Qed.

Lemma SFleb_trans (x y z : spec_float) :
  nonneg x = true -> nonneg y = true -> nonneg z = true ->
  SFleb x y = true -> SFleb y z = true -> SFleb x z = true.
Proof.
  intros Hx Hy Hz Hxy Hyz.
  destruct (SFleb_cases y z Hy Hz Hyz) as [->|(Fy & Fz & Ryz)];
    [now apply SFleb_inf|].
  destruct (SFleb_cases x y Hx Hy Hxy) as [->|(Fx & _ & Rxy)]; [discriminate|].
  apply SFleb_spec; auto using nonneg_valid. lra.
Qed.

Lemma SFleb_finite (x y : spec_float) :
  nonneg x = true -> SFleb x y = true -> finite_or_zero y = true ->
  finite_or_zero x = true.
Proof.
  intros Hx Hle Fy. pose proof (nonneg_shape _ Hx) as Sx.
  destruct x as [s|s| |s m e]; try contradiction; subst; try reflexivity.
  destruct y as [s|s| |s m e]; discriminate.
Qed.

Lemma nonneg_Prim2SF (x : float) :
  nonneg (Prim2SF x) = true <->
  match Prim2SF x with
  | S754_zero _ => True
  | S754_finite s _ _ | S754_infinity s => s = false
  | S754_nan => False
  end.
Proof.
  unfold nonneg. rewrite Prim2SF_valid. cbn [andb].
  destruct (Prim2SF x) as [s|[|]| |[|] m e]; intuition discriminate.
Qed.

(** ** [rint] and numpy's [round] are monotone *)

Definition SFtwo52 : spec_float := S754_finite false 4503599627370496 0.
Definition SFtwo53 : spec_float := S754_finite false 4503599627370496 1.

(** [rint] on the representation of a non-negative number. *)
Definition SFrint (u : spec_float) : spec_float :=
  match u with
  | S754_finite false _ _ =>
      if SFltb u SFtwo52
      then SFsub prec emax (SFadd prec emax u SFtwo52) SFtwo52
      else u
  | _ => u
  end.

Lemma get_sign_nonneg (x : float) :
  nonneg (Prim2SF x) = true ->
  get_sign x = match Prim2SF x with S754_zero s => s | _ => false end.
Proof.
  intros Hx. apply nonneg_Prim2SF in Hx.
  unfold get_sign, is_zero. rewrite eqb_spec.
  destruct (Prim2SF x) as [s|s| |s m e] eqn:Ex; try contradiction; subst.
  - change (SFeqb (S754_zero s) (Prim2SF zero)) with true. cbv iota.
    rewrite ltb_spec, div_spec, Ex. now destruct s.
  - change (SFeqb (S754_infinity false) (Prim2SF zero)) with false. cbv iota.
    now rewrite ltb_spec, Ex.
  - change (SFeqb (S754_finite false m e) (Prim2SF zero)) with false. cbv iota.
    now rewrite ltb_spec, Ex.
Qed.

Lemma rint_spec (x : float) :
  nonneg (Prim2SF x) = true -> Prim2SF (rint x) = SFrint (Prim2SF x).
Proof.
  intros Hx. pose proof (get_sign_nonneg x Hx) as Hs.
  apply nonneg_Prim2SF in Hx. unfold rint.
  rewrite ltb_spec, abs_spec.
  change (Prim2SF two52) with SFtwo52.
  destruct (Prim2SF x) as [s|s| |s m e] eqn:Ex; try contradiction.
  - cbn [SFabs]. change (SFltb (S754_zero false) SFtwo52) with true. cbv iota.
    assert (Hr : Prim2SF (abs x + two52 - two52) = S754_zero false).
    { rewrite sub_spec, add_spec, abs_spec, Ex. reflexivity. }
    rewrite Hs. destruct s.
    + rewrite opp_spec, Hr. reflexivity.
    + exact Hr.
  - rewrite Hx in *. cbn [SFabs SFrint].
    change (SFltb (S754_infinity false) SFtwo52) with false.
    cbv iota. exact Ex.
  - rewrite Hx in *. cbn [SFabs SFrint]. rewrite Hs.
    destruct (SFltb (S754_finite false m e) SFtwo52) eqn:Hlt.
    + rewrite sub_spec, add_spec, abs_spec, Ex. reflexivity.
    + exact Ex.
Qed.

Lemma SFtwo52_nonneg : nonneg SFtwo52 = true.
Proof. reflexivity. Qed.

Lemma SFtwo53_value : B2R SFtwo53 = (2 * B2R SFtwo52)%R.
Proof. cbn [B2R SFtwo53 SFtwo52]. unfold F2R. rewrite pow2_1, pow2_0. ring. Qed.

(** The shape of [(u + 2^52) - 2^52] for [0 < u < 2^52]. *)
Lemma round_trip (u : spec_float) :
  nonneg u = true -> finite_or_zero u = true -> (B2R u <= B2R SFtwo52)%R ->
  let g := SFadd prec emax u SFtwo52 in
  nonneg g = true /\ finite_or_zero g = true /\
  (B2R SFtwo52 <= B2R g <= B2R SFtwo53)%R /\
  rounds_nn (B2R g - B2R SFtwo52) (SFsub prec emax g SFtwo52).
Proof.
  intros Hu Fu Hlt g.
  pose proof (nonneg_B2R u Hu) as Hu0.
  pose proof (SFadd_nn u SFtwo52 Hu SFtwo52_nonneg Fu eq_refl) as Hg. fold g in Hg.
  pose proof (rounds_nn_nonneg _ _ Hg) as Ng.
  assert (Hup : SFleb g SFtwo53 = true).
  { apply (rounds_nn_mono (B2R u + B2R SFtwo52) (B2R SFtwo53)); try assumption.
    - rewrite SFtwo53_value. lra.
    - now apply rounds_nn_self. }
  assert (Fg : finite_or_zero g = true).
  { now apply (SFleb_finite g SFtwo53). }
  assert (Hlo : SFleb SFtwo52 g = true).
  { apply (rounds_nn_mono (B2R SFtwo52) (B2R u + B2R SFtwo52)); try assumption.
    - lra.
    - now apply rounds_nn_self. }
  apply SFleb_spec in Hup; auto using nonneg_valid.
  apply SFleb_spec in Hlo; auto using nonneg_valid.
  repeat split; try assumption.
  apply SFsub_nn; auto.
Qed.

Lemma SFltb_two52 (u : spec_float) :
  nonneg u = true -> finite_or_zero u = true ->
  (SFltb u SFtwo52 = true <-> (B2R u < B2R SFtwo52)%R).
Proof. intros Hu Fu. apply SFltb_spec; auto using nonneg_valid. Qed.

Lemma SFrint_cases (u : spec_float) :
  nonneg u = true ->
  (SFrint u = u /\ (finite_or_zero u = true -> SFltb u SFtwo52 = true ->
                    exists s, u = S754_zero s)) \/
  (finite_or_zero u = true /\ (0 < B2R u < B2R SFtwo52)%R /\
   SFrint u = SFsub prec emax (SFadd prec emax u SFtwo52) SFtwo52).
Proof.
  intros Hu. pose proof (nonneg_shape _ Hu) as Su.
  destruct u as [s|s| |s m e]; try contradiction; subst.
  - left. split; [reflexivity|]. eauto.
  - left. split; [reflexivity|]. discriminate.
  - cbn [SFrint]. destruct (SFltb (S754_finite false m e) SFtwo52) eqn:Hlt.
    + right. split; [reflexivity|]. split; [|reflexivity].
      split; [apply F2R_pos|]. now apply SFltb_two52.
    + left. split; [reflexivity|]. discriminate.
Qed.

Lemma SFrint_nonneg (u : spec_float) : nonneg u = true -> nonneg (SFrint u) = true.
Proof.
  intros Hu. destruct (SFrint_cases u Hu) as [[-> _]|(Fu & Hlt & ->)]; [assumption|].
  destruct (round_trip u Hu Fu ltac:(lra)) as (_ & _ & _ & H).
  now apply rounds_nn_nonneg in H.
Qed.

Lemma SFltb_false (u : spec_float) :
  nonneg u = true -> SFltb u SFtwo52 = false -> SFleb SFtwo52 u = true.
Proof.
  intros Hu Hlt.
  destruct (nonneg_cases u Hu) as [->|Fu]; [reflexivity|].
  apply SFleb_spec; auto using nonneg_valid.
  destruct (Rle_or_lt (B2R SFtwo52) (B2R u)) as [H|H]; [assumption|].
  apply SFltb_two52 in H; try assumption. congruence.
Qed.

Lemma SFleb_zero (s : bool) (y : spec_float) :
  nonneg y = true -> SFleb (S754_zero s) y = true.
Proof.
  intros Hy. pose proof (nonneg_shape _ Hy) as Sy.
  destruct y as [s'|s'| |s' m e]; try contradiction; subst; reflexivity.
Qed.

Lemma round_trip_small (u : spec_float) :
  nonneg u = true -> finite_or_zero u = true -> (B2R u <= B2R SFtwo52)%R ->
  SFleb (SFsub prec emax (SFadd prec emax u SFtwo52) SFtwo52) SFtwo52 = true.
Proof.
  intros Hu Fu Hlt.
  destruct (round_trip u Hu Fu Hlt) as (Ng & Fg & [Hlo Hhi] & Hsub).
  rewrite SFtwo53_value in Hhi.
  eapply rounds_nn_mono; [|exact Hsub|apply rounds_nn_self; reflexivity]. lra.
Qed.

Theorem SFrint_mono (u1 u2 : spec_float) :
  nonneg u1 = true -> nonneg u2 = true -> SFleb u1 u2 = true ->
  SFleb (SFrint u1) (SFrint u2) = true.
Proof.
  intros H1 H2 Hle.
  pose proof (SFrint_nonneg u2 H2) as N2.
  destruct (SFrint_cases u1 H1) as [[E1 Z1]|(F1 & [P1 L1] & E1)];
    destruct (SFrint_cases u2 H2) as [[E2 Z2]|(F2 & [P2 L2] & E2)].
  - now rewrite E1, E2.
  - assert (Hv : (B2R u1 <= B2R u2)%R).
    { apply SFleb_spec; auto using nonneg_valid. now apply (SFleb_finite u1 u2). }
    pose proof (SFleb_finite u1 u2 H1 Hle F2) as F1.
    destruct (Z1 F1) as [s ->].
    + apply SFltb_two52; try assumption. lra.
    + rewrite E1. now apply SFleb_zero.
  - rewrite E2.
    destruct (nonneg_cases u2 H2) as [->|F2]; [apply SFleb_inf; now apply SFrint_nonneg|].
    assert (Hv : (B2R u1 <= B2R u2)%R) by (apply SFleb_spec; auto using nonneg_valid).
    destruct (SFltb u2 SFtwo52) eqn:Hlt.
    + destruct (Z2 F2 eq_refl) as [s ->]. cbn [B2R] in Hv. lra.
    + apply SFltb_false in Hlt; [|assumption].
      apply (SFleb_trans _ SFtwo52); try assumption; try reflexivity.
      * now apply SFrint_nonneg.
      * rewrite E1. apply round_trip_small; try assumption. lra.
  - rewrite E1, E2.
    destruct (round_trip u1 H1 F1 ltac:(lra)) as (Ng1 & Fg1 & _ & Hs1).
    destruct (round_trip u2 H2 F2 ltac:(lra)) as (Ng2 & Fg2 & _ & Hs2).
    eapply rounds_nn_mono; [|exact Hs1|exact Hs2].
    assert (Hg : SFleb (SFadd prec emax u1 SFtwo52) (SFadd prec emax u2 SFtwo52) = true).
    { apply SFadd_mono_l; try assumption. reflexivity. }
    apply SFleb_spec in Hg; auto using nonneg_valid. lra.
Qed.
(** * Properties *)

(** ** Tactics and basic facts *)

Lemma bind_Ok {A B : Type} (r : result A) (k : A -> result B) (b : B) :
  bind r k = Ok b -> exists a, r = Ok a /\ k a = Ok b.
Proof. destruct r as [a|e]; simpl; intros H; [eauto | discriminate]. Qed.

Lemma bind_Raise {A B : Type} (r : result A) (k : A -> result B) (e : exn) :
  bind r k = Raise e -> r = Raise e \/ exists a, r = Ok a /\ k a = Raise e.
Proof. destruct r as [a|e']; simpl; intros H; [eauto | left; congruence]. Qed.

(** Comparisons of two numbers never raise. *)
Lemma py_compare_numeric (a b : value) :
  is_numeric a = true -> is_numeric b = true ->
  exists c, py_compare a b = Ok c.
Proof. destruct a, b; simpl; try discriminate; eauto. Qed.

Lemma py_eq_str (v : value) (s : string) :
  py_eq v (VStr s) = true <-> v = VStr s.
Proof.
  destruct v; simpl; try (split; [discriminate | discriminate || congruence]).
  rewrite String.eqb_eq. split; congruence.
Qed.

(** ** Input validation (spec section 4.1) *)

Lemma numeric_isinstance (v : value) :
  isinstance_int v || isinstance_float v = is_numeric v.
Proof. now destruct v. Qed.

Lemma integer_numeric (v : value) : isinstance_int v = true -> is_numeric v = true.
Proof. now destruct v. Qed.

(** What each setter does, by whether the constraint holds. *)
Ltac setter_cases v :=
  unfold ge_value, gt_value, le_value, numeric, integer;
  rewrite ?numeric_isinstance;
  destruct v as [ | n | x | x | s ]; simpl;
  unfold py_ge, py_gt, py_le; simpl;
  repeat match goal with
         | |- context [ compare_int_float ?n ?x ] =>
             destruct (compare_int_float n x) as [[]|]; simpl
         | |- context [ Z.compare ?a ?b ] => destruct (Z.compare a b); simpl
         end;
  try tauto; try intuition congruence.

Module GeneralizedFacts.
Import Generalized.

Lemma set_battery_type_spec (v : value) (self : Battery) :
  (chemistry_ok v -> set_battery_type v self = Ok (assign_battery_type v self)) /\
  (~ chemistry_ok v -> set_battery_type v self = Ok self).
Proof.
  unfold set_battery_type, chemistry_ok.
  destruct (py_eq v (VStr "Lithium Metal")) eqn:E1;
    destruct (py_eq v (VStr "Alkaline")) eqn:E2; simpl;
    try apply py_eq_str in E1; try apply py_eq_str in E2; try tauto.
  split; [intros [H|H]; apply py_eq_str in H; congruence | reflexivity].
Qed.

Lemma set_battery_capacity_spec (v : value) (self : Battery) :
  (capacity_ok v -> set_battery_capacity v self = Ok (assign_battery_capacity v self)) /\
  (~ capacity_ok v -> set_battery_capacity v self = Ok self).
Proof. unfold set_battery_capacity, capacity_ok. setter_cases v. Qed.

Lemma set_operating_temp_spec (v : value) (self : Battery) :
  (temperature_ok v -> set_operating_temp v self = Ok (assign_operating_temp v self)) /\
  (~ temperature_ok v -> set_operating_temp v self = Ok self).
Proof. unfold set_operating_temp, temperature_ok. setter_cases v. Qed.

Lemma set_load_current_spec (v : value) (self : Battery) :
  (current_ok v -> set_load_current v self = Ok (assign_load_current v self)) /\
  (~ current_ok v -> set_load_current v self = Ok self).
Proof. unfold set_load_current, current_ok. setter_cases v. Qed.

Lemma set_load_duration_per_day_spec (v : value) (self : Battery) :
  (duration_ok v ->
   set_load_duration_per_day v self = Ok (assign_load_duration_per_day v self)) /\
  (~ duration_ok v -> set_load_duration_per_day v self = Ok self).
Proof. unfold set_load_duration_per_day, duration_ok. setter_cases v. Qed.

Lemma set_sleep_current_spec (v : value) (self : Battery) :
  (current_ok v -> set_sleep_current v self = Ok (assign_sleep_current v self)) /\
  (~ current_ok v -> set_sleep_current v self = Ok self).
Proof. unfold set_sleep_current, current_ok. setter_cases v. Qed.

Lemma set_battery_type_cases (v : value) (self : Battery) :
  (chemistry_ok v /\ set_battery_type v self = Ok (assign_battery_type v self)) \/
  (~ chemistry_ok v /\ set_battery_type v self = Ok self).
Proof.
  unfold set_battery_type, chemistry_ok.
  destruct (py_eq v (VStr "Lithium Metal")) eqn:E1;
    destruct (py_eq v (VStr "Alkaline")) eqn:E2; simpl;
    try apply py_eq_str in E1; try apply py_eq_str in E2; try tauto.
  right. split; [|reflexivity]. intros [H|H]; apply py_eq_str in H; congruence.
Qed.

Lemma set_battery_capacity_cases (v : value) (self : Battery) :
  (capacity_ok v /\ set_battery_capacity v self = Ok (assign_battery_capacity v self)) \/
  (~ capacity_ok v /\ set_battery_capacity v self = Ok self).
Proof. unfold set_battery_capacity, capacity_ok. setter_cases v. Qed.

Lemma set_operating_temp_cases (v : value) (self : Battery) :
  (temperature_ok v /\ set_operating_temp v self = Ok (assign_operating_temp v self)) \/
  (~ temperature_ok v /\ set_operating_temp v self = Ok self).
Proof. unfold set_operating_temp, temperature_ok. setter_cases v. Qed.

Lemma set_load_current_cases (v : value) (self : Battery) :
  (current_ok v /\ set_load_current v self = Ok (assign_load_current v self)) \/
  (~ current_ok v /\ set_load_current v self = Ok self).
Proof. unfold set_load_current, current_ok. setter_cases v. Qed.

Lemma set_load_duration_per_day_cases (v : value) (self : Battery) :
  (duration_ok v /\
   set_load_duration_per_day v self = Ok (assign_load_duration_per_day v self)) \/
  (~ duration_ok v /\ set_load_duration_per_day v self = Ok self).
Proof. unfold set_load_duration_per_day, duration_ok. setter_cases v. Qed.

Lemma set_sleep_current_cases (v : value) (self : Battery) :
  (current_ok v /\ set_sleep_current v self = Ok (assign_sleep_current v self)) \/
  (~ current_ok v /\ set_sleep_current v self = Ok self).
Proof. unfold set_sleep_current, current_ok. setter_cases v. Qed.

End GeneralizedFacts.

Module LithiumFacts.
Import Lithium.

Lemma set_battery_capacity_li_spec (v : value) (self : Battery) :
  (capacity_ok_lithium v ->
   set_battery_capacity v self = Ok (assign_battery_capacity v self)) /\
  (~ capacity_ok_lithium v -> set_battery_capacity v self = Ok self).
Proof. unfold set_battery_capacity, capacity_ok_lithium. setter_cases v. Qed.

Lemma set_operating_temp_li_spec (v : value) (self : Battery) :
  (temperature_ok v -> set_operating_temp v self = Ok (assign_operating_temp v self)) /\
  (~ temperature_ok v -> set_operating_temp v self = Ok self).
Proof. unfold set_operating_temp, temperature_ok. setter_cases v. Qed.

Lemma set_load_current_li_spec (v : value) (self : Battery) :
  (current_ok v -> set_load_current v self = Ok (assign_load_current v self)) /\
  (~ current_ok v -> set_load_current v self = Ok self).
Proof. unfold set_load_current, current_ok. setter_cases v. Qed.

Lemma set_load_duration_per_day_li_spec (v : value) (self : Battery) :
  (duration_ok v ->
   set_load_duration_per_day v self = Ok (assign_load_duration_per_day v self)) /\
  (~ duration_ok v -> set_load_duration_per_day v self = Ok self).
Proof. unfold set_load_duration_per_day, duration_ok. setter_cases v. Qed.

Lemma set_sleep_current_li_spec (v : value) (self : Battery) :
  (current_ok v -> set_sleep_current v self = Ok (assign_sleep_current v self)) /\
  (~ current_ok v -> set_sleep_current v self = Ok self).
Proof. unfold set_sleep_current, current_ok. setter_cases v. Qed.

Lemma set_battery_capacity_li_cases (v : value) (self : Battery) :
  (capacity_ok_lithium v /\
   set_battery_capacity v self = Ok (assign_battery_capacity v self)) \/
  (~ capacity_ok_lithium v /\ set_battery_capacity v self = Ok self).
Proof. unfold set_battery_capacity, capacity_ok_lithium. setter_cases v. Qed.

Lemma set_operating_temp_li_cases (v : value) (self : Battery) :
  (temperature_ok v /\ set_operating_temp v self = Ok (assign_operating_temp v self)) \/
  (~ temperature_ok v /\ set_operating_temp v self = Ok self).
Proof. unfold set_operating_temp, temperature_ok. setter_cases v. Qed.

Lemma set_load_current_li_cases (v : value) (self : Battery) :
  (current_ok v /\ set_load_current v self = Ok (assign_load_current v self)) \/
  (~ current_ok v /\ set_load_current v self = Ok self).
Proof. unfold set_load_current, current_ok. setter_cases v. Qed.

Lemma set_load_duration_per_day_li_cases (v : value) (self : Battery) :
  (duration_ok v /\
   set_load_duration_per_day v self = Ok (assign_load_duration_per_day v self)) \/
  (~ duration_ok v /\ set_load_duration_per_day v self = Ok self).
Proof. unfold set_load_duration_per_day, duration_ok. setter_cases v. Qed.

Lemma set_sleep_current_li_cases (v : value) (self : Battery) :
  (current_ok v /\ set_sleep_current v self = Ok (assign_sleep_current v self)) \/
  (~ current_ok v /\ set_sleep_current v self = Ok self).
Proof. unfold set_sleep_current, current_ok. setter_cases v. Qed.

End LithiumFacts.

(** C5 (spec 4.1).  In both programs, assigning to a settable parameter a
    value that violates the parameter's constraint raises nothing and returns
    the object as it was, so the field keeps the value it held. *)
Theorem invalid_assignment_is_ignored (v : value) :
  (forall self, ~ chemistry_ok v -> Generalized.set_battery_type v self = Ok self) /\
  (forall self, ~ capacity_ok v -> Generalized.set_battery_capacity v self = Ok self) /\
  (forall self, ~ temperature_ok v -> Generalized.set_operating_temp v self = Ok self) /\
  (forall self, ~ current_ok v -> Generalized.set_load_current v self = Ok self) /\
  (forall self, ~ duration_ok v ->
     Generalized.set_load_duration_per_day v self = Ok self) /\
  (forall self, ~ current_ok v -> Generalized.set_sleep_current v self = Ok self) /\
  (forall self, ~ capacity_ok_lithium v ->
     Lithium.set_battery_capacity v self = Ok self) /\
  (forall self, ~ temperature_ok v -> Lithium.set_operating_temp v self = Ok self) /\
  (forall self, ~ current_ok v -> Lithium.set_load_current v self = Ok self) /\
  (forall self, ~ duration_ok v ->
     Lithium.set_load_duration_per_day v self = Ok self) /\
  (forall self, ~ current_ok v -> Lithium.set_sleep_current v self = Ok self).
Proof.
  repeat split; intros self H.
  - now apply GeneralizedFacts.set_battery_type_spec.
  - now apply GeneralizedFacts.set_battery_capacity_spec.
  - now apply GeneralizedFacts.set_operating_temp_spec.
  - now apply GeneralizedFacts.set_load_current_spec.
  - now apply GeneralizedFacts.set_load_duration_per_day_spec.
  - now apply GeneralizedFacts.set_sleep_current_spec.
  - now apply LithiumFacts.set_battery_capacity_li_spec.
  - now apply LithiumFacts.set_operating_temp_li_spec.
  - now apply LithiumFacts.set_load_current_li_spec.
  - now apply LithiumFacts.set_load_duration_per_day_li_spec.
  - now apply LithiumFacts.set_sleep_current_li_spec.
Qed.

(** ** Statements *)

Lemma seq_fst_inv {S : Type} (P : S -> Prop) (s1 s2 : stmt S) :
  (forall x, P x -> P (fst (s1 x))) -> (forall x, P x -> P (fst (s2 x))) ->
  forall x, P x -> P (fst (seq s1 s2 x)).
Proof.
  intros H1 H2 x Hx. unfold seq. specialize (H1 x Hx).
  destruct (s1 x) as [x' [[]|e]]; cbn [fst] in *; auto.
Qed.

Lemma assign_fst_inv {S : Type} (P : S -> Prop) (set : value -> S -> S)
    (rhs : S -> result value) :
  (forall v x, P x -> P (set v x)) -> forall x, P x -> P (fst (assign set rhs x)).
Proof.
  intros H x Hx. unfold assign. destruct (rhs x); cbn [fst]; auto.
Qed.

Lemma seq_assign_Ok {S : Type} (set : value -> S -> S) (rhs : S -> result value)
    (s2 : stmt S) (x : S) (v : value) :
  rhs x = Ok v -> seq (assign set rhs) s2 x = s2 (set v x).
Proof. intros H. unfold seq, assign. now rewrite H. Qed.

Lemma seq_assign_Raise {S : Type} (set : value -> S -> S)
    (rhs : S -> result value) (s2 : stmt S) (x : S) (e : exn) :
  rhs x = Raise e -> seq (assign set rhs) s2 x = (x, Raise e).
Proof. intros H. unfold seq, assign. now rewrite H. Qed.

(** What a method returns once its statements have run. *)
Definition returning {S : Type} (v : value) (r : S * result unit)
    : S * result value :=
  match r with
  | (self', Ok _) => (self', Ok v)
  | (self', Raise e) => (self', Raise e)
  end.

Lemma fst_returning {S : Type} (v : value) (r : S * result unit) :
  fst (returning v r) = fst r.
Proof. now destruct r as [? [|]]. Qed.

Module GeneralizedSteps.
Import Generalized.

(** [update_battery_properties], statement by statement. *)
Definition sleep_rhs (self : Battery) : result value :=
  d <- load_duration_per_day self ;; py_sub (VInt 86400) d.

Definition capacity_rhs (self : Battery) : result value :=
  c <- battery_capacity self ;; py_mul (temperature_factor self) c.

Definition from_runtime : stmt Battery :=
  assign assign_battery_runtime calculate_runtime.

Definition from_capacity : stmt Battery :=
  seq (assign assign_effective_battery_capacity capacity_rhs) from_runtime.

Definition from_factor (xlsx : workbook) : stmt Battery :=
  seq (assign assign_temperature_factor (calculate_temperature_factor xlsx))
      from_capacity.

Definition from_mode (xlsx : workbook) : stmt Battery :=
  seq (assign assign_current_discharge_mode update_current_discharge_mode)
      (from_factor xlsx).

Definition from_average (xlsx : workbook) : stmt Battery :=
  seq (assign assign_average_current_draw average_current_draw_expr)
      (from_mode xlsx).

Definition from_sleep (xlsx : workbook) : stmt Battery :=
  seq (assign assign_sleep_duration_per_day sleep_rhs) (from_average xlsx).

(** The chemistry constants as the first two statements leave them. *)
Definition with_constants (ty : value) (self : Battery) : Battery :=
  if py_eq ty (VStr "Alkaline")
  then assign_limits (-18) 55 10 (assign_limits (-40) 60 25 self)
  else assign_limits (-40) 60 25 self.

Lemma update_unfold (xlsx : workbook) (self : Battery) :
  update_battery_properties xlsx self =
  match _battery_type self with
  | Some ty => returning (VInt 0) (from_sleep xlsx (with_constants ty self))
  | None => (assign_limits (-40) 60 25 self, Raise AttributeError)
  end.
Proof.
  unfold update_battery_properties, with_constants, returning, from_sleep,
    from_average, from_mode, from_factor, from_capacity, from_runtime,
    sleep_rhs, capacity_rhs.
  unfold seq at 1. unfold seq at 1. unfold battery_type at 1.
  cbn [assign_limits _battery_type].
  destruct (_battery_type self) as [ty|]; cbn [getattr]; [|reflexivity].
  destruct (py_eq ty (VStr "Alkaline")); reflexivity.
Qed.

End GeneralizedSteps.

Module LithiumSteps.
Import Lithium.

Definition sleep_rhs_li (self : Battery) : result value :=
  d <- load_duration_per_day self ;; py_sub (VInt 86400) d.

Definition capacity_rhs_li (self : Battery) : result value :=
  c <- battery_capacity self ;; py_mul (temperature_factor self) c.

Definition from_runtime_li : stmt Battery :=
  assign assign_battery_runtime calculate_runtime.

Definition from_capacity_li : stmt Battery :=
  seq (assign assign_effective_battery_capacity capacity_rhs_li) from_runtime_li.

Definition from_factor_li (sheet : list row) : stmt Battery :=
  seq (assign assign_temperature_factor (calculate_temperature_factor sheet))
      from_capacity_li.

Definition from_sleep_li (sheet : list row) : stmt Battery :=
  seq (assign assign_sleep_duration_per_day sleep_rhs_li) (from_factor_li sheet).

Lemma update_unfold_li (sheet : list row) (self : Battery) :
  update_battery_properties sheet self =
  returning (VInt 0) (from_sleep_li sheet self).
Proof. reflexivity. Qed.

End LithiumSteps.

(** ** The sleep duration (spec sections 3 and 8) *)

(** Python evaluates [sleep + load == 86400] to [True]. *)
Definition day_accounted (sleep load : value) : Prop :=
  exists t, py_add sleep load = Ok t /\ py_eq t (VInt 86400) = true.

Lemma update_sleep_duration (xlsx : Generalized.workbook)
    (self : Generalized.Battery) (ty d s : value) :
  Generalized._battery_type self = Some ty ->
  Generalized._load_duration_per_day self = Some d ->
  py_sub (VInt 86400) d = Ok s ->
  let self' := fst (Generalized.update_battery_properties xlsx self) in
  Generalized._load_duration_per_day self' = Some d /\
  Generalized._sleep_duration_per_day self' = s.
Proof.
  intros Hty Hd Hs self'. subst self'.
  rewrite GeneralizedSteps.update_unfold, Hty, fst_returning.
  unfold GeneralizedSteps.from_sleep.
  assert (Hd' : Generalized._load_duration_per_day
                  (GeneralizedSteps.with_constants ty self) = Some d).
  { unfold GeneralizedSteps.with_constants.
    destruct (py_eq ty (VStr "Alkaline")); exact Hd. }
  rewrite seq_assign_Ok with (v := s).
  2:{ unfold GeneralizedSteps.sleep_rhs, Generalized.load_duration_per_day.
      now rewrite Hd'. }
  set (P := fun b : Generalized.Battery =>
              Generalized._load_duration_per_day b = Some d /\
              Generalized._sleep_duration_per_day b = s).
  change (P (fst (GeneralizedSteps.from_average xlsx
    (Generalized.assign_sleep_duration_per_day s
       (GeneralizedSteps.with_constants ty self))))).
  unfold GeneralizedSteps.from_average, GeneralizedSteps.from_mode,
    GeneralizedSteps.from_factor, GeneralizedSteps.from_capacity,
    GeneralizedSteps.from_runtime.
  repeat apply seq_fst_inv;
    try (apply assign_fst_inv; intros v x [Hx1 Hx2]; split; assumption).
  split; [exact Hd'|reflexivity].
Qed.

Lemma update_sleep_duration_li (sheet : list Lithium.row)
    (self : Lithium.Battery) (d s : value) :
  Lithium._load_duration_per_day self = Some d ->
  py_sub (VInt 86400) d = Ok s ->
  let self' := fst (Lithium.update_battery_properties sheet self) in
  Lithium._load_duration_per_day self' = Some d /\
  Lithium._sleep_duration_per_day self' = s.
Proof.
  intros Hd Hs self'. subst self'.
  rewrite LithiumSteps.update_unfold_li, fst_returning.
  unfold LithiumSteps.from_sleep_li.
  rewrite seq_assign_Ok with (v := s).
  2:{ unfold LithiumSteps.sleep_rhs_li, Lithium.load_duration_per_day.
      now rewrite Hd. }
  set (P := fun b : Lithium.Battery =>
              Lithium._load_duration_per_day b = Some d /\
              Lithium._sleep_duration_per_day b = s).
  change (P (fst (LithiumSteps.from_factor_li sheet
    (Lithium.assign_sleep_duration_per_day s self)))).
  unfold LithiumSteps.from_factor_li, LithiumSteps.from_capacity_li,
    LithiumSteps.from_runtime_li.
  repeat apply seq_fst_inv;
    try (apply assign_fst_inv; intros v x [Hx1 Hx2]; split; assumption).
  split; [exact Hd|reflexivity].
Qed.

(** C8 (spec sections 3 and 8).  In both programs, whenever the load duration
    holds an accepted value [d] (a number between 0 and 86400), the object
    left by [update_battery_properties] - whether the call returned or a
    later statement raised - has [sleep_duration_per_day] equal to
    [86400 - d] as Python computes it, and Python evaluates
    [sleep_duration_per_day + load_duration_per_day == 86400] to [True]:
    exactly so for an [int], and in binary64 for a [float]. *)
Theorem sleep_plus_load_is_a_day (d : value) :
  duration_ok d ->
  (forall xlsx self ty,
     Generalized._battery_type self = Some ty ->
     Generalized._load_duration_per_day self = Some d ->
     let self' := fst (Generalized.update_battery_properties xlsx self) in
     Generalized.load_duration_per_day self' = Ok d /\
     py_sub (VInt 86400) d = Ok (Generalized.sleep_duration_per_day self') /\
     day_accounted (Generalized.sleep_duration_per_day self') d) /\
  (forall sheet self,
     Lithium._load_duration_per_day self = Some d ->
     let self' := fst (Lithium.update_battery_properties sheet self) in
     Lithium.load_duration_per_day self' = Ok d /\
     py_sub (VInt 86400) d = Ok (Lithium.sleep_duration_per_day self') /\
     day_accounted (Lithium.sleep_duration_per_day self') d).
Proof.
  intros Hd. destruct (day_split_value d Hd) as (s & t & Hs & Ht & He).
  split.
  - intros xlsx self ty Hty Hl self'.
    destruct (update_sleep_duration xlsx self ty d s Hty Hl Hs) as [H1 H2].
    fold self' in H1, H2.
    unfold Generalized.load_duration_per_day, Generalized.sleep_duration_per_day.
    rewrite H1, H2. repeat split; try assumption. now exists t.
  - intros sheet self Hl self'.
    destruct (update_sleep_duration_li sheet self d s Hl Hs) as [H1 H2].
    fold self' in H1, H2.
    unfold Lithium.load_duration_per_day, Lithium.sleep_duration_per_day.
    rewrite H1, H2. repeat split; try assumption. now exists t.
Qed.

(** ** A zero numerator *)

Definition zero_or_nan (x : float) : Prop :=
  (exists s, Prim2SF x = S754_zero s) \/ Prim2SF x = S754_nan.

Definition float_value (P : float -> Prop) (v : value) : Prop :=
  exists x, (v = VFloat x \/ v = VNp x) /\ P x.

Lemma zero_or_nan_div (x y : float) :
  (exists s, Prim2SF x = S754_zero s) -> zero_or_nan (x / y).
Proof.
  intros [s Hx]. unfold zero_or_nan. rewrite div_spec, Hx.
  destruct (Prim2SF y) as [sy|sy| |sy my ey]; cbn; eauto.
Qed.

Lemma zero_or_nan_div_finite (x y : float) (s : bool) (m : positive) (e : Z) :
  zero_or_nan x -> Prim2SF y = S754_finite s m e -> zero_or_nan (x / y).
Proof.
  intros [[sx Hx]|Hx] Hy; unfold zero_or_nan; rewrite div_spec, Hx, Hy; cbn; eauto.
Qed.

Lemma py_eq_zero (v : value) :
  py_eq v (VInt 0) = true ->
  v = VInt 0 \/ float_value (fun x => exists s, Prim2SF x = S754_zero s) v.
Proof.
  assert (F : forall x, match option_map CompOpp (compare_int_float 0 x) with
                        | Some Eq => true | _ => false end = true ->
                        exists s, Prim2SF x = S754_zero s).
  { intros x. unfold compare_int_float.
    destruct (Prim2SF x) as [s|[|]| |s m e]; cbn [option_map CompOpp];
      try discriminate; eauto.
    cbv zeta. intros H. exfalso.
    set (w := if s then Z.neg m else Z.pos m) in *.
    assert (Hv : w <> 0) by (unfold w; destruct s; lia).
    destruct e as [|p|p].
    - destruct (Z.compare_spec 0 (w * 2 ^ 0)); try discriminate. lia.
    - pose proof (Z.pow_pos_nonneg 2 (Z.pos p)).
      destruct (Z.compare_spec 0 (w * 2 ^ Z.pos p)); try discriminate. nia.
    - destruct (Z.compare_spec (0 * 2 ^ Z.pos p) w); try discriminate. lia. }
  destruct v as [ |n|x|x|s]; cbn; try discriminate.
  - destruct (Z.compare_spec n 0); try discriminate. left. now subst.
  - intros H. right. exists x. split; [now left|]. now apply F.
  - intros H. right. exists x. split; [now right|]. now apply F.
Qed.

Lemma float_of_int_0 : float_of_int 0 = Ok 0%float.
Proof. reflexivity. Qed.

Lemma float_of_int_365 : float_of_int 365 = Ok 365%float.
Proof. reflexivity. Qed.

Lemma Prim2SF_SF2Prim_zero (s : bool) : Prim2SF (SF2Prim (S754_zero s)) = S754_zero s.
Proof. now destruct s. Qed.

(** A quotient whose numerator equals 0 is a zero or a NaN. *)
Lemma zero_quotient (a b q : value) :
  py_eq a (VInt 0) = true -> py_truediv a b = Ok q -> float_value zero_or_nan q.
Proof.
  intros Ha Hq.
  assert (Hnum : forall y x, (exists s, Prim2SF x = S754_zero s) ->
            forall np np' : bool,
            (if np || np' then Ok (VNp (x / y))
             else if (y =? 0)%float then Raise ZeroDivisionError
                  else Ok (VFloat (x / y))) = Ok q ->
            float_value zero_or_nan q).
  { intros y x Hx np np' H.
    destruct (np || np'); [|destruct (y =? 0)%float; [discriminate|]];
      injection H as <-; exists (x / y)%float; split; auto using zero_or_nan_div. }
  assert (Hz0 : exists s, Prim2SF 0 = S754_zero s) by (now exists false).
  unfold py_truediv in Hq.
  destruct (py_eq_zero a Ha) as [->|(x & [->| ->] & Hx)].
  - destruct b as [ |n|y|y|s]; cbn [is_numeric andb negb] in Hq; try discriminate.
    + destruct (n =? 0); [discriminate|].
      assert (E : float_of_ratio 0 n = S754_zero (n <? 0)) by reflexivity.
      rewrite E in Hq. injection Hq as <-.
      exists (SF2Prim (S754_zero (n <? 0))). split; [now left|]. left.
      exists (n <? 0). apply Prim2SF_SF2Prim_zero.
    + cbn [as_float] in Hq. rewrite float_of_int_0 in Hq. cbn [bind fst snd] in Hq.
      now apply (Hnum y 0%float Hz0 false false).
    + cbn [as_float] in Hq. rewrite float_of_int_0 in Hq. cbn [bind fst snd] in Hq.
      now apply (Hnum y 0%float Hz0 false true).
  - destruct b as [ |n|y|y|s]; cbn [is_numeric andb negb] in Hq; try discriminate.
    + cbn [as_float bind fst snd] in Hq. destruct (float_of_int n) as [y|]; [|discriminate].
      cbn [bind fst snd] in Hq. now apply (Hnum y x Hx false false).
    + now apply (Hnum y x Hx false false).
    + now apply (Hnum y x Hx false true).
  - destruct b as [ |n|y|y|s]; cbn [is_numeric andb negb] in Hq; try discriminate.
    + cbn [as_float bind fst snd] in Hq. destruct (float_of_int n) as [y|]; [|discriminate].
      cbn [bind fst snd] in Hq. now apply (Hnum y x Hx true false).
    + now apply (Hnum y x Hx true false).
    + now apply (Hnum y x Hx true true).
Qed.

(** A zero or a NaN, divided by 365, is below every positive shelf life. *)
Lemma zero_below_shelf_life (q : value) (years : Z) :
  float_value zero_or_nan q -> 0 < years ->
  (y <- py_truediv q (VInt 365) ;; py_ge y (VInt years)) = Ok false.
Proof.
  intros (x & Hq & Hx) Hy.
  assert (H365 : Prim2SF 365 = S754_finite false 6421147906211840 (-44)) by reflexivity.
  pose proof (zero_or_nan_div_finite x 365 _ _ _ Hx H365) as Hz.
  assert (Hge : forall np, py_ge (mk_float np (x / 365)) (VInt years) = Ok false).
  { intros np. unfold py_ge.
    assert (E : py_compare (mk_float np (x / 365)) (VInt years) =
                Ok (option_map CompOpp (compare_int_float years (x / 365)))).
    { now destruct np. }
    rewrite E. cbn [bind]. unfold compare_int_float.
    destruct Hz as [[s Hz]|Hz]; rewrite Hz; cbn [option_map]; [|reflexivity].
    destruct (Z.compare_spec years 0); try lia. reflexivity. }
  destruct Hq as [-> | ->]; unfold py_truediv;
    cbn [is_numeric andb negb as_float bind fst snd];
    rewrite float_of_int_365; cbn [bind fst snd orb].
  - change (365 =? 0)%float with false. cbn [bind]. apply (Hge false).
  - apply (Hge true).
Qed.

(** ** The shelf-life clamp (spec section 4.3, step 7) *)

(** The test [battery_runtime/365 >= self.max_shelf_life] holds. *)
Definition exceeds_shelf_life (battery_runtime years : value) : Prop :=
  (y <- py_truediv battery_runtime (VInt 365) ;; py_ge y years) = Ok true.

Lemma seq_Ok_inv {S : Type} (s1 s2 : stmt S) (x x' : S) (u : unit) :
  seq s1 s2 x = (x', Ok u) ->
  exists x1 u1, s1 x = (x1, Ok u1) /\ s2 x1 = (x', Ok u).
Proof.
  unfold seq. destruct (s1 x) as [x1 [u1|e]]; intros H; [eauto|discriminate].
Qed.

Lemma assign_Ok_inv {S : Type} (set : value -> S -> S) (rhs : S -> result value)
    (x x' : S) (u : unit) :
  assign set rhs x = (x', Ok u) -> exists v, rhs x = Ok v /\ x' = set v x.
Proof.
  unfold assign. destruct (rhs x) as [v|e]; intros H; [|discriminate].
  exists v. split; [reflexivity|]. congruence.
Qed.

Lemma returning_Ok_inv {S : Type} (v w : value) (r : S * result unit) (x' : S) :
  returning v r = (x', Ok w) -> w = v /\ exists u, r = (x', Ok u).
Proof.
  destruct r as [x [u|e]]; cbn; intros H; [|discriminate].
  injection H as -> <-. eauto.
Qed.

Lemma clamp_generalized (self : Generalized.Battery) (q : value) :
  0 < Generalized._max_shelf_life self ->
  Generalized.unclamped_runtime self = Ok q ->
  exceeds_shelf_life q (Generalized.max_shelf_life self) ->
  Generalized.calculate_runtime self =
  Ok (VInt (Generalized._max_shelf_life self * 365)).
Proof.
  intros Hpos Hq Hex. unfold Generalized.calculate_runtime.
  destruct (py_eq (Generalized.effective_battery_capacity self) (VInt 0)) eqn:Ez.
  - exfalso. unfold Generalized.unclamped_runtime in Hq.
    apply bind_Ok in Hq. destruct Hq as (total & _ & Hq).
    pose proof (zero_quotient _ _ _ Ez Hq) as Hz.
    pose proof (zero_below_shelf_life q _ Hz Hpos) as Hlow.
    unfold exceeds_shelf_life, Generalized.max_shelf_life in Hex. congruence.
  - rewrite Hq. cbn [bind]. unfold exceeds_shelf_life in Hex.
    apply bind_Ok in Hex. destruct Hex as (y & Hy & Hge).
    rewrite Hy. cbn [bind]. rewrite Hge. reflexivity.
Qed.

Lemma clamp_lithium (self : Lithium.Battery) (q : value) :
  Lithium.unclamped_runtime self = Ok q ->
  exceeds_shelf_life q (Lithium.max_shelf_life self) ->
  Lithium.calculate_runtime self = Ok (VInt (Lithium._max_shelf_life self * 365)).
Proof.
  intros Hq Hex. unfold Lithium.calculate_runtime.
  rewrite Hq. cbn [bind]. unfold exceeds_shelf_life in Hex.
  apply bind_Ok in Hex. destruct Hex as (y & Hy & Hge).
  rewrite Hy. cbn [bind]. rewrite Hge. reflexivity.
Qed.

(** A call that returns has stored the result of [calculate_runtime]. *)
Lemma update_returns (xlsx : Generalized.workbook)
    (self self' : Generalized.Battery) (ty v : value) :
  Generalized._battery_type self = Some ty ->
  Generalized.update_battery_properties xlsx self = (self', Ok v) ->
  v = VInt 0 /\
  exists b r, Generalized.calculate_runtime b = Ok r /\
              self' = Generalized.assign_battery_runtime r b /\
              Generalized._max_shelf_life b =
              (if py_eq ty (VStr "Alkaline") then 10 else 25) /\
              Generalized._battery_type b = Some ty.
Proof.
  intros Hty H. rewrite GeneralizedSteps.update_unfold, Hty in H.
  apply returning_Ok_inv in H. destruct H as (-> & u & H). split; [reflexivity|].
  set (P := fun b : Generalized.Battery =>
              Generalized._max_shelf_life b =
              (if py_eq ty (VStr "Alkaline") then 10 else 25) /\
              Generalized._battery_type b = Some ty).
  assert (P0 : P (GeneralizedSteps.with_constants ty self)).
  { unfold P, GeneralizedSteps.with_constants.
    destruct (py_eq ty (VStr "Alkaline")); split; try reflexivity; exact Hty. }
  revert P0 H. generalize (GeneralizedSteps.with_constants ty self). intros b0 P0 H.
  unfold GeneralizedSteps.from_sleep in H.
  apply seq_Ok_inv in H. destruct H as (b1 & u1 & H1 & H).
  apply assign_Ok_inv in H1. destruct H1 as (v1 & _ & ->).
  unfold GeneralizedSteps.from_average in H.
  apply seq_Ok_inv in H. destruct H as (b2 & u2 & H2 & H).
  apply assign_Ok_inv in H2. destruct H2 as (v2 & _ & ->).
  unfold GeneralizedSteps.from_mode in H.
  apply seq_Ok_inv in H. destruct H as (b3 & u3 & H3 & H).
  apply assign_Ok_inv in H3. destruct H3 as (v3 & _ & ->).
  unfold GeneralizedSteps.from_factor in H.
  apply seq_Ok_inv in H. destruct H as (b4 & u4 & H4 & H).
  apply assign_Ok_inv in H4. destruct H4 as (v4 & _ & ->).
  unfold GeneralizedSteps.from_capacity in H.
  apply seq_Ok_inv in H. destruct H as (b5 & u5 & H5 & H).
  apply assign_Ok_inv in H5. destruct H5 as (v5 & _ & ->).
  unfold GeneralizedSteps.from_runtime in H.
  apply assign_Ok_inv in H. destruct H as (r & Hr & ->).
  eexists _, r. split; [exact Hr|]. split; [reflexivity|]. exact P0.
Qed.

Lemma update_returns_li (sheet : list Lithium.row)
    (self self' : Lithium.Battery) (v : value) :
  Lithium.update_battery_properties sheet self = (self', Ok v) ->
  v = VInt 0 /\
  exists b r, Lithium.calculate_runtime b = Ok r /\
              self' = Lithium.assign_battery_runtime r b /\
              Lithium._max_shelf_life b = Lithium._max_shelf_life self.
Proof.
  intros H. rewrite LithiumSteps.update_unfold_li in H.
  apply returning_Ok_inv in H. destruct H as (-> & u & H). split; [reflexivity|].
  unfold LithiumSteps.from_sleep_li in H.
  apply seq_Ok_inv in H. destruct H as (b1 & u1 & H1 & H).
  apply assign_Ok_inv in H1. destruct H1 as (v1 & _ & ->).
  unfold LithiumSteps.from_factor_li in H.
  apply seq_Ok_inv in H. destruct H as (b4 & u4 & H4 & H).
  apply assign_Ok_inv in H4. destruct H4 as (v4 & _ & ->).
  unfold LithiumSteps.from_capacity_li in H.
  apply seq_Ok_inv in H. destruct H as (b5 & u5 & H5 & H).
  apply assign_Ok_inv in H5. destruct H5 as (v5 & _ & ->).
  unfold LithiumSteps.from_runtime_li in H.
  apply assign_Ok_inv in H. destruct H as (r & Hr & ->).
  eexists _, r. split; [exact Hr|]. split; reflexivity.
Qed.

(** C3 (spec sections 4.3 and 8).  In both programs, whenever the quotient
    of the effective capacity by the total daily consumption, divided by 365,
    is at least [max_shelf_life], [calculate_runtime] returns the integer
    [max_shelf_life * 365]; a call of [update_battery_properties] that returns
    has then stored 9125 for lithium metal and 3650 for alkaline. *)
Theorem shelf_life_clamp :
  (forall self q,
     0 < Generalized._max_shelf_life self ->
     Generalized.unclamped_runtime self = Ok q ->
     exceeds_shelf_life q (Generalized.max_shelf_life self) ->
     Generalized.calculate_runtime self =
     Ok (VInt (Generalized._max_shelf_life self * 365))) /\
  (forall self q,
     Lithium.unclamped_runtime self = Ok q ->
     exceeds_shelf_life q (Lithium.max_shelf_life self) ->
     Lithium.calculate_runtime self =
     Ok (VInt (Lithium._max_shelf_life self * 365))) /\
  (forall xlsx self self' ty v q,
     Generalized._battery_type self = Some ty ->
     Generalized.update_battery_properties xlsx self = (self', Ok v) ->
     Generalized.unclamped_runtime self' = Ok q ->
     exceeds_shelf_life q (Generalized.max_shelf_life self') ->
     Generalized.battery_runtime self' =
     VInt (if py_eq ty (VStr "Alkaline") then 3650 else 9125)) /\
  (forall sheet self self' v q,
     Lithium._max_shelf_life self = 25 ->
     Lithium.update_battery_properties sheet self = (self', Ok v) ->
     Lithium.unclamped_runtime self' = Ok q ->
     exceeds_shelf_life q (Lithium.max_shelf_life self') ->
     Lithium.battery_runtime self' = VInt 9125).
Proof.
  split; [exact clamp_generalized|]. split; [exact clamp_lithium|]. split.
  - intros xlsx self self' ty v q Hty Hup Hq Hex.
    destruct (update_returns xlsx self self' ty v Hty Hup)
      as (_ & b & r & Hr & -> & Hm & _).
    change (Generalized.unclamped_runtime b = Ok q) in Hq.
    change (exceeds_shelf_life q (Generalized.max_shelf_life b)) in Hex.
    rewrite (clamp_generalized b q) in Hr; try assumption.
    + injection Hr as <-. cbn. rewrite Hm.
      now destruct (py_eq ty (VStr "Alkaline")).
    + rewrite Hm. now destruct (py_eq ty (VStr "Alkaline")).
  - intros sheet self self' v q Hm Hup Hq Hex.
    destruct (update_returns_li sheet self self' v Hup) as (_ & b & r & Hr & -> & Hm').
    change (Lithium.unclamped_runtime b = Ok q) in Hq.
    change (exceeds_shelf_life q (Lithium.max_shelf_life b)) in Hex.
    rewrite (clamp_lithium b q) in Hr; try assumption.
    injection Hr as <-. cbn. now rewrite Hm', Hm.
Qed.

(** ** Average current draw and discharge mode (spec section 3) *)

(** The average current draw in the words of the specification:
    [load*loadDuration/86400 + sleep*sleepDuration/86400] with
    [sleepDuration = 86400 - loadDuration], rounded to 3 decimal places. *)
Definition average_current_draw_spec (load_current load_duration sleep_current
    : value) : result value :=
  sleep_duration <- py_sub (VInt 86400) load_duration ;;
  a <- py_mul load_current load_duration ;;
  a <- py_truediv a (VInt 86400) ;;
  b <- py_mul sleep_current sleep_duration ;;
  b <- py_truediv b (VInt 86400) ;;
  s <- py_add a b ;;
  py_round s 3.

(** The discharge mode in the words of the specification. *)
Definition discharge_mode_spec (average mode : value) : Prop :=
  (le_value average (VInt 25) -> mode = VStr "Low") /\
  (gt_value average (VInt 25) -> le_value average (VInt 250) ->
   mode = VStr "Medium") /\
  (~ le_value average (VInt 25) ->
   ~ (gt_value average (VInt 25) /\ le_value average (VInt 250)) ->
   mode = VStr "High").

Lemma mk_float_numeric (np : bool) (x : float) : is_numeric (mk_float np x) = true.
Proof. now destruct np. Qed.

Lemma arith_numeric (iop : Z -> Z -> Z) (fop : float -> float -> float)
    (a b v : value) :
  arith iop fop a b = Ok v -> is_numeric v = true.
Proof.
  unfold arith. destruct (is_numeric a && is_numeric b); cbn [negb]; [|discriminate].
  assert (G : (x <- as_float a ;; y <- as_float b ;;
               Ok (mk_float (fst x || fst y) (fop (snd x) (snd y)))) = Ok v ->
              is_numeric v = true).
  { intros H. apply bind_Ok in H. destruct H as (x & _ & H).
    apply bind_Ok in H. destruct H as (y & _ & H).
    injection H as <-. apply mk_float_numeric. }
  destruct a as [ |m|x|x|s]; try exact G.
  destruct b as [ |n|y|y|t]; try exact G.
  intros H. now injection H as <-.
Qed.

Lemma truediv_numeric (a b v : value) :
  py_truediv a b = Ok v -> is_numeric v = true.
Proof.
  unfold py_truediv.
  destruct (is_numeric a && is_numeric b); cbn [negb]; [|discriminate].
  assert (G : (x <- as_float a ;; y <- as_float b ;;
               if fst x || fst y then Ok (VNp (snd x / snd y))
               else if (snd y =? 0)%float then Raise ZeroDivisionError
                    else Ok (VFloat (snd x / snd y))) = Ok v ->
              is_numeric v = true).
  { intros H. apply bind_Ok in H. destruct H as (x & _ & H).
    apply bind_Ok in H. destruct H as (y & _ & H).
    destruct (fst x || fst y); [now injection H as <-|].
    destruct (snd y =? 0)%float; [discriminate|now injection H as <-]. }
  destruct a as [ |m|x|x|s]; try exact G.
  destruct b as [ |n|y|y|t]; try exact G.
  destruct (n =? 0); [discriminate|].
  destruct (float_of_ratio m n); try discriminate; intros H; now injection H as <-.
Qed.

Lemma py_round_numeric (a v : value) (n : Z) :
  py_round a n = Ok v -> is_numeric v = true.
Proof.
  destruct a; cbn; try discriminate; intros H; injection H as <-; reflexivity.
Qed.

Lemma py_compare_int_None (a : value) (m n : Z) :
  py_compare a (VInt m) = Ok None -> py_compare a (VInt n) = Ok None.
Proof.
  assert (F : forall x, option_map CompOpp (compare_int_float m x) = None ->
                        option_map CompOpp (compare_int_float n x) = None).
  { intros x. unfold compare_int_float.
    destruct (Prim2SF x) as [s|s| |s p e]; cbn; try discriminate; reflexivity. }
  destruct a as [ |k|x|x|s]; cbn; try discriminate; intros H; f_equal; apply F;
    congruence.
Qed.

Lemma discharge_mode_of_average (self : Generalized.Battery) :
  is_numeric (Generalized._average_current_draw self) = true ->
  Generalized._low_current_discharge self = 25 ->
  Generalized._medium_current_discharge self = 250 ->
  exists mode, Generalized.update_current_discharge_mode self = Ok mode /\
               discharge_mode_spec (Generalized._average_current_draw self) mode.
Proof.
  intros Hn Hlo Hmed. unfold Generalized.update_current_discharge_mode,
    Generalized.average_current_draw, Generalized.low_current_discharge,
    Generalized.medium_current_discharge, discharge_mode_spec, le_value, gt_value.
  rewrite Hlo, Hmed. set (a := Generalized._average_current_draw self) in *.
  unfold py_le, py_gt.
  destruct (py_compare_numeric a (VInt 25) Hn eq_refl) as [c1 E1].
  destruct (py_compare_numeric a (VInt 250) Hn eq_refl) as [c2 E2].
  pose proof (py_compare_int_None a 25 250) as Hnan.
  rewrite E1, E2 in *. cbn [bind].
  destruct c1 as [[| |]|], c2 as [[| |]|]; cbn [bind];
    try (specialize (Hnan eq_refl); discriminate);
    eexists; (split; [reflexivity|]);
    repeat split; intros; try reflexivity; try discriminate;
    try (exfalso; intuition congruence).
Qed.

Lemma update_average_and_mode (xlsx : Generalized.workbook)
    (self : Generalized.Battery) (ty i d i' avg : value) :
  Generalized._battery_type self = Some ty ->
  Generalized._load_current self = Some i ->
  Generalized._load_duration_per_day self = Some d ->
  Generalized._sleep_current self = Some i' ->
  Generalized._low_current_discharge self = 25 ->
  Generalized._medium_current_discharge self = 250 ->
  average_current_draw_spec i d i' = Ok avg ->
  let self' := fst (Generalized.update_battery_properties xlsx self) in
  Generalized._average_current_draw self' = avg /\
  discharge_mode_spec avg (Generalized._current_discharge_mode self').
Proof.
  intros Hty Hi Hd Hi' Hlo Hmed Havg self'. subst self'.
  rewrite GeneralizedSteps.update_unfold, Hty, fst_returning.
  set (b0 := GeneralizedSteps.with_constants ty self).
  assert (F0 : Generalized._load_current b0 = Some i /\
               Generalized._load_duration_per_day b0 = Some d /\
               Generalized._sleep_current b0 = Some i' /\
               Generalized._low_current_discharge b0 = 25 /\
               Generalized._medium_current_discharge b0 = 250).
  { unfold b0, GeneralizedSteps.with_constants.
    destruct (py_eq ty (VStr "Alkaline")); repeat split; assumption. }
  clearbody b0. destruct F0 as (Fi & Fd & Fi' & Flo & Fmed).
  unfold average_current_draw_spec in Havg.
  destruct (py_sub (VInt 86400) d) as [s|] eqn:Hs; [|discriminate].
  cbn [bind] in Havg.
  unfold GeneralizedSteps.from_sleep.
  rewrite seq_assign_Ok with (v := s).
  2:{ unfold GeneralizedSteps.sleep_rhs, Generalized.load_duration_per_day.
      now rewrite Fd. }
  unfold GeneralizedSteps.from_average.
  rewrite seq_assign_Ok with (v := avg).
  2:{ unfold Generalized.average_current_draw_expr, Generalized.load_current,
        Generalized.load_duration_per_day, Generalized.sleep_current,
        Generalized.sleep_duration_per_day.
      cbn [Generalized.assign_sleep_duration_per_day Generalized._load_current
           Generalized._load_duration_per_day Generalized._sleep_current
           Generalized._sleep_duration_per_day].
      rewrite Fi, Fd, Fi'. cbn [getattr bind]. exact Havg. }
  set (b2 := Generalized.assign_average_current_draw avg
               (Generalized.assign_sleep_duration_per_day s b0)).
  assert (Hnum : is_numeric avg = true).
  { repeat (apply bind_Ok in Havg; destruct Havg as (? & _ & Havg)).
    now apply py_round_numeric in Havg. }
  destruct (discharge_mode_of_average b2 Hnum Flo Fmed) as (mode & Hmode & Hspec).
  unfold GeneralizedSteps.from_mode.
  rewrite seq_assign_Ok with (v := mode) by exact Hmode.
  set (P := fun b : Generalized.Battery =>
              Generalized._average_current_draw b = avg /\
              discharge_mode_spec avg (Generalized._current_discharge_mode b)).
  change (P (fst (GeneralizedSteps.from_factor xlsx
    (Generalized.assign_current_discharge_mode mode b2)))).
  unfold GeneralizedSteps.from_factor, GeneralizedSteps.from_capacity,
    GeneralizedSteps.from_runtime.
  repeat apply seq_fst_inv;
    try (apply assign_fst_inv; intros v x [Hx1 Hx2]; split; assumption).
  split; [reflexivity|exact Hspec].
Qed.

(** ** Construction *)

(** What [__init__] leaves: each validated attribute holds its argument when
    the argument satisfies the constraint and is absent otherwise; the other
    attributes have their initial values. *)
Definition field_of (ok : Prop) (arg : value) (field : option value) : Prop :=
  (ok /\ field = Some arg) \/ (~ ok /\ field = None).

Lemma init_fields (ty cap t i d i' : value) (self : Generalized.Battery) :
  Generalized.__init__ ty cap t i d i' = Ok self ->
  field_of (chemistry_ok ty) ty (Generalized._battery_type self) /\
  field_of (capacity_ok cap) cap (Generalized._battery_capacity self) /\
  field_of (temperature_ok t) t (Generalized._operating_temp self) /\
  field_of (current_ok i) i (Generalized._load_current self) /\
  field_of (duration_ok d) d (Generalized._load_duration_per_day self) /\
  field_of (current_ok i') i' (Generalized._sleep_current self) /\
  Generalized._low_current_discharge self = 25 /\
  Generalized._medium_current_discharge self = 250 /\
  Generalized._high_current_discharge self = 1000 /\
  Generalized._self_discharge_rate self = 0.01%float /\
  Generalized._max_shelf_life self = 25 /\
  Generalized._min_operating_temp self = -40 /\
  Generalized._max_operating_temp self = 60.
Proof.
  unfold Generalized.__init__, field_of. intros H.
  destruct (GeneralizedFacts.set_battery_type_cases ty Generalized.blank)
    as [[O1 E1]|[O1 E1]]; rewrite E1 in H; cbn [bind] in H;
  match type of H with context [Generalized.set_battery_capacity cap ?b] =>
    destruct (GeneralizedFacts.set_battery_capacity_cases cap b)
      as [[O2 E2]|[O2 E2]]; rewrite E2 in H; cbn [bind] in H end;
  match type of H with context [Generalized.set_operating_temp t ?b] =>
    destruct (GeneralizedFacts.set_operating_temp_cases t b)
      as [[O3 E3]|[O3 E3]]; rewrite E3 in H; cbn [bind] in H end;
  match type of H with context [Generalized.set_load_current i ?b] =>
    destruct (GeneralizedFacts.set_load_current_cases i b)
      as [[O4 E4]|[O4 E4]]; rewrite E4 in H; cbn [bind] in H end;
  match type of H with context [Generalized.set_load_duration_per_day d ?b] =>
    destruct (GeneralizedFacts.set_load_duration_per_day_cases d b)
      as [[O5 E5]|[O5 E5]]; rewrite E5 in H; cbn [bind] in H end;
  match type of H with context [Generalized.set_sleep_current i' ?b] =>
    destruct (GeneralizedFacts.set_sleep_current_cases i' b)
      as [[O6 E6]|[O6 E6]]; rewrite E6 in H end;
  injection H as <-; cbn; repeat split; auto.
Qed.

Lemma init_fields_li (cap t i d i' : value) (self : Lithium.Battery) :
  Lithium.__init__ cap t i d i' = Ok self ->
  field_of (capacity_ok_lithium cap) cap (Lithium._battery_capacity self) /\
  field_of (temperature_ok t) t (Lithium._operating_temp self) /\
  field_of (current_ok i) i (Lithium._load_current self) /\
  field_of (duration_ok d) d (Lithium._load_duration_per_day self) /\
  field_of (current_ok i') i' (Lithium._sleep_current self) /\
  Lithium._self_discharge_rate self = 0.01%float /\
  Lithium._max_shelf_life self = 25 /\
  Lithium._min_operating_temp self = -40 /\
  Lithium._max_operating_temp self = 60.
Proof.
  unfold Lithium.__init__, field_of. intros H.
  destruct (LithiumFacts.set_battery_capacity_li_cases cap Lithium.blank)
    as [[O2 E2]|[O2 E2]]; rewrite E2 in H; cbn [bind] in H;
  match type of H with context [Lithium.set_operating_temp t ?b] =>
    destruct (LithiumFacts.set_operating_temp_li_cases t b)
      as [[O3 E3]|[O3 E3]]; rewrite E3 in H; cbn [bind] in H end;
  match type of H with context [Lithium.set_load_current i ?b] =>
    destruct (LithiumFacts.set_load_current_li_cases i b)
      as [[O4 E4]|[O4 E4]]; rewrite E4 in H; cbn [bind] in H end;
  match type of H with context [Lithium.set_load_duration_per_day d ?b] =>
    destruct (LithiumFacts.set_load_duration_per_day_li_cases d b)
      as [[O5 E5]|[O5 E5]]; rewrite E5 in H; cbn [bind] in H end;
  match type of H with context [Lithium.set_sleep_current i' ?b] =>
    destruct (LithiumFacts.set_sleep_current_li_cases i' b)
      as [[O6 E6]|[O6 E6]]; rewrite E6 in H end;
  injection H as <-; cbn; repeat split; auto.
Qed.

Lemma field_of_ok (ok : Prop) (arg : value) (field : option value) :
  field_of ok arg field -> ok -> field = Some arg.
Proof. intros [[_ H]|[H _]] Hok; [assumption|contradiction]. Qed.

Lemma field_of_rejected (ok : Prop) (arg : value) (field : option value) :
  field_of ok arg field -> ~ ok -> field = None.
Proof. intros [[H _]|[_ H]] Hok; [contradiction|assumption]. Qed.

(** C6 (spec section 3).  In the generalized program, for a battery
    constructed from accepted chemistry, currents and load duration, when the
    expression of the specification evaluates to [avg], the object left by
    [update_battery_properties] has [average_current_draw = avg] and a
    discharge mode that is "Low" when [avg <= 25], "Medium" when
    [25 < avg <= 250], and "High" otherwise. *)
Theorem average_draw_and_mode (xlsx : Generalized.workbook)
    (ty cap t i d i' : value) (self : Generalized.Battery) (avg : value) :
  Generalized.__init__ ty cap t i d i' = Ok self ->
  chemistry_ok ty -> current_ok i -> duration_ok d -> current_ok i' ->
  average_current_draw_spec i d i' = Ok avg ->
  let self' := fst (Generalized.update_battery_properties xlsx self) in
  Generalized.average_current_draw self' = avg /\
  discharge_mode_spec avg (Generalized.current_discharge_mode self').
Proof.
  intros Hinit Hty Hi Hd Hi' Havg.
  destruct (init_fields _ _ _ _ _ _ _ Hinit)
    as (F1 & _ & _ & F4 & F5 & F6 & Flo & Fmed & _).
  apply update_average_and_mode with (ty := ty) (i := i) (d := d) (i' := i');
    try assumption; eauto using field_of_ok.
Qed.

(** ** The maximum operating temperature (spec section 4.2, step 4) *)

Lemma py_eq_int_compare (t : value) (n : Z) :
  py_eq t (VInt n) = true -> py_compare t (VInt n) = Ok (Some Eq).
Proof.
  destruct t as [ |m|x|x|s]; cbn; try discriminate.
  - destruct (m ?= n); try discriminate; reflexivity.
  - destruct (option_map CompOpp (compare_int_float n x)) as [[]|];
      try discriminate; reflexivity.
  - destruct (option_map CompOpp (compare_int_float n x)) as [[]|];
      try discriminate; reflexivity.
Qed.

Lemma compare_int_float_Eq (n : Z) (x : float) :
  compare_int_float n x = Some Eq ->
  finite_or_zero (Prim2SF x) = true /\ B2R (Prim2SF x) = IZR n.
Proof.
  intros H.
  assert (F : finite_or_zero (Prim2SF x) = true).
  { unfold compare_int_float in H.
    destruct (Prim2SF x) as [s|[|]| |s m e]; try reflexivity; discriminate. }
  split; [assumption|].
  destruct (compare_int_float_spec n x F) as (c & Hc & Hr).
  rewrite H in Hc. injection Hc as <-. inversion Hr. congruence.
Qed.

Lemma option_map_CompOpp_Eq (c : option comparison) :
  option_map CompOpp c = Some Eq -> c = Some Eq.
Proof. destruct c as [[]|]; cbn; congruence. Qed.

(** A temperature equal to the maximum is not outside the range. *)
Lemma eq_max_in_range (t : value) (lo hi : Z) :
  py_eq t (VInt hi) = true -> lo <= hi ->
  py_lt t (VInt lo) = Ok false /\ py_gt t (VInt hi) = Ok false.
Proof.
  intros He Hle. pose proof (py_eq_int_compare t hi He) as Hc.
  split; [|unfold py_gt; now rewrite Hc].
  unfold py_lt.
  assert (F : forall x, option_map CompOpp (compare_int_float hi x) = Some Eq ->
              match option_map CompOpp (compare_int_float lo x) with
              | Some Lt => true | _ => false end = false).
  { intros x Hx. apply option_map_CompOpp_Eq in Hx.
    destruct (compare_int_float_Eq hi x Hx) as [Fx Bx].
    destruct (compare_int_float_spec lo x Fx) as (c & Ec & Rc).
    rewrite Ec. rewrite Bx in Rc.
    assert (IZR lo <= IZR hi)%R by now apply IZR_le.
    destruct Rc; cbn; try reflexivity. lra. }
  destruct t as [ |m|x|x|s]; cbn in Hc |- *; try discriminate.
  - injection Hc as Hc. apply Z.compare_eq in Hc. subst m.
    destruct (Z.compare_spec hi lo); try reflexivity. lia.
  - injection Hc as Hc. now rewrite F.
  - injection Hc as Hc. now rewrite F.
Qed.

(** The curve [calculate_temperature_factor] selects: the rows of the
    chemistry's sheet whose discharge current is the limit of the mode. *)
Definition reference_curve (xlsx : Generalized.workbook) (ty : value) (limit : Z)
    : list Generalized.row :=
  filter (fun r => py_eq (VNp (Generalized.current r)) (VInt limit))
    (xlsx (if py_eq ty (VStr "Alkaline") then "Alkaline Temperature Factor"
           else "Li Temperature Factor")).

(** The factor a curve gives at a temperature it has a sample for. *)
Definition sample_at (curve : list Generalized.row) (t : value) : option float :=
  option_map Generalized.factor
    (find (fun r => py_eq (VNp (Generalized.temperature r)) t) curve).

(** The limit the mode selects, [self.battery_details()[...][mode]]. *)
Definition mode_limit (self : Generalized.Battery) : result Z :=
  match Generalized._current_discharge_mode self with
  | VStr "Low" => Ok (Generalized._low_current_discharge self)
  | VStr "Medium" => Ok (Generalized._medium_current_discharge self)
  | VStr "High" => Ok (Generalized._high_current_discharge self)
  | _ => Raise KeyError
  end.

Lemma factor_at_maximum (xlsx : Generalized.workbook)
    (self : Generalized.Battery) (ty cap t i d i' : value) (limit : Z) :
  Generalized._battery_type self = Some ty ->
  Generalized._battery_capacity self = Some cap ->
  Generalized._operating_temp self = Some t ->
  Generalized._load_current self = Some i ->
  Generalized._load_duration_per_day self = Some d ->
  Generalized._sleep_current self = Some i' ->
  mode_limit self = Ok limit ->
  Generalized._min_operating_temp self <= Generalized._max_operating_temp self ->
  py_eq t (Generalized.max_operating_temp self) = true ->
  Generalized.calculate_temperature_factor xlsx self =
  Generalized.first_factor (reference_curve xlsx ty limit).
Proof.
  intros Hty Hcap Ht Hi Hd Hi' Hlim Hle Heq.
  destruct (eq_max_in_range t _ _ Heq Hle) as [Hlt Hgt].
  unfold Generalized.calculate_temperature_factor, Generalized.battery_details.
  unfold Generalized.operating_temp, Generalized.battery_type,
    Generalized.battery_capacity, Generalized.load_current,
    Generalized.load_duration_per_day, Generalized.sleep_current.
  rewrite Hty, Hcap, Ht, Hi, Hd, Hi'. cbn [getattr bind].
  unfold Generalized.min_operating_temp, Generalized.max_operating_temp in *.
  rewrite Hlt. cbn [bind]. rewrite Hgt. cbn [bind]. rewrite Heq.
  unfold mode_limit in Hlim. unfold Generalized.current_discharge_mode.
  unfold reference_curve.
  destruct (Generalized._current_discharge_mode self) as [ |n|x|x|s];
    try discriminate.
  unfold lookup2. cbn [lookup String.eqb Ascii.eqb Bool.eqb bind].
  unfold Generalized.low_current_discharge, Generalized.medium_current_discharge,
    Generalized.high_current_discharge.
  destruct (String.eqb s "Low") eqn:E1.
  { apply String.eqb_eq in E1. subst s. injection Hlim as <-. reflexivity. }
  destruct (String.eqb s "Medium") eqn:E2.
  { apply String.eqb_eq in E2. subst s. injection Hlim as <-. reflexivity. }
  destruct (String.eqb s "High") eqn:E3.
  { apply String.eqb_eq in E3. subst s. injection Hlim as <-. reflexivity. }
  exfalso. revert Hlim E1 E2 E3. clear.
  intros Hlim E1 E2 E3.
  assert (s = "Low" \/ s = "Medium" \/ s = "High").
  { repeat (destruct s as [|[[] [] [] [] [] [] [] []] s]; try discriminate);
      auto. }
  destruct H as [->|[->| ->]]; discriminate.
Qed.

Lemma eq_max_ge (t : value) (lo hi : Z) :
  py_eq t (VInt hi) = true -> lo <= hi -> py_ge t (VInt lo) = Ok true.
Proof.
  intros He Hle. pose proof (py_eq_int_compare t hi He) as Hc.
  unfold py_ge.
  assert (F : forall x, option_map CompOpp (compare_int_float hi x) = Some Eq ->
              match option_map CompOpp (compare_int_float lo x) with
              | Some (Gt | Eq) => true | _ => false end = true).
  { intros x Hx. apply option_map_CompOpp_Eq in Hx.
    destruct (compare_int_float_Eq hi x Hx) as [Fx Bx].
    destruct (compare_int_float_spec lo x Fx) as (c & Ec & Rc).
    rewrite Ec. rewrite Bx in Rc.
    assert (IZR lo <= IZR hi)%R by now apply IZR_le.
    destruct Rc; cbn; try reflexivity. lra. }
  destruct t as [ |m|x|x|s]; cbn in Hc |- *; try discriminate.
  - injection Hc as Hc. apply Z.compare_eq in Hc. subst m.
    destruct (Z.compare_spec hi lo); try reflexivity. lia.
  - injection Hc as Hc. now rewrite F.
  - injection Hc as Hc. now rewrite F.
Qed.

(** C7 (spec sections 4.2 and 8).  When the operating temperature equals the
    maximum operating temperature, the generalized program returns the factor
    of the first row of the curve it selected, with no arithmetic on it; when
    that first row is the sample at this temperature - the curve being sorted
    by descending temperature from the maximum - this is the curve's value
    there.  The lithium-only program returns 1 at 60 degrees. *)
Theorem maximum_temperature_factor :
  (forall xlsx self ty cap t i d i' limit r rest,
     Generalized._battery_type self = Some ty ->
     Generalized._battery_capacity self = Some cap ->
     Generalized._operating_temp self = Some t ->
     Generalized._load_current self = Some i ->
     Generalized._load_duration_per_day self = Some d ->
     Generalized._sleep_current self = Some i' ->
     mode_limit self = Ok limit ->
     Generalized._min_operating_temp self <= Generalized._max_operating_temp self ->
     py_eq t (Generalized.max_operating_temp self) = true ->
     reference_curve xlsx ty limit = r :: rest ->
     Generalized.calculate_temperature_factor xlsx self =
     Ok (VNp (Generalized.factor r)) /\
     (py_eq (VNp (Generalized.temperature r)) t = true ->
      sample_at (reference_curve xlsx ty limit) t = Some (Generalized.factor r))) /\
  (forall sheet self t,
     Lithium._operating_temp self = Some t ->
     Lithium._min_operating_temp self = -40 ->
     Lithium._max_operating_temp self = 60 ->
     py_eq t (VInt 60) = true ->
     Lithium.calculate_temperature_factor sheet self = Ok (VFloat 1)).
Proof.
  split.
  - intros xlsx self ty cap t i d i' limit r rest
      Hty Hcap Ht Hi Hd Hi' Hlim Hle Heq Hcurve.
    rewrite (factor_at_maximum xlsx self ty cap t i d i' limit) by assumption.
    rewrite Hcurve. split; [reflexivity|].
    intros Hr. unfold sample_at. cbn [find]. now rewrite Hr.
  - intros sheet self t Ht Hmin Hmax Heq.
    destruct (eq_max_in_range t (-40) 60 Heq ltac:(lia)) as [Hlt Hgt].
    pose proof (eq_max_ge t (-10) 60 Heq ltac:(lia)) as Hge.
    unfold Lithium.calculate_temperature_factor, Lithium.operating_temp,
      Lithium.min_operating_temp, Lithium.max_operating_temp.
    rewrite Ht, Hmin, Hmax. cbn [getattr bind].
    rewrite Hlt. cbn [bind]. rewrite Hgt. cbn [bind]. rewrite Hge. reflexivity.
Qed.

(** ** Temperatures outside the operating range (spec sections 4.2 and 8) *)

(** C1.  The lithium-only program, constructed with the defaults
    [Battery(16000, 70, 0)] - 70 degrees is above the maximum of 60 - sets the
    temperature factor to 0 and then divides 0.0 by a total daily consumption
    of 0.0: [update_battery_properties] raises [ZeroDivisionError] and the
    runtime stays [None], where the generalized program returns 0 before
    dividing. *)
Theorem lithium_out_of_range_divides_by_zero (sheet : list Lithium.row) :
  exists self self',
    Lithium.__init__ (VInt 16000) (VInt 70) (VInt 0) (VInt 86400) (VInt 0) = Ok self /\
    Lithium.update_battery_properties sheet self = (self', Raise ZeroDivisionError) /\
    Lithium.temperature_factor self' = VFloat 0 /\
    Lithium.effective_battery_capacity self' = VFloat 0 /\
    Lithium.battery_runtime self' = VNone.
Proof.
  eexists. eexists. split; [reflexivity|]. split; [reflexivity|].
  repeat split.
Qed.

(** ** What [update_battery_properties] returns (spec section 4.4) *)



(** ** Which exceptions the arithmetic can raise *)

Lemma as_float_total (a : value) :
  is_numeric a = true ->
  (exists x, as_float a = Ok x) \/ as_float a = Raise OverflowError.
Proof.
  destruct a as [ |n|x|x|s]; try discriminate; intros _; cbn; eauto.
  unfold float_of_int. destruct (binary_normalize prec emax n 0 false); cbn; eauto.
Qed.

Lemma arith_total (iop : Z -> Z -> Z) (fop : float -> float -> float)
    (a b : value) :
  is_numeric a = true -> is_numeric b = true ->
  (exists v, arith iop fop a b = Ok v /\ is_numeric v = true) \/
  arith iop fop a b = Raise OverflowError.
Proof.
  intros Ha Hb. unfold arith. rewrite Ha, Hb. cbn [andb negb].
  assert (G : (exists v, (x <- as_float a ;; y <- as_float b ;;
                 Ok (mk_float (fst x || fst y) (fop (snd x) (snd y)))) = Ok v /\
                 is_numeric v = true) \/
              (x <- as_float a ;; y <- as_float b ;;
                 Ok (mk_float (fst x || fst y) (fop (snd x) (snd y))))
              = Raise OverflowError).
  { destruct (as_float_total a Ha) as [[x Hx]|Hx]; rewrite Hx; cbn [bind]; auto.
    destruct (as_float_total b Hb) as [[y Hy]|Hy]; rewrite Hy; cbn [bind]; auto.
    left. eexists. split; [reflexivity|]. apply mk_float_numeric. }
  destruct a as [ |m|x|x|s]; try discriminate; try exact G.
  destruct b as [ |n|y|y|t]; try discriminate; try exact G.
  left. eexists. split; reflexivity.
Qed.

(** Division by a non-zero [int] constant that binary64 represents. *)
Lemma truediv_const_total (a : value) (n : Z) (y : float) :
  is_numeric a = true -> n <> 0 ->
  float_of_int n = Ok y -> (y =? 0)%float = false ->
  (exists v, py_truediv a (VInt n) = Ok v /\ is_numeric v = true) \/
  py_truediv a (VInt n) = Raise OverflowError.
Proof.
  intros Ha Hn Hy Hy0. unfold py_truediv. rewrite Ha. cbn [is_numeric andb negb].
  destruct a as [ |m|x|x|s]; try discriminate.
  - destruct (Z.eqb_spec n 0); [contradiction|].
    destruct (float_of_ratio m n); eauto.
  - cbn [as_float bind]. rewrite Hy. cbn [bind fst snd orb]. rewrite Hy0. eauto.
  - cbn [as_float bind]. rewrite Hy. cbn [bind fst snd orb]. eauto.
Qed.

Lemma truediv_86400_total (a : value) :
  is_numeric a = true ->
  (exists v, py_truediv a (VInt 86400) = Ok v /\ is_numeric v = true) \/
  py_truediv a (VInt 86400) = Raise OverflowError.
Proof.
  intros Ha. now apply truediv_const_total with (y := 86400%float).
Qed.

Lemma py_round_total (a : value) (n : Z) :
  is_numeric a = true -> exists v, py_round a n = Ok v /\ is_numeric v = true.
Proof. destruct a; try discriminate; intros _; cbn; eauto. Qed.

(** The average current draw of accepted inputs is computed, unless an
    [int] is too large for binary64. *)
Lemma average_total (i d i' : value) :
  current_ok i -> duration_ok d -> current_ok i' ->
  (exists avg, average_current_draw_spec i d i' = Ok avg /\ is_numeric avg = true) \/
  average_current_draw_spec i d i' = Raise OverflowError.
Proof.
  intros [Hi _] Hd [Hi' _].
  destruct (day_split_value d Hd) as (s & _ & Hs & _).
  destruct Hd as [Hd _].
  assert (Hsn : is_numeric s = true) by (now apply arith_numeric in Hs).
  unfold average_current_draw_spec, py_mul, py_add. rewrite Hs. cbn [bind].
  destruct (arith_total Z.mul PrimFloat.mul i d Hi Hd) as [(a & Ha & Na)|Ha];
    rewrite Ha; cbn [bind]; auto.
  destruct (truediv_86400_total a Na) as [(a' & Ha' & Na')|Ha'];
    rewrite Ha'; cbn [bind]; auto.
  destruct (arith_total Z.mul PrimFloat.mul i' s Hi' Hsn) as [(b & Hb & Nb)|Hb];
    rewrite Hb; cbn [bind]; auto.
  destruct (truediv_86400_total b Nb) as [(b' & Hb' & Nb')|Hb'];
    rewrite Hb'; cbn [bind]; auto.
  destruct (arith_total Z.add PrimFloat.add a' b' Na' Nb') as [(c & Hc & Nc)|Hc];
    rewrite Hc; cbn [bind]; auto.
  left. apply py_round_total. exact Nc.
Qed.

(** ** The generalized program outside the operating range *)

(** The temperature is strictly below the minimum or strictly above the
    maximum. *)
Definition lt_value (a b : value) : Prop := py_lt a b = Ok true.

Definition outside (t : value) (lo hi : Z) : Prop :=
  lt_value t (VInt lo) \/ gt_value t (VInt hi).

Lemma outside_test (t : value) (lo hi : Z) :
  outside t lo hi ->
  (below <- py_lt t (VInt lo) ;;
   if below then Ok true else py_gt t (VInt hi)) = Ok true.
Proof.
  intros [H|H].
  - unfold lt_value in H. now rewrite H.
  - unfold gt_value in H. unfold py_lt, py_gt in *.
    assert (Hn : is_numeric t = true) by (destruct t; try discriminate; reflexivity).
    destruct (py_compare_numeric t (VInt lo) Hn eq_refl) as [c Hc].
    rewrite Hc. destruct c as [[]|]; cbn [bind]; try reflexivity; exact H.
Qed.

Lemma factor_outside (xlsx : Generalized.workbook) (self : Generalized.Battery)
    (t : value) :
  Generalized._operating_temp self = Some t ->
  outside t (Generalized._min_operating_temp self)
    (Generalized._max_operating_temp self) ->
  Generalized.calculate_temperature_factor xlsx self = Ok (VFloat 0).
Proof.
  intros Ht Hout. apply outside_test in Hout.
  unfold Generalized.calculate_temperature_factor, Generalized.operating_temp,
    Generalized.min_operating_temp, Generalized.max_operating_temp.
  rewrite Ht. cbn [getattr bind].
  apply bind_Ok in Hout. destruct Hout as (below & Hb & Hout).
  rewrite Hb. cbn [bind]. now rewrite Hout.
Qed.

(** Zero times a finite number is a zero. *)
Lemma zero_mul_finite (y : float) :
  finite_or_zero (Prim2SF y) = true -> exists s, Prim2SF (0 * y) = S754_zero s.
Proof.
  intros H. rewrite mul_spec, Prim2SF_zero.
  destruct (Prim2SF y); try discriminate; cbn; eauto.
Qed.

Lemma py_eq_float_zero (x : float) (s : bool) :
  Prim2SF x = S754_zero s -> py_eq (VFloat x) (VInt 0) = true.
Proof.
  intros H. cbn. unfold compare_int_float. now rewrite H.
Qed.

Lemma zero_capacity (cap : value) :
  capacity_ok cap ->
  (exists e, py_mul (VFloat 0) cap = Ok e /\ py_eq e (VInt 0) = true) \/
  py_mul (VFloat 0) cap = Raise OverflowError.
Proof.
  intros [Hi _]. destruct cap as [ |n|x|x|s]; try discriminate.
  unfold py_mul, arith. cbn [is_numeric andb negb as_float bind].
  destruct (float_of_int n) as [y|e] eqn:Ey.
  - left. cbn [bind fst snd orb mk_float]. eexists. split; [reflexivity|].
    destruct (float_of_int_spec n y Ey) as [_ Hf].
    destruct (zero_mul_finite y Hf) as [s Hs].
    now apply (py_eq_float_zero _ s).
  - right. unfold float_of_int in Ey.
    destruct (binary_normalize prec emax n 0 false); try discriminate.
    now injection Ey as <-.
Qed.

(** For accepted inputs with the temperature outside the chemistry's
    range, the generalized program stores a temperature factor of 0 and a
    runtime of 0 - provided no [int] argument is too large for binary64, in
    which case the arithmetic raises [OverflowError]. *)
Theorem generalized_out_of_range (xlsx : Generalized.workbook)
    (ty cap t i d i' : value) (self : Generalized.Battery) :
  Generalized.__init__ ty cap t i d i' = Ok self ->
  chemistry_ok ty -> capacity_ok cap -> temperature_ok t ->
  current_ok i -> duration_ok d -> current_ok i' ->
  (if py_eq ty (VStr "Alkaline") then outside t (-18) 55 else outside t (-40) 60) ->
  (exists self',
     Generalized.update_battery_properties xlsx self = (self', Ok (VInt 0)) /\
     Generalized.temperature_factor self' = VFloat 0 /\
     Generalized.battery_runtime self' = VInt 0) \/
  snd (Generalized.update_battery_properties xlsx self) = Raise OverflowError.
Proof.
  intros Hinit Hty Hcap Ht Hi Hd Hi' Hout.
  destruct (init_fields _ _ _ _ _ _ _ Hinit)
    as (F1 & F2 & F3 & F4 & F5 & F6 & Flo & Fmed & _).
  apply (fun F => field_of_ok _ _ _ F Hty) in F1.
  apply (fun F => field_of_ok _ _ _ F Hcap) in F2.
  apply (fun F => field_of_ok _ _ _ F Ht) in F3.
  apply (fun F => field_of_ok _ _ _ F Hi) in F4.
  apply (fun F => field_of_ok _ _ _ F Hd) in F5.
  apply (fun F => field_of_ok _ _ _ F Hi') in F6.
  rewrite GeneralizedSteps.update_unfold, F1.
  set (b0 := GeneralizedSteps.with_constants ty self).
  assert (K : Generalized._battery_capacity b0 = Some cap /\
              Generalized._operating_temp b0 = Some t /\
              Generalized._load_current b0 = Some i /\
              Generalized._load_duration_per_day b0 = Some d /\
              Generalized._sleep_current b0 = Some i' /\
              Generalized._low_current_discharge b0 = 25 /\
              Generalized._medium_current_discharge b0 = 250 /\
              outside t (Generalized._min_operating_temp b0)
                (Generalized._max_operating_temp b0)).
  { unfold b0, GeneralizedSteps.with_constants.
    destruct (py_eq ty (VStr "Alkaline")); repeat split; assumption. }
  clearbody b0. destruct K as (Kc & Kt & Ki & Kd & Ki' & Klo & Kmed & Kout).
  destruct (day_split_value d Hd) as (s & _ & Hs & _).
  unfold GeneralizedSteps.from_sleep.
  rewrite seq_assign_Ok with (v := s).
  2:{ unfold GeneralizedSteps.sleep_rhs, Generalized.load_duration_per_day.
      now rewrite Kd. }
  set (b1 := Generalized.assign_sleep_duration_per_day s b0).
  assert (Havg : Generalized.average_current_draw_expr b1 =
                 average_current_draw_spec i d i').
  { unfold Generalized.average_current_draw_expr, average_current_draw_spec,
      Generalized.load_current, Generalized.load_duration_per_day,
      Generalized.sleep_current, Generalized.sleep_duration_per_day.
    cbn [b1 Generalized.assign_sleep_duration_per_day Generalized._load_current
         Generalized._load_duration_per_day Generalized._sleep_current
         Generalized._sleep_duration_per_day].
    rewrite Ki, Kd, Ki', Hs. reflexivity. }
  unfold GeneralizedSteps.from_average.
  destruct (average_total i d i' Hi Hd Hi') as [(avg & Ea & Na)|Ea].
  2:{ right. rewrite seq_assign_Raise with (e := OverflowError); [reflexivity|].
      now rewrite Havg. }
  rewrite seq_assign_Ok with (v := avg) by (now rewrite Havg).
  set (b2 := Generalized.assign_average_current_draw avg b1).
  destruct (discharge_mode_of_average b2 Na Klo Kmed) as (mode & Hmode & _).
  unfold GeneralizedSteps.from_mode.
  rewrite seq_assign_Ok with (v := mode) by exact Hmode.
  set (b3 := Generalized.assign_current_discharge_mode mode b2).
  unfold GeneralizedSteps.from_factor.
  rewrite seq_assign_Ok with (v := VFloat 0).
  2:{ apply factor_outside with (t := t); [exact Kt|exact Kout]. }
  set (b4 := Generalized.assign_temperature_factor (VFloat 0) b3).
  unfold GeneralizedSteps.from_capacity.
  destruct (zero_capacity cap Hcap) as [(e & He & Hz)|He].
  2:{ right. rewrite seq_assign_Raise with (e := OverflowError); [reflexivity|].
      unfold GeneralizedSteps.capacity_rhs, Generalized.battery_capacity.
      cbn [b4 b3 b2 b1 Generalized._battery_capacity
           Generalized.assign_temperature_factor
           Generalized.assign_current_discharge_mode
           Generalized.assign_average_current_draw
           Generalized.assign_sleep_duration_per_day].
      rewrite Kc. exact He. }
  rewrite seq_assign_Ok with (v := e).
  2:{ unfold GeneralizedSteps.capacity_rhs, Generalized.battery_capacity.
      cbn [b4 b3 b2 b1 Generalized._battery_capacity
           Generalized.assign_temperature_factor
           Generalized.assign_current_discharge_mode
           Generalized.assign_average_current_draw
           Generalized.assign_sleep_duration_per_day].
      rewrite Kc. exact He. }
  left. unfold GeneralizedSteps.from_runtime, assign.
  unfold Generalized.calculate_runtime at 1.
  cbn [Generalized.effective_battery_capacity
       Generalized._effective_battery_capacity
       Generalized.assign_effective_battery_capacity].
  rewrite Hz. cbn [returning]. eexists. split; [reflexivity|]. split; reflexivity.
Qed.

(** ** Rejected constructor arguments *)

Lemma getattr_None : getattr None = Raise AttributeError.
Proof. reflexivity. Qed.

Lemma details_need_every_field (self : Generalized.Battery) :
  Generalized._battery_type self = None \/
  Generalized._battery_capacity self = None \/
  Generalized._operating_temp self = None \/
  Generalized._load_current self = None \/
  Generalized._load_duration_per_day self = None \/
  Generalized._sleep_current self = None ->
  Generalized.battery_details self = Raise AttributeError.
Proof.
  unfold Generalized.battery_details, Generalized.battery_type,
    Generalized.battery_capacity, Generalized.operating_temp,
    Generalized.load_current, Generalized.load_duration_per_day,
    Generalized.sleep_current.
  destruct (Generalized._battery_type self); [|reflexivity].
  destruct (Generalized._battery_capacity self); [|reflexivity].
  destruct (Generalized._operating_temp self); [|reflexivity].
  destruct (Generalized._load_current self); [|reflexivity].
  destruct (Generalized._load_duration_per_day self); [|reflexivity].
  destruct (Generalized._sleep_current self); [|reflexivity].
  intros [H|[H|[H|[H|[H|H]]]]]; discriminate.
Qed.

Lemma details_need_every_field_li (self : Lithium.Battery) :
  Lithium._battery_capacity self = None \/
  Lithium._operating_temp self = None \/
  Lithium._load_current self = None \/
  Lithium._load_duration_per_day self = None \/
  Lithium._sleep_current self = None ->
  Lithium.battery_details self = Raise AttributeError.
Proof.
  unfold Lithium.battery_details, Lithium.battery_capacity, Lithium.operating_temp,
    Lithium.load_current, Lithium.load_duration_per_day, Lithium.sleep_current.
  destruct (Lithium._battery_capacity self); [|reflexivity].
  destruct (Lithium._operating_temp self); [|reflexivity].
  destruct (Lithium._load_current self); [|reflexivity].
  destruct (Lithium._load_duration_per_day self); [|reflexivity].
  destruct (Lithium._sleep_current self); [|reflexivity].
  intros [H|[H|[H|[H|H]]]]; discriminate.
Qed.

(** Without a capacity, the temperature factor of the generalized program is
    0.0 outside the range, and inside it the call of [battery_details]
    raises. *)
Lemma factor_without_capacity (xlsx : Generalized.workbook)
    (self : Generalized.Battery) (ty t : value) :
  Generalized._battery_type self = Some ty ->
  Generalized._battery_capacity self = None ->
  Generalized._operating_temp self = Some t ->
  is_numeric t = true ->
  Generalized.calculate_temperature_factor xlsx self = Ok (VFloat 0) \/
  Generalized.calculate_temperature_factor xlsx self = Raise AttributeError.
Proof.
  intros Hty Hcap Ht Hn.
  unfold Generalized.calculate_temperature_factor, Generalized.operating_temp,
    Generalized.battery_type.
  rewrite Ht, Hty. cbn [getattr bind].
  unfold py_lt, py_gt.
  destruct (py_compare_numeric t (Generalized.min_operating_temp self) Hn eq_refl)
    as [c1 E1].
  destruct (py_compare_numeric t (Generalized.max_operating_temp self) Hn eq_refl)
    as [c2 E2].
  rewrite E1. cbn [bind].
  assert (D : Generalized.battery_details self = Raise AttributeError).
  { apply details_need_every_field. auto. }
  destruct (match c1 with Some Lt => true | _ => false end); cbn [bind]; auto.
  rewrite E2. cbn [bind].
  destruct (match c2 with Some Gt => true | _ => false end); cbn [bind]; auto.
  rewrite D. auto.
Qed.

Lemma update_without_capacity (xlsx : Generalized.workbook)
    (ty cap t i d i' : value) (self : Generalized.Battery) :
  Generalized.__init__ ty cap t i d i' = Ok self ->
  ~ capacity_ok cap -> chemistry_ok ty -> temperature_ok t ->
  current_ok i -> duration_ok d -> current_ok i' ->
  snd (Generalized.update_battery_properties xlsx self) = Raise AttributeError \/
  (snd (Generalized.update_battery_properties xlsx self) = Raise OverflowError /\
   average_current_draw_spec i d i' = Raise OverflowError).
Proof.
  intros Hinit Hcap Hty Ht Hi Hd Hi'.
  destruct (init_fields _ _ _ _ _ _ _ Hinit)
    as (F1 & F2 & F3 & F4 & F5 & F6 & Flo & Fmed & _).
  apply (fun F => field_of_ok _ _ _ F Hty) in F1.
  apply (fun F => field_of_rejected _ _ _ F Hcap) in F2.
  apply (fun F => field_of_ok _ _ _ F Ht) in F3.
  apply (fun F => field_of_ok _ _ _ F Hi) in F4.
  apply (fun F => field_of_ok _ _ _ F Hd) in F5.
  apply (fun F => field_of_ok _ _ _ F Hi') in F6.
  rewrite GeneralizedSteps.update_unfold, F1.
  set (b0 := GeneralizedSteps.with_constants ty self).
  assert (K : Generalized._battery_type b0 = Some ty /\
              Generalized._battery_capacity b0 = None /\
              Generalized._operating_temp b0 = Some t /\
              Generalized._load_current b0 = Some i /\
              Generalized._load_duration_per_day b0 = Some d /\
              Generalized._sleep_current b0 = Some i' /\
              Generalized._low_current_discharge b0 = 25 /\
              Generalized._medium_current_discharge b0 = 250).
  { unfold b0, GeneralizedSteps.with_constants.
    destruct (py_eq ty (VStr "Alkaline")); repeat split; assumption. }
  clearbody b0. destruct K as (Kty & Kc & Kt & Ki & Kd & Ki' & Klo & Kmed).
  destruct (day_split_value d Hd) as (s & _ & Hs & _).
  unfold GeneralizedSteps.from_sleep.
  rewrite seq_assign_Ok with (v := s).
  2:{ unfold GeneralizedSteps.sleep_rhs, Generalized.load_duration_per_day.
      now rewrite Kd. }
  set (b1 := Generalized.assign_sleep_duration_per_day s b0).
  assert (Havg : Generalized.average_current_draw_expr b1 =
                 average_current_draw_spec i d i').
  { unfold Generalized.average_current_draw_expr, average_current_draw_spec,
      Generalized.load_current, Generalized.load_duration_per_day,
      Generalized.sleep_current, Generalized.sleep_duration_per_day.
    cbn [b1 Generalized.assign_sleep_duration_per_day Generalized._load_current
         Generalized._load_duration_per_day Generalized._sleep_current
         Generalized._sleep_duration_per_day].
    rewrite Ki, Kd, Ki', Hs. reflexivity. }
  unfold GeneralizedSteps.from_average.
  destruct (average_total i d i' Hi Hd Hi') as [(avg & Ea & Na)|Ea].
  2:{ right. rewrite seq_assign_Raise with (e := OverflowError);
        [split; [reflexivity|exact Ea]|].
      now rewrite Havg. }
  rewrite seq_assign_Ok with (v := avg) by (now rewrite Havg).
  set (b2 := Generalized.assign_average_current_draw avg b1).
  destruct (discharge_mode_of_average b2 Na Klo Kmed) as (mode & Hmode & _).
  unfold GeneralizedSteps.from_mode.
  rewrite seq_assign_Ok with (v := mode) by exact Hmode.
  set (b3 := Generalized.assign_current_discharge_mode mode b2).
  left. unfold GeneralizedSteps.from_factor.
  destruct (factor_without_capacity xlsx b3 ty t Kty Kc Kt Ht) as [Hf|Hf].
  - rewrite seq_assign_Ok with (v := VFloat 0) by exact Hf.
    unfold GeneralizedSteps.from_capacity.
    rewrite seq_assign_Raise with (e := AttributeError); [reflexivity|].
    unfold GeneralizedSteps.capacity_rhs, Generalized.battery_capacity.
    cbn [b3 b2 b1 Generalized._battery_capacity
         Generalized.assign_temperature_factor
         Generalized.assign_current_discharge_mode
         Generalized.assign_average_current_draw
         Generalized.assign_sleep_duration_per_day].
    now rewrite Kc.
  - now rewrite seq_assign_Raise with (e := AttributeError).
Qed.

Lemma arith_np_l (iop : Z -> Z -> Z) (fop : float -> float -> float)
    (x : float) (b : value) (y : bool * float) :
  as_float b = Ok y -> arith iop fop (VNp x) b = Ok (VNp (fop x (snd y))).
Proof.
  intros Hy. unfold arith.
  assert (Hb : is_numeric b = true) by (destruct b; try discriminate; reflexivity).
  rewrite Hb. cbn [is_numeric andb negb as_float bind]. rewrite Hy. reflexivity.
Qed.

Lemma arith_np_r (iop : Z -> Z -> Z) (fop : float -> float -> float)
    (a : value) (x : float) (y : bool * float) :
  as_float a = Ok y -> arith iop fop a (VNp x) = Ok (VNp (fop (snd y) x)).
Proof.
  intros Hy. unfold arith.
  assert (Ha : is_numeric a = true) by (destruct a; try discriminate; reflexivity).
  rewrite Ha. cbn [is_numeric andb negb].
  destruct a as [ |n|z|z|s]; try discriminate; cbn [as_float bind] in *.
  - destruct (float_of_int n); [|discriminate]. injection Hy as <-.
    reflexivity.
  - injection Hy as <-. reflexivity.
  - injection Hy as <-. reflexivity.
Qed.

Lemma interpolate_step_li (t : value) (r r' : Lithium.row) (df : list Lithium.row) :
  Lithium.interpolate t (r :: r' :: df) =
  (c1 <- py_lt t (VNp (Lithium.temperature r)) ;;
   c2 <- (if c1 then py_ge t (VNp (Lithium.temperature r')) else Ok false) ;;
   if c2 then
     dy <- py_sub (VNp (Lithium.factor r)) (VNp (Lithium.factor r')) ;;
     dx <- py_sub (VNp (Lithium.temperature r)) (VNp (Lithium.temperature r')) ;;
     slope <- py_truediv dy dx ;;
     dt <- py_sub t (VNp (Lithium.temperature r')) ;;
     p <- py_mul slope dt ;;
     py_add (VNp (Lithium.factor r')) p
   else Lithium.interpolate t (r' :: df)).
Proof. reflexivity. Qed.

(** The interpolation loop of the lithium program raises nothing. *)
Lemma interpolate_total_li (t : value) (y : bool * float) (df : list Lithium.row) :
  as_float t = Ok y -> exists v, Lithium.interpolate t df = Ok v.
Proof.
  intros Hy.
  assert (Hn : is_numeric t = true) by (destruct t; try discriminate; reflexivity).
  induction df as [|r df IH]; [cbn; eauto|].
  destruct df as [|r' df]; [cbn; eauto|].
  rewrite interpolate_step_li. unfold py_lt, py_ge.
  destruct (py_compare_numeric t (VNp (Lithium.temperature r)) Hn eq_refl) as [c1 E1].
  destruct (py_compare_numeric t (VNp (Lithium.temperature r')) Hn eq_refl) as [c2 E2].
  rewrite E1. cbn [bind].
  destruct (match c1 with Some Lt => true | _ => false end); cbn [bind]; [|exact IH].
  rewrite E2. cbn [bind].
  destruct (match c2 with Some (Gt | Eq) => true | _ => false end); cbn [bind];
    [|exact IH].
  unfold py_sub, py_mul, py_add.
  rewrite (arith_np_l _ _ _ _ (true, Lithium.factor r')) by reflexivity. cbn [bind snd].
  rewrite (arith_np_l _ _ _ _ (true, Lithium.temperature r')) by reflexivity.
  cbn [bind snd].
  unfold py_truediv at 1. cbn [is_numeric andb negb as_float bind fst snd orb].
  rewrite (arith_np_r _ _ _ _ _ Hy). cbn [bind].
  rewrite (arith_np_l _ _ _ _ (true, _)) by reflexivity. cbn [bind snd].
  rewrite (arith_np_l _ _ _ _ (true, _)) by reflexivity. eauto.
Qed.

Lemma in_range_as_float (t : value) (lo hi : Z) :
  is_numeric t = true -> Z.abs lo <= 2 ^ 1023 -> Z.abs hi <= 2 ^ 1023 ->
  py_lt t (VInt lo) = Ok false -> py_gt t (VInt hi) = Ok false ->
  exists y, as_float t = Ok y.
Proof.
  intros Hn Hlo Hhi H1 H2. destruct t as [ |n|x|x|s]; try discriminate;
    cbn [as_float]; eauto.
  unfold py_lt, py_gt in H1, H2. cbn in H1, H2.
  destruct (Z.compare_spec n lo); try discriminate.
  - destruct (float_of_int_small n ltac:(lia)) as [y Ey]. rewrite Ey. cbn. eauto.
  - destruct (Z.compare_spec n hi); try discriminate;
      destruct (float_of_int_small n ltac:(lia)) as [y Ey]; rewrite Ey; cbn; eauto.
Qed.

Lemma factor_total_li (sheet : list Lithium.row) (self : Lithium.Battery)
    (t : value) :
  Lithium._operating_temp self = Some t -> is_numeric t = true ->
  Lithium._min_operating_temp self = -40 ->
  Lithium._max_operating_temp self = 60 ->
  exists v, Lithium.calculate_temperature_factor sheet self = Ok v.
Proof.
  intros Ht Hn Hmin Hmax.
  unfold Lithium.calculate_temperature_factor, Lithium.operating_temp,
    Lithium.min_operating_temp, Lithium.max_operating_temp.
  rewrite Ht, Hmin, Hmax. cbn [getattr bind].
  destruct (py_lt t (VInt (-40))) as [[|]|] eqn:E1; cbn [bind]; eauto.
  2:{ unfold py_lt in E1.
      destruct (py_compare_numeric t (VInt (-40)) Hn eq_refl) as [c Hc].
      rewrite Hc in E1. discriminate. }
  destruct (py_gt t (VInt 60)) as [[|]|] eqn:E2; cbn [bind]; eauto.
  2:{ unfold py_gt in E2.
      destruct (py_compare_numeric t (VInt 60) Hn eq_refl) as [c Hc].
      rewrite Hc in E2. discriminate. }
  unfold py_ge.
  destruct (py_compare_numeric t (VInt (-10)) Hn eq_refl) as [c Hc].
  rewrite Hc. cbn [bind].
  destruct (match c with Some (Gt | Eq) => true | _ => false end); eauto.
  destruct (in_range_as_float t (-40) 60 Hn ltac:(cbn; lia) ltac:(cbn; lia) E1 E2)
    as [y Hy].
  now apply interpolate_total_li with (y := y).
Qed.

Lemma update_without_capacity_li (sheet : list Lithium.row)
    (cap t i d i' : value) (self : Lithium.Battery) :
  Lithium.__init__ cap t i d i' = Ok self ->
  ~ capacity_ok_lithium cap -> temperature_ok t ->
  current_ok i -> duration_ok d -> current_ok i' ->
  snd (Lithium.update_battery_properties sheet self) = Raise AttributeError.
Proof.
  intros Hinit Hcap Ht Hi Hd Hi'.
  destruct (init_fields_li _ _ _ _ _ _ Hinit)
    as (F2 & F3 & F4 & F5 & F6 & _ & _ & Fmin & Fmax).
  apply (fun F => field_of_rejected _ _ _ F Hcap) in F2.
  apply (fun F => field_of_ok _ _ _ F Ht) in F3.
  apply (fun F => field_of_ok _ _ _ F Hd) in F5.
  rewrite LithiumSteps.update_unfold_li.
  destruct (day_split_value d Hd) as (s & _ & Hs & _).
  unfold LithiumSteps.from_sleep_li.
  rewrite seq_assign_Ok with (v := s).
  2:{ unfold LithiumSteps.sleep_rhs_li, Lithium.load_duration_per_day.
      now rewrite F5. }
  set (b1 := Lithium.assign_sleep_duration_per_day s self).
  destruct (factor_total_li sheet b1 t F3 Ht Fmin Fmax) as [tf Htf].
  unfold LithiumSteps.from_factor_li.
  rewrite seq_assign_Ok with (v := tf) by exact Htf.
  unfold LithiumSteps.from_capacity_li.
  rewrite seq_assign_Raise with (e := AttributeError); [reflexivity|].
  unfold LithiumSteps.capacity_rhs_li, Lithium.battery_capacity.
  cbn [b1 Lithium._battery_capacity Lithium.assign_temperature_factor
       Lithium.assign_sleep_duration_per_day].
  now rewrite F2.
Qed.

(** C10.  A constructor argument that violates its setter's constraint
    leaves the attribute uncreated: reading the property raises
    [AttributeError], and so does [battery_details].  With a rejected capacity
    and the other arguments accepted, [update_battery_properties] never
    returns: the lithium-only program raises [AttributeError]; so does the
    generalized program, unless computing the average current draw has
    already raised [OverflowError] on an [int] too large for binary64. *)
Theorem rejected_argument_leaves_no_attribute :
  (forall ty cap t i d i' self,
     Generalized.__init__ ty cap t i d i' = Ok self ->
     (~ chemistry_ok ty ->
      Generalized._battery_type self = None /\
      Generalized.battery_type self = Raise AttributeError /\
      Generalized.battery_details self = Raise AttributeError) /\
     (~ capacity_ok cap ->
      Generalized._battery_capacity self = None /\
      Generalized.battery_capacity self = Raise AttributeError /\
      Generalized.battery_details self = Raise AttributeError) /\
     (~ temperature_ok t ->
      Generalized._operating_temp self = None /\
      Generalized.operating_temp self = Raise AttributeError /\
      Generalized.battery_details self = Raise AttributeError) /\
     (~ current_ok i ->
      Generalized._load_current self = None /\
      Generalized.load_current self = Raise AttributeError /\
      Generalized.battery_details self = Raise AttributeError) /\
     (~ duration_ok d ->
      Generalized._load_duration_per_day self = None /\
      Generalized.load_duration_per_day self = Raise AttributeError /\
      Generalized.battery_details self = Raise AttributeError) /\
     (~ current_ok i' ->
      Generalized._sleep_current self = None /\
      Generalized.sleep_current self = Raise AttributeError /\
      Generalized.battery_details self = Raise AttributeError) /\
     (~ capacity_ok cap -> chemistry_ok ty -> temperature_ok t ->
      current_ok i -> duration_ok d -> current_ok i' ->
      forall xlsx,
        snd (Generalized.update_battery_properties xlsx self) = Raise AttributeError \/
        (snd (Generalized.update_battery_properties xlsx self) = Raise OverflowError /\
         average_current_draw_spec i d i' = Raise OverflowError))) /\
  (forall cap t i d i' self,
     Lithium.__init__ cap t i d i' = Ok self ->
     (~ capacity_ok_lithium cap ->
      Lithium._battery_capacity self = None /\
      Lithium.battery_capacity self = Raise AttributeError /\
      Lithium.battery_details self = Raise AttributeError) /\
     (~ temperature_ok t ->
      Lithium._operating_temp self = None /\
      Lithium.operating_temp self = Raise AttributeError /\
      Lithium.battery_details self = Raise AttributeError) /\
     (~ current_ok i ->
      Lithium._load_current self = None /\
      Lithium.load_current self = Raise AttributeError /\
      Lithium.battery_details self = Raise AttributeError) /\
     (~ duration_ok d ->
      Lithium._load_duration_per_day self = None /\
      Lithium.load_duration_per_day self = Raise AttributeError /\
      Lithium.battery_details self = Raise AttributeError) /\
     (~ current_ok i' ->
      Lithium._sleep_current self = None /\
      Lithium.sleep_current self = Raise AttributeError /\
      Lithium.battery_details self = Raise AttributeError) /\
     (~ capacity_ok_lithium cap -> temperature_ok t ->
      current_ok i -> duration_ok d -> current_ok i' ->
      forall sheet,
        snd (Lithium.update_battery_properties sheet self) = Raise AttributeError)).
Proof.
  split.
  - intros ty cap t i d i' self Hinit.
    destruct (init_fields _ _ _ _ _ _ _ Hinit) as (F1 & F2 & F3 & F4 & F5 & F6 & _).
    repeat split;
      try (intros;
           unfold Generalized.battery_type, Generalized.battery_capacity,
             Generalized.operating_temp, Generalized.load_current,
             Generalized.load_duration_per_day, Generalized.sleep_current,
             Lithium.battery_capacity, Lithium.operating_temp,
             Lithium.load_current, Lithium.load_duration_per_day,
             Lithium.sleep_current;
           match goal with
           | F : field_of ?ok _ ?f, H : ~ ?ok |- ?f = None =>
               exact (field_of_rejected _ _ _ F H)
           | F : field_of ?ok _ ?f, H : ~ ?ok |- getattr ?f = _ =>
               rewrite (field_of_rejected _ _ _ F H); reflexivity
           | F : field_of ?ok _ ?f, H : ~ ?ok |- Generalized.battery_details _ = _ =>
               apply details_need_every_field;
               pose proof (field_of_rejected _ _ _ F H); tauto
           end).
    intros. eapply update_without_capacity; eassumption.
  - intros cap t i d i' self Hinit.
    destruct (init_fields_li _ _ _ _ _ _ Hinit) as (F2 & F3 & F4 & F5 & F6 & _).
    repeat split;
      try (intros;
           unfold Generalized.battery_type, Generalized.battery_capacity,
             Generalized.operating_temp, Generalized.load_current,
             Generalized.load_duration_per_day, Generalized.sleep_current,
             Lithium.battery_capacity, Lithium.operating_temp,
             Lithium.load_current, Lithium.load_duration_per_day,
             Lithium.sleep_current;
           match goal with
           | F : field_of ?ok _ ?f, H : ~ ?ok |- ?f = None =>
               exact (field_of_rejected _ _ _ F H)
           | F : field_of ?ok _ ?f, H : ~ ?ok |- getattr ?f = _ =>
               rewrite (field_of_rejected _ _ _ F H); reflexivity
           | F : field_of ?ok _ ?f, H : ~ ?ok |- Lithium.battery_details _ = _ =>
               apply details_need_every_field_li;
               pose proof (field_of_rejected _ _ _ F H); tauto
           end).
    intros. eapply update_without_capacity_li; eassumption.
Qed.

(** ** Instances *)

(** The battery of the lithium program's own test,
    [Battery(16000, -35, 90, 5*48, 0.060167)]. *)
Definition test_battery_li : Lithium.Battery :=
  Lithium.assign_sleep_current (VFloat 0.060167)
    (Lithium.assign_load_duration_per_day (VInt 240)
       (Lithium.assign_load_current (VInt 90)
          (Lithium.assign_operating_temp (VInt (-35))
             (Lithium.assign_battery_capacity (VInt 16000) Lithium.blank)))).

Lemma test_battery_li_init :
  Lithium.__init__ (VInt 16000) (VInt (-35)) (VInt 90) (VInt 240) (VFloat 0.060167)
  = Ok test_battery_li.
Proof. reflexivity. Qed.

Lemma sleep_plus_load_is_a_day_witness :
  duration_ok (VFloat 2000.1) /\
  let self := Lithium.assign_load_duration_per_day (VFloat 2000.1) test_battery_li in
  let self' := fst (Lithium.update_battery_properties [] self) in
  Lithium.load_duration_per_day self' = Ok (VFloat 2000.1) /\
  py_sub (VInt 86400) (VFloat 2000.1) = Ok (Lithium.sleep_duration_per_day self') /\
  day_accounted (Lithium.sleep_duration_per_day self') (VFloat 2000.1).
Proof.
  assert (H : duration_ok (VFloat 2000.1)) by (repeat split; reflexivity).
  split; [exact H|].
  apply (proj2 (sleep_plus_load_is_a_day (VFloat 2000.1) H)). reflexivity.
Defined.

(** The battery of the generalized program's own test,
    [Battery("Lithium Metal", 16000, -35, 1500, 2000, 0.06)]: its average
    draw is 34.781 mA, which selects the curve of 250 mA. *)
Lemma average_draw_and_mode_witness :
  let self' :=
    fst (Generalized.update_battery_properties (fun _ => [])
           (Generalized.assign_sleep_current (VFloat 0.06)
              (Generalized.assign_load_duration_per_day (VInt 2000)
                 (Generalized.assign_load_current (VInt 1500)
                    (Generalized.assign_operating_temp (VInt (-35))
                       (Generalized.assign_battery_capacity (VInt 16000)
                          (Generalized.assign_battery_type (VStr "Lithium Metal")
                             Generalized.blank))))))) in
  Generalized.average_current_draw self' = VFloat 34.781 /\
  discharge_mode_spec (VFloat 34.781) (Generalized.current_discharge_mode self').
Proof.
  apply (average_draw_and_mode (fun _ => []) (VStr "Lithium Metal") (VInt 16000)
           (VInt (-35)) (VInt 1500) (VInt 2000) (VFloat 0.06)).
  - reflexivity.
  - now left.
  - repeat split; reflexivity.
  - repeat split; reflexivity.
  - repeat split; reflexivity.
  - reflexivity.
Defined.

(** * Further properties *)

(** ** Numbers as the runtime computation sees them *)

(** The exact value of a number. *)
Definition real_of (v : value) : R :=
  match v with
  | VInt n => IZR n
  | VFloat x | VNp x => B2R (Prim2SF x)
  | _ => 0%R
  end.

(** A number that has a finite binary64 value: a finite [float], or an [int]
    that [float()] converts without [OverflowError]. *)
Definition representable (v : value) : Prop :=
  exists b x, as_float v = Ok (b, x) /\ finite_or_zero (Prim2SF x) = true.

Lemma as_float_mk (b : bool) (x : float) : as_float (mk_float b x) = Ok (b, x).
Proof. now destruct b. Qed.

Lemma ge_zero_real (v : value) :
  ge_value v (VInt 0) -> representable v -> (0 <= real_of v)%R.
Proof.
  unfold ge_value, py_ge. intros H (b & x & Hx & Fx).
  destruct v as [ |n|y|y|s]; try discriminate; cbn [py_compare bind] in H.
  - cbn [real_of]. apply IZR_le.
    destruct (Z.compare_spec n 0); try discriminate; lia.
  - cbn [as_float] in Hx. injection Hx as <- <-. cbn [real_of].
    destruct (compare_int_float_spec 0 y Fx) as (c & Ec & Rc).
    rewrite Ec in H. apply cmp_R_le in Rc. apply Rc.
    destruct c; try discriminate; auto.
  - cbn [as_float] in Hx. injection Hx as <- <-. cbn [real_of].
    destruct (compare_int_float_spec 0 y Fx) as (c & Ec & Rc).
    rewrite Ec in H. apply cmp_R_le in Rc. apply Rc.
    destruct c; try discriminate; auto.
Qed.

Lemma nonneg_of_real (f : spec_float) :
  valid_binary f = true -> finite_or_zero f = true -> (0 <= B2R f)%R ->
  nonneg f = true.
Proof.
  intros V F H. unfold nonneg. rewrite V.
  destruct f as [s|s| |[|] m e]; try discriminate; try reflexivity.
  exfalso. cbn [B2R] in H. rewrite F2R_neg in H. pose proof (F2R_pos m e). lra.
Qed.

(** [float(v)] is the exact value of [v], rounded. *)
Lemma as_float_rounds (v : value) (b : bool) (x : float) :
  ge_value v (VInt 0) -> as_float v = Ok (b, x) ->
  finite_or_zero (Prim2SF x) = true ->
  rounds_nn (real_of v) (Prim2SF x).
Proof.
  intros H0 Hx Fx.
  pose proof (ge_zero_real v H0 (ex_intro _ b (ex_intro _ x (conj Hx Fx)))) as Hr.
  destruct v as [ |n|y|y|s]; try discriminate; cbn [as_float bind] in Hx.
  - destruct (float_of_int n) as [z|] eqn:Ez; [|discriminate].
    injection Hx as <- <-. apply float_of_int_spec in Ez. destruct Ez as [-> _].
    cbn [real_of] in *. apply le_IZR in Hr.
    pose proof (binary_normalize_spec n 0 false) as Hs.
    destruct n as [|p|p]; try lia.
    + left. split; [reflexivity|]. rewrite Hs. now exists false.
    + right. split; [apply IZR_lt; lia|].
      cbn [Z.abs Z.ltb Z.compare] in Hs. now rewrite pow2_0, Rmult_1_r in Hs.
  - injection Hx as <- <-. cbn [real_of] in *.
    apply rounds_nn_self; [|assumption].
    apply nonneg_of_real; try assumption. apply Prim2SF_valid.
  - injection Hx as <- <-. cbn [real_of] in *.
    apply rounds_nn_self; [|assumption].
    apply nonneg_of_real; try assumption. apply Prim2SF_valid.
Qed.

Lemma SFleb_compare (x y : spec_float) :
  SFleb x y = true <->
  match SFcompare x y with Some (Lt | Eq) => True | _ => False end.
Proof.
  unfold SFleb. destruct (SFcompare x y) as [[| |]|]; intuition discriminate.
Qed.

Lemma compare_float_le (x y : float) :
  match compare_float x y with Some (Lt | Eq) => true | _ => false end
  = SFleb (Prim2SF x) (Prim2SF y).
Proof.
  unfold compare_float. rewrite compare_spec. unfold SFleb.
  destruct (SFcompare (Prim2SF x) (Prim2SF y)) as [[| |]|]; reflexivity.
Qed.

Lemma le_value_real (v w : value) :
  representable v -> representable w -> le_value v w ->
  (real_of v <= real_of w)%R.
Proof.
  unfold le_value, py_le.
  intros (bv & x0 & Hx & Fx) (bw & y0 & Hy & Fy) H.
  destruct v as [ |m|x|x|s]; try discriminate;
    destruct w as [ |n|y|y|t]; try discriminate;
    cbn [py_compare bind real_of as_float] in *;
    try (injection Hx as <- <-); try (injection Hy as <- <-).
  - apply IZR_le. destruct (Z.compare_spec m n); try discriminate; lia.
  - destruct (compare_int_float_spec m y Fy) as (c & Ec & Rc).
    rewrite Ec in H. apply cmp_R_le in Rc. apply Rc.
    destruct c; try discriminate; auto.
  - destruct (compare_int_float_spec m y Fy) as (c & Ec & Rc).
    rewrite Ec in H. apply cmp_R_le in Rc. apply Rc.
    destruct c; try discriminate; auto.
  - destruct (compare_int_float_spec n x Fx) as (c & Ec & Rc).
    rewrite Ec in H. apply cmp_R_ge in Rc. apply Rc.
    destruct c; try discriminate; auto.
  - injection H as H. rewrite compare_float_le in H.
    apply SFleb_spec in H; auto using Prim2SF_valid.
  - injection H as H. rewrite compare_float_le in H.
    apply SFleb_spec in H; auto using Prim2SF_valid.
  - destruct (compare_int_float_spec n x Fx) as (c & Ec & Rc).
    rewrite Ec in H. apply cmp_R_ge in Rc. apply Rc.
    destruct c; try discriminate; auto.
  - injection H as H. rewrite compare_float_le in H.
    apply SFleb_spec in H; auto using Prim2SF_valid.
  - injection H as H. rewrite compare_float_le in H.
    apply SFleb_spec in H; auto using Prim2SF_valid.
Qed.

(** Conversion to binary64 keeps the order of two non-negative numbers. *)
Lemma as_float_mono (v w : value) (bv bw : bool) (x y : float) :
  ge_value v (VInt 0) -> ge_value w (VInt 0) ->
  as_float v = Ok (bv, x) -> as_float w = Ok (bw, y) ->
  finite_or_zero (Prim2SF x) = true -> finite_or_zero (Prim2SF y) = true ->
  le_value v w ->
  SFleb (Prim2SF x) (Prim2SF y) = true.
Proof.
  intros Hv Hw Hx Hy Fx Fy Hle.
  apply (rounds_nn_mono (real_of v) (real_of w)).
  - apply le_value_real; try assumption; repeat eexists; eassumption.
  - now apply (as_float_rounds v bv).
  - now apply (as_float_rounds w bw).
Qed.

Lemma as_float_nonneg (v : value) (b : bool) (x : float) :
  ge_value v (VInt 0) -> as_float v = Ok (b, x) ->
  finite_or_zero (Prim2SF x) = true ->
  nonneg (Prim2SF x) = true.
Proof.
  intros H0 Hx Fx. apply (rounds_nn_nonneg (real_of v)).
  now apply (as_float_rounds v b).
Qed.

(** An operation whose right operand is a [float]. *)
Lemma arith_mk_r (iop : Z -> Z -> Z) (fop : float -> float -> float)
    (a : value) (ba b : bool) (x y : float) :
  as_float a = Ok (ba, x) ->
  arith iop fop a (mk_float b y) = Ok (mk_float (ba || b) (fop x y)).
Proof.
  intros Hx. unfold arith.
  assert (Ha : is_numeric a = true) by (destruct a; try discriminate; reflexivity).
  rewrite Ha, mk_float_numeric. cbn [andb negb].
  rewrite as_float_mk.
  destruct a as [ |n|z|z|s]; try discriminate; destruct b; cbn [mk_float];
    rewrite Hx; reflexivity.
Qed.

Lemma arith_mk (iop : Z -> Z -> Z) (fop : float -> float -> float)
    (a b : bool) (x y : float) :
  arith iop fop (mk_float a x) (mk_float b y) = Ok (mk_float (a || b) (fop x y)).
Proof. apply arith_mk_r. apply as_float_mk. Qed.

Lemma truediv_mk_int (a : bool) (x : float) (n : Z) (y : float) :
  float_of_int n = Ok y -> (y =? 0)%float = false ->
  py_truediv (mk_float a x) (VInt n) = Ok (mk_float a (x / y)).
Proof.
  intros Hy Hz. unfold py_truediv. rewrite mk_float_numeric. cbn [is_numeric andb negb].
  destruct a; cbn [mk_float as_float bind]; rewrite Hy; cbn [bind fst snd orb];
    [reflexivity|now rewrite Hz].
Qed.

Lemma truediv_np (x y : float) : py_truediv (VNp x) (VNp y) = Ok (VNp (x / y)).
Proof. reflexivity. Qed.

Lemma SFadd_plus_signed (s c : spec_float) :
  nonneg s = true -> plus_signed c = true ->
  plus_signed (SFadd prec emax s c) = true.
Proof.
  intros Hs Hc.
  pose proof (SFadd_nonneg s c Hs (plus_signed_nonneg c Hc)) as Hn.
  assert (Hz : SFadd prec emax s c <> S754_zero true).
  { pose proof (nonneg_shape _ Hs) as Ss.
    destruct (plus_signed_cases c Hc) as [->|[->|Pc]].
    - destruct s as [[|]|sx| |sx m e]; try contradiction; subst; discriminate.
    - rewrite SFadd_inf_r by assumption. discriminate.
    - destruct (positive_finite_nonneg c Pc) as (Nc & Fc & Rc).
      destruct (nonneg_cases s Hs) as [->|Fs].
      + rewrite SFadd_inf_l by assumption. discriminate.
      + pose proof (SFadd_nn s c Hs Nc Fs Fc) as [[Hv _]|[Hv HR]].
        * exfalso. pose proof (nonneg_B2R s Hs). lra.
        * pose proof (Rounds_shape _ _ _ (Rlt_le _ _ Hv) HR) as Sh.
          intros E. rewrite E in Sh. discriminate. }
  unfold plus_signed. pose proof (nonneg_shape _ Hn) as Sn.
  rewrite (nonneg_valid _ Hn).
  destruct (SFadd prec emax s c) as [[|]|sx| |sx m e]; try contradiction;
    subst; reflexivity.
Qed.

Lemma range_nonneg (f : spec_float) :
  valid_binary f = true -> SFleb (S754_zero false) f = true -> nonneg f = true.
Proof.
  intros V H. unfold nonneg. rewrite V.
  destruct f as [s|[|]| |[|] m e]; try discriminate; reflexivity.
Qed.

Definition SF3600 : spec_float := Prim2SF 3600.

Lemma float_of_int_3600 : float_of_int 3600 = Ok 3600%float.
Proof. reflexivity. Qed.

(** The hours of a duration between 0 and 86400 seconds: a finite
    non-negative [float]. *)
Lemma hours_of_duration (d : value) :
  duration_ok d ->
  exists b h, py_truediv d (VInt 3600) = Ok (mk_float b h) /\
              nonneg (Prim2SF h) = true /\ finite_or_zero (Prim2SF h) = true.
Proof.
  intros (Hnum & H0 & H1).
  assert (Hfloat : forall x,
            (0 <=? x)%float = true -> (x <=? 86400)%float = true ->
            nonneg (Prim2SF (x / 3600)) = true /\
            finite_or_zero (Prim2SF (x / 3600)) = true).
  { intros x R0 R1. rewrite leb_spec in R0, R1.
    rewrite Prim2SF_zero in R0. rewrite Prim2SF_day in R1.
    pose proof (range_nonneg _ (Prim2SF_valid x) R0) as Nx.
    rewrite div_spec. fold SF3600.
    assert (Hn : nonneg (SFdiv prec emax (Prim2SF x) SF3600) = true).
    { now apply SFdiv_nonneg_l. }
    split; [assumption|].
    apply (SFleb_finite _ (SFdiv prec emax day SF3600)); try assumption.
    - apply SFdiv_mono_l; try assumption; reflexivity.
    - reflexivity. }
  destruct d as [ |n|x|x|s]; try discriminate.
  - unfold ge_value, le_value, py_ge, py_le in H0, H1. cbn [py_compare bind] in H0, H1.
    assert (Hn : 0 <= n <= 86400).
    { destruct (Z.compare_spec n 0); destruct (Z.compare_spec n 86400);
        try discriminate; lia. }
    unfold py_truediv. cbn [is_numeric andb negb]. change (3600 =? 0) with false.
    cbv iota.
    destruct (Z.eq_dec n 0) as [->|Hn0].
    + exists false, (SF2Prim (S754_zero false)). split; [reflexivity|].
      split; reflexivity.
    + pose proof (float_of_ratio_spec n 3600 ltac:(lia) ltac:(lia)) as HR.
      assert (Hv : (0 < IZR n / 3600)%R).
      { assert (0 < IZR n)%R by (apply IZR_lt; lia). lra. }
      pose proof (Rounds_valid _ _ _ (Rlt_le _ _ Hv) HR) as V.
      assert (N : nonneg (float_of_ratio n 3600) = true).
      { apply (rounds_nn_nonneg (IZR n / 3600)). right. now split. }
      assert (F : finite_or_zero (float_of_ratio n 3600) = true).
      { assert (Hle : SFleb (float_of_ratio n 3600) (float_of_ratio 86400 3600) = true).
        { apply (Rounds_mono (IZR n / 3600) (86400 / 3600)); try assumption.
          - assert (IZR n <= 86400)%R by (apply IZR_le; lia). lra.
          - apply (float_of_ratio_spec 86400 3600); lia. }
        now apply (SFleb_finite _ _ N Hle). }
      exists false, (SF2Prim (float_of_ratio n 3600)).
      rewrite Prim2SF_SF2Prim by assumption.
      split; [|split; assumption].
      destruct (float_of_ratio n 3600); try discriminate; reflexivity.
  - destruct (duration_float_range x H0 H1) as [R0 R1].
    exists false, (x / 3600)%float. split; [|now apply Hfloat].
    apply (truediv_mk_int false x 3600 3600%float); reflexivity.
  - assert (H0' : py_ge (VFloat x) (VInt 0) = Ok true) by exact H0.
    assert (H1' : py_le (VFloat x) (VInt 86400) = Ok true) by exact H1.
    destruct (duration_float_range x H0' H1') as [R0 R1].
    exists true, (x / 3600)%float. split; [|now apply Hfloat].
    apply (truediv_mk_int true x 3600 3600%float); reflexivity.
Qed.

Lemma Rounds_plus_signed (v : R) (f : spec_float) :
  (0 < v)%R -> Rounds v false f -> plus_signed f = true.
Proof.
  intros Hv HR. unfold plus_signed.
  rewrite (Rounds_valid v false f (Rlt_le _ _ Hv) HR).
  pose proof (Rounds_shape v false f (Rlt_le _ _ Hv) HR) as Sh.
  destruct f as [s|s| |s m e]; try contradiction; subst; reflexivity.
Qed.

Lemma SFmul_plus_signed (x y : spec_float) :
  positive_finite x = true -> positive_finite y = true ->
  plus_signed (SFmul prec emax x y) = true.
Proof.
  intros Hx Hy.
  destruct (positive_finite_nonneg x Hx) as (Nx & Fx & Rx).
  destruct (positive_finite_nonneg y Hy) as (Ny & Fy & Ry).
  destruct (SFmul_nn x y Nx Ny Fx Fy) as [[Hv _]|[Hv HR]].
  - exfalso. pose proof (Rmult_lt_0_compat _ _ Rx Ry). lra.
  - now apply (Rounds_plus_signed _ _ Hv).
Qed.

Lemma SFdiv_plus_signed (q c : spec_float) :
  plus_signed q = true -> positive_finite c = true ->
  plus_signed (SFdiv prec emax q c) = true.
Proof.
  intros Hq Hc.
  destruct (positive_finite_shape c Hc) as (m & e & Ec & V).
  destruct (plus_signed_cases q Hq) as [->|[->|Pq]]; try (subst c; reflexivity).
  destruct (positive_finite_nonneg q Pq) as (Nq & Fq & Rq).
  destruct (positive_finite_nonneg c Hc) as (Nc & Fc & Rc).
  destruct (SFdiv_nn q c Nq Fq Hc) as [[Hv _]|[Hv HR]].
  - exfalso. assert (0 < B2R q / B2R c)%R; [|lra].
    apply Rmult_lt_0_compat; [assumption|now apply Rinv_0_lt_compat].
  - now apply (Rounds_plus_signed _ _ Hv).
Qed.

(** ** The daily consumption as a function of the currents *)

Definition consumption (x h x' h' sdr e : float) : float :=
  (x * h + x' * h' + sdr * e / 365)%float.

Definition SF365 : spec_float := Prim2SF 365.
Definition SF100 : spec_float := Prim2SF 100.

Section Consumption.

Variables (h h' sdr e : float).
Hypothesis Nh : nonneg (Prim2SF h) = true.
Hypothesis Fh : finite_or_zero (Prim2SF h) = true.
Hypothesis Nh' : nonneg (Prim2SF h') = true.
Hypothesis Fh' : finite_or_zero (Prim2SF h') = true.
Hypothesis Psdr : positive_finite (Prim2SF sdr) = true.
Hypothesis Pe : positive_finite (Prim2SF e) = true.

Lemma self_discharge_plus_signed :
  plus_signed (Prim2SF (sdr * e / 365)) = true.
Proof.
  rewrite div_spec, mul_spec. apply SFdiv_plus_signed; [|reflexivity].
  now apply SFmul_plus_signed.
Qed.

Lemma contribution_nonneg (x k : float) :
  nonneg (Prim2SF x) = true -> finite_or_zero (Prim2SF x) = true ->
  nonneg (Prim2SF k) = true -> finite_or_zero (Prim2SF k) = true ->
  nonneg (Prim2SF (x * k)) = true.
Proof.
  intros Nx Fx Nk Fk. rewrite mul_spec.
  apply (rounds_nn_nonneg (B2R (Prim2SF x) * B2R (Prim2SF k))).
  now apply SFmul_nn.
Qed.

Lemma consumption_plus_signed (x x' : float) :
  nonneg (Prim2SF x) = true -> finite_or_zero (Prim2SF x) = true ->
  nonneg (Prim2SF x') = true -> finite_or_zero (Prim2SF x') = true ->
  plus_signed (Prim2SF (consumption x h x' h' sdr e)) = true.
Proof.
  intros Nx Fx Nx' Fx'. unfold consumption. rewrite add_spec.
  apply SFadd_plus_signed; [|apply self_discharge_plus_signed].
  rewrite add_spec. apply SFadd_nonneg; now apply contribution_nonneg.
Qed.

Lemma consumption_mono_load (x1 x2 x' : float) :
  nonneg (Prim2SF x1) = true -> finite_or_zero (Prim2SF x1) = true ->
  nonneg (Prim2SF x2) = true -> finite_or_zero (Prim2SF x2) = true ->
  nonneg (Prim2SF x') = true -> finite_or_zero (Prim2SF x') = true ->
  SFleb (Prim2SF x1) (Prim2SF x2) = true ->
  SFleb (Prim2SF (consumption x1 h x' h' sdr e))
        (Prim2SF (consumption x2 h x' h' sdr e)) = true.
Proof.
  intros N1 F1 N2 F2 Nx' Fx' Hle. unfold consumption.
  pose proof (plus_signed_nonneg _ self_discharge_plus_signed) as Nc.
  pose proof (contribution_nonneg x1 h N1 F1 Nh Fh) as Na1.
  pose proof (contribution_nonneg x2 h N2 F2 Nh Fh) as Na2.
  pose proof (contribution_nonneg x' h' Nx' Fx' Nh' Fh') as Nb.
  rewrite !(add_spec (_ + _)).
  apply SFadd_mono_l; try assumption;
    try (rewrite add_spec; now apply SFadd_nonneg).
  rewrite !add_spec. apply SFadd_mono_l; try assumption.
  rewrite !mul_spec. now apply SFmul_mono_l.
Qed.

Lemma consumption_mono_sleep (x x1 x2 : float) :
  nonneg (Prim2SF x) = true -> finite_or_zero (Prim2SF x) = true ->
  nonneg (Prim2SF x1) = true -> finite_or_zero (Prim2SF x1) = true ->
  nonneg (Prim2SF x2) = true -> finite_or_zero (Prim2SF x2) = true ->
  SFleb (Prim2SF x1) (Prim2SF x2) = true ->
  SFleb (Prim2SF (consumption x h x1 h' sdr e))
        (Prim2SF (consumption x h x2 h' sdr e)) = true.
Proof.
  intros Nx Fx N1 F1 N2 F2 Hle. unfold consumption.
  pose proof (plus_signed_nonneg _ self_discharge_plus_signed) as Nc.
  pose proof (contribution_nonneg x h Nx Fx Nh Fh) as Na.
  pose proof (contribution_nonneg x1 h' N1 F1 Nh' Fh') as Nb1.
  pose proof (contribution_nonneg x2 h' N2 F2 Nh' Fh') as Nb2.
  rewrite !(add_spec (_ + _)).
  apply SFadd_mono_l; try assumption;
    try (rewrite add_spec; now apply SFadd_nonneg).
  rewrite !add_spec. apply SFadd_mono_r; try assumption.
  rewrite !mul_spec. now apply SFmul_mono_l.
Qed.

(** The runtime in days decreases when the consumption grows. *)
Lemma days_antitone (t1 t2 : float) :
  plus_signed (Prim2SF t1) = true -> plus_signed (Prim2SF t2) = true ->
  SFleb (Prim2SF t1) (Prim2SF t2) = true ->
  SFleb (Prim2SF (e / t2)) (Prim2SF (e / t1)) = true /\
  nonneg (Prim2SF (e / t1)) = true /\ nonneg (Prim2SF (e / t2)) = true.
Proof.
  intros P1 P2 Hle. rewrite !div_spec. split; [|split].
  - now apply SFdiv_antitone.
  - now apply SFdiv_nonneg_r.
  - now apply SFdiv_nonneg_r.
Qed.

End Consumption.

(** ** numpy's [round] to two decimals *)

Lemma np_round_2 (x : float) : np_round x 2 = (rint (x * 100) / 100)%float.
Proof. reflexivity. Qed.

Lemma np_round_spec (x : float) :
  nonneg (Prim2SF x) = true -> finite_or_zero (Prim2SF x) = true ->
  Prim2SF (np_round x 2)
  = SFdiv prec emax (SFrint (SFmul prec emax (Prim2SF x) SF100)) SF100 /\
  nonneg (SFmul prec emax (Prim2SF x) SF100) = true.
Proof.
  intros Nx Fx.
  assert (Nu : nonneg (SFmul prec emax (Prim2SF x) SF100) = true).
  { apply (rounds_nn_nonneg (B2R (Prim2SF x) * B2R SF100)).
    apply SFmul_nn; try assumption; reflexivity. }
  split; [|assumption].
  rewrite np_round_2, div_spec, rint_spec; rewrite mul_spec; [reflexivity|exact Nu].
Qed.

Lemma np_round_nonneg (x : float) :
  nonneg (Prim2SF x) = true -> finite_or_zero (Prim2SF x) = true ->
  nonneg (Prim2SF (np_round x 2)) = true.
Proof.
  intros Nx Fx. destruct (np_round_spec x Nx Fx) as [-> Nu].
  apply SFdiv_nonneg_l; [|reflexivity]. now apply SFrint_nonneg.
Qed.

Lemma np_round_mono (x y : float) :
  nonneg (Prim2SF x) = true -> finite_or_zero (Prim2SF x) = true ->
  nonneg (Prim2SF y) = true -> finite_or_zero (Prim2SF y) = true ->
  SFleb (Prim2SF x) (Prim2SF y) = true ->
  SFleb (Prim2SF (np_round x 2)) (Prim2SF (np_round y 2)) = true.
Proof.
  intros Nx Fx Ny Fy Hle.
  destruct (np_round_spec x Nx Fx) as [-> Nu].
  destruct (np_round_spec y Ny Fy) as [-> Nw].
  apply SFdiv_mono_l; try (now apply SFrint_nonneg); try reflexivity.
  apply SFrint_mono; try assumption.
  apply SFmul_mono_l; try assumption; reflexivity.
Qed.

(** ** Comparing an [int] with a non-negative [float] *)

Lemma B2R_integer (m : positive) (k n : Z) :
  0 <= k -> Z.pos m = n * 2 ^ k -> F2R false m (- k) = IZR n.
Proof.
  intros Hk Hm. unfold F2R. rewrite Hm, mult_IZR, <- pow2_IZR by assumption.
  rewrite Rmult_1_l, Rmult_assoc, <- pow2_add.
  replace (k + - k) with 0 by lia. rewrite pow2_0. ring.
Qed.

Lemma int_le_float (n : Z) (f : spec_float) (x : float) :
  positive_finite f = true -> B2R f = IZR n -> nonneg (Prim2SF x) = true ->
  match compare_int_float n x with Some (Lt | Eq) => true | _ => false end
  = SFleb f (Prim2SF x).
Proof.
  intros Pf Rf Nx. destruct (positive_finite_nonneg f Pf) as (Nf & Ff & _).
  destruct (nonneg_cases _ Nx) as [E|Fx].
  - unfold compare_int_float. rewrite E.
    destruct (positive_finite_shape f Pf) as (m & e & -> & _). reflexivity.
  - destruct (compare_int_float_spec n x Fx) as (c & -> & Rc).
    pose proof (SFleb_spec f (Prim2SF x) (nonneg_valid _ Nf) (Prim2SF_valid x) Ff Fx)
      as Hs.
    rewrite Rf in Hs. apply cmp_R_le in Rc.
    destruct (SFleb f (Prim2SF x)).
    + destruct Hs as [Hs _]. specialize (Hs eq_refl). apply Rc in Hs.
      destruct Hs as [->| ->]; reflexivity.
    + destruct c; try reflexivity; exfalso;
        (assert (Hb : false = true); [apply Hs, Rc; auto|discriminate]).
Qed.

Lemma float_le_int (n : Z) (f : spec_float) (x : float) :
  positive_finite f = true -> B2R f = IZR n -> nonneg (Prim2SF x) = true ->
  match compare_int_float n x with Some (Gt | Eq) => true | _ => false end
  = SFleb (Prim2SF x) f.
Proof.
  intros Pf Rf Nx. destruct (positive_finite_nonneg f Pf) as (Nf & Ff & _).
  destruct (nonneg_cases _ Nx) as [E|Fx].
  - unfold compare_int_float. rewrite E.
    destruct (positive_finite_shape f Pf) as (m & e & -> & _). reflexivity.
  - destruct (compare_int_float_spec n x Fx) as (c & -> & Rc).
    pose proof (SFleb_spec (Prim2SF x) f (Prim2SF_valid x) (nonneg_valid _ Nf) Fx Ff)
      as Hs.
    rewrite Rf in Hs. apply cmp_R_ge in Rc.
    destruct (SFleb (Prim2SF x) f).
    + destruct Hs as [Hs _]. specialize (Hs eq_refl). apply Rc in Hs.
      destruct Hs as [->| ->]; reflexivity.
    + destruct c; try reflexivity; exfalso;
        (assert (Hb : false = true); [apply Hs, Rc; auto|discriminate]).
Qed.

Lemma zero_le_nonneg (z : float) :
  nonneg (Prim2SF z) = true ->
  match compare_int_float 0 z with Some (Lt | Eq) => true | _ => false end = true.
Proof.
  intros Nz. destruct (nonneg_cases _ Nz) as [E|Fz].
  - unfold compare_int_float. now rewrite E.
  - destruct (compare_int_float_spec 0 z Fz) as (c & -> & Rc).
    apply cmp_R_le in Rc. destruct Rc as [_ Rc].
    destruct (Rc (nonneg_B2R _ Nz)) as [->| ->]; reflexivity.
Qed.

Lemma py_ge_np_int (y : float) (n : Z) :
  py_ge (VNp y) (VInt n)
  = Ok match compare_int_float n y with Some (Lt | Eq) => true | _ => false end.
Proof.
  unfold py_ge. cbn [py_compare bind].
  destruct (compare_int_float n y) as [[| |]|]; reflexivity.
Qed.

Lemma py_le_np_int (y : float) (n : Z) :
  py_le (VNp y) (VInt n)
  = Ok match compare_int_float n y with Some (Gt | Eq) => true | _ => false end.
Proof.
  unfold py_le. cbn [py_compare bind].
  destruct (compare_int_float n y) as [[| |]|]; reflexivity.
Qed.

Lemma py_le_np_np (x y : float) :
  py_le (VNp x) (VNp y) = Ok (SFleb (Prim2SF x) (Prim2SF y)).
Proof. unfold py_le. cbn [py_compare bind]. now rewrite compare_float_le. Qed.

(** ** The shelf-life test and the rounding, as a function of the runtime *)

(** What [calculate_runtime] returns for the quotient [r], a
    [numpy.float64]. *)
Definition finish (years : Z) (r : float) : value :=
  if match compare_int_float years (r / 365) with
     | Some (Lt | Eq) => true
     | _ => false
     end
  then VInt (years * 365)
  else VNp (np_round r 2).

Section Shelf.

Variables (years : Z) (yf Mf : float).
Hypothesis Pyf : positive_finite (Prim2SF yf) = true.
Hypothesis Ryf : B2R (Prim2SF yf) = IZR years.
Hypothesis PM : positive_finite (Prim2SF Mf) = true.
Hypothesis RM : B2R (Prim2SF Mf) = IZR (years * 365).
Hypothesis Hdiv : (Mf / 365)%float = yf.
Hypothesis Hround : np_round Mf 2 = Mf.

Lemma clamp_test (r : float) :
  nonneg (Prim2SF r) = true ->
  match compare_int_float years (r / 365) with
  | Some (Lt | Eq) => true
  | _ => false
  end = SFleb (Prim2SF yf) (Prim2SF (r / 365)) /\
  nonneg (Prim2SF (r / 365)) = true.
Proof.
  intros Nr.
  assert (Ny : nonneg (Prim2SF (r / 365)) = true).
  { rewrite div_spec. apply SFdiv_nonneg_l; [assumption|reflexivity]. }
  split; [|assumption]. now apply int_le_float.
Qed.

(** Below the shelf life, the runtime is below [years * 365] days. *)
Lemma below_shelf_life (r : float) :
  nonneg (Prim2SF r) = true ->
  SFleb (Prim2SF yf) (Prim2SF (r / 365)) = false ->
  SFleb (Prim2SF r) (Prim2SF Mf) = true /\ finite_or_zero (Prim2SF r) = true.
Proof.
  intros Nr Hc. destruct (positive_finite_nonneg _ PM) as (NM & FM & _).
  assert (Hle : SFleb (Prim2SF r) (Prim2SF Mf) = true).
  { destruct (SFleb_total (Prim2SF r) (Prim2SF Mf) Nr NM) as [H|H]; [assumption|].
    exfalso. apply (SFdiv_mono_l _ _ SF365 NM Nr eq_refl) in H.
    unfold SF365 in H. rewrite <- !div_spec, Hdiv in H. congruence. }
  split; [assumption|]. now apply (SFleb_finite _ _ Nr Hle).
Qed.

Lemma rounded_below_shelf_life (r : float) :
  nonneg (Prim2SF r) = true ->
  SFleb (Prim2SF yf) (Prim2SF (r / 365)) = false ->
  SFleb (Prim2SF (np_round r 2)) (Prim2SF Mf) = true /\
  nonneg (Prim2SF (np_round r 2)) = true.
Proof.
  intros Nr Hc. destruct (below_shelf_life r Nr Hc) as [Hle Fr].
  destruct (positive_finite_nonneg _ PM) as (NM & FM & _).
  split; [|now apply np_round_nonneg].
  rewrite <- Hround. now apply np_round_mono.
Qed.

Theorem finish_antitone (r1 r2 : float) :
  nonneg (Prim2SF r1) = true -> nonneg (Prim2SF r2) = true ->
  SFleb (Prim2SF r2) (Prim2SF r1) = true ->
  le_value (finish years r2) (finish years r1).
Proof.
  intros N1 N2 Hle. unfold finish, le_value.
  destruct (clamp_test r1 N1) as [-> Ny1]. destruct (clamp_test r2 N2) as [-> Ny2].
  destruct (positive_finite_nonneg _ Pyf) as (Nyf & _ & _).
  assert (Hy : SFleb (Prim2SF (r2 / 365)) (Prim2SF (r1 / 365)) = true).
  { rewrite !div_spec. now apply SFdiv_mono_l. }
  destruct (SFleb (Prim2SF yf) (Prim2SF (r2 / 365))) eqn:C2.
  - rewrite (SFleb_trans _ _ _ Nyf Ny2 Ny1 C2 Hy).
    unfold py_le. cbn [py_compare bind]. now rewrite Z.compare_refl.
  - destruct (rounded_below_shelf_life r2 N2 C2) as [Hz2 Nz2].
    destruct (SFleb (Prim2SF yf) (Prim2SF (r1 / 365))) eqn:C1.
    + rewrite py_le_np_int. f_equal.
      rewrite (float_le_int _ (Prim2SF Mf)); assumption.
    + rewrite py_le_np_np. f_equal.
      destruct (below_shelf_life r1 N1 C1) as [_ F1].
      destruct (below_shelf_life r2 N2 C2) as [_ F2].
      now apply np_round_mono.
Qed.

(** The result is a number of days between 0 and the shelf life. *)
Theorem finish_bounds (r : float) :
  0 <= years -> nonneg (Prim2SF r) = true ->
  ge_value (finish years r) (VInt 0) /\
  le_value (finish years r) (VInt (years * 365)).
Proof.
  intros Hy Nr. unfold finish, ge_value, le_value.
  destruct (clamp_test r Nr) as [-> Ny].
  destruct (SFleb (Prim2SF yf) (Prim2SF (r / 365))) eqn:C.
  - unfold py_ge, py_le. cbn [py_compare bind]. rewrite Z.compare_refl.
    split; [|reflexivity].
    destruct (Z.compare_spec (years * 365) 0); try reflexivity. lia.
  - destruct (rounded_below_shelf_life r Nr C) as [Hz Nz].
    split.
    + rewrite py_ge_np_int. f_equal. now apply zero_le_nonneg.
    + rewrite py_le_np_int. f_equal.
      rewrite (float_le_int _ (Prim2SF Mf)); assumption.
Qed.

End Shelf.

Lemma B2R_25 : B2R (Prim2SF 25) = 25%R.
Proof. apply (B2R_integer _ 48 25); [lia|reflexivity]. Qed.

Lemma B2R_10 : B2R (Prim2SF 10) = 10%R.
Proof. apply (B2R_integer _ 49 10); [lia|reflexivity]. Qed.

Lemma B2R_9125 : B2R (Prim2SF 9125) = IZR (25 * 365).
Proof. apply (B2R_integer _ 39 9125); [lia|reflexivity]. Qed.

Lemma B2R_3650 : B2R (Prim2SF 3650) = IZR (10 * 365).
Proof. apply (B2R_integer _ 41 3650); [lia|reflexivity]. Qed.

(** The two shelf lives that [update_battery_properties] assigns. *)
Definition shelf_life (years : Z) : Prop := years = 25 \/ years = 10.

Lemma finish_antitone_shelf (years : Z) (r1 r2 : float) :
  shelf_life years ->
  nonneg (Prim2SF r1) = true -> nonneg (Prim2SF r2) = true ->
  SFleb (Prim2SF r2) (Prim2SF r1) = true ->
  le_value (finish years r2) (finish years r1).
Proof.
  intros [-> | ->].
  - apply (finish_antitone 25 25 9125); try reflexivity.
    + exact B2R_25.
    + exact B2R_9125.
  - apply (finish_antitone 10 10 3650); try reflexivity.
    + exact B2R_10.
    + exact B2R_3650.
Qed.

Lemma finish_bounds_shelf (years : Z) (r : float) :
  shelf_life years -> nonneg (Prim2SF r) = true ->
  ge_value (finish years r) (VInt 0) /\
  le_value (finish years r) (VInt (years * 365)).
Proof.
  intros [-> | ->].
  - apply (finish_bounds 25 25 9125); try reflexivity; try lia.
    + exact B2R_25.
    + exact B2R_9125.
  - apply (finish_bounds 10 10 3650); try reflexivity; try lia.
    + exact B2R_10.
    + exact B2R_3650.
Qed.

(** ** [calculate_runtime] of the generalized program on a positive capacity *)

Lemma positive_not_zero (e : float) :
  positive_finite (Prim2SF e) = true -> py_eq (VNp e) (VInt 0) = false.
Proof.
  intros Pe. destruct (positive_finite_nonneg _ Pe) as (_ & Fe & Re).
  unfold py_eq. cbn [py_compare].
  destruct (compare_int_float_spec 0 e Fe) as (c & -> & Rc).
  inversion Rc; subst; try reflexivity; lra.
Qed.

Module GeneralizedRuntime.
Import Generalized.

Lemma total_consumption_value (self : Battery) (i d i' : value)
    (bi bi' b b' : bool) (x x' h h' e : float) :
  _load_current self = Some i -> as_float i = Ok (bi, x) ->
  _load_duration_per_day self = Some d ->
  py_truediv d (VInt 3600) = Ok (mk_float b h) ->
  _sleep_current self = Some i' -> as_float i' = Ok (bi', x') ->
  py_truediv (sleep_duration_per_day self) (VInt 3600) = Ok (mk_float b' h') ->
  effective_battery_capacity self = VNp e ->
  total_daily_consumption self
  = Ok (VNp (consumption x h x' h' (_self_discharge_rate self) e)).
Proof.
  intros Hi Hx Hd Hh Hi' Hx' Hh' He.
  unfold total_daily_consumption, load_current, load_duration_per_day,
    sleep_current, self_discharge_rate.
  rewrite Hi, Hd, Hi', He. cbn [getattr bind]. rewrite Hh. cbn [bind].
  unfold py_mul, py_add.
  rewrite (arith_mk_r _ _ i bi b x h Hx). cbn [bind].
  rewrite Hh'. cbn [bind].
  rewrite (arith_mk_r _ _ i' bi' b' x' h' Hx'). cbn [bind].
  rewrite arith_mk. cbn [bind].
  change (VNp e) with (mk_float true e).
  rewrite (arith_mk_r _ _ (VFloat (_self_discharge_rate self)) false true _ e eq_refl).
  cbn [bind orb].
  rewrite (truediv_mk_int true _ 365 365%float eq_refl eq_refl). cbn [bind].
  rewrite arith_mk. rewrite orb_true_r. reflexivity.
Qed.

Lemma calculate_runtime_value (self : Battery) (e t : float) :
  effective_battery_capacity self = VNp e ->
  positive_finite (Prim2SF e) = true ->
  total_daily_consumption self = Ok (VNp t) ->
  calculate_runtime self = Ok (finish (_max_shelf_life self) (e / t)).
Proof.
  intros He Pe Ht. unfold calculate_runtime, unclamped_runtime.
  rewrite He, (positive_not_zero e Pe), Ht. cbn [bind].
  rewrite truediv_np. cbn [bind].
  change (VNp (e / t)) with (mk_float true (e / t)).
  rewrite (truediv_mk_int true _ 365 365%float eq_refl eq_refl).
  cbn [bind mk_float]. unfold max_shelf_life. rewrite py_ge_np_int. cbn [bind].
  unfold finish.
  destruct (compare_int_float (_max_shelf_life self) (e / t / 365)) as [[| |]|];
    reflexivity.
Qed.

End GeneralizedRuntime.

Module GeneralizedMonotone.
Import Generalized.

Lemma runtime_of_currents (self : Battery) (i d i' : value)
    (bi bi' b b' : bool) (x x' h h' e : float) :
  _load_current self = Some i -> as_float i = Ok (bi, x) ->
  _load_duration_per_day self = Some d ->
  py_truediv d (VInt 3600) = Ok (mk_float b h) ->
  _sleep_current self = Some i' -> as_float i' = Ok (bi', x') ->
  py_truediv (sleep_duration_per_day self) (VInt 3600) = Ok (mk_float b' h') ->
  effective_battery_capacity self = VNp e ->
  positive_finite (Prim2SF e) = true ->
  calculate_runtime self
  = Ok (finish (_max_shelf_life self)
          (e / consumption x h x' h' (_self_discharge_rate self) e)).
Proof.
  intros Hi Hx Hd Hh Hi' Hx' Hh' He Pe.
  apply GeneralizedRuntime.calculate_runtime_value; try assumption.
  now apply (GeneralizedRuntime.total_consumption_value self i d i' bi bi' b b').
Qed.

End GeneralizedMonotone.

(** X1.  In the generalized program, a larger load current never gives a
    longer runtime when every current is finite.  The attributes held fixed
    are: an effective battery capacity that is a positive finite
    [numpy.float64] (as the temperature table gives it), a load duration and
    a sleep duration between 0 and 86400, a sleep current that is accepted
    and finite (a finite [float], or an [int] that converts to a [float]),
    the self-discharge rate 0.01 and a shelf life of 25 or 10 years.  Then
    for accepted load currents [v1 <= v2] that are finite in the same sense,
    [calculate_runtime] returns for both, and its result at [v2] is at most
    its result at [v1].  An infinite current, which the setters accept, is
    excluded, whether it is the varied or the fixed one. *)
Theorem runtime_decreases_with_load (self : Generalized.Battery)
    (d i' v1 v2 : value) (e : float) :
  Generalized._load_duration_per_day self = Some d -> duration_ok d ->
  duration_ok (Generalized.sleep_duration_per_day self) ->
  Generalized._sleep_current self = Some i' -> current_ok i' -> representable i' ->
  Generalized.effective_battery_capacity self = VNp e ->
  positive_finite (Prim2SF e) = true ->
  Generalized._self_discharge_rate self = 0.01%float ->
  shelf_life (Generalized._max_shelf_life self) ->
  current_ok v1 -> representable v1 -> current_ok v2 -> representable v2 ->
  le_value v1 v2 ->
  exists r1 r2,
    Generalized.calculate_runtime (Generalized.assign_load_current v1 self) = Ok r1 /\
    Generalized.calculate_runtime (Generalized.assign_load_current v2 self) = Ok r2 /\
    le_value r2 r1.
Proof.
  intros Hd Dd Ds Hi' [_ Ci'] (bi' & x' & Hx' & Fx') He Pe Hsdr Hy
    [_ C1] (b1 & x1 & Hx1 & F1) [_ C2] (b2 & x2 & Hx2 & F2) Hle.
  destruct (hours_of_duration d Dd) as (b & h & Hh & Nh & Fh).
  destruct (hours_of_duration _ Ds) as (b' & h' & Hh' & Nh' & Fh').
  pose proof (as_float_nonneg _ _ _ Ci' Hx' Fx') as Nx'.
  pose proof (as_float_nonneg _ _ _ C1 Hx1 F1) as N1.
  pose proof (as_float_nonneg _ _ _ C2 Hx2 F2) as N2.
  pose proof (as_float_mono _ _ _ _ _ _ C1 C2 Hx1 Hx2 F1 F2 Hle) as Hx.
  assert (Psdr : positive_finite (Prim2SF (Generalized._self_discharge_rate self)) = true)
    by (rewrite Hsdr; reflexivity).
  set (sdr := Generalized._self_discharge_rate self) in *.
  pose proof (consumption_plus_signed h h' sdr e Nh Fh Nh' Fh' Psdr Pe x1 x' N1 F1 Nx' Fx')
    as P1.
  pose proof (consumption_plus_signed h h' sdr e Nh Fh Nh' Fh' Psdr Pe x2 x' N2 F2 Nx' Fx')
    as P2.
  pose proof (consumption_mono_load h h' sdr e Nh Fh Nh' Fh' Psdr Pe x1 x2 x'
                N1 F1 N2 F2 Nx' Fx' Hx) as Ht.
  destruct (days_antitone e Pe _ _ P1 P2 Ht) as (Hr & Nr1 & Nr2).
  exists (finish (Generalized._max_shelf_life self) (e / consumption x1 h x' h' sdr e)),
         (finish (Generalized._max_shelf_life self) (e / consumption x2 h x' h' sdr e)).
  split; [|split].
  - now apply (GeneralizedMonotone.runtime_of_currents
                 (Generalized.assign_load_current v1 self) v1 d i' b1 bi' b b').
  - now apply (GeneralizedMonotone.runtime_of_currents
                 (Generalized.assign_load_current v2 self) v2 d i' b2 bi' b b').
  - now apply finish_antitone_shelf.
Qed.

(** X2.  The same for the sleep current.  With the attributes fixed as
    above - the effective capacity a positive finite [numpy.float64], both
    durations between 0 and 86400, and here the load current accepted and
    finite (a finite [float], or an [int] that converts to a [float]) - for
    accepted sleep currents [v1 <= v2] that are finite in the same sense,
    [calculate_runtime] returns for both, and its result at [v2] is at most
    its result at [v1].  Infinite currents are excluded, varied or fixed. *)
Theorem runtime_decreases_with_sleep (self : Generalized.Battery)
    (d i v1 v2 : value) (e : float) :
  Generalized._load_duration_per_day self = Some d -> duration_ok d ->
  duration_ok (Generalized.sleep_duration_per_day self) ->
  Generalized._load_current self = Some i -> current_ok i -> representable i ->
  Generalized.effective_battery_capacity self = VNp e ->
  positive_finite (Prim2SF e) = true ->
  Generalized._self_discharge_rate self = 0.01%float ->
  shelf_life (Generalized._max_shelf_life self) ->
  current_ok v1 -> representable v1 -> current_ok v2 -> representable v2 ->
  le_value v1 v2 ->
  exists r1 r2,
    Generalized.calculate_runtime (Generalized.assign_sleep_current v1 self) = Ok r1 /\
    Generalized.calculate_runtime (Generalized.assign_sleep_current v2 self) = Ok r2 /\
    le_value r2 r1.
Proof.
  intros Hd Dd Ds Hi [_ Ci] (bi & x & Hx & Fx) He Pe Hsdr Hy
    [_ C1] (b1 & x1 & Hx1 & F1) [_ C2] (b2 & x2 & Hx2 & F2) Hle.
  destruct (hours_of_duration d Dd) as (b & h & Hh & Nh & Fh).
  destruct (hours_of_duration _ Ds) as (b' & h' & Hh' & Nh' & Fh').
  pose proof (as_float_nonneg _ _ _ Ci Hx Fx) as Nx.
  pose proof (as_float_nonneg _ _ _ C1 Hx1 F1) as N1.
  pose proof (as_float_nonneg _ _ _ C2 Hx2 F2) as N2.
  pose proof (as_float_mono _ _ _ _ _ _ C1 C2 Hx1 Hx2 F1 F2 Hle) as Hx12.
  assert (Psdr : positive_finite (Prim2SF (Generalized._self_discharge_rate self)) = true)
    by (rewrite Hsdr; reflexivity).
  set (sdr := Generalized._self_discharge_rate self) in *.
  pose proof (consumption_plus_signed h h' sdr e Nh Fh Nh' Fh' Psdr Pe x x1 Nx Fx N1 F1)
    as P1.
  pose proof (consumption_plus_signed h h' sdr e Nh Fh Nh' Fh' Psdr Pe x x2 Nx Fx N2 F2)
    as P2.
  pose proof (consumption_mono_sleep h h' sdr e Nh Fh Nh' Fh' Psdr Pe x x1 x2
                Nx Fx N1 F1 N2 F2 Hx12) as Ht.
  destruct (days_antitone e Pe _ _ P1 P2 Ht) as (Hr & Nr1 & Nr2).
  exists (finish (Generalized._max_shelf_life self) (e / consumption x h x1 h' sdr e)),
         (finish (Generalized._max_shelf_life self) (e / consumption x h x2 h' sdr e)).
  split; [|split].
  - now apply (GeneralizedMonotone.runtime_of_currents
                 (Generalized.assign_sleep_current v1 self) i d v1 bi b1 b b').
  - now apply (GeneralizedMonotone.runtime_of_currents
                 (Generalized.assign_sleep_current v2 self) i d v2 bi b2 b b').
  - now apply finish_antitone_shelf.
Qed.

(** X3.  In the generalized program, on a positive finite effective capacity
    and finite non-negative currents, [calculate_runtime] returns a number of
    days between 0 and the shelf life, [max_shelf_life * 365]. *)
Theorem runtime_within_shelf_life (self : Generalized.Battery)
    (i d i' : value) (e : float) :
  Generalized._load_current self = Some i -> current_ok i -> representable i ->
  Generalized._load_duration_per_day self = Some d -> duration_ok d ->
  duration_ok (Generalized.sleep_duration_per_day self) ->
  Generalized._sleep_current self = Some i' -> current_ok i' -> representable i' ->
  Generalized.effective_battery_capacity self = VNp e ->
  positive_finite (Prim2SF e) = true ->
  Generalized._self_discharge_rate self = 0.01%float ->
  shelf_life (Generalized._max_shelf_life self) ->
  exists r,
    Generalized.calculate_runtime self = Ok r /\
    ge_value r (VInt 0) /\
    le_value r (VInt (Generalized._max_shelf_life self * 365)).
Proof.
  intros Hi [_ Ci] (bi & x & Hx & Fx) Hd Dd Ds Hi' [_ Ci'] (bi' & x' & Hx' & Fx')
    He Pe Hsdr Hy.
  destruct (hours_of_duration d Dd) as (b & h & Hh & Nh & Fh).
  destruct (hours_of_duration _ Ds) as (b' & h' & Hh' & Nh' & Fh').
  pose proof (as_float_nonneg _ _ _ Ci Hx Fx) as Nx.
  pose proof (as_float_nonneg _ _ _ Ci' Hx' Fx') as Nx'.
  assert (Psdr : positive_finite (Prim2SF (Generalized._self_discharge_rate self)) = true)
    by (rewrite Hsdr; reflexivity).
  set (sdr := Generalized._self_discharge_rate self) in *.
  pose proof (consumption_plus_signed h h' sdr e Nh Fh Nh' Fh' Psdr Pe x x' Nx Fx Nx' Fx')
    as P.
  assert (Nr : nonneg (Prim2SF (e / consumption x h x' h' sdr e)) = true).
  { rewrite div_spec. now apply SFdiv_nonneg_r. }
  exists (finish (Generalized._max_shelf_life self) (e / consumption x h x' h' sdr e)).
  split.
  - now apply (GeneralizedMonotone.runtime_of_currents self i d i' bi bi' b b').
  - now apply finish_bounds_shelf.
Qed.

(** ** The consumption is positive *)

Lemma SFmul_lower (a b : Z) (x y : spec_float) :
  positive_finite x = true -> positive_finite y = true ->
  (pow2 a <= B2R x)%R -> (pow2 b <= B2R y)%R -> emin64 <= a + b ->
  SFmul prec emax x y = S754_infinity false \/
  (positive_finite (SFmul prec emax x y) = true /\
   (pow2 (a + b) <= B2R (SFmul prec emax x y))%R).
Proof.
  intros Px Py Hx Hy Hab.
  destruct (positive_finite_nonneg x Px) as (Nx & Fx & Rx).
  destruct (positive_finite_nonneg y Py) as (Ny & Fy & Ry).
  pose proof (pow2_pos a). pose proof (pow2_pos b).
  assert (Hv : (pow2 (a + b) <= B2R x * B2R y)%R).
  { rewrite pow2_add. apply Rmult_le_compat; lra. }
  destruct (SFmul_nn x y Nx Ny Fx Fy) as [[Hz _]|[_ HR]].
  - exfalso. pose proof (pow2_pos (a + b)). lra.
  - now apply (Rounds_lower (a + b) _ _ Hab Hv).
Qed.

Lemma SFdiv_lower (a b : Z) (q c : spec_float) :
  positive_finite q = true -> positive_finite c = true ->
  (pow2 a <= B2R q)%R -> (B2R c <= pow2 b)%R -> emin64 <= a - b ->
  SFdiv prec emax q c = S754_infinity false \/
  (positive_finite (SFdiv prec emax q c) = true /\
   (pow2 (a - b) <= B2R (SFdiv prec emax q c))%R).
Proof.
  intros Pq Pc Hq Hc Hab.
  destruct (positive_finite_nonneg q Pq) as (Nq & Fq & Rq).
  destruct (positive_finite_nonneg c Pc) as (Nc & Fc & Rc).
  pose proof (pow2_pos a). pose proof (pow2_pos b). pose proof (pow2_pos (a - b)).
  assert (Hv : (pow2 (a - b) <= B2R q / B2R c)%R).
  { apply Rmult_le_reg_r with (B2R c); [assumption|].
    unfold Rdiv. rewrite Rmult_assoc, Rinv_l, Rmult_1_r by lra.
    apply Rle_trans with (pow2 (a - b) * pow2 b)%R.
    - apply Rmult_le_compat_l; lra.
    - rewrite <- pow2_add. replace (a - b + b) with a by lia. assumption. }
  destruct (SFdiv_nn q c Nq Fq Pc) as [[Hz _]|[_ HR]].
  - exfalso. lra.
  - now apply (Rounds_lower (a - b) _ _ Hab Hv).
Qed.

Lemma SFadd_lower (a : Z) (s c : spec_float) :
  nonneg s = true -> positive_finite c = true ->
  (pow2 a <= B2R c)%R -> emin64 <= a ->
  SFadd prec emax s c = S754_infinity false \/
  (positive_finite (SFadd prec emax s c) = true /\
   (pow2 a <= B2R (SFadd prec emax s c))%R).
Proof.
  intros Ns Pc Hc Ha.
  destruct (positive_finite_nonneg c Pc) as (Nc & Fc & Rc).
  destruct (nonneg_cases s Ns) as [->|Fs].
  { left. now apply SFadd_inf_l. }
  pose proof (nonneg_B2R s Ns) as Rs.
  destruct (SFadd_nn s c Ns Nc Fs Fc) as [[Hz _]|[_ HR]].
  - exfalso. lra.
  - apply (Rounds_lower a (B2R s + B2R c) _ Ha); [lra|assumption].
Qed.

Definition strictly_positive (f : spec_float) : bool :=
  match f with
  | S754_finite false _ _ | S754_infinity false => true
  | _ => false
  end.

Lemma strictly_positive_intro (f : spec_float) :
  f = S754_infinity false \/ positive_finite f = true -> strictly_positive f = true.
Proof.
  intros [->|P]; [reflexivity|].
  destruct (positive_finite_shape f P) as (m & e & -> & _). reflexivity.
Qed.

Lemma strictly_positive_ltb (t : float) :
  strictly_positive (Prim2SF t) = true <-> (0 <? t)%float = true.
Proof.
  rewrite ltb_spec, Prim2SF_zero.
  destruct (Prim2SF t) as [s|[|]| |[|] m e]; cbn; intuition discriminate.
Qed.

Lemma strictly_positive_not_zero (t : float) :
  strictly_positive (Prim2SF t) = true -> (t =? 0)%float = false.
Proof.
  rewrite eqb_spec, Prim2SF_zero.
  destruct (Prim2SF t) as [s|[|]| |[|] m e]; cbn; intuition discriminate.
Qed.

Lemma B2R_hundredth : (pow2 (-7) <= B2R (Prim2SF 0.01))%R.
Proof.
  change (Prim2SF 0.01) with (S754_finite false 5764607523034235 (-59)).
  cbn [B2R]. unfold F2R. rewrite Rmult_1_l.
  replace (-7) with (52 + -59) by reflexivity. rewrite pow2_add.
  apply Rmult_le_compat_r; [left; apply pow2_pos|].
  rewrite pow2_IZR by lia. apply IZR_le. apply Z.leb_le. reflexivity.
Qed.

Lemma B2R_365 : (B2R SF365 <= pow2 9)%R.
Proof.
  unfold SF365.
  replace (B2R (Prim2SF 365)) with 365%R.
  - rewrite pow2_IZR by lia. apply IZR_le. apply Z.leb_le. reflexivity.
  - symmetry. apply (B2R_integer _ 44 365); [lia|reflexivity].
Qed.

(** With an effective capacity of at least [2^a], far below any the table
    can give, the self-discharge term does not underflow, and the
    consumption is strictly positive. *)
Lemma consumption_positive (a : Z) (x h x' h' e : float) :
  nonneg (Prim2SF x) = true -> finite_or_zero (Prim2SF x) = true ->
  nonneg (Prim2SF h) = true -> finite_or_zero (Prim2SF h) = true ->
  nonneg (Prim2SF x') = true -> finite_or_zero (Prim2SF x') = true ->
  nonneg (Prim2SF h') = true -> finite_or_zero (Prim2SF h') = true ->
  positive_finite (Prim2SF e) = true ->
  -1000 <= a -> (pow2 a <= B2R (Prim2SF e))%R ->
  strictly_positive (Prim2SF (consumption x h x' h' 0.01 e)) = true.
Proof.
  intros Nx Fx Nh Fh Nx' Fx' Nh' Fh' Pe Ha He.
  apply strictly_positive_intro. unfold consumption.
  rewrite add_spec, div_spec, mul_spec. fold SF365.
  unfold SF64add, SF64div, SF64mul.
  assert (Ns : nonneg (Prim2SF (x * h + x' * h')) = true).
  { rewrite add_spec. apply SFadd_nonneg.
    - now apply (contribution_nonneg x h).
    - now apply (contribution_nonneg x' h'). }
  destruct (SFmul_lower (-7) a (Prim2SF 0.01) (Prim2SF e) eq_refl Pe B2R_hundredth He
              ltac:(lia)) as [->|[Pq Hq]].
  { left. now apply SFadd_inf_r. }
  destruct (SFdiv_lower (-7 + a) 9 _ SF365 Pq eq_refl Hq B2R_365 ltac:(lia))
    as [->|[Pc Hc]].
  { left. now apply SFadd_inf_r. }
  destruct (SFadd_lower (-7 + a - 9) _ _ Ns Pc Hc ltac:(lia)) as [->|[Pt _]]; auto.
Qed.

Lemma B2R_tiny : B2R (Prim2SF 0x1p-1000) = pow2 (-1000).
Proof.
  change (Prim2SF 0x1p-1000) with (S754_finite false 4503599627370496 (-1052)).
  cbn [B2R]. unfold F2R. rewrite Rmult_1_l.
  change (Z.pos 4503599627370496) with (2 ^ 52). rewrite <- pow2_IZR by lia.
  rewrite <- pow2_add. reflexivity.
Qed.

Lemma above_tiny (e : float) :
  positive_finite (Prim2SF e) = true -> (0x1p-1000 <=? e)%float = true ->
  (pow2 (-1000) <= B2R (Prim2SF e))%R.
Proof.
  intros Pe H. destruct (positive_finite_nonneg _ Pe) as (Ne & Fe & _).
  rewrite leb_spec in H. rewrite <- B2R_tiny.
  apply SFleb_spec; auto using Prim2SF_valid.
Qed.

(** X4.  In the generalized program, with an effective capacity of at least
    [2^-1000] (a [numpy.float64]) and finite non-negative currents, the
    sum that [calculate_runtime] divides by is strictly positive: the
    self-discharge term does not vanish, and the division is not by zero. *)
Theorem consumption_is_positive (self : Generalized.Battery)
    (i d i' : value) (e : float) :
  Generalized._load_current self = Some i -> current_ok i -> representable i ->
  Generalized._load_duration_per_day self = Some d -> duration_ok d ->
  duration_ok (Generalized.sleep_duration_per_day self) ->
  Generalized._sleep_current self = Some i' -> current_ok i' -> representable i' ->
  Generalized.effective_battery_capacity self = VNp e ->
  positive_finite (Prim2SF e) = true -> (0x1p-1000 <=? e)%float = true ->
  Generalized._self_discharge_rate self = 0.01%float ->
  exists t,
    Generalized.total_daily_consumption self = Ok (VNp t) /\
    (0 <? t)%float = true.
Proof.
  intros Hi [_ Ci] (bi & x & Hx & Fx) Hd Dd Ds Hi' [_ Ci'] (bi' & x' & Hx' & Fx')
    He Pe Htiny Hsdr.
  destruct (hours_of_duration d Dd) as (b & h & Hh & Nh & Fh).
  destruct (hours_of_duration _ Ds) as (b' & h' & Hh' & Nh' & Fh').
  pose proof (as_float_nonneg _ _ _ Ci Hx Fx) as Nx.
  pose proof (as_float_nonneg _ _ _ Ci' Hx' Fx') as Nx'.
  exists (consumption x h x' h' 0.01 e). split.
  - rewrite <- Hsdr.
    now apply (GeneralizedRuntime.total_consumption_value self i d i' bi bi' b b').
  - apply strictly_positive_ltb.
    apply (consumption_positive (-1000)); try assumption; try lia.
    now apply above_tiny.
Qed.

(** ** The sleep duration *)

Lemma py_ge_mk_int (b : bool) (y : float) (n : Z) :
  py_ge (mk_float b y) (VInt n)
  = Ok match compare_int_float n y with Some (Lt | Eq) => true | _ => false end.
Proof. destruct b; apply py_ge_np_int. Qed.

Lemma py_le_mk_int (b : bool) (y : float) (n : Z) :
  py_le (mk_float b y) (VInt n)
  = Ok match compare_int_float n y with Some (Gt | Eq) => true | _ => false end.
Proof. destruct b; apply py_le_np_int. Qed.

Lemma day_positive : positive_finite day = true.
Proof. reflexivity. Qed.

Lemma float_duration_range (b : bool) (x : float) :
  duration_ok (mk_float b x) ->
  nonneg (Prim2SF x) = true /\ finite_or_zero (Prim2SF x) = true /\
  SFleb (Prim2SF x) day = true.
Proof.
  intros (_ & H0 & H1).
  assert (H0' : py_ge (VFloat x) (VInt 0) = Ok true) by (destruct b; exact H0).
  assert (H1' : py_le (VFloat x) (VInt 86400) = Ok true) by (destruct b; exact H1).
  destruct (duration_float_range x H0' H1') as [R0 R1].
  rewrite leb_spec in R0, R1. rewrite Prim2SF_zero in R0. rewrite Prim2SF_day in R1.
  pose proof (range_nonneg _ (Prim2SF_valid x) R0) as Nx.
  repeat split; try assumption. now apply (SFleb_finite _ day).
Qed.

Lemma float_duration_ok (b : bool) (x : float) :
  nonneg (Prim2SF x) = true -> SFleb (Prim2SF x) day = true ->
  duration_ok (mk_float b x).
Proof.
  intros Nx Hle. split; [apply mk_float_numeric|]. split.
  - unfold ge_value. rewrite py_ge_mk_int. f_equal. now apply zero_le_nonneg.
  - unfold le_value. rewrite py_le_mk_int. f_equal.
    rewrite (float_le_int 86400 day); try assumption;
      [reflexivity|exact day_value].
Qed.

Lemma int_duration_range (n : Z) : duration_ok (VInt n) -> 0 <= n <= 86400.
Proof.
  intros (_ & H0 & H1).
  unfold ge_value, le_value, py_ge, py_le in *. cbn [py_compare bind] in *.
  destruct (Z.compare_spec n 0); try discriminate;
    destruct (Z.compare_spec n 86400); try discriminate; lia.
Qed.

Lemma int_duration_ok (n : Z) : 0 <= n <= 86400 -> duration_ok (VInt n).
Proof.
  intros Hn. split; [reflexivity|].
  unfold ge_value, le_value, py_ge, py_le. cbn [py_compare bind].
  destruct (Z.compare_spec n 0); try lia;
    destruct (Z.compare_spec n 86400); try lia; split; reflexivity.
Qed.

(** The duration that [update_battery_properties] stores,
    [86400 - load_duration_per_day], is again between 0 and 86400. *)
Lemma sleep_duration_ok (d s : value) :
  duration_ok d -> py_sub (VInt 86400) d = Ok s -> duration_ok s.
Proof.
  intros Dd Hs.
  destruct d as [ |n|x|x|t]; try (destruct Dd as [Dd _]; discriminate).
  - apply int_duration_range in Dd.
    assert (E : py_sub (VInt 86400) (VInt n) = Ok (VInt (86400 - n))) by reflexivity.
    rewrite E in Hs. assert (Es : s = VInt (86400 - n)) by congruence.
    rewrite Es. apply int_duration_ok. lia.
  - destruct (float_duration_range false x Dd) as (Nx & Fx & Hle).
    assert (E : py_sub (VInt 86400) (VFloat x) = Ok (VFloat (86400 - x)))
      by reflexivity.
    rewrite E in Hs. assert (Es : s = VFloat (86400 - x)) by congruence.
    rewrite Es. apply (float_duration_ok false).
    + rewrite sub_spec, Prim2SF_day.
      apply (rounds_nn_nonneg (B2R day - B2R (Prim2SF x))).
      apply SFsub_nn; try assumption; try reflexivity.
      apply SFleb_spec; auto using Prim2SF_valid.
    + rewrite sub_spec, Prim2SF_day.
      apply (rounds_nn_mono (B2R day - B2R (Prim2SF x)) (B2R day)).
      * pose proof (nonneg_B2R _ Nx). lra.
      * apply SFsub_nn; try assumption; try reflexivity.
        apply SFleb_spec; auto using Prim2SF_valid.
      * now apply rounds_nn_self.
  - destruct (float_duration_range true x Dd) as (Nx & Fx & Hle).
    assert (E : py_sub (VInt 86400) (VNp x) = Ok (VNp (86400 - x)))
      by reflexivity.
    rewrite E in Hs. assert (Es : s = VNp (86400 - x)) by congruence.
    rewrite Es. apply (float_duration_ok true).
    + rewrite sub_spec, Prim2SF_day.
      apply (rounds_nn_nonneg (B2R day - B2R (Prim2SF x))).
      apply SFsub_nn; try assumption; try reflexivity.
      apply SFleb_spec; auto using Prim2SF_valid.
    + rewrite sub_spec, Prim2SF_day.
      apply (rounds_nn_mono (B2R day - B2R (Prim2SF x)) (B2R day)).
      * pose proof (nonneg_B2R _ Nx). lra.
      * apply SFsub_nn; try assumption; try reflexivity.
        apply SFleb_spec; auto using Prim2SF_valid.
      * now apply rounds_nn_self.
Qed.

Lemma sleep_duration_total (d : value) :
  duration_ok d -> exists s, py_sub (VInt 86400) d = Ok s.
Proof.
  intros (Hn & _). destruct d as [ |n|x|x|t]; try discriminate; eexists; reflexivity.
Qed.

(** ** A sample run of the generalized program *)

(** A workbook with one lithium curve, for discharges up to 25 mA: the factor
    falls from 1 at 60 degrees to 0.5 at -40 degrees. *)
Definition sample_workbook : Generalized.workbook :=
  fun sheet =>
    if String.eqb sheet "Li Temperature Factor"
    then [ {| Generalized.current := 25; Generalized.temperature := 60;
              Generalized.factor := 1 |};
           {| Generalized.current := 25; Generalized.temperature := -40;
              Generalized.factor := 0.5 |} ]
    else [].

(** [Battery("Lithium Metal", 16000, 20, 90, 240, 0.06)] after
    [update_battery_properties()]. *)
Definition sample_battery : Generalized.Battery :=
  Eval vm_compute in
    match Generalized.__init__ (VStr "Lithium Metal") (VInt 16000) (VInt 20)
            (VInt 90) (VInt 240) (VFloat 0.06) with
    | Ok b => fst (Generalized.update_battery_properties sample_workbook b)
    | Raise _ => Generalized.blank
    end.

Definition sample_capacity : float :=
  Eval vm_compute in
    match Generalized.effective_battery_capacity sample_battery with
    | VNp e => e
    | _ => 0%float
    end.

Lemma sample_battery_updated :
  exists b,
    Generalized.__init__ (VStr "Lithium Metal") (VInt 16000) (VInt 20)
      (VInt 90) (VInt 240) (VFloat 0.06) = Ok b /\
    Generalized.update_battery_properties sample_workbook b
    = (sample_battery, Ok (VInt 0)).
Proof. eexists. split; [reflexivity|]. vm_compute. reflexivity. Qed.

Lemma runtime_decreases_with_load_witness :
  exists r1 r2,
    Generalized.calculate_runtime
      (Generalized.assign_load_current (VInt 90) sample_battery) = Ok r1 /\
    Generalized.calculate_runtime
      (Generalized.assign_load_current (VInt 1500) sample_battery) = Ok r2 /\
    le_value r2 r1.
Proof.
  apply (runtime_decreases_with_load sample_battery (VInt 240) (VFloat 0.06)
           (VInt 90) (VInt 1500) sample_capacity).
  - reflexivity.
  - repeat split; reflexivity.
  - repeat split; reflexivity.
  - reflexivity.
  - repeat split; reflexivity.
  - exists false, 0.06%float. split; reflexivity.
  - reflexivity.
  - reflexivity.
  - reflexivity.
  - left. reflexivity.
  - repeat split; reflexivity.
  - exists false, 90%float. split; reflexivity.
  - repeat split; reflexivity.
  - exists false, 1500%float. split; reflexivity.
  - reflexivity.
Defined.

Lemma runtime_decreases_with_sleep_witness :
  exists r1 r2,
    Generalized.calculate_runtime
      (Generalized.assign_sleep_current (VFloat 0.06) sample_battery) = Ok r1 /\
    Generalized.calculate_runtime
      (Generalized.assign_sleep_current (VInt 2) sample_battery) = Ok r2 /\
    le_value r2 r1.
Proof.
  apply (runtime_decreases_with_sleep sample_battery (VInt 240) (VInt 90)
           (VFloat 0.06) (VInt 2) sample_capacity).
  - reflexivity.
  - repeat split; reflexivity.
  - repeat split; reflexivity.
  - reflexivity.
  - repeat split; reflexivity.
  - exists false, 90%float. split; reflexivity.
  - reflexivity.
  - reflexivity.
  - reflexivity.
  - left. reflexivity.
  - repeat split; reflexivity.
  - exists false, 0.06%float. split; reflexivity.
  - repeat split; reflexivity.
  - exists false, 2%float. split; reflexivity.
  - reflexivity.
Defined.

Lemma runtime_within_shelf_life_witness :
  exists r,
    Generalized.calculate_runtime sample_battery = Ok r /\
    ge_value r (VInt 0) /\
    le_value r (VInt (Generalized._max_shelf_life sample_battery * 365)).
Proof.
  apply (runtime_within_shelf_life sample_battery (VInt 90) (VInt 240)
           (VFloat 0.06) sample_capacity).
  - reflexivity.
  - repeat split; reflexivity.
  - exists false, 90%float. split; reflexivity.
  - reflexivity.
  - repeat split; reflexivity.
  - repeat split; reflexivity.
  - reflexivity.
  - repeat split; reflexivity.
  - exists false, 0.06%float. split; reflexivity.
  - reflexivity.
  - reflexivity.
  - reflexivity.
  - left. reflexivity.
Defined.

Lemma consumption_is_positive_witness :
  exists t,
    Generalized.total_daily_consumption sample_battery = Ok (VNp t) /\
    (0 <? t)%float = true.
Proof.
  apply (consumption_is_positive sample_battery (VInt 90) (VInt 240)
           (VFloat 0.06) sample_capacity).
  - reflexivity.
  - repeat split; reflexivity.
  - exists false, 90%float. split; reflexivity.
  - reflexivity.
  - repeat split; reflexivity.
  - repeat split; reflexivity.
  - reflexivity.
  - repeat split; reflexivity.
  - exists false, 0.06%float. split; reflexivity.
  - reflexivity.
  - reflexivity.
  - reflexivity.
  - reflexivity.
Defined.

(** ** The lithium-only program above -10 degrees *)

Lemma int_float_below (m n : Z) (x : float) (c : comparison) :
  m < n -> compare_int_float n x = Some c -> c <> Gt ->
  compare_int_float m x = Some Lt.
Proof.
  intros Hmn Hc Hgt. destruct (finite_or_zero (Prim2SF x)) eqn:F.
  - destruct (compare_int_float_spec n x F) as (c1 & E1 & R1).
    destruct (compare_int_float_spec m x F) as (c2 & E2 & R2).
    rewrite E1 in Hc. injection Hc as ->. rewrite E2. f_equal.
    apply IZR_lt in Hmn.
    inversion R1; inversion R2; subst; try congruence; lra.
  - unfold compare_int_float in *.
    destruct (Prim2SF x) as [s|[|]| |s k e]; try discriminate; try reflexivity.
    injection Hc as <-. now elim Hgt.
Qed.

Lemma lt_of_ge (t : value) (m n : Z) :
  m < n -> ge_value t (VInt n) -> py_lt t (VInt m) = Ok false.
Proof.
  unfold ge_value, py_ge, py_lt. intros Hmn H.
  destruct t as [ |k|x|x|s]; try discriminate; cbn [py_compare bind] in *.
  - destruct (Z.compare_spec k n); try discriminate;
      destruct (Z.compare_spec k m); try reflexivity; lia.
  - destruct (compare_int_float n x) as [c|] eqn:E; [|discriminate].
    rewrite (int_float_below m n x c Hmn E); [reflexivity|].
    intros ->. discriminate.
  - destruct (compare_int_float n x) as [c|] eqn:E; [|discriminate].
    rewrite (int_float_below m n x c Hmn E); [reflexivity|].
    intros ->. discriminate.
Qed.

Lemma gt_of_le (t : value) (n : Z) :
  le_value t (VInt n) -> py_gt t (VInt n) = Ok false.
Proof.
  unfold le_value, py_le, py_gt.
  destruct (py_compare t (VInt n)) as [[[| |]|]|]; cbn [bind]; try discriminate;
    reflexivity.
Qed.

Lemma truediv_mk_positive (a b : bool) (x t : float) :
  strictly_positive (Prim2SF t) = true ->
  py_truediv (mk_float a x) (mk_float b t) = Ok (mk_float (a || b) (x / t)).
Proof.
  intros Pt. apply strictly_positive_not_zero in Pt.
  unfold py_truediv. rewrite !mk_float_numeric. cbn [andb negb].
  destruct a, b; cbn [mk_float as_float bind fst snd orb]; try reflexivity.
  now rewrite Pt.
Qed.

Lemma B2R_one : B2R (Prim2SF 1) = 1%R.
Proof. apply (B2R_integer _ 52 1); [lia|reflexivity]. Qed.

(** Multiplying by [1.0] changes nothing. *)
Lemma SFmul_one (c : spec_float) :
  positive_finite c = true -> SFmul prec emax (Prim2SF 1) c = c.
Proof.
  intros Pc. destruct (positive_finite_nonneg c Pc) as (Nc & Fc & Rc).
  destruct (positive_finite_shape c Pc) as (m & e & Ec & Vc).
  destruct (SFmul_nn (Prim2SF 1) c eq_refl Nc eq_refl Fc) as [[Hz _]|[Hv HR]].
  - rewrite B2R_one in Hz. lra.
  - rewrite B2R_one, Rmult_1_l in HR. subst c. cbn [B2R] in HR.
    apply (Rounds_unique _ _ _ _ HR). now apply Rounds_self.
Qed.

(** A positive [int] converts to a [float] that is at least 1. *)
Lemma positive_int_float (n : Z) (b : bool) (x : float) :
  0 < n -> as_float (VInt n) = Ok (b, x) ->
  positive_finite (Prim2SF x) = true /\ (pow2 0 <= B2R (Prim2SF x))%R.
Proof.
  intros Hn Hx.
  assert (Fx : finite_or_zero (Prim2SF x) = true).
  { cbn [as_float] in Hx. destruct (float_of_int n) as [z|] eqn:Ez; [|discriminate].
    injection Hx as <- <-. now apply float_of_int_spec in Ez. }
  assert (H0 : ge_value (VInt n) (VInt 0)).
  { unfold ge_value, py_ge. cbn [py_compare bind].
    destruct (Z.compare_spec n 0); try reflexivity; lia. }
  destruct (as_float_rounds (VInt n) b x H0 Hx Fx) as [[Hz _]|[Hv HR]].
  - cbn [real_of] in Hz. apply eq_IZR in Hz. lia.
  - cbn [real_of] in *.
    assert (H1 : (pow2 0 <= IZR n)%R) by (rewrite pow2_0; apply IZR_le; lia).
    destruct (Rounds_lower 0 _ _ ltac:(lia) H1 HR) as [E|H]; [|assumption].
    rewrite E in Fx. discriminate.
Qed.

Module LithiumRuntime.
Import Lithium.

Lemma total_consumption_value_li (self : Battery) (i d i' : value)
    (bi bi' b b' be : bool) (x x' h h' e : float) :
  _load_current self = Some i -> as_float i = Ok (bi, x) ->
  _load_duration_per_day self = Some d ->
  py_truediv d (VInt 3600) = Ok (mk_float b h) ->
  _sleep_current self = Some i' -> as_float i' = Ok (bi', x') ->
  py_truediv (sleep_duration_per_day self) (VInt 3600) = Ok (mk_float b' h') ->
  effective_battery_capacity self = mk_float be e ->
  exists B,
    total_daily_consumption self
    = Ok (mk_float B (consumption x h x' h' (_self_discharge_rate self) e)).
Proof.
  intros Hi Hx Hd Hh Hi' Hx' Hh' He.
  unfold total_daily_consumption, load_current, load_duration_per_day,
    sleep_current, self_discharge_rate.
  rewrite Hi, Hd, Hi', He. cbn [getattr bind]. rewrite Hh. cbn [bind].
  unfold py_mul, py_add.
  rewrite (arith_mk_r _ _ i bi b x h Hx). cbn [bind].
  rewrite Hh'. cbn [bind].
  rewrite (arith_mk_r _ _ i' bi' b' x' h' Hx'). cbn [bind].
  rewrite arith_mk. cbn [bind].
  rewrite (arith_mk_r _ _ (VFloat (_self_discharge_rate self)) false be _ e eq_refl).
  cbn [bind].
  rewrite (truediv_mk_int _ _ 365 365%float eq_refl eq_refl). cbn [bind].
  rewrite arith_mk. eexists. reflexivity.
Qed.

(** What the lithium-only [calculate_runtime] returns when the consumption
    is positive: no rounding, and the shelf life as an [int]. *)
Lemma calculate_runtime_value_li (self : Battery) (be B : bool) (e t : float) :
  effective_battery_capacity self = mk_float be e ->
  total_daily_consumption self = Ok (mk_float B t) ->
  strictly_positive (Prim2SF t) = true ->
  calculate_runtime self
  = Ok (if match compare_int_float (_max_shelf_life self) (e / t / 365) with
           | Some (Lt | Eq) => true
           | _ => false
           end
        then VInt (_max_shelf_life self * 365)
        else mk_float (be || B) (e / t)).
Proof.
  intros He Ht Pt. unfold calculate_runtime, unclamped_runtime.
  rewrite Ht, He. cbn [bind].
  rewrite (truediv_mk_positive be B e t Pt). cbn [bind].
  rewrite (truediv_mk_int _ _ 365 365%float eq_refl eq_refl). cbn [bind].
  unfold max_shelf_life. rewrite py_ge_mk_int. cbn [bind].
  destruct (compare_int_float (_max_shelf_life self) (e / t / 365)) as [[| |]|];
    reflexivity.
Qed.

Lemma flat_factor (sheet : list row) (self : Battery) (t : value) :
  _operating_temp self = Some t ->
  _min_operating_temp self = -40 -> _max_operating_temp self = 60 ->
  ge_value t (VInt (-10)) -> le_value t (VInt 60) ->
  calculate_temperature_factor sheet self = Ok (VFloat 1).
Proof.
  intros Ht Hmin Hmax Hge Hle.
  unfold calculate_temperature_factor, operating_temp, min_operating_temp,
    max_operating_temp.
  rewrite Ht, Hmin, Hmax. cbn [getattr bind].
  rewrite (lt_of_ge t (-40) (-10) ltac:(lia) Hge). cbn [bind].
  rewrite (gt_of_le t 60 Hle). cbn [bind].
  unfold ge_value in Hge. rewrite Hge. reflexivity.
Qed.

End LithiumRuntime.

Lemma arith_mk_l (iop : Z -> Z -> Z) (fop : float -> float -> float)
    (a : bool) (x : float) (v : value) (b : bool) (y : float) :
  as_float v = Ok (b, y) ->
  arith iop fop (mk_float a x) v = Ok (mk_float (a || b) (fop x y)).
Proof.
  intros Hy. unfold arith.
  assert (Hv : is_numeric v = true) by (destruct v; try discriminate; reflexivity).
  rewrite Hv, mk_float_numeric. cbn [andb negb].
  destruct a; cbn [mk_float as_float bind]; rewrite Hy; reflexivity.
Qed.

Module LithiumFlat.
Import Lithium.

(** The lithium-only [calculate_runtime] on a capacity of at least [2^a]:
    the division does not raise, and the result is between 0 and the shelf
    life of 9125 days. *)
Lemma runtime_bounds_li (self : Battery) (i d i' : value) (be : bool)
    (e : float) (a : Z) :
  _load_current self = Some i -> current_ok i -> representable i ->
  _load_duration_per_day self = Some d -> duration_ok d ->
  duration_ok (sleep_duration_per_day self) ->
  _sleep_current self = Some i' -> current_ok i' -> representable i' ->
  effective_battery_capacity self = mk_float be e ->
  positive_finite (Prim2SF e) = true ->
  -1000 <= a -> (pow2 a <= B2R (Prim2SF e))%R ->
  _self_discharge_rate self = 0.01%float ->
  _max_shelf_life self = 25 ->
  exists r,
    calculate_runtime self = Ok r /\
    ge_value r (VInt 0) /\ le_value r (VInt 9125).
Proof.
  intros Hi [_ Ci] (bi & x & Hx & Fx) Hd Dd Ds Hi' [_ Ci'] (bi' & x' & Hx' & Fx')
    He Pe Ha Hlow Hsdr Hy.
  destruct (hours_of_duration d Dd) as (b & h & Hh & Nh & Fh).
  destruct (hours_of_duration _ Ds) as (b' & h' & Hh' & Nh' & Fh').
  pose proof (as_float_nonneg _ _ _ Ci Hx Fx) as Nx.
  pose proof (as_float_nonneg _ _ _ Ci' Hx' Fx') as Nx'.
  destruct (LithiumRuntime.total_consumption_value_li self i d i' bi bi' b b' be
              x x' h h' e Hi Hx Hd Hh Hi' Hx' Hh' He) as (B & Ht).
  rewrite Hsdr in Ht.
  set (t := consumption x h x' h' 0.01 e) in *.
  assert (Pt : strictly_positive (Prim2SF t) = true).
  { now apply (consumption_positive a). }
  assert (Qt : plus_signed (Prim2SF t) = true).
  { now apply consumption_plus_signed. }
  assert (Nr : nonneg (Prim2SF (e / t)) = true).
  { rewrite div_spec. now apply SFdiv_nonneg_r. }
  rewrite (LithiumRuntime.calculate_runtime_value_li self be B e t He Ht Pt), Hy.
  destruct (clamp_test 25 25 eq_refl B2R_25 (e / t) Nr) as [-> Ny].
  eexists. split; [reflexivity|].
  destruct (SFleb (Prim2SF 25) (Prim2SF (e / t / 365))) eqn:C.
  - split; reflexivity.
  - destruct (below_shelf_life 25 9125 eq_refl eq_refl (e / t) Nr C) as [Hle Fr].
    split.
    + unfold ge_value. rewrite py_ge_mk_int. f_equal. now apply zero_le_nonneg.
    + unfold le_value. rewrite py_le_mk_int. f_equal.
      rewrite (float_le_int 9125 (Prim2SF 9125)); try assumption;
        [reflexivity|exact B2R_9125].
Qed.

End LithiumFlat.

(** X5.  In the lithium-only program, a battery constructed from accepted
    arguments whose temperature is between -10 and 60 degrees, and whose
    capacity and two currents are finite (each a finite [float], or an [int]
    that converts to a [float]; an infinite current, which the setters
    accept, is excluded), is updated without an exception:
    [update_battery_properties] returns 0, the temperature factor is 1.0,
    and the runtime is between 0 and 9125 days. *)
Theorem lithium_above_minus_ten (sheet : list Lithium.row)
    (cap t i d i' : value) (self : Lithium.Battery) :
  Lithium.__init__ cap t i d i' = Ok self ->
  capacity_ok_lithium cap -> representable cap ->
  temperature_ok t -> ge_value t (VInt (-10)) -> le_value t (VInt 60) ->
  current_ok i -> representable i -> duration_ok d ->
  current_ok i' -> representable i' ->
  exists self' r,
    Lithium.update_battery_properties sheet self = (self', Ok (VInt 0)) /\
    Lithium.temperature_factor self' = VFloat 1 /\
    Lithium.battery_runtime self' = r /\
    ge_value r (VInt 0) /\ le_value r (VInt 9125).
Proof.
  intros Hinit Ccap Rcap Ct Hge Hle Ci Ri Cd Ci' Ri'.
  destruct (init_fields_li _ _ _ _ _ _ Hinit)
    as (F1 & F2 & F3 & F4 & F5 & Hsdr & Hy & Hmin & Hmax).
  apply (fun F => field_of_ok _ _ _ F Ccap) in F1.
  apply (fun F => field_of_ok _ _ _ F Ct) in F2.
  apply (fun F => field_of_ok _ _ _ F Ci) in F3.
  apply (fun F => field_of_ok _ _ _ F Cd) in F4.
  apply (fun F => field_of_ok _ _ _ F Ci') in F5.
  destruct (sleep_duration_total d Cd) as (s & Hs).
  pose proof (sleep_duration_ok d s Cd Hs) as Ds.
  set (b1 := Lithium.assign_sleep_duration_per_day s self).
  assert (Htf : Lithium.calculate_temperature_factor sheet b1 = Ok (VFloat 1)).
  { now apply (LithiumRuntime.flat_factor sheet b1 t). }
  set (b2 := Lithium.assign_temperature_factor (VFloat 1) b1).
  destruct Ccap as [Icap Gcap].
  destruct cap as [ |n| | | ]; try discriminate.
  assert (Hn : 0 < n).
  { unfold gt_value, py_gt in Gcap. cbn [py_compare bind] in Gcap.
    destruct (Z.compare_spec n 0); try discriminate; lia. }
  destruct Rcap as (bc & cf & Hcf & _).
  destruct (positive_int_float n bc cf Hn Hcf) as [Pcf Lcf].
  assert (Heff : LithiumSteps.capacity_rhs_li b2 = Ok (mk_float (false || bc) (1 * cf))).
  { unfold LithiumSteps.capacity_rhs_li, Lithium.battery_capacity.
    change (Lithium._battery_capacity b2) with (Lithium._battery_capacity self).
    rewrite F1. cbn [getattr bind].
    change (Lithium.temperature_factor b2) with (mk_float false 1).
    unfold py_mul. now apply arith_mk_l. }
  set (e := (1 * cf)%float) in *.
  assert (He : Prim2SF e = Prim2SF cf).
  { unfold e. rewrite mul_spec. now apply SFmul_one. }
  set (b3 := Lithium.assign_effective_battery_capacity (mk_float (false || bc) e) b2).
  destruct (LithiumFlat.runtime_bounds_li b3 i d i' (false || bc) e 0)
    as (r & Hr & R0 & R1); try assumption; try reflexivity;
    try (rewrite He; assumption); try lia.
  exists (Lithium.assign_battery_runtime r b3), r.
  split; [|repeat split; assumption].
  rewrite LithiumSteps.update_unfold_li. unfold LithiumSteps.from_sleep_li.
  rewrite (seq_assign_Ok _ _ _ self s).
  2:{ unfold LithiumSteps.sleep_rhs_li, Lithium.load_duration_per_day.
      rewrite F4. exact Hs. }
  unfold LithiumSteps.from_factor_li.
  rewrite (seq_assign_Ok _ _ _ _ (VFloat 1) Htf).
  unfold LithiumSteps.from_capacity_li.
  rewrite (seq_assign_Ok _ _ _ _ _ Heff).
  unfold LithiumSteps.from_runtime_li, assign.
  fold b1 b2 b3. rewrite Hr. reflexivity.
Qed.

(** [Battery(16000, 20, 90, 240, 0.060167)] of the lithium-only program. *)
Definition warm_battery_li : Lithium.Battery :=
  Lithium.assign_sleep_current (VFloat 0.060167)
    (Lithium.assign_load_duration_per_day (VInt 240)
       (Lithium.assign_load_current (VInt 90)
          (Lithium.assign_operating_temp (VInt 20)
             (Lithium.assign_battery_capacity (VInt 16000) Lithium.blank)))).

Lemma lithium_above_minus_ten_witness :
  exists self' r,
    Lithium.update_battery_properties [] warm_battery_li = (self', Ok (VInt 0)) /\
    Lithium.temperature_factor self' = VFloat 1 /\
    Lithium.battery_runtime self' = r /\
    ge_value r (VInt 0) /\ le_value r (VInt 9125).
Proof.
  apply (lithium_above_minus_ten [] (VInt 16000) (VInt 20) (VInt 90) (VInt 240)
           (VFloat 0.060167)).
  - reflexivity.
  - split; reflexivity.
  - exists false, 16000%float. split; reflexivity.
  - reflexivity.
  - reflexivity.
  - reflexivity.
  - split; reflexivity.
  - exists false, 90%float. split; reflexivity.
  - repeat split; reflexivity.
  - split; reflexivity.
  - exists false, 0.060167%float. split; reflexivity.
Defined.

(** ** What [update_battery_properties] reads and writes *)

(** Two runs of a method body end alike: both return, in states that [R]
    relates, or both raise the same exception. *)
Definition related {S : Type} (R : S -> S -> Prop) (ra rb : S * result unit)
    : Prop :=
  match snd ra, snd rb with
  | Ok _, Ok _ => R (fst ra) (fst rb)
  | Raise e, Raise e' => e = e'
  | _, _ => False
  end.

Lemma assign_related {S : Type} (R R' : S -> S -> Prop) (set : value -> S -> S)
    (rhs : S -> result value) :
  (forall a b, R a b -> rhs a = rhs b) ->
  (forall v a b, R a b -> R' (set v a) (set v b)) ->
  forall a b, R a b -> related R' (assign set rhs a) (assign set rhs b).
Proof.
  intros Hrhs Hset a b Hab. unfold related, assign. rewrite (Hrhs a b Hab).
  destruct (rhs b); cbn [fst snd]; auto.
Qed.

Lemma seq_related {S : Type} (R R1 R2 : S -> S -> Prop) (s1 s2 : stmt S) :
  (forall a b, R a b -> related R1 (s1 a) (s1 b)) ->
  (forall a b, R1 a b -> related R2 (s2 a) (s2 b)) ->
  forall a b, R a b -> related R2 (seq s1 s2 a) (seq s1 s2 b).
Proof.
  intros H1 H2 a b Hab. specialize (H1 a b Hab). unfold related, seq in *.
  destruct (s1 a) as [a1 [u|e]]; destruct (s1 b) as [b1 [u'|e']];
    cbn [fst snd] in *; try contradiction; auto.
  now apply H2.
Qed.

Lemma returning_related {S : Type} (v : value) (ra rb : S * result unit) :
  related eq ra rb -> snd (returning v ra) = snd (returning v rb) /\
  forall a' w, returning v ra = (a', Ok w) -> returning v rb = (a', Ok w).
Proof.
  unfold related, returning.
  destruct ra as [a [u|e]]; destruct rb as [b [u'|e']]; cbn [fst snd];
    try contradiction.
  - intros ->. split; [reflexivity|]. auto.
  - intros ->. split; [reflexivity|]. discriminate.
Qed.

Module GeneralizedFrame.
Import Generalized GeneralizedSteps.

(** The attributes that [update_battery_properties] only reads: the six
    settable parameters and the constants that [__init__] creates. *)
Definition inputs (self : Battery) :=
  (_battery_type self, _battery_capacity self, _operating_temp self,
   _load_current self, _load_duration_per_day self, _sleep_current self,
   _self_discharge_rate self,
   (_low_current_discharge self, _medium_current_discharge self,
    _high_current_discharge self)).

Definition same_inputs (a b : Battery) : Prop := inputs a = inputs b.

Definition limits (self : Battery) :=
  (_min_operating_temp self, _max_operating_temp self, _max_shelf_life self).

Definition R1 (a b : Battery) : Prop := same_inputs a b /\ limits a = limits b.
Definition R2 (a b : Battery) : Prop :=
  R1 a b /\ _sleep_duration_per_day a = _sleep_duration_per_day b.
Definition R3 (a b : Battery) : Prop :=
  R2 a b /\ _average_current_draw a = _average_current_draw b.
Definition R4 (a b : Battery) : Prop :=
  R3 a b /\ _current_discharge_mode a = _current_discharge_mode b.
Definition R5 (a b : Battery) : Prop :=
  R4 a b /\ _temperature_factor a = _temperature_factor b.
Definition R6 (a b : Battery) : Prop :=
  R5 a b /\ _effective_battery_capacity a = _effective_battery_capacity b.

Ltac frame H :=
  unfold R6, R5, R4, R3, R2, R1, same_inputs, inputs, limits in H |- *;
  cbn [_battery_type _battery_capacity _operating_temp _load_current
       _load_duration_per_day _sleep_current _sleep_duration_per_day
       _average_current_draw _self_discharge_rate _max_shelf_life
       _min_operating_temp _max_operating_temp _temperature_factor
       _effective_battery_capacity _battery_runtime _current_discharge_mode
       _low_current_discharge _medium_current_discharge
       _high_current_discharge] in H |- *.

Ltac same_fields a b H :=
  destruct a, b; frame H;
  repeat match goal with
         | H : _ /\ _ |- _ => destruct H
         | H : (_, _) = (_, _) |- _ => injection H as ? ?
         end;
  subst.

Lemma sleep_rhs_frame (a b : Battery) : R1 a b -> sleep_rhs a = sleep_rhs b.
Proof. intros H. same_fields a b H. reflexivity. Qed.

Lemma average_frame (a b : Battery) :
  R2 a b -> average_current_draw_expr a = average_current_draw_expr b.
Proof. intros H. same_fields a b H. reflexivity. Qed.

Lemma mode_frame (a b : Battery) :
  R3 a b -> update_current_discharge_mode a = update_current_discharge_mode b.
Proof. intros H. same_fields a b H. reflexivity. Qed.

Lemma factor_frame (xlsx : workbook) (a b : Battery) :
  R4 a b -> calculate_temperature_factor xlsx a = calculate_temperature_factor xlsx b.
Proof.
  intros H. same_fields a b H.
  unfold calculate_temperature_factor, battery_details, operating_temp,
    battery_type, battery_capacity, load_current, load_duration_per_day,
    sleep_current.
  cbn [_battery_type _battery_capacity _operating_temp _load_current
       _load_duration_per_day _sleep_current].
  destruct _operating_temp1 as [t|]; [|reflexivity].
  destruct _battery_type1 as [ty|]; [|reflexivity].
  destruct _battery_capacity1 as [cap|]; [|reflexivity].
  destruct _load_current1 as [i|]; [|reflexivity].
  destruct _load_duration_per_day1 as [d|]; [|reflexivity].
  destruct _sleep_current1 as [i'|]; reflexivity.
Qed.

Lemma capacity_frame (a b : Battery) : R5 a b -> capacity_rhs a = capacity_rhs b.
Proof. intros H. same_fields a b H. reflexivity. Qed.

Lemma runtime_frame (a b : Battery) :
  R6 a b -> calculate_runtime a = calculate_runtime b.
Proof. intros H. same_fields a b H. reflexivity. Qed.

Lemma with_constants_frame (ty : value) (a b : Battery) :
  same_inputs a b -> R1 (with_constants ty a) (with_constants ty b).
Proof.
  intros H. unfold with_constants.
  destruct (py_eq ty (VStr "Alkaline")); same_fields a b H; split; reflexivity.
Qed.

Lemma from_sleep_frame (xlsx : workbook) (a b : Battery) :
  R1 a b -> related eq (from_sleep xlsx a) (from_sleep xlsx b).
Proof.
  unfold from_sleep, from_average, from_mode, from_factor, from_capacity,
    from_runtime.
  apply (seq_related R1 R2);
    [apply assign_related; [exact sleep_rhs_frame|]|].
  { intros v x y H. split; [exact H|reflexivity]. }
  apply (seq_related R2 R3);
    [apply assign_related; [exact average_frame|]|].
  { intros v x y H. split; [exact H|reflexivity]. }
  apply (seq_related R3 R4);
    [apply assign_related; [exact mode_frame|]|].
  { intros v x y H. split; [exact H|reflexivity]. }
  apply (seq_related R4 R5);
    [apply assign_related; [exact (factor_frame xlsx)|]|].
  { intros v x y H. split; [exact H|reflexivity]. }
  apply (seq_related R5 R6);
    [apply assign_related; [exact capacity_frame|]|].
  { intros v x y H. split; [exact H|reflexivity]. }
  apply assign_related; [exact runtime_frame|].
  intros v x y H. same_fields x y H. reflexivity.
Qed.

Lemma inputs_kept (xlsx : workbook) (self : Battery) :
  same_inputs self (fst (update_battery_properties xlsx self)).
Proof.
  rewrite update_unfold.
  destruct (_battery_type self) as [ty|] eqn:Hty; [|reflexivity].
  rewrite fst_returning.
  assert (H0 : same_inputs self (with_constants ty self)).
  { unfold with_constants. destruct (py_eq ty (VStr "Alkaline")); reflexivity. }
  revert H0. generalize (with_constants ty self). intros b H0.
  unfold from_sleep, from_average, from_mode, from_factor, from_capacity,
    from_runtime.
  revert b H0.
  repeat apply seq_fst_inv;
    try (apply assign_fst_inv; intros v x Hx; exact Hx).
Qed.

Lemma update_frame (xlsx : workbook) (a b : Battery) :
  same_inputs a b ->
  snd (update_battery_properties xlsx a) = snd (update_battery_properties xlsx b) /\
  forall a' v,
    update_battery_properties xlsx a = (a', Ok v) ->
    update_battery_properties xlsx b = (a', Ok v).
Proof.
  intros H. rewrite !update_unfold.
  assert (Hty : _battery_type a = _battery_type b).
  { unfold same_inputs, inputs in H. congruence. }
  rewrite <- Hty. destruct (_battery_type a) as [ty|].
  - apply returning_related. apply from_sleep_frame.
    now apply with_constants_frame.
  - split; [reflexivity|]. discriminate.
Qed.

End GeneralizedFrame.

(** X7.  In the generalized program, [update_battery_properties] computes
    every attribute it assigns from the six settable parameters and the
    constants of [__init__], never from the values the derived attributes
    held before: on two batteries with the same parameters it raises the same
    exception or returns in the same state. *)
Theorem update_depends_on_inputs (xlsx : Generalized.workbook)
    (a b : Generalized.Battery) :
  GeneralizedFrame.same_inputs a b ->
  snd (Generalized.update_battery_properties xlsx a)
  = snd (Generalized.update_battery_properties xlsx b) /\
  forall a' v,
    Generalized.update_battery_properties xlsx a = (a', Ok v) ->
    Generalized.update_battery_properties xlsx b = (a', Ok v).
Proof. apply GeneralizedFrame.update_frame. Qed.

Lemma update_depends_on_inputs_witness :
  snd (Generalized.update_battery_properties sample_workbook
         (Generalized.assign_battery_runtime VNone sample_battery))
  = snd (Generalized.update_battery_properties sample_workbook sample_battery) /\
  forall a' v,
    Generalized.update_battery_properties sample_workbook
      (Generalized.assign_battery_runtime VNone sample_battery) = (a', Ok v) ->
    Generalized.update_battery_properties sample_workbook sample_battery = (a', Ok v).
Proof.
  apply (update_depends_on_inputs sample_workbook
           (Generalized.assign_battery_runtime VNone sample_battery) sample_battery).
  reflexivity.
Defined.

(** X8.  [update_battery_properties] of the generalized program never changes
    a settable parameter or a constant of [__init__], whether it returns or
    raises; and calling it a second time changes nothing: the second call
    returns 0 and leaves the state of the first. *)
Theorem update_is_idempotent (xlsx : Generalized.workbook)
    (self : Generalized.Battery) :
  GeneralizedFrame.same_inputs self
    (fst (Generalized.update_battery_properties xlsx self)) /\
  forall self' v,
    Generalized.update_battery_properties xlsx self = (self', Ok v) ->
    Generalized.update_battery_properties xlsx self' = (self', Ok v).
Proof.
  split; [apply GeneralizedFrame.inputs_kept|].
  intros self' v H.
  pose proof (GeneralizedFrame.inputs_kept xlsx self) as Hk. rewrite H in Hk.
  cbn [fst] in Hk.
  destruct (GeneralizedFrame.update_frame xlsx self self' Hk) as [_ Hs].
  now apply Hs.
Qed.

Module LithiumFrame.
Import Lithium LithiumSteps.

(** The attributes that the lithium-only [update_battery_properties] only
    reads. *)
Definition inputs (self : Battery) :=
  (_battery_capacity self, _operating_temp self, _load_current self,
   _load_duration_per_day self, _sleep_current self,
   (_self_discharge_rate self, _max_shelf_life self,
    _min_operating_temp self, _max_operating_temp self)).

Definition same_inputs (a b : Battery) : Prop := inputs a = inputs b.

Definition R2 (a b : Battery) : Prop :=
  same_inputs a b /\ _sleep_duration_per_day a = _sleep_duration_per_day b.
Definition R5 (a b : Battery) : Prop :=
  R2 a b /\ _temperature_factor a = _temperature_factor b.
Definition R6 (a b : Battery) : Prop :=
  R5 a b /\ _effective_battery_capacity a = _effective_battery_capacity b.

Ltac same_fields a b H :=
  destruct a, b;
  unfold R6, R5, R2, same_inputs, inputs in H |- *;
  cbn [_battery_capacity _operating_temp _load_current
       _load_duration_per_day _sleep_current _sleep_duration_per_day
       _self_discharge_rate _max_shelf_life _min_operating_temp
       _max_operating_temp _temperature_factor _effective_battery_capacity
       _battery_runtime] in H |- *;
  repeat match goal with
         | H : _ /\ _ |- _ => destruct H
         | H : (_, _) = (_, _) |- _ => injection H as ? ?
         end;
  subst.

Lemma sleep_rhs_frame_li (a b : Battery) :
  same_inputs a b -> sleep_rhs_li a = sleep_rhs_li b.
Proof. intros H. same_fields a b H. reflexivity. Qed.

Lemma factor_frame_li (sheet : list row) (a b : Battery) :
  R2 a b ->
  calculate_temperature_factor sheet a = calculate_temperature_factor sheet b.
Proof. intros H. same_fields a b H. reflexivity. Qed.

Lemma capacity_frame_li (a b : Battery) :
  R5 a b -> capacity_rhs_li a = capacity_rhs_li b.
Proof. intros H. same_fields a b H. reflexivity. Qed.

Lemma runtime_frame_li (a b : Battery) :
  R6 a b -> calculate_runtime a = calculate_runtime b.
Proof. intros H. same_fields a b H. reflexivity. Qed.

Lemma from_sleep_frame_li (sheet : list row) (a b : Battery) :
  same_inputs a b -> related eq (from_sleep_li sheet a) (from_sleep_li sheet b).
Proof.
  unfold from_sleep_li, from_factor_li, from_capacity_li, from_runtime_li.
  apply (seq_related same_inputs R2);
    [apply assign_related; [exact sleep_rhs_frame_li|]|].
  { intros v x y H. split; [exact H|reflexivity]. }
  apply (seq_related R2 R5);
    [apply assign_related; [exact (factor_frame_li sheet)|]|].
  { intros v x y H. split; [exact H|reflexivity]. }
  apply (seq_related R5 R6);
    [apply assign_related; [exact capacity_frame_li|]|].
  { intros v x y H. split; [exact H|reflexivity]. }
  apply assign_related; [exact runtime_frame_li|].
  intros v x y H. same_fields x y H. reflexivity.
Qed.

Lemma inputs_kept_li (sheet : list row) (self : Battery) :
  same_inputs self (fst (update_battery_properties sheet self)).
Proof.
  rewrite update_unfold_li, fst_returning.
  set (P := fun b : Battery => same_inputs self b).
  enough (G : forall b, P b -> P (fst (from_sleep_li sheet b)))
    by (apply G; reflexivity).
  unfold from_sleep_li, from_factor_li, from_capacity_li, from_runtime_li.
  repeat apply seq_fst_inv;
    try (apply assign_fst_inv; intros v x Hx; exact Hx).
Qed.

Lemma update_frame_li (sheet : list row) (a b : Battery) :
  same_inputs a b ->
  snd (update_battery_properties sheet a) = snd (update_battery_properties sheet b) /\
  forall a' v,
    update_battery_properties sheet a = (a', Ok v) ->
    update_battery_properties sheet b = (a', Ok v).
Proof.
  intros H. rewrite !update_unfold_li.
  apply returning_related. now apply from_sleep_frame_li.
Qed.

End LithiumFrame.

(** X9.  The same for the lithium-only program: [update_battery_properties]
    changes no settable parameter and no constant, whether it returns or
    raises; on two batteries with the same parameters it raises the same
    exception or returns in the same state; and a second call changes
    nothing. *)
Theorem lithium_update_is_idempotent (sheet : list Lithium.row) :
  (forall self,
     LithiumFrame.same_inputs self
       (fst (Lithium.update_battery_properties sheet self))) /\
  (forall a b,
     LithiumFrame.same_inputs a b ->
     snd (Lithium.update_battery_properties sheet a)
     = snd (Lithium.update_battery_properties sheet b) /\
     forall a' v,
       Lithium.update_battery_properties sheet a = (a', Ok v) ->
       Lithium.update_battery_properties sheet b = (a', Ok v)) /\
  (forall self self' v,
     Lithium.update_battery_properties sheet self = (self', Ok v) ->
     Lithium.update_battery_properties sheet self' = (self', Ok v)).
Proof.
  split; [exact (LithiumFrame.inputs_kept_li sheet)|].
  split; [exact (LithiumFrame.update_frame_li sheet)|].
  intros self self' v H.
  pose proof (LithiumFrame.inputs_kept_li sheet self) as Hk. rewrite H in Hk.
  cbn [fst] in Hk.
  destruct (LithiumFrame.update_frame_li sheet self self' Hk) as [_ Hs].
  now apply Hs.
Qed.

(** ** The constructor *)

Lemma init_total (ty cap t i d i' : value) :
  exists self,
    Generalized.__init__ ty cap t i d i' = Ok self /\
    Generalized._sleep_duration_per_day self = VNone /\
    Generalized._average_current_draw self = VInt 0 /\
    Generalized._temperature_factor self = VNone /\
    Generalized._effective_battery_capacity self = VNone /\
    Generalized._battery_runtime self = VNone /\
    Generalized._current_discharge_mode self = VNone.
Proof.
  unfold Generalized.__init__.
  destruct (GeneralizedFacts.set_battery_type_cases ty Generalized.blank)
    as [[O1 E1]|[O1 E1]]; rewrite E1; cbn [bind];
  match goal with |- context [Generalized.set_battery_capacity cap ?b] =>
    destruct (GeneralizedFacts.set_battery_capacity_cases cap b)
      as [[O2 E2]|[O2 E2]]; rewrite E2; cbn [bind] end;
  match goal with |- context [Generalized.set_operating_temp t ?b] =>
    destruct (GeneralizedFacts.set_operating_temp_cases t b)
      as [[O3 E3]|[O3 E3]]; rewrite E3; cbn [bind] end;
  match goal with |- context [Generalized.set_load_current i ?b] =>
    destruct (GeneralizedFacts.set_load_current_cases i b)
      as [[O4 E4]|[O4 E4]]; rewrite E4; cbn [bind] end;
  match goal with |- context [Generalized.set_load_duration_per_day d ?b] =>
    destruct (GeneralizedFacts.set_load_duration_per_day_cases d b)
      as [[O5 E5]|[O5 E5]]; rewrite E5; cbn [bind] end;
  match goal with |- context [Generalized.set_sleep_current i' ?b] =>
    destruct (GeneralizedFacts.set_sleep_current_cases i' b)
      as [[O6 E6]|[O6 E6]]; rewrite E6 end;
  eexists; (split; [reflexivity|]); repeat split; reflexivity.
Qed.

Lemma init_total_li (cap t i d i' : value) :
  exists self,
    Lithium.__init__ cap t i d i' = Ok self /\
    Lithium._sleep_duration_per_day self = VNone /\
    Lithium._temperature_factor self = VNone /\
    Lithium._effective_battery_capacity self = VNone /\
    Lithium._battery_runtime self = VNone.
Proof.
  unfold Lithium.__init__.
  destruct (LithiumFacts.set_battery_capacity_li_cases cap Lithium.blank)
    as [[O2 E2]|[O2 E2]]; rewrite E2; cbn [bind];
  match goal with |- context [Lithium.set_operating_temp t ?b] =>
    destruct (LithiumFacts.set_operating_temp_li_cases t b)
      as [[O3 E3]|[O3 E3]]; rewrite E3; cbn [bind] end;
  match goal with |- context [Lithium.set_load_current i ?b] =>
    destruct (LithiumFacts.set_load_current_li_cases i b)
      as [[O4 E4]|[O4 E4]]; rewrite E4; cbn [bind] end;
  match goal with |- context [Lithium.set_load_duration_per_day d ?b] =>
    destruct (LithiumFacts.set_load_duration_per_day_li_cases d b)
      as [[O5 E5]|[O5 E5]]; rewrite E5; cbn [bind] end;
  match goal with |- context [Lithium.set_sleep_current i' ?b] =>
    destruct (LithiumFacts.set_sleep_current_li_cases i' b)
      as [[O6 E6]|[O6 E6]]; rewrite E6 end;
  eexists; (split; [reflexivity|]); repeat split; reflexivity.
Qed.

(** X10.  The constructors never raise, whatever their arguments: a string
    where a number is expected is rejected by the [isinstance] test before
    it is compared.  Each settable parameter then holds its argument if the
    argument satisfies the parameter's constraint and is absent otherwise,
    and the derived attributes hold their initial values ([None], and 0 for
    the average current draw). *)
Theorem constructor_never_raises :
  (forall ty cap t i d i',
     exists self,
       Generalized.__init__ ty cap t i d i' = Ok self /\
       field_of (chemistry_ok ty) ty (Generalized._battery_type self) /\
       field_of (capacity_ok cap) cap (Generalized._battery_capacity self) /\
       field_of (temperature_ok t) t (Generalized._operating_temp self) /\
       field_of (current_ok i) i (Generalized._load_current self) /\
       field_of (duration_ok d) d (Generalized._load_duration_per_day self) /\
       field_of (current_ok i') i' (Generalized._sleep_current self) /\
       Generalized.sleep_duration_per_day self = VNone /\
       Generalized.average_current_draw self = VInt 0 /\
       Generalized.temperature_factor self = VNone /\
       Generalized.effective_battery_capacity self = VNone /\
       Generalized.battery_runtime self = VNone /\
       Generalized.current_discharge_mode self = VNone) /\
  (forall cap t i d i',
     exists self,
       Lithium.__init__ cap t i d i' = Ok self /\
       field_of (capacity_ok_lithium cap) cap (Lithium._battery_capacity self) /\
       field_of (temperature_ok t) t (Lithium._operating_temp self) /\
       field_of (current_ok i) i (Lithium._load_current self) /\
       field_of (duration_ok d) d (Lithium._load_duration_per_day self) /\
       field_of (current_ok i') i' (Lithium._sleep_current self) /\
       Lithium.sleep_duration_per_day self = VNone /\
       Lithium.temperature_factor self = VNone /\
       Lithium.effective_battery_capacity self = VNone /\
       Lithium.battery_runtime self = VNone).
Proof.
  split.
  - intros ty cap t i d i'.
    destruct (init_total ty cap t i d i') as (self & Hs & U1 & U2 & U3 & U4 & U5 & U6).
    destruct (init_fields _ _ _ _ _ _ _ Hs) as (F1 & F2 & F3 & F4 & F5 & F6 & _).
    exists self. repeat split; assumption.
  - intros cap t i d i'.
    destruct (init_total_li cap t i d i') as (self & Hs & U1 & U2 & U3 & U4).
    destruct (init_fields_li _ _ _ _ _ _ Hs) as (F1 & F2 & F3 & F4 & F5 & _).
    exists self. repeat split; assumption.
Qed.

(** ** Edges of [calculate_temperature_factor] *)

(** X11.  In the generalized program, [calculate_temperature_factor] called
    on a battery just constructed from accepted arguments, before any
    [update_battery_properties], raises [KeyError] when the temperature
    passes the range test: the discharge mode is still [None], which is no
    key of the discharge limits. *)
Theorem factor_before_update (xlsx : Generalized.workbook)
    (ty cap t i d i' : value) (self : Generalized.Battery) :
  Generalized.__init__ ty cap t i d i' = Ok self ->
  chemistry_ok ty -> capacity_ok cap -> temperature_ok t ->
  current_ok i -> duration_ok d -> current_ok i' ->
  py_lt t (VInt (-40)) = Ok false -> py_gt t (VInt 60) = Ok false ->
  Generalized.calculate_temperature_factor xlsx self = Raise KeyError.
Proof.
  intros Hinit C1 C2 C3 C4 C5 C6 Hlt Hgt.
  destruct (init_fields _ _ _ _ _ _ _ Hinit)
    as (F1 & F2 & F3 & F4 & F5 & F6 & _ & _ & _ & _ & _ & Hmin & Hmax).
  apply (fun F => field_of_ok _ _ _ F C1) in F1.
  apply (fun F => field_of_ok _ _ _ F C2) in F2.
  apply (fun F => field_of_ok _ _ _ F C3) in F3.
  apply (fun F => field_of_ok _ _ _ F C4) in F4.
  apply (fun F => field_of_ok _ _ _ F C5) in F5.
  apply (fun F => field_of_ok _ _ _ F C6) in F6.
  destruct (init_total ty cap t i d i') as (self0 & Hs & _ & _ & _ & _ & _ & Hmode).
  rewrite Hinit in Hs. injection Hs as <-.
  unfold Generalized.calculate_temperature_factor, Generalized.battery_details,
    Generalized.operating_temp, Generalized.battery_type,
    Generalized.battery_capacity, Generalized.load_current,
    Generalized.load_duration_per_day, Generalized.sleep_current,
    Generalized.min_operating_temp, Generalized.max_operating_temp,
    Generalized.current_discharge_mode.
  rewrite F1, F2, F3, F4, F5, F6, Hmin, Hmax, Hmode. cbn [getattr bind].
  rewrite Hlt. cbn [bind]. rewrite Hgt. cbn [bind]. reflexivity.
Qed.

Lemma factor_before_update_witness :
  Generalized.calculate_temperature_factor sample_workbook
    (Generalized.assign_sleep_current (VFloat 0.06)
      (Generalized.assign_load_duration_per_day (VInt 240)
        (Generalized.assign_load_current (VInt 90)
          (Generalized.assign_operating_temp (VInt 20)
            (Generalized.assign_battery_capacity (VInt 16000)
              (Generalized.assign_battery_type (VStr "Lithium Metal")
                Generalized.blank))))))
  = Raise KeyError.
Proof.
  apply (factor_before_update sample_workbook (VStr "Lithium Metal") (VInt 16000)
           (VInt 20) (VInt 90) (VInt 240) (VFloat 0.06)).
  - reflexivity.
  - left. reflexivity.
  - split; reflexivity.
  - reflexivity.
  - split; reflexivity.
  - repeat split; reflexivity.
  - split; reflexivity.
  - reflexivity.
  - reflexivity.
Defined.

Lemma py_lt_total (t : value) (x : float) :
  is_numeric t = true -> exists c, py_lt t (VNp x) = Ok c.
Proof.
  intros Ht. unfold py_lt.
  destruct (py_compare_numeric t (VNp x) Ht eq_refl) as (c & ->).
  cbn [bind]. eauto.
Qed.

(** The loop falls through, and the method returns [None], when the
    temperature is below every sample. *)
Lemma interpolate_below_li (t : value) (sheet : list Lithium.row) :
  is_numeric t = true ->
  Forall (fun r => py_ge t (VNp (Lithium.temperature r)) = Ok false) sheet ->
  Lithium.interpolate t sheet = Ok VNone.
Proof.
  intros Ht. induction sheet as [|r rest IH]; intros HF; [reflexivity|].
  destruct rest as [|r' rest']; [reflexivity|].
  rewrite interpolate_step_li.
  inversion HF as [|? ? _ HF']; subst.
  destruct (py_lt_total t (Lithium.temperature r) Ht) as (c & ->). cbn [bind].
  assert (Hc : (if c then py_ge t (VNp (Lithium.temperature r')) else Ok false)
               = Ok false).
  { destruct c; [|reflexivity]. now inversion HF'. }
  rewrite Hc. cbn [bind]. now apply IH.
Qed.

(** X12.  In the lithium-only program, a battery whose temperature passes the
    range test, is below -10 degrees and is below every sample of the sheet
    (an empty sheet included) gets no temperature factor:
    [calculate_temperature_factor] returns [None], and
    [update_battery_properties] raises [TypeError] at the product with the
    capacity, leaving the runtime unassigned. *)
Theorem lithium_cold_without_sample (sheet : list Lithium.row)
    (cap t i d i' : value) (self : Lithium.Battery) :
  Lithium.__init__ cap t i d i' = Ok self ->
  capacity_ok_lithium cap -> temperature_ok t ->
  current_ok i -> duration_ok d -> current_ok i' ->
  py_lt t (VInt (-40)) = Ok false -> py_gt t (VInt 60) = Ok false ->
  py_ge t (VInt (-10)) = Ok false ->
  Forall (fun r => py_ge t (VNp (Lithium.temperature r)) = Ok false) sheet ->
  exists self',
    Lithium.update_battery_properties sheet self = (self', Raise TypeError) /\
    Lithium.temperature_factor self' = VNone /\
    Lithium.battery_runtime self' = VNone.
Proof.
  intros Hinit Ccap Ct Ci Cd Ci' Hlt Hgt Hflat Hbelow.
  destruct (init_fields_li _ _ _ _ _ _ Hinit)
    as (F1 & F2 & F3 & F4 & F5 & Hsdr & Hy & Hmin & Hmax).
  apply (fun F => field_of_ok _ _ _ F Ccap) in F1.
  apply (fun F => field_of_ok _ _ _ F Ct) in F2.
  apply (fun F => field_of_ok _ _ _ F Cd) in F4.
  destruct (init_total_li cap t i d i') as (self0 & Hs0 & _ & _ & _ & Hrt).
  rewrite Hinit in Hs0. injection Hs0 as <-.
  destruct (sleep_duration_total d Cd) as (s & Hs).
  set (b1 := Lithium.assign_sleep_duration_per_day s self).
  assert (Htf : Lithium.calculate_temperature_factor sheet b1 = Ok VNone).
  { unfold Lithium.calculate_temperature_factor, Lithium.operating_temp,
      Lithium.min_operating_temp, Lithium.max_operating_temp.
    change (Lithium._operating_temp b1) with (Lithium._operating_temp self).
    change (Lithium._min_operating_temp b1) with (Lithium._min_operating_temp self).
    change (Lithium._max_operating_temp b1) with (Lithium._max_operating_temp self).
    rewrite F2, Hmin, Hmax. cbn [getattr bind].
    rewrite Hlt. cbn [bind]. rewrite Hgt. cbn [bind]. rewrite Hflat. cbn [bind].
    now apply interpolate_below_li. }
  set (b2 := Lithium.assign_temperature_factor VNone b1).
  exists b2. split; [|split; [reflexivity|exact Hrt]].
  rewrite LithiumSteps.update_unfold_li. unfold LithiumSteps.from_sleep_li.
  rewrite (seq_assign_Ok _ _ _ self s).
  2:{ unfold LithiumSteps.sleep_rhs_li, Lithium.load_duration_per_day.
      rewrite F4. exact Hs. }
  unfold LithiumSteps.from_factor_li.
  rewrite (seq_assign_Ok _ _ _ _ VNone Htf).
  unfold LithiumSteps.from_capacity_li.
  rewrite (seq_assign_Raise _ _ _ _ TypeError); [reflexivity|].
  unfold LithiumSteps.capacity_rhs_li, Lithium.battery_capacity.
  change (Lithium._battery_capacity (Lithium.assign_temperature_factor VNone b1))
    with (Lithium._battery_capacity self).
  rewrite F1. reflexivity.
Qed.

Lemma lithium_cold_without_sample_witness :
  exists self',
    Lithium.update_battery_properties [] test_battery_li = (self', Raise TypeError) /\
    Lithium.temperature_factor self' = VNone /\
    Lithium.battery_runtime self' = VNone.
Proof.
  apply (lithium_cold_without_sample [] (VInt 16000) (VInt (-35)) (VInt 90)
           (VInt 240) (VFloat 0.060167)).
  - reflexivity.
  - split; reflexivity.
  - reflexivity.
  - split; reflexivity.
  - repeat split; reflexivity.
  - split; reflexivity.
  - reflexivity.
  - reflexivity.
  - reflexivity.
  - constructor.
Defined.

(** ** Interpolation at a sample *)

Lemma SFcompare_refl (f : spec_float) : f <> S754_nan -> SFcompare f f = Some Eq.
Proof.
  destruct f as [s|[|]| |[|] m e]; intros H; try reflexivity; try (now elim H);
    cbn [SFcompare]; rewrite Z.compare_refl, Pos.compare_cont_refl; reflexivity.
Qed.

Lemma SFcompare_Eq_cases (t x : spec_float) :
  SFcompare t x = Some Eq -> finite_or_zero x = true ->
  (exists s s', t = S754_zero s /\ x = S754_zero s') \/
  (exists s m e, t = S754_finite s m e /\ x = S754_finite s m e).
Proof.
  intros H F.
  destruct x as [sx|sx| |sx mx ex]; try discriminate;
    destruct t as [st|[|]| |st mt et]; try discriminate.
  - left. eauto.
  - destruct st; discriminate.
  - destruct sx; discriminate.
  - right. cbn [SFcompare] in H.
    assert (E : st = sx /\ et = ex /\ mt = mx).
    { destruct st, sx; try discriminate;
        destruct (Z.compare_spec et ex) as [Ee|Ee|Ee]; try discriminate;
        rewrite Pos.compare_cont_spec in H; unfold Pos.switch_Eq in H;
        destruct (Pos.compare_spec mt mx); try discriminate; auto. }
    destruct E as (-> & -> & ->). eauto.
Qed.

Lemma SFsub_same (s : bool) (m : positive) (e : Z) :
  SFsub prec emax (S754_finite s m e) (S754_finite s m e) = S754_zero false.
Proof.
  destruct (SFsub_finite s s m m e e) as (H0 & _). apply H0. ring.
Qed.

(** [y1 + slope * (t - x1)] is [y1] when [t] is [x1]. *)
Lemma node_value (slope y1 t x : spec_float) :
  SFcompare t x = Some Eq -> finite_or_zero x = true ->
  finite_or_zero slope = true -> y1 <> S754_nan ->
  SFcompare (SFadd prec emax y1 (SFmul prec emax slope (SFsub prec emax t x))) y1
  = Some Eq.
Proof.
  intros Ht Fx Fs Hy.
  assert (Hd : exists sd, SFsub prec emax t x = S754_zero sd).
  { destruct (SFcompare_Eq_cases t x Ht Fx) as [(s & s' & -> & ->)|(s & m & e & -> & ->)].
    - destruct s, s'; cbn; eauto.
    - rewrite SFsub_same. eauto. }
  destruct Hd as (sd & ->).
  assert (Hp : exists sp, SFmul prec emax slope (S754_zero sd) = S754_zero sp).
  { destruct slope as [s|s| |s m e]; try discriminate; cbn; eauto. }
  destruct Hp as (sp & ->).
  destruct y1 as [s|s| |s m e]; try (now elim Hy).
  - destruct s, sp; reflexivity.
  - cbn [SFadd]. now apply SFcompare_refl.
  - cbn [SFadd]. now apply SFcompare_refl.
Qed.

Lemma compare_float_Eq (x y : float) :
  compare_float x y = Some Eq <-> SFcompare (Prim2SF x) (Prim2SF y) = Some Eq.
Proof.
  unfold compare_float. rewrite compare_spec.
  destruct (SFcompare (Prim2SF x) (Prim2SF y)) as [[| |]|]; cbn;
    intuition discriminate.
Qed.

(** A number equal to a finite [numpy.float64] converts to it. *)
Lemma py_eq_as_float (t : value) (x : float) :
  py_eq t (VNp x) = true -> finite_or_zero (Prim2SF x) = true ->
  exists b tf, as_float t = Ok (b, tf) /\
               SFcompare (Prim2SF tf) (Prim2SF x) = Some Eq.
Proof.
  intros H Fx. destruct t as [ |n|y|y|s]; try discriminate.
  - unfold py_eq in H. cbn [py_compare] in H.
    destruct (compare_int_float n x) as [[| |]|] eqn:E; try discriminate.
    destruct (compare_int_float_Eq n x E) as [_ Hv].
    pose proof (binary_normalize_signed n 0) as (S0 & Sp & Sn).
    rewrite pow2_0, Rmult_1_r in S0, Sp, Sn.
    pose proof (Prim2SF_valid x) as Vx.
    assert (Hf : exists f, binary_normalize prec emax n 0 false = f /\
                           finite_or_zero f = true /\ valid_binary f = true /\
                           SFcompare f (Prim2SF x) = Some Eq).
    { destruct (Prim2SF x) as [sx|sx| |sx mx ex]; try discriminate.
      - cbn [B2R] in Hv. exists (S754_zero false). rewrite S0 by auto.
        repeat split.
      - exists (S754_finite sx mx ex). cbn [B2R] in Hv.
        split; [|repeat split; try assumption;
                 apply SFcompare_refl; discriminate].
        pose proof (F2R_pos mx ex) as Hpos.
        destruct sx.
        + rewrite F2R_neg in Hv.
          apply (Rounds_unique (- IZR n) true); [apply Sn; lra|].
          replace (- IZR n)%R with (F2R false mx ex) by lra.
          now apply Rounds_self.
        + apply (Rounds_unique (IZR n) false); [apply Sp; lra|].
          rewrite <- Hv. now apply Rounds_self. }
    destruct Hf as (f & Ef & Ff & Vf & Cf).
    exists false, (SF2Prim f). split.
    + cbn [as_float]. unfold float_of_int. rewrite Ef.
      destruct f; try discriminate; reflexivity.
    + now rewrite Prim2SF_SF2Prim.
  - exists false, y. split; [reflexivity|].
    unfold py_eq in H. cbn [py_compare] in H. apply compare_float_Eq.
    destruct (compare_float y x) as [[| |]|]; try discriminate; reflexivity.
  - exists true, y. split; [reflexivity|].
    unfold py_eq in H. cbn [py_compare] in H. apply compare_float_Eq.
    destruct (compare_float y x) as [[| |]|]; try discriminate; reflexivity.
Qed.

Lemma py_eq_ge (t : value) (x : float) :
  py_eq t (VNp x) = true -> py_ge t (VNp x) = Ok true.
Proof.
  unfold py_eq, py_ge. destruct t as [ |n|y|y|s]; try discriminate;
    destruct (py_compare _ (VNp x)) as [[[| |]|]|]; try discriminate; reflexivity.
Qed.

Lemma interpolate_step (t : value) (r r' : Generalized.row)
    (df : list Generalized.row) :
  Generalized.interpolate t (r :: r' :: df) =
  (c1 <- py_lt t (VNp (Generalized.temperature r)) ;;
   c2 <- (if c1 then py_ge t (VNp (Generalized.temperature r')) else Ok false) ;;
   if c2 then
     dy <- py_sub (VNp (Generalized.factor r)) (VNp (Generalized.factor r')) ;;
     dx <- py_sub (VNp (Generalized.temperature r))
             (VNp (Generalized.temperature r')) ;;
     slope <- py_truediv dy dx ;;
     dt <- py_sub t (VNp (Generalized.temperature r')) ;;
     p <- py_mul slope dt ;;
     py_add (VNp (Generalized.factor r')) p
   else Generalized.interpolate t (r' :: df)).
Proof. reflexivity. Qed.

(** X13.  The interpolation of the generalized program reproduces the table
    at its samples: when the temperature equals the lower sample of the first
    pair of rows, the value returned equals that sample's factor (for a
    finite sample temperature, a factor that is no NaN and a finite
    slope). *)
Theorem interpolation_at_sample (t : value) (r r' : Generalized.row)
    (rest : list Generalized.row) :
  py_lt t (VNp (Generalized.temperature r)) = Ok true ->
  py_eq t (VNp (Generalized.temperature r')) = true ->
  finite_or_zero (Prim2SF (Generalized.temperature r')) = true ->
  finite_or_zero
    (Prim2SF ((Generalized.factor r - Generalized.factor r')
              / (Generalized.temperature r - Generalized.temperature r'))) = true ->
  Prim2SF (Generalized.factor r') <> S754_nan ->
  exists v,
    Generalized.interpolate t (r :: r' :: rest) = Ok (VNp v) /\
    py_eq (VNp v) (VNp (Generalized.factor r')) = true.
Proof.
  intros Hlt Heq Fx Fs Hy.
  destruct (py_eq_as_float t _ Heq Fx) as (b & tf & Ht & Hc).
  rewrite interpolate_step, Hlt. cbn [bind].
  rewrite (py_eq_ge t _ Heq). cbn [bind].
  change (py_sub (VNp (Generalized.factor r)) (VNp (Generalized.factor r')))
    with (Ok (VNp (Generalized.factor r - Generalized.factor r'))).
  cbn [bind].
  change (py_sub (VNp (Generalized.temperature r)) (VNp (Generalized.temperature r')))
    with (Ok (VNp (Generalized.temperature r - Generalized.temperature r'))).
  cbn [bind]. rewrite truediv_np. cbn [bind].
  unfold py_sub, py_mul, py_add.
  rewrite (arith_np_r _ _ t _ (b, tf) Ht). cbn [bind snd].
  eexists. split; [reflexivity|].
  unfold py_eq. cbn [py_compare].
  match goal with
  | |- match match compare_float ?a ?b with _ => _ end with _ => _ end = true =>
      assert (E : compare_float a b = Some Eq)
  | |- match compare_float ?a ?b with _ => _ end = true =>
      assert (E : compare_float a b = Some Eq)
  end.
  { apply compare_float_Eq. cbn [snd]. rewrite add_spec, mul_spec, sub_spec.
    now apply node_value. }
  now rewrite E.
Qed.

Lemma interpolation_at_sample_witness :
  exists v,
    Generalized.interpolate (VInt (-40))
      [ {| Generalized.current := 25; Generalized.temperature := 60;
           Generalized.factor := 1 |};
        {| Generalized.current := 25; Generalized.temperature := -40;
           Generalized.factor := 0.5 |} ] = Ok (VNp v) /\
    py_eq (VNp v)
      (VNp (Generalized.factor
              {| Generalized.current := 25; Generalized.temperature := -40;
                 Generalized.factor := 0.5 |})) = true.
Proof.
  apply (interpolation_at_sample (VInt (-40))
           {| Generalized.current := 25; Generalized.temperature := 60;
              Generalized.factor := 1 |}
           {| Generalized.current := 25; Generalized.temperature := -40;
              Generalized.factor := 0.5 |} []).
  - reflexivity.
  - reflexivity.
  - reflexivity.
  - reflexivity.
  - intros H. vm_compute in H. discriminate H.
Defined.

(** ** The lithium-only runtime as a function of the currents *)

Module LithiumMonotone.
Import Lithium.

(** What the lithium-only [calculate_runtime] returns for the quotient
    [r]. *)
Definition finish_li (b : bool) (r : float) : value :=
  if match compare_int_float 25 (r / 365) with
     | Some (Lt | Eq) => true
     | _ => false
     end
  then VInt (25 * 365)
  else mk_float b r.

Lemma py_le_mk_mk (a b : bool) (x y : float) :
  py_le (mk_float a x) (mk_float b y) = Ok (SFleb (Prim2SF x) (Prim2SF y)).
Proof. destruct a, b; apply py_le_np_np. Qed.

Lemma finish_li_antitone (a b : bool) (r1 r2 : float) :
  nonneg (Prim2SF r1) = true -> nonneg (Prim2SF r2) = true ->
  SFleb (Prim2SF r2) (Prim2SF r1) = true ->
  le_value (finish_li b r2) (finish_li a r1).
Proof.
  intros N1 N2 Hle. unfold finish_li, le_value.
  destruct (clamp_test 25 25 eq_refl B2R_25 r1 N1) as [-> Ny1].
  destruct (clamp_test 25 25 eq_refl B2R_25 r2 N2) as [-> Ny2].
  assert (Hy : SFleb (Prim2SF (r2 / 365)) (Prim2SF (r1 / 365)) = true).
  { rewrite !div_spec. apply SFdiv_mono_l; try assumption; reflexivity. }
  destruct (SFleb (Prim2SF 25) (Prim2SF (r2 / 365))) eqn:C2.
  - assert (N25 : nonneg (Prim2SF 25) = true) by reflexivity.
    rewrite (SFleb_trans _ _ _ N25 Ny2 Ny1 C2 Hy). reflexivity.
  - destruct (below_shelf_life 25 9125 eq_refl eq_refl r2 N2 C2) as [Hz2 F2].
    destruct (SFleb (Prim2SF 25) (Prim2SF (r1 / 365))) eqn:C1.
    + rewrite py_le_mk_int. f_equal.
      rewrite (float_le_int _ (Prim2SF 9125)); try assumption;
        [reflexivity|exact B2R_9125].
    + rewrite py_le_mk_mk. now f_equal.
Qed.

Lemma runtime_of_currents_li (self : Battery) (i d i' : value) (be : bool)
    (e : float) (a : Z) :
  _load_current self = Some i -> current_ok i -> representable i ->
  _load_duration_per_day self = Some d -> duration_ok d ->
  duration_ok (sleep_duration_per_day self) ->
  _sleep_current self = Some i' -> current_ok i' -> representable i' ->
  effective_battery_capacity self = mk_float be e ->
  positive_finite (Prim2SF e) = true ->
  -1000 <= a -> (pow2 a <= B2R (Prim2SF e))%R ->
  _self_discharge_rate self = 0.01%float ->
  _max_shelf_life self = 25 ->
  exists bi x bi' x' b h b' h' B,
    as_float i = Ok (bi, x) /\ finite_or_zero (Prim2SF x) = true /\
    as_float i' = Ok (bi', x') /\ finite_or_zero (Prim2SF x') = true /\
    py_truediv d (VInt 3600) = Ok (mk_float b h) /\
    nonneg (Prim2SF h) = true /\ finite_or_zero (Prim2SF h) = true /\
    py_truediv (sleep_duration_per_day self) (VInt 3600) = Ok (mk_float b' h') /\
    nonneg (Prim2SF h') = true /\ finite_or_zero (Prim2SF h') = true /\
    calculate_runtime self
    = Ok (finish_li B (e / consumption x h x' h' 0.01 e)).
Proof.
  intros Hi [_ Ci] (bi & x & Hx & Fx) Hd Dd Ds Hi' [_ Ci'] (bi' & x' & Hx' & Fx')
    He Pe Ha Hlow Hsdr Hy.
  destruct (hours_of_duration d Dd) as (b & h & Hh & Nh & Fh).
  destruct (hours_of_duration _ Ds) as (b' & h' & Hh' & Nh' & Fh').
  pose proof (as_float_nonneg _ _ _ Ci Hx Fx) as Nx.
  pose proof (as_float_nonneg _ _ _ Ci' Hx' Fx') as Nx'.
  destruct (LithiumRuntime.total_consumption_value_li self i d i' bi bi' b b' be
              x x' h h' e Hi Hx Hd Hh Hi' Hx' Hh' He) as (B & Ht).
  rewrite Hsdr in Ht.
  assert (Pt : strictly_positive (Prim2SF (consumption x h x' h' 0.01 e)) = true).
  { now apply (consumption_positive a). }
  exists bi, x, bi', x', b, h, b', h', (be || B).
  repeat split; try assumption.
  rewrite (LithiumRuntime.calculate_runtime_value_li self be B e _ He Ht Pt), Hy.
  reflexivity.
Qed.

End LithiumMonotone.

Lemma mk_float_inj (a b : bool) (x y : float) :
  mk_float a x = mk_float b y -> x = y.
Proof. destruct a, b; intros H; try discriminate; now injection H. Qed.

(** X14.  In the lithium-only program, the runtime that [calculate_runtime]
    returns never grows with the load current, nor with the sleep current,
    when every current is finite.  The attributes held fixed are: an
    effective capacity that is a finite number of at least [2^-1000], a load
    duration and a sleep duration between 0 and 86400, the self-discharge
    rate 0.01, the shelf life of 25 years, and a load current and a sleep
    current that are both accepted and finite (a finite [float], or an [int]
    that converts to a [float]).  Then for accepted values [v1 <= v2], finite
    in the same sense, put in place of the load current, and likewise in
    place of the sleep current, [calculate_runtime] returns for both,
    without [ZeroDivisionError], and its result at [v2] is at most its
    result at [v1].  Infinite currents are excluded, varied or fixed. *)
Theorem lithium_runtime_decreases (self : Lithium.Battery)
    (i d i' v1 v2 : value) (be : bool) (e : float) :
  Lithium._load_current self = Some i -> current_ok i -> representable i ->
  Lithium._load_duration_per_day self = Some d -> duration_ok d ->
  duration_ok (Lithium.sleep_duration_per_day self) ->
  Lithium._sleep_current self = Some i' -> current_ok i' -> representable i' ->
  Lithium.effective_battery_capacity self = mk_float be e ->
  positive_finite (Prim2SF e) = true -> (0x1p-1000 <=? e)%float = true ->
  Lithium._self_discharge_rate self = 0.01%float ->
  Lithium._max_shelf_life self = 25 ->
  current_ok v1 -> representable v1 -> current_ok v2 -> representable v2 ->
  le_value v1 v2 ->
  (exists r1 r2,
     Lithium.calculate_runtime (Lithium.assign_load_current v1 self) = Ok r1 /\
     Lithium.calculate_runtime (Lithium.assign_load_current v2 self) = Ok r2 /\
     le_value r2 r1) /\
  (exists r1 r2,
     Lithium.calculate_runtime (Lithium.assign_sleep_current v1 self) = Ok r1 /\
     Lithium.calculate_runtime (Lithium.assign_sleep_current v2 self) = Ok r2 /\
     le_value r2 r1).
Proof.
  intros Hi Ci Ri Hd Dd Ds Hi' Ci' Ri' He Pe Htiny Hsdr Hy C1 R1 C2 R2 Hle.
  pose proof (above_tiny e Pe Htiny) as Hlow.
  assert (Psdr : positive_finite (Prim2SF 0.01) = true) by reflexivity.
  split.
  - destruct (LithiumMonotone.runtime_of_currents_li
                (Lithium.assign_load_current v1 self) v1 d i' be e (-1000))
      as (b1 & x1 & bi' & x' & b & h & b' & h' & B1 & Hx1 & F1 & Hx' & Fx' & Hh & Nh
          & Fh & Hh' & Nh' & Fh' & Hr1); try assumption; try reflexivity; try lia.
    destruct (LithiumMonotone.runtime_of_currents_li
                (Lithium.assign_load_current v2 self) v2 d i' be e (-1000))
      as (b2 & x2 & bi2 & x2' & b3 & h3 & b3' & h3' & B2 & Hx2 & F2 & Hx2' & _ & Hh3
          & _ & _ & Hh3' & _ & _ & Hr2); try assumption; try reflexivity; try lia.
    rewrite Hx' in Hx2'. injection Hx2' as _ <-.
    rewrite Hh in Hh3. injection Hh3 as Hh3. apply mk_float_inj in Hh3. subst h3.
    change (Lithium.sleep_duration_per_day (Lithium.assign_load_current v2 self))
      with (Lithium.sleep_duration_per_day (Lithium.assign_load_current v1 self))
      in Hh3'.
    rewrite Hh' in Hh3'. injection Hh3' as Hh3'. apply mk_float_inj in Hh3'.
    subst h3'.
    destruct C1 as [_ C1]. destruct C2 as [_ C2]. destruct Ci' as [_ Ci'].
    pose proof (as_float_nonneg _ _ _ C1 Hx1 F1) as N1.
    pose proof (as_float_nonneg _ _ _ C2 Hx2 F2) as N2.
    pose proof (as_float_nonneg _ _ _ Ci' Hx' Fx') as Nx'.
    pose proof (as_float_mono _ _ _ _ _ _ C1 C2 Hx1 Hx2 F1 F2 Hle) as Hx.
    pose proof (consumption_plus_signed h h' 0.01 e Nh Fh Nh' Fh' Psdr Pe
                  x1 x' N1 F1 Nx' Fx') as P1.
    pose proof (consumption_plus_signed h h' 0.01 e Nh Fh Nh' Fh' Psdr Pe
                  x2 x' N2 F2 Nx' Fx') as P2.
    pose proof (consumption_mono_load h h' 0.01 e Nh Fh Nh' Fh' Psdr Pe x1 x2 x'
                  N1 F1 N2 F2 Nx' Fx' Hx) as Ht.
    destruct (days_antitone e Pe _ _ P1 P2 Ht) as (Hr & Nr1 & Nr2).
    eexists. eexists. split; [exact Hr1|]. split; [exact Hr2|].
    now apply LithiumMonotone.finish_li_antitone.
  - destruct (LithiumMonotone.runtime_of_currents_li
                (Lithium.assign_sleep_current v1 self) i d v1 be e (-1000))
      as (bi & x & b1 & x1 & b & h & b' & h' & B1 & Hx & Fx & Hx1 & F1 & Hh & Nh
          & Fh & Hh' & Nh' & Fh' & Hr1); try assumption; try reflexivity; try lia.
    destruct (LithiumMonotone.runtime_of_currents_li
                (Lithium.assign_sleep_current v2 self) i d v2 be e (-1000))
      as (bi2 & x0 & b2 & x2 & b3 & h3 & b3' & h3' & B2 & Hx0 & _ & Hx2 & F2 & Hh3
          & _ & _ & Hh3' & _ & _ & Hr2); try assumption; try reflexivity; try lia.
    rewrite Hx in Hx0. injection Hx0 as _ <-.
    rewrite Hh in Hh3. injection Hh3 as Hh3. apply mk_float_inj in Hh3. subst h3.
    change (Lithium.sleep_duration_per_day (Lithium.assign_sleep_current v2 self))
      with (Lithium.sleep_duration_per_day (Lithium.assign_sleep_current v1 self))
      in Hh3'.
    rewrite Hh' in Hh3'. injection Hh3' as Hh3'. apply mk_float_inj in Hh3'.
    subst h3'.
    destruct C1 as [_ C1]. destruct C2 as [_ C2]. destruct Ci as [_ Ci].
    pose proof (as_float_nonneg _ _ _ C1 Hx1 F1) as N1.
    pose proof (as_float_nonneg _ _ _ C2 Hx2 F2) as N2.
    pose proof (as_float_nonneg _ _ _ Ci Hx Fx) as Nx.
    pose proof (as_float_mono _ _ _ _ _ _ C1 C2 Hx1 Hx2 F1 F2 Hle) as Hx12.
    pose proof (consumption_plus_signed h h' 0.01 e Nh Fh Nh' Fh' Psdr Pe
                  x x1 Nx Fx N1 F1) as P1.
    pose proof (consumption_plus_signed h h' 0.01 e Nh Fh Nh' Fh' Psdr Pe
                  x x2 Nx Fx N2 F2) as P2.
    pose proof (consumption_mono_sleep h h' 0.01 e Nh Fh Nh' Fh' Psdr Pe x x1 x2
                  Nx Fx N1 F1 N2 F2 Hx12) as Ht.
    destruct (days_antitone e Pe _ _ P1 P2 Ht) as (Hr & Nr1 & Nr2).
    eexists. eexists. split; [exact Hr1|]. split; [exact Hr2|].
    now apply LithiumMonotone.finish_li_antitone.
Qed.

(** [Battery(16000, -35, 90, 240, 0.060167)] of the lithium-only program with
    the attributes an update gives it for a factor of 0.75. *)
Definition cold_battery_li : Lithium.Battery :=
  Lithium.assign_effective_battery_capacity (VNp 12000)
    (Lithium.assign_temperature_factor (VNp 0.75)
       (Lithium.assign_sleep_duration_per_day (VInt 86160) test_battery_li)).

Lemma lithium_runtime_decreases_witness :
  (exists r1 r2,
     Lithium.calculate_runtime
       (Lithium.assign_load_current (VInt 90) cold_battery_li) = Ok r1 /\
     Lithium.calculate_runtime
       (Lithium.assign_load_current (VFloat 120.5) cold_battery_li) = Ok r2 /\
     le_value r2 r1) /\
  (exists r1 r2,
     Lithium.calculate_runtime
       (Lithium.assign_sleep_current (VInt 90) cold_battery_li) = Ok r1 /\
     Lithium.calculate_runtime
       (Lithium.assign_sleep_current (VFloat 120.5) cold_battery_li) = Ok r2 /\
     le_value r2 r1).
Proof.
  apply (lithium_runtime_decreases cold_battery_li (VInt 90) (VInt 240)
           (VFloat 0.060167) (VInt 90) (VFloat 120.5) true 12000).
  - reflexivity.
  - split; reflexivity.
  - exists false, 90%float. split; reflexivity.
  - reflexivity.
  - repeat split; reflexivity.
  - repeat split; reflexivity.
  - reflexivity.
  - split; reflexivity.
  - exists false, 0.060167%float. split; reflexivity.
  - reflexivity.
  - reflexivity.
  - reflexivity.
  - reflexivity.
  - reflexivity.
  - split; reflexivity.
  - exists false, 90%float. split; reflexivity.
  - split; reflexivity.
  - exists false, 120.5%float. split; reflexivity.
  - reflexivity.
Defined.

(** ** The generalized program outside the operating range, exactly *)

(** A number that arithmetic can take as a [float] operand: any [float], and
    an [int] that [float()] converts without [OverflowError]. *)
Definition converts (v : value) : Prop := exists b x, as_float v = Ok (b, x).

(** [n * k / 86400] is at most [n] when [k <= 86400]: where [float(n)]
    exists, the quotient of the two [int]s does not overflow. *)
Lemma ratio_day_finite (n k : Z) (x : float) :
  0 <= n -> 0 <= k <= 86400 -> float_of_int n = Ok x ->
  finite_or_zero (float_of_ratio (n * k) 86400) = true.
Proof.
  intros Hn Hk Hx.
  destruct (Z.eq_dec (n * k) 0) as [E|E]; [now rewrite E|].
  assert (Hn' : 0 < n) by nia. assert (Hk' : 0 < k) by nia.
  pose proof (float_of_ratio_spec (n * k) 86400 ltac:(nia) ltac:(lia)) as Hq.
  destruct (float_of_int_spec n x Hx) as [Ex Fx].
  pose proof (binary_normalize_spec n 0 false) as Hs.
  destruct n as [|p|p]; try lia.
  change (Z.pos p <? 0) with false in Hs.
  rewrite pow2_0, Rmult_1_r in Hs. rewrite <- Ex in Hs.
  assert (Hv : (0 <= IZR (Z.pos p * k) / IZR 86400 <= IZR (Z.abs (Z.pos p)))%R).
  { rewrite mult_IZR. cbn [Z.abs].
    assert (0 < IZR (Z.pos p))%R by (apply IZR_lt; lia).
    assert (0 < IZR k <= 86400)%R by (split; [apply IZR_lt|apply IZR_le]; lia).
    split.
    - apply Rmult_le_pos; [nra|]. left. apply Rinv_0_lt_compat. lra.
    - apply Rmult_le_reg_r with 86400%R; [lra|].
      unfold Rdiv. rewrite Rmult_assoc, Rinv_l by lra. nra. }
  pose proof (Rounds_mono _ _ _ _ Hv Hq Hs) as Hle.
  pose proof (Rounds_shape _ _ _ (proj1 Hv) Hq) as Sh.
  destruct (float_of_ratio (Z.pos p * k) 86400) as [s|s| |s m e];
    try reflexivity; [|contradiction].
  subst s. destruct (Prim2SF x); discriminate.
Qed.

(** A current times a duration, over 86400: computed without an exception
    when the current converts. *)
Lemma share_of_day (i d : value) :
  current_ok i -> converts i -> duration_ok d ->
  exists a a', py_mul i d = Ok a /\ py_truediv a (VInt 86400) = Ok a' /\
               is_numeric a' = true.
Proof.
  intros [Ni Gi] (bi & x & Hx) Dd.
  destruct d as [ |k|y|y|t]; try (destruct Dd as [Dd _]; discriminate).
  - apply int_duration_range in Dd.
    destruct i as [ |n|z|z|t]; try discriminate.
    + assert (Hn : 0 <= n).
      { unfold ge_value, py_ge in Gi. cbn [py_compare bind] in Gi.
        destruct (Z.compare_spec n 0); try discriminate; lia. }
      cbn [as_float] in Hx. apply bind_Ok in Hx. destruct Hx as (x0 & Hx0 & _).
      pose proof (ratio_day_finite n k x0 Hn Dd Hx0) as F.
      exists (VInt (n * k)). unfold py_truediv.
      cbn [is_numeric andb negb]. change (86400 =? 0) with false. cbv iota.
      destruct (float_of_ratio (n * k) 86400); try discriminate;
        eexists; (split; [reflexivity|split; reflexivity]).
    + destruct (float_of_int_small k) as [yk Hyk].
      { apply Z.abs_le. split; [lia|]. transitivity 86400; [lia|].
        apply Z.leb_le. reflexivity. }
      exists (VFloat (z * yk)). eexists. split.
      { unfold py_mul, arith. cbn [is_numeric andb negb as_float bind].
        rewrite Hyk. reflexivity. }
      split; [|apply (mk_float_numeric false)].
      apply (truediv_mk_int false _ 86400 86400%float); reflexivity.
    + destruct (float_of_int_small k) as [yk Hyk].
      { apply Z.abs_le. split; [lia|]. transitivity 86400; [lia|].
        apply Z.leb_le. reflexivity. }
      exists (VNp (z * yk)). eexists. split.
      { unfold py_mul, arith. cbn [is_numeric andb negb as_float bind].
        rewrite Hyk. reflexivity. }
      split; [|apply (mk_float_numeric true)].
      apply (truediv_mk_int true _ 86400 86400%float); reflexivity.
  - exists (mk_float (bi || false) (x * y)). eexists. split.
    { unfold py_mul. now apply (arith_mk_r _ _ i bi false). }
    split; [|apply mk_float_numeric].
    apply (truediv_mk_int _ _ 86400 86400%float); reflexivity.
  - exists (mk_float (bi || true) (x * y)). eexists. split.
    { unfold py_mul. now apply (arith_mk_r _ _ i bi true). }
    split; [|apply mk_float_numeric].
    apply (truediv_mk_int _ _ 86400 86400%float); reflexivity.
Qed.

(** The average current draw is computed without an exception when the two
    currents convert. *)
Lemma average_converts (i d i' : value) :
  current_ok i -> converts i -> duration_ok d -> current_ok i' -> converts i' ->
  exists avg, average_current_draw_spec i d i' = Ok avg /\ is_numeric avg = true.
Proof.
  intros Ci Vi Dd Ci' Vi'.
  destruct (sleep_duration_total d Dd) as (s & Hs).
  pose proof (sleep_duration_ok d s Dd Hs) as Ds.
  destruct (share_of_day i d Ci Vi Dd) as (a & a' & Ha & Ha' & Na).
  destruct (share_of_day i' s Ci' Vi' Ds) as (b & b' & Hb & Hb' & Nb).
  unfold average_current_draw_spec.
  rewrite Hs. cbn [bind]. rewrite Ha. cbn [bind]. rewrite Ha'. cbn [bind].
  rewrite Hb. cbn [bind]. rewrite Hb'. cbn [bind].
  destruct (arith_total Z.add PrimFloat.add a' b' Na Nb) as [(c & Hc & Nc)|Hc].
  - unfold py_add. rewrite Hc. cbn [bind]. now apply py_round_total.
  - exfalso. unfold arith in Hc. rewrite Na, Nb in Hc. cbn [andb negb] in Hc.
    destruct a' as [ |m|u|u|t]; try discriminate;
      destruct b' as [ |m'|u'|u'|t']; try discriminate.
    all: unfold py_truediv in Ha', Hb'.
    all: destruct a as [ |ma|ua|ua|ta]; try discriminate;
      destruct b as [ |mb|ub|ub|tb]; try discriminate.
    all: cbn in Ha', Hb'.
    all: repeat match goal with
         | H : match ?f with _ => _ end = Ok _ |- _ => destruct f; try discriminate
         end.
Qed.

(** An accepted capacity that does not convert makes [0.0 * capacity]
    raise. *)
Lemma zero_capacity_overflow (cap : value) :
  capacity_ok cap -> ~ converts cap ->
  py_mul (VFloat 0) cap = Raise OverflowError.
Proof.
  intros Hcap Hno. destruct (zero_capacity cap Hcap) as [(e & He & _)|He];
    [exfalso|exact He].
  apply Hno. destruct Hcap as [Hi _].
  destruct cap as [ |n|x|x|s]; try discriminate.
  unfold py_mul, arith in He. cbn [is_numeric andb negb as_float bind] in He.
  unfold converts. cbn [as_float].
  destruct (float_of_int n) as [y|]; [|discriminate]. now exists false, y.
Qed.

Lemma zero_capacity_converts (cap : value) :
  capacity_ok cap -> converts cap ->
  exists e, py_mul (VFloat 0) cap = Ok e /\ py_eq e (VInt 0) = true.
Proof.
  intros Hcap (b & x & Hx). destruct (zero_capacity cap Hcap) as [H|He];
    [exact H|exfalso].
  destruct Hcap as [Hi _]. destruct cap as [ |n|y|y|s]; try discriminate.
  unfold py_mul, arith in He. cbn [is_numeric andb negb as_float bind] in He.
  cbn [as_float] in Hx. destruct (float_of_int n); discriminate.
Qed.

(** X6.  In the generalized program, a battery constructed from accepted
    arguments whose temperature is outside the chemistry's range, and whose
    two currents convert to a [float] (any [float], an infinite one too, or
    an [int] that is not too large), is updated as follows.  When the
    capacity converts as well, [update_battery_properties] returns 0, with a
    temperature factor of 0.0, an effective capacity equal to 0 and, by the
    zero-capacity guard, a runtime of 0.  When the capacity is an [int] too
    large for a [float], the call raises [OverflowError] at
    [temperature_factor * battery_capacity]: the temperature factor is 0.0,
    and the effective capacity and the runtime are still [None]. *)
Theorem out_of_range_returns_zero (xlsx : Generalized.workbook)
    (ty cap t i d i' : value) (self : Generalized.Battery) :
  Generalized.__init__ ty cap t i d i' = Ok self ->
  chemistry_ok ty -> capacity_ok cap -> temperature_ok t ->
  current_ok i -> duration_ok d -> current_ok i' ->
  (if py_eq ty (VStr "Alkaline") then outside t (-18) 55 else outside t (-40) 60) ->
  converts i -> converts i' ->
  (converts cap ->
   exists self',
     Generalized.update_battery_properties xlsx self = (self', Ok (VInt 0)) /\
     Generalized.temperature_factor self' = VFloat 0 /\
     py_eq (Generalized.effective_battery_capacity self') (VInt 0) = true /\
     Generalized.battery_runtime self' = VInt 0) /\
  (~ converts cap ->
   exists self',
     Generalized.update_battery_properties xlsx self = (self', Raise OverflowError) /\
     Generalized.temperature_factor self' = VFloat 0 /\
     Generalized.effective_battery_capacity self' = VNone /\
     Generalized.battery_runtime self' = VNone).
Proof.
  intros Hinit Hty Hcap Ht Hi Hd Hi' Hout Vi Vi'.
  destruct (init_total ty cap t i d i') as (self0 & Hs0 & _ & _ & _ & Ue & Ur & _).
  rewrite Hinit in Hs0. injection Hs0 as <-.
  destruct (init_fields _ _ _ _ _ _ _ Hinit)
    as (F1 & F2 & F3 & F4 & F5 & F6 & Flo & Fmed & _).
  apply (fun F => field_of_ok _ _ _ F Hty) in F1.
  apply (fun F => field_of_ok _ _ _ F Hcap) in F2.
  apply (fun F => field_of_ok _ _ _ F Ht) in F3.
  apply (fun F => field_of_ok _ _ _ F Hi) in F4.
  apply (fun F => field_of_ok _ _ _ F Hd) in F5.
  apply (fun F => field_of_ok _ _ _ F Hi') in F6.
  rewrite GeneralizedSteps.update_unfold, F1.
  set (b0 := GeneralizedSteps.with_constants ty self).
  assert (K : Generalized._battery_capacity b0 = Some cap /\
              Generalized._operating_temp b0 = Some t /\
              Generalized._load_current b0 = Some i /\
              Generalized._load_duration_per_day b0 = Some d /\
              Generalized._sleep_current b0 = Some i' /\
              Generalized._low_current_discharge b0 = 25 /\
              Generalized._medium_current_discharge b0 = 250 /\
              Generalized._effective_battery_capacity b0 = VNone /\
              Generalized._battery_runtime b0 = VNone /\
              outside t (Generalized._min_operating_temp b0)
                (Generalized._max_operating_temp b0)).
  { unfold b0, GeneralizedSteps.with_constants.
    destruct (py_eq ty (VStr "Alkaline")); repeat split; assumption. }
  clearbody b0.
  destruct K as (Kc & Kt & Ki & Kd & Ki' & Klo & Kmed & Ke & Kr & Kout).
  destruct (sleep_duration_total d Hd) as (s & Hs).
  unfold GeneralizedSteps.from_sleep.
  rewrite seq_assign_Ok with (v := s).
  2:{ unfold GeneralizedSteps.sleep_rhs, Generalized.load_duration_per_day.
      now rewrite Kd. }
  set (b1 := Generalized.assign_sleep_duration_per_day s b0).
  assert (Havg : Generalized.average_current_draw_expr b1 =
                 average_current_draw_spec i d i').
  { unfold Generalized.average_current_draw_expr, average_current_draw_spec,
      Generalized.load_current, Generalized.load_duration_per_day,
      Generalized.sleep_current, Generalized.sleep_duration_per_day.
    cbn [b1 Generalized.assign_sleep_duration_per_day Generalized._load_current
         Generalized._load_duration_per_day Generalized._sleep_current
         Generalized._sleep_duration_per_day].
    rewrite Ki, Kd, Ki', Hs. reflexivity. }
  unfold GeneralizedSteps.from_average.
  destruct (average_converts i d i' Hi Vi Hd Hi' Vi') as (avg & Ea & Na).
  rewrite seq_assign_Ok with (v := avg) by (now rewrite Havg).
  set (b2 := Generalized.assign_average_current_draw avg b1).
  destruct (discharge_mode_of_average b2 Na Klo Kmed) as (mode & Hmode & _).
  unfold GeneralizedSteps.from_mode.
  rewrite seq_assign_Ok with (v := mode) by exact Hmode.
  set (b3 := Generalized.assign_current_discharge_mode mode b2).
  unfold GeneralizedSteps.from_factor.
  rewrite seq_assign_Ok with (v := VFloat 0).
  2:{ apply factor_outside with (t := t); [exact Kt|exact Kout]. }
  set (b4 := Generalized.assign_temperature_factor (VFloat 0) b3).
  assert (Hrhs : GeneralizedSteps.capacity_rhs b4 = py_mul (VFloat 0) cap).
  { unfold GeneralizedSteps.capacity_rhs, Generalized.battery_capacity.
    cbn [b4 b3 b2 b1 Generalized._battery_capacity
         Generalized.assign_temperature_factor
         Generalized.assign_current_discharge_mode
         Generalized.assign_average_current_draw
         Generalized.assign_sleep_duration_per_day].
    rewrite Kc. reflexivity. }
  unfold GeneralizedSteps.from_capacity.
  split.
  - intros Vc. destruct (zero_capacity_converts cap Hcap Vc) as (e & He & Hz).
    rewrite seq_assign_Ok with (v := e) by (now rewrite Hrhs).
    unfold GeneralizedSteps.from_runtime, assign.
    unfold Generalized.calculate_runtime at 1.
    cbn [Generalized.effective_battery_capacity
         Generalized._effective_battery_capacity
         Generalized.assign_effective_battery_capacity].
    rewrite Hz. cbn [returning]. eexists. split; [reflexivity|].
    split; [reflexivity|]. split; [exact Hz|reflexivity].
  - intros Vc. pose proof (zero_capacity_overflow cap Hcap Vc) as He.
    rewrite seq_assign_Raise with (e := OverflowError) by (now rewrite Hrhs).
    cbn [returning]. exists b4. split; [reflexivity|]. split; [reflexivity|].
    split; [exact Ke|exact Kr].
Qed.

(** [Battery("Lithium Metal", 16000, 70, 90, 240, 0.06)], and the same with
    a capacity of [2**1024]. *)
Lemma out_of_range_returns_zero_witness :
  (exists self',
     Generalized.update_battery_properties sample_workbook
       (Generalized.assign_sleep_current (VFloat 0.06)
         (Generalized.assign_load_duration_per_day (VInt 240)
           (Generalized.assign_load_current (VInt 90)
             (Generalized.assign_operating_temp (VInt 70)
               (Generalized.assign_battery_capacity (VInt 16000)
                 (Generalized.assign_battery_type (VStr "Lithium Metal")
                   Generalized.blank))))))
     = (self', Ok (VInt 0)) /\
     Generalized.temperature_factor self' = VFloat 0 /\
     py_eq (Generalized.effective_battery_capacity self') (VInt 0) = true /\
     Generalized.battery_runtime self' = VInt 0) /\
  (exists self',
     Generalized.update_battery_properties sample_workbook
       (Generalized.assign_sleep_current (VFloat 0.06)
         (Generalized.assign_load_duration_per_day (VInt 240)
           (Generalized.assign_load_current (VInt 90)
             (Generalized.assign_operating_temp (VInt 70)
               (Generalized.assign_battery_capacity (VInt (2 ^ 1024))
                 (Generalized.assign_battery_type (VStr "Lithium Metal")
                   Generalized.blank))))))
     = (self', Raise OverflowError) /\
     Generalized.temperature_factor self' = VFloat 0 /\
     Generalized.effective_battery_capacity self' = VNone /\
     Generalized.battery_runtime self' = VNone).
Proof.
  split.
  - apply (out_of_range_returns_zero sample_workbook (VStr "Lithium Metal")
             (VInt 16000) (VInt 70) (VInt 90) (VInt 240) (VFloat 0.06)).
    + reflexivity.
    + left. reflexivity.
    + split; reflexivity.
    + reflexivity.
    + split; reflexivity.
    + repeat split; reflexivity.
    + split; reflexivity.
    + right. reflexivity.
    + exists false, 90%float. reflexivity.
    + exists false, 0.06%float. reflexivity.
    + exists false, 16000%float. reflexivity.
  - apply (out_of_range_returns_zero sample_workbook (VStr "Lithium Metal")
             (VInt (2 ^ 1024)) (VInt 70) (VInt 90) (VInt 240) (VFloat 0.06)).
    + reflexivity.
    + left. reflexivity.
    + split; reflexivity.
    + reflexivity.
    + split; reflexivity.
    + repeat split; reflexivity.
    + split; reflexivity.
    + right. reflexivity.
    + exists false, 90%float. reflexivity.
    + exists false, 0.06%float. reflexivity.
    + intros (b & x & H). vm_compute in H. discriminate.
Defined.

(** ** Exceptions of [update_battery_properties] (spec section 4.4) *)

(** A computation that does not raise [ZeroDivisionError]: it returns, or
    raises another exception. *)
Definition no_zero_division {A : Type} (r : result A) : Prop :=
  r <> Raise ZeroDivisionError.

Lemma nzd_Ok {A : Type} (a : A) : no_zero_division (Ok a).
Proof. discriminate. Qed.

Lemma nzd_bind {A B : Type} (r : result A) (k : A -> result B) :
  no_zero_division r -> (forall a, r = Ok a -> no_zero_division (k a)) ->
  no_zero_division (bind r k).
Proof.
  intros Hr Hk. destruct r as [a|e]; cbn [bind]; [now apply Hk|].
  intros H. apply Hr. congruence.
Qed.

Lemma nzd_getattr (field : option value) : no_zero_division (getattr field).
Proof. destruct field; discriminate. Qed.

Lemma nzd_total {A : Type} (r : result A) (P : A -> Prop) :
  (exists v, r = Ok v /\ P v) \/ r = Raise OverflowError -> no_zero_division r.
Proof. intros [(v & -> & _)| ->]; discriminate. Qed.

Lemma nzd_arith (iop : Z -> Z -> Z) (fop : float -> float -> float)
    (a b : value) :
  no_zero_division (arith iop fop a b).
Proof.
  destruct (is_numeric a) eqn:Ha; [destruct (is_numeric b) eqn:Hb|].
  - exact (nzd_total _ _ (arith_total iop fop a b Ha Hb)).
  - unfold arith. rewrite Ha, Hb. discriminate.
  - unfold arith. rewrite Ha. discriminate.
Qed.

Lemma nzd_compare (a b : value) : no_zero_division (py_compare a b).
Proof. destruct a, b; discriminate. Qed.




Lemma nzd_ge (a b : value) : no_zero_division (py_ge a b).
Proof. apply nzd_bind; [apply nzd_compare|intros; apply nzd_Ok]. Qed.

Lemma nzd_round (v : value) (n : Z) : no_zero_division (py_round v n).
Proof. destruct v; discriminate. Qed.



(** A division by one of the constants 3600, 365 and 86400. *)
Lemma nzd_truediv_const (a : value) (n : Z) (y : float) :
  n <> 0 -> float_of_int n = Ok y -> (y =? 0)%float = false ->
  no_zero_division (py_truediv a (VInt n)).
Proof.
  intros Hn Hy Hy0. destruct (is_numeric a) eqn:Ha.
  - exact (nzd_total _ _ (truediv_const_total a n y Ha Hn Hy Hy0)).
  - unfold py_truediv. rewrite Ha. discriminate.
Qed.

Lemma nzd_as_float (v : value) : no_zero_division (as_float v).
Proof.
  destruct v as [ |n|x|x|s]; try discriminate. cbn [as_float].
  apply nzd_bind; [|intros; apply nzd_Ok].
  unfold float_of_int. destruct (binary_normalize prec emax n 0 false); discriminate.
Qed.

(** A division with a [numpy.float64] operand follows IEEE 754. *)
Lemma nzd_truediv_np_l (x : float) (b : value) :
  no_zero_division (py_truediv (VNp x) b).
Proof.
  unfold py_truediv. destruct (is_numeric b) eqn:Hb; [|discriminate].
  cbn [is_numeric andb negb as_float bind fst orb].
  destruct b; try discriminate; apply nzd_bind; try apply nzd_as_float;
    intros; apply nzd_Ok.
Qed.



Module GeneralizedExceptions.
Import Generalized.








(** The sum that the runtime is divided by is computed with divisions by
    3600 and 365 only. *)
Lemma nzd_consumption (self : Battery) :
  no_zero_division (total_daily_consumption self).
Proof.
  unfold total_daily_consumption.
  apply nzd_bind; [apply nzd_getattr|]. intros i _.
  apply nzd_bind; [apply nzd_getattr|]. intros d _.
  apply nzd_bind; [now apply (nzd_truediv_const _ 3600 3600%float)|]. intros h _.
  apply nzd_bind; [apply nzd_arith|]. intros a _.
  apply nzd_bind; [apply nzd_getattr|]. intros i' _.
  apply nzd_bind; [now apply (nzd_truediv_const _ 3600 3600%float)|]. intros h' _.
  apply nzd_bind; [apply nzd_arith|]. intros b _.
  apply nzd_bind; [apply nzd_arith|]. intros s _.
  apply nzd_bind; [apply nzd_arith|]. intros q _.
  apply nzd_bind; [now apply (nzd_truediv_const _ 365 365%float)|]. intros q' _.
  apply nzd_arith.
Qed.

(** [calculate_runtime] on an effective capacity that is equal to 0, or is a
    [numpy.float64]: the guard returns, or the division by the consumption
    is numpy's. *)
Lemma nzd_runtime (self : Battery) :
  py_eq (effective_battery_capacity self) (VInt 0) = true \/
  (exists e, effective_battery_capacity self = VNp e) ->
  no_zero_division (calculate_runtime self).
Proof.
  intros H. unfold calculate_runtime.
  destruct (py_eq (effective_battery_capacity self) (VInt 0)) eqn:Hz;
    [apply nzd_Ok|].
  destruct H as [H|[e He]]; [discriminate|].
  apply nzd_bind.
  { unfold unclamped_runtime. apply nzd_bind; [apply nzd_consumption|].
    intros total _. rewrite He. apply nzd_truediv_np_l. }
  intros r _.
  apply nzd_bind; [now apply (nzd_truediv_const _ 365 365%float)|]. intros y _.
  apply nzd_bind; [apply nzd_ge|]. intros c _.
  apply nzd_bind; [destruct c; [apply nzd_arith|apply nzd_Ok]|]. intros r' _.
  apply nzd_round.
Qed.


End GeneralizedExceptions.




(** A statement [self._x = rhs] followed by others returns when [rhs] and the
    others return. *)
Lemma seq_assign_Ok_inv {S : Type} (set : value -> S -> S)
    (rhs : S -> result value) (s2 : stmt S) (x x' : S) (u : unit) :
  seq (assign set rhs) s2 x = (x', Ok u) ->
  exists v, rhs x = Ok v /\ s2 (set v x) = (x', Ok u).
Proof.
  unfold seq, assign. destruct (rhs x) as [v|e]; intros H; [eauto|discriminate].
Qed.

Lemma getattr_Ok (field : option value) (v : value) :
  getattr field = Ok v -> field = Some v.
Proof. destruct field; intros H; [now injection H as ->|discriminate]. Qed.

(** [update_battery_properties] of the generalized program reads each of
    the six validated attributes: it returns only when all are present. *)
Lemma update_reads_every_attribute (xlsx : Generalized.workbook)
    (self self' : Generalized.Battery) (v : value) :
  Generalized.update_battery_properties xlsx self = (self', Ok v) ->
  Generalized._battery_type self <> None /\
  Generalized._battery_capacity self <> None /\
  Generalized._operating_temp self <> None /\
  Generalized._load_current self <> None /\
  Generalized._load_duration_per_day self <> None /\
  Generalized._sleep_current self <> None.
Proof.
  rewrite GeneralizedSteps.update_unfold.
  destruct (Generalized._battery_type self) as [ty|] eqn:Hty; [|discriminate].
  intros H. apply returning_Ok_inv in H. destruct H as (_ & u & H).
  set (b0 := GeneralizedSteps.with_constants ty self) in H.
  assert (K : Generalized._battery_capacity b0 = Generalized._battery_capacity self /\
              Generalized._operating_temp b0 = Generalized._operating_temp self /\
              Generalized._load_current b0 = Generalized._load_current self /\
              Generalized._load_duration_per_day b0
              = Generalized._load_duration_per_day self /\
              Generalized._sleep_current b0 = Generalized._sleep_current self).
  { unfold b0, GeneralizedSteps.with_constants.
    destruct (py_eq ty (VStr "Alkaline")); repeat split; reflexivity. }
  clearbody b0. destruct K as (Kc & Kt & Ki & Kd & Ki').
  rewrite <- Kc, <- Kt, <- Ki, <- Kd, <- Ki'.
  apply seq_assign_Ok_inv in H. destruct H as (s & Hs & H).
  apply seq_assign_Ok_inv in H. destruct H as (avg & Havg & H).
  apply seq_assign_Ok_inv in H. destruct H as (mode & _ & H).
  apply seq_assign_Ok_inv in H. destruct H as (tf & Htf & H).
  apply seq_assign_Ok_inv in H. destruct H as (eff & Heff & _).
  unfold GeneralizedSteps.sleep_rhs in Hs.
  apply bind_Ok in Hs. destruct Hs as (d & Hd & _). apply getattr_Ok in Hd.
  unfold Generalized.average_current_draw_expr in Havg.
  apply bind_Ok in Havg. destruct Havg as (i & Hi & Havg). apply getattr_Ok in Hi.
  apply bind_Ok in Havg. destruct Havg as (d' & _ & Havg).
  apply bind_Ok in Havg. destruct Havg as (a & _ & Havg).
  apply bind_Ok in Havg. destruct Havg as (a' & _ & Havg).
  apply bind_Ok in Havg. destruct Havg as (i' & Hi' & _). apply getattr_Ok in Hi'.
  unfold Generalized.calculate_temperature_factor in Htf.
  apply bind_Ok in Htf. destruct Htf as (t & Ht & _). apply getattr_Ok in Ht.
  unfold GeneralizedSteps.capacity_rhs in Heff.
  apply bind_Ok in Heff. destruct Heff as (cap & Hcap & _). apply getattr_Ok in Hcap.
  cbn in Hd, Hi, Hi', Ht, Hcap.
  rewrite Hd, Hi, Hi', Ht, Hcap. repeat split; discriminate.
Qed.


Lemma field_of_present (ok : Prop) (arg : value) (field : option value) :
  field_of ok arg field -> field <> None -> ok.
Proof. intros [[H _]|[_ H]] Hf; [assumption|contradiction]. Qed.



(** ** The division of [calculate_runtime] (spec section 4.3) *)

(** A workbook whose lithium curve for discharges up to 25 mA gives, at 60
    degrees, the smallest positive binary64 number as temperature factor. *)
Definition tiny_workbook : Generalized.workbook :=
  fun sheet =>
    if String.eqb sheet "Li Temperature Factor"
    then [ {| Generalized.current := 25; Generalized.temperature := 60;
              Generalized.factor := 0x1p-1074 |} ]
    else [].

(** The claim C9 fails in binary64.  [Battery("Lithium Metal", 1, 60, 0)] on
    that workbook - a non-negative capacity, zero currents, a positive
    temperature factor - gets an effective capacity of [2^-1074], which is
    not equal to 0, so the guard does not return; the self-discharge term
    [0.01 * 2^-1074 / 365] rounds to 0.0, the total daily consumption is
    0.0, and the division is by zero: numpy gives [inf], and the runtime
    stored is the shelf life, 9125 days. *)
Lemma zero_consumption_is_reachable :
  match Generalized.__init__ (VStr "Lithium Metal") (VInt 1) (VInt 60)
          (VInt 0) (VInt 86400) (VInt 0) with
  | Ok self =>
      let self' := fst (Generalized.update_battery_properties tiny_workbook self) in
      snd (Generalized.update_battery_properties tiny_workbook self) = Ok (VInt 0) /\
      Generalized.temperature_factor self' = VNp 0x1p-1074 /\
      Generalized.effective_battery_capacity self' = VNp 0x1p-1074 /\
      py_eq (Generalized.effective_battery_capacity self') (VInt 0) = false /\
      Generalized.total_daily_consumption self' = Ok (VNp 0) /\
      Generalized.unclamped_runtime self' = Ok (VNp infinity) /\
      Generalized.battery_runtime self' = VInt 9125
  | Raise _ => False
  end.
Proof. vm_compute. repeat split. Qed.

(** C9, amended.  In the generalized program, [calculate_runtime] returns 0
    before dividing when the effective capacity is equal to 0, and it never
    raises [ZeroDivisionError] when the effective capacity is equal to 0 or
    is a [numpy.float64].  After an [update_battery_properties] that
    returned, on a battery as the constructor built it and whose two
    currents are finite, a stored effective capacity that is a finite
    [numpy.float64] of at least [2^-1000] makes the total daily consumption
    strictly positive. *)
Theorem zero_consumption_needs_underflow :
  (forall self,
     py_eq (Generalized.effective_battery_capacity self) (VInt 0) = true ->
     Generalized.calculate_runtime self = Ok (VInt 0)) /\
  (forall self,
     py_eq (Generalized.effective_battery_capacity self) (VInt 0) = true \/
     (exists e, Generalized.effective_battery_capacity self = VNp e) ->
     Generalized.calculate_runtime self <> Raise ZeroDivisionError) /\
  (forall xlsx ty cap t i d i' self self' v e,
     Generalized.__init__ ty cap t i d i' = Ok self ->
     Generalized.update_battery_properties xlsx self = (self', Ok v) ->
     representable i -> representable i' ->
     Generalized.effective_battery_capacity self' = VNp e ->
     positive_finite (Prim2SF e) = true -> (0x1p-1000 <=? e)%float = true ->
     exists c,
       Generalized.total_daily_consumption self' = Ok (VNp c) /\
       (0 <? c)%float = true).
Proof.
  split; [|split].
  - intros self Hz. unfold Generalized.calculate_runtime. now rewrite Hz.
  - exact GeneralizedExceptions.nzd_runtime.
  - intros xlsx ty cap t i d i' self self' v e Hinit Hup
      (bi & x & Hx & Fx) (bi' & x' & Hx' & Fx') He Pe Htiny.
    destruct (init_fields _ _ _ _ _ _ _ Hinit)
      as (F1 & F2 & F3 & F4 & F5 & F6 & _ & _ & _ & Hsdr & _).
    destruct (update_reads_every_attribute xlsx self self' v Hup)
      as (P1 & P2 & P3 & P4 & P5 & P6).
    pose proof (field_of_present _ _ _ F1 P1) as Cty.
    pose proof (field_of_present _ _ _ F4 P4) as Ci.
    pose proof (field_of_present _ _ _ F5 P5) as Cd.
    pose proof (field_of_present _ _ _ F6 P6) as Ci'.
    apply (fun F => field_of_ok _ _ _ F Cty) in F1.
    apply (fun F => field_of_ok _ _ _ F Ci) in F4.
    apply (fun F => field_of_ok _ _ _ F Cd) in F5.
    apply (fun F => field_of_ok _ _ _ F Ci') in F6.
    destruct (sleep_duration_total d Cd) as (s & Hs).
    pose proof (sleep_duration_ok d s Cd Hs) as Ds.
    pose proof (update_sleep_duration xlsx self ty d s F1 F5 Hs) as [_ Hsleep].
    pose proof (GeneralizedFrame.inputs_kept xlsx self) as Hin.
    rewrite Hup in Hsleep, Hin. cbn [fst] in Hsleep, Hin.
    unfold GeneralizedFrame.same_inputs, GeneralizedFrame.inputs in Hin.
    injection Hin as _ _ _ Ki Kd Ki' Ksdr _ _ _.
    rewrite F4 in Ki. rewrite F5 in Kd. rewrite F6 in Ki'. rewrite Hsdr in Ksdr.
    destruct (hours_of_duration d Cd) as (b & h & Hh & Nh & Fh).
    destruct (hours_of_duration s Ds) as (b' & h' & Hh' & Nh' & Fh').
    destruct Ci as [_ Ci]. destruct Ci' as [_ Ci'].
    pose proof (as_float_nonneg _ _ _ Ci Hx Fx) as Nx.
    pose proof (as_float_nonneg _ _ _ Ci' Hx' Fx') as Nx'.
    exists (consumption x h x' h' 0.01 e). split.
    + rewrite Ksdr.
      apply (GeneralizedRuntime.total_consumption_value self' i d i' bi bi' b b');
        try (symmetry; assumption); try assumption.
      unfold Generalized.sleep_duration_per_day. now rewrite Hsleep.
    + apply strictly_positive_ltb.
      apply (consumption_positive (-1000)); try assumption; try lia.
      now apply above_tiny.
Qed.

(** ** The runtime as a function of the currents, through
    [update_battery_properties] (spec section 8) *)

Module GeneralizedTrace.
Import Generalized GeneralizedSteps.

(** The object on which [update_battery_properties] calls
    [calculate_runtime], given what the statements before it computed. *)
Definition before_runtime (ty s avg mode tf eff : value) (self : Battery)
    : Battery :=
  assign_effective_battery_capacity eff
    (assign_temperature_factor tf
      (assign_current_discharge_mode mode
        (assign_average_current_draw avg
          (assign_sleep_duration_per_day s (with_constants ty self))))).

(** An [update_battery_properties] that returned has run its six
    assignments. *)
Lemma update_trace (xlsx : workbook) (self self' : Battery) (v : value) :
  update_battery_properties xlsx self = (self', Ok v) ->
  exists ty s avg mode tf eff r,
    _battery_type self = Some ty /\
    sleep_rhs (with_constants ty self) = Ok s /\
    average_current_draw_expr
      (assign_sleep_duration_per_day s (with_constants ty self)) = Ok avg /\
    update_current_discharge_mode
      (assign_average_current_draw avg
        (assign_sleep_duration_per_day s (with_constants ty self))) = Ok mode /\
    calculate_temperature_factor xlsx
      (assign_current_discharge_mode mode
        (assign_average_current_draw avg
          (assign_sleep_duration_per_day s (with_constants ty self)))) = Ok tf /\
    capacity_rhs
      (assign_temperature_factor tf
        (assign_current_discharge_mode mode
          (assign_average_current_draw avg
            (assign_sleep_duration_per_day s (with_constants ty self))))) = Ok eff /\
    calculate_runtime (before_runtime ty s avg mode tf eff self) = Ok r /\
    self' = assign_battery_runtime r (before_runtime ty s avg mode tf eff self).
Proof.
  rewrite update_unfold.
  destruct (_battery_type self) as [ty|] eqn:Hty; [|discriminate].
  intros H. apply returning_Ok_inv in H. destruct H as (_ & u & H).
  apply seq_assign_Ok_inv in H. destruct H as (s & Hs & H).
  apply seq_assign_Ok_inv in H. destruct H as (avg & Havg & H).
  apply seq_assign_Ok_inv in H. destruct H as (mode & Hmode & H).
  apply seq_assign_Ok_inv in H. destruct H as (tf & Htf & H).
  apply seq_assign_Ok_inv in H. destruct H as (eff & Heff & H).
  apply assign_Ok_inv in H. destruct H as (r & Hr & ->).
  exists ty, s, avg, mode, tf, eff, r. repeat split; assumption.
Qed.

(** The temperature factor depends on the temperature, the chemistry, the
    operating range, the discharge mode and the discharge limits; the other
    attributes only have to be present. *)
Lemma factor_of_mode (xlsx : workbook) (a b : Battery) :
  _operating_temp a = _operating_temp b ->
  _battery_type a = _battery_type b ->
  _min_operating_temp a = _min_operating_temp b ->
  _max_operating_temp a = _max_operating_temp b ->
  _current_discharge_mode a = _current_discharge_mode b ->
  _low_current_discharge a = _low_current_discharge b ->
  _medium_current_discharge a = _medium_current_discharge b ->
  _high_current_discharge a = _high_current_discharge b ->
  _battery_capacity a <> None -> _battery_capacity b <> None ->
  _load_current a <> None -> _load_current b <> None ->
  _load_duration_per_day a <> None -> _load_duration_per_day b <> None ->
  _sleep_current a <> None -> _sleep_current b <> None ->
  calculate_temperature_factor xlsx a = calculate_temperature_factor xlsx b.
Proof.
  destruct a, b.
  cbn [_battery_type _battery_capacity _operating_temp _load_current
       _load_duration_per_day _sleep_current _min_operating_temp
       _max_operating_temp _current_discharge_mode _low_current_discharge
       _medium_current_discharge _high_current_discharge].
  intros <- <- <- <- <- <- <- <- C1 C2 I1 I2 D1 D2 S1 S2.
  unfold calculate_temperature_factor, battery_details, operating_temp,
    battery_type, battery_capacity, load_current, load_duration_per_day,
    sleep_current.
  cbn [_battery_type _battery_capacity _operating_temp _load_current
       _load_duration_per_day _sleep_current].
  repeat match goal with
         | H : ?o <> None |- _ => destruct o; [clear H|now elim H]
         end.
  destruct _operating_temp0 as [t|]; [|reflexivity].
  destruct _battery_type0 as [ty|]; reflexivity.
Qed.

End GeneralizedTrace.

(** The shelf life that [update_battery_properties] assigns for a
    chemistry. *)
Definition shelf_life_of (ty : value) : Z :=
  if py_eq ty (VStr "Alkaline") then 10 else 25.

Lemma shelf_life_of_cases (ty : value) : shelf_life (shelf_life_of ty).
Proof. unfold shelf_life_of, shelf_life. destruct (py_eq _ _); auto. Qed.

(** The runtimes that two updates store, for batteries that differ in their
    currents only and end in the same discharge mode, the first with a
    positive finite effective capacity [e]: both are computed from [e],
    each with its own currents. *)
Lemma runtimes_in_one_mode (xlsx : Generalized.workbook)
    (ty cap t d i1 i1' i2 i2' : value) (b1 b2 b1' b2' : Generalized.Battery)
    (v1 v2 : value) (e : float) (bi1 bi1' bi2 bi2' : bool) (x1 x1' x2 x2' : float) :
  Generalized.__init__ ty cap t i1 d i1' = Ok b1 ->
  Generalized.__init__ ty cap t i2 d i2' = Ok b2 ->
  Generalized.update_battery_properties xlsx b1 = (b1', Ok v1) ->
  Generalized.update_battery_properties xlsx b2 = (b2', Ok v2) ->
  Generalized.current_discharge_mode b1' = Generalized.current_discharge_mode b2' ->
  Generalized.effective_battery_capacity b1' = VNp e ->
  positive_finite (Prim2SF e) = true ->
  as_float i1 = Ok (bi1, x1) -> as_float i1' = Ok (bi1', x1') ->
  as_float i2 = Ok (bi2, x2) -> as_float i2' = Ok (bi2', x2') ->
  exists h h',
    nonneg (Prim2SF h) = true /\ finite_or_zero (Prim2SF h) = true /\
    nonneg (Prim2SF h') = true /\ finite_or_zero (Prim2SF h') = true /\
    Generalized.battery_runtime b1'
    = finish (shelf_life_of ty) (e / consumption x1 h x1' h' 0.01 e) /\
    Generalized.battery_runtime b2'
    = finish (shelf_life_of ty) (e / consumption x2 h x2' h' 0.01 e) /\
    current_ok i1 /\ current_ok i1' /\ current_ok i2 /\ current_ok i2'.
Proof.
  intros Hinit1 Hinit2 Hup1 Hup2 Hmode He Pe Hx1 Hx1' Hx2 Hx2'.
  destruct (init_fields _ _ _ _ _ _ _ Hinit1)
    as (F1 & F2 & F3 & F4 & F5 & F6 & Flo & Fmed & Fhi & Fsdr & _).
  destruct (init_fields _ _ _ _ _ _ _ Hinit2)
    as (G1 & G2 & G3 & G4 & G5 & G6 & Glo & Gmed & Ghi & Gsdr & _).
  destruct (update_reads_every_attribute xlsx b1 b1' v1 Hup1)
    as (P1 & P2 & P3 & P4 & P5 & P6).
  destruct (update_reads_every_attribute xlsx b2 b2' v2 Hup2)
    as (Q1 & Q2 & Q3 & Q4 & Q5 & Q6).
  pose proof (field_of_present _ _ _ F1 P1) as Cty.
  pose proof (field_of_present _ _ _ F2 P2) as Ccap.
  pose proof (field_of_present _ _ _ F3 P3) as Ct.
  pose proof (field_of_present _ _ _ F4 P4) as Ci1.
  pose proof (field_of_present _ _ _ F5 P5) as Cd.
  pose proof (field_of_present _ _ _ F6 P6) as Ci1'.
  pose proof (field_of_present _ _ _ G4 Q4) as Ci2.
  pose proof (field_of_present _ _ _ G6 Q6) as Ci2'.
  apply (fun F => field_of_ok _ _ _ F Cty) in F1.
  apply (fun F => field_of_ok _ _ _ F Ccap) in F2.
  apply (fun F => field_of_ok _ _ _ F Ct) in F3.
  apply (fun F => field_of_ok _ _ _ F Ci1) in F4.
  apply (fun F => field_of_ok _ _ _ F Cd) in F5.
  apply (fun F => field_of_ok _ _ _ F Ci1') in F6.
  apply (fun F => field_of_ok _ _ _ F Cty) in G1.
  apply (fun F => field_of_ok _ _ _ F Ccap) in G2.
  apply (fun F => field_of_ok _ _ _ F Ct) in G3.
  apply (fun F => field_of_ok _ _ _ F Ci2) in G4.
  apply (fun F => field_of_ok _ _ _ F Cd) in G5.
  apply (fun F => field_of_ok _ _ _ F Ci2') in G6.
  destruct (GeneralizedTrace.update_trace xlsx b1 b1' v1 Hup1)
    as (ty1 & s1 & avg1 & mode1 & tf1 & eff1 & r1 & T1 & Ts1 & _ & _ & Tf1 & Te1
        & Tr1 & ->).
  destruct (GeneralizedTrace.update_trace xlsx b2 b2' v2 Hup2)
    as (ty2 & s2 & avg2 & mode2 & tf2 & eff2 & r2 & T2 & Ts2 & _ & _ & Tf2 & Te2
        & Tr2 & ->).
  rewrite F1 in T1. injection T1 as <-. rewrite G1 in T2. injection T2 as <-.
  unfold GeneralizedTrace.before_runtime in *.
  cbn [Generalized.current_discharge_mode Generalized._current_discharge_mode
       Generalized.assign_battery_runtime
       Generalized.assign_effective_battery_capacity
       Generalized.assign_temperature_factor
       Generalized.assign_current_discharge_mode] in Hmode.
  cbn [Generalized.effective_battery_capacity
       Generalized._effective_battery_capacity
       Generalized.assign_battery_runtime
       Generalized.assign_effective_battery_capacity] in He.
  cbn [Generalized.battery_runtime Generalized._battery_runtime
       Generalized.assign_battery_runtime].
  subst mode2 eff1.
  set (w1 := GeneralizedSteps.with_constants ty b1) in *.
  set (w2 := GeneralizedSteps.with_constants ty b2) in *.
  assert (K1 : Generalized._battery_type w1 = Some ty /\
               Generalized._battery_capacity w1 = Some cap /\
               Generalized._operating_temp w1 = Some t /\
               Generalized._load_current w1 = Some i1 /\
               Generalized._load_duration_per_day w1 = Some d /\
               Generalized._sleep_current w1 = Some i1' /\
               Generalized._low_current_discharge w1 = 25 /\
               Generalized._medium_current_discharge w1 = 250 /\
               Generalized._high_current_discharge w1 = 1000 /\
               Generalized._self_discharge_rate w1 = 0.01%float /\
               Generalized._max_shelf_life w1 = shelf_life_of ty).
  { unfold w1, GeneralizedSteps.with_constants, shelf_life_of.
    destruct (py_eq ty (VStr "Alkaline")); repeat split; assumption. }
  assert (K2 : Generalized._battery_type w2 = Some ty /\
               Generalized._battery_capacity w2 = Some cap /\
               Generalized._operating_temp w2 = Some t /\
               Generalized._load_current w2 = Some i2 /\
               Generalized._load_duration_per_day w2 = Some d /\
               Generalized._sleep_current w2 = Some i2' /\
               Generalized._low_current_discharge w2 = 25 /\
               Generalized._medium_current_discharge w2 = 250 /\
               Generalized._high_current_discharge w2 = 1000 /\
               Generalized._self_discharge_rate w2 = 0.01%float /\
               Generalized._max_shelf_life w2 = shelf_life_of ty).
  { unfold w2, GeneralizedSteps.with_constants, shelf_life_of.
    destruct (py_eq ty (VStr "Alkaline")); repeat split; assumption. }
  assert (Krange : Generalized._min_operating_temp w1
                   = Generalized._min_operating_temp w2 /\
                   Generalized._max_operating_temp w1
                   = Generalized._max_operating_temp w2).
  { unfold w1, w2, GeneralizedSteps.with_constants.
    destruct (py_eq ty (VStr "Alkaline")); split; reflexivity. }
  clearbody w1 w2.
  destruct K1 as (A1 & A2 & A3 & A4 & A5 & A6 & Alo & Amed & Ahi & Asdr & Ay).
  destruct K2 as (B1 & B2 & B3 & B4 & B5 & B6 & Blo & Bmed & Bhi & Bsdr & By).
  destruct Krange as [Kmin Kmax].
  (* the sleep duration *)
  unfold GeneralizedSteps.sleep_rhs, Generalized.load_duration_per_day in Ts1, Ts2.
  rewrite A5 in Ts1. rewrite B5 in Ts2. cbn [getattr bind] in Ts1, Ts2.
  assert (s2 = s1) by congruence. subst s2.
  pose proof (sleep_duration_ok d s1 Cd Ts1) as Ds.
  (* the temperature factor *)
  assert (Etf : tf2 = tf1).
  { assert (E : Ok tf2 = Ok tf1); [|congruence].
    rewrite <- Tf1, <- Tf2. apply GeneralizedTrace.factor_of_mode;
      cbn [Generalized._battery_type Generalized._battery_capacity
           Generalized._operating_temp Generalized._load_current
           Generalized._load_duration_per_day Generalized._sleep_current
           Generalized._min_operating_temp Generalized._max_operating_temp
           Generalized._current_discharge_mode
           Generalized._low_current_discharge
           Generalized._medium_current_discharge
           Generalized._high_current_discharge
           Generalized.assign_current_discharge_mode
           Generalized.assign_average_current_draw
           Generalized.assign_sleep_duration_per_day];
      congruence. }
  subst tf2.
  (* the effective capacity *)
  unfold GeneralizedSteps.capacity_rhs, Generalized.battery_capacity in Te1, Te2.
  cbn [Generalized._battery_capacity Generalized.temperature_factor
       Generalized._temperature_factor
       Generalized.assign_temperature_factor
       Generalized.assign_current_discharge_mode
       Generalized.assign_average_current_draw
       Generalized.assign_sleep_duration_per_day] in Te1, Te2.
  rewrite A2 in Te1. rewrite B2 in Te2. cbn [getattr bind] in Te1, Te2.
  assert (eff2 = VNp e) by congruence. subst eff2.
  (* the two runtimes *)
  destruct (hours_of_duration d Cd) as (b & h & Hh & Nh & Fh).
  destruct (hours_of_duration s1 Ds) as (b' & h' & Hh' & Nh' & Fh').
  exists h, h'. repeat (split; [assumption|]).
  split; [|split; [|split; [exact Ci1|split; [exact Ci1'|split; [exact Ci2|exact Ci2']]]]].
  - match type of Tr1 with Generalized.calculate_runtime ?s = _ =>
      pose proof (GeneralizedMonotone.runtime_of_currents s i1 d i1' bi1 bi1' b b'
                    x1 x1' h h' e A4 Hx1 A5 Hh A6 Hx1' Hh' eq_refl Pe) as Hr end.
    cbn [Generalized._max_shelf_life Generalized._self_discharge_rate
         Generalized.assign_effective_battery_capacity
         Generalized.assign_temperature_factor
         Generalized.assign_current_discharge_mode
         Generalized.assign_average_current_draw
         Generalized.assign_sleep_duration_per_day] in Hr.
    rewrite Ay, Asdr in Hr. congruence.
  - match type of Tr2 with Generalized.calculate_runtime ?s = _ =>
      pose proof (GeneralizedMonotone.runtime_of_currents s i2 d i2' bi2 bi2' b b'
                    x2 x2' h h' e B4 Hx2 B5 Hh B6 Hx2' Hh' eq_refl Pe) as Hr end.
    cbn [Generalized._max_shelf_life Generalized._self_discharge_rate
         Generalized.assign_effective_battery_capacity
         Generalized.assign_temperature_factor
         Generalized.assign_current_discharge_mode
         Generalized.assign_average_current_draw
         Generalized.assign_sleep_duration_per_day] in Hr.
    rewrite By, Bsdr in Hr. congruence.
Qed.

(** A workbook with two lithium curves that give, at 60 degrees, a factor of
    0.5 for discharges up to 25 mA and of 1 for discharges up to 250 mA. *)
Definition two_curves : Generalized.workbook :=
  fun sheet =>
    if String.eqb sheet "Li Temperature Factor"
    then [ {| Generalized.current := 25; Generalized.temperature := 60;
              Generalized.factor := 0.5 |};
           {| Generalized.current := 250; Generalized.temperature := 60;
              Generalized.factor := 1 |} ]
    else [].

(** The claim C4 as stated fails across a change of discharge mode.  On that
    workbook, [Battery("Lithium Metal", 16000, 60, 20)] has an average draw
    of 20 mA, mode "Low", factor 0.5, and a runtime of 16.66 days;
    [Battery("Lithium Metal", 16000, 60, 30)] has an average draw of 30 mA,
    mode "Medium", factor 1, and a runtime of 22.21 days: the larger load
    current gives the longer runtime. *)
Lemma runtime_grows_across_modes :
  match Generalized.__init__ (VStr "Lithium Metal") (VInt 16000) (VInt 60)
          (VInt 20) (VInt 86400) (VInt 0),
        Generalized.__init__ (VStr "Lithium Metal") (VInt 16000) (VInt 60)
          (VInt 30) (VInt 86400) (VInt 0) with
  | Ok b1, Ok b2 =>
      let r1 := Generalized.update_battery_properties two_curves b1 in
      let r2 := Generalized.update_battery_properties two_curves b2 in
      snd r1 = Ok (VInt 0) /\ snd r2 = Ok (VInt 0) /\
      Generalized.current_discharge_mode (fst r1) = VStr "Low" /\
      Generalized.current_discharge_mode (fst r2) = VStr "Medium" /\
      Generalized.temperature_factor (fst r1) = VNp 0.5 /\
      Generalized.temperature_factor (fst r2) = VNp 1 /\
      Generalized.battery_runtime (fst r1) = VNp 16.66 /\
      Generalized.battery_runtime (fst r2) = VNp 22.210000000000001 /\
      py_le (Generalized.battery_runtime (fst r2))
            (Generalized.battery_runtime (fst r1)) = Ok false
  | _, _ => False
  end.
Proof. vm_compute. repeat split. Qed.

(** C4, amended.  In the generalized program the runtime that
    [update_battery_properties] stores never grows with the load current,
    nor with the sleep current, within one discharge mode and for finite
    currents.  Take two batteries as the constructor built them from the
    same arguments but for one current, [v1 <= v2], every current being
    finite (a finite [float], or an [int] that converts to a [float]).  If
    [update_battery_properties] returns on both, leaves both in the same
    discharge mode, and stores for the first an effective capacity that is
    a positive finite [numpy.float64], then the runtime stored for [v2] is
    at most the runtime stored for [v1].  And whenever the effective
    capacity stored is equal to 0, the runtime stored is 0, whatever the
    currents. *)
Theorem runtime_decreases_within_mode :
  (forall xlsx ty cap t d i' v1 v2 b1 b2 b1' b2' r1 r2 e,
     Generalized.__init__ ty cap t v1 d i' = Ok b1 ->
     Generalized.__init__ ty cap t v2 d i' = Ok b2 ->
     Generalized.update_battery_properties xlsx b1 = (b1', Ok r1) ->
     Generalized.update_battery_properties xlsx b2 = (b2', Ok r2) ->
     Generalized.current_discharge_mode b1'
     = Generalized.current_discharge_mode b2' ->
     Generalized.effective_battery_capacity b1' = VNp e ->
     positive_finite (Prim2SF e) = true ->
     representable v1 -> representable v2 -> representable i' ->
     le_value v1 v2 ->
     le_value (Generalized.battery_runtime b2') (Generalized.battery_runtime b1')) /\
  (forall xlsx ty cap t i d v1 v2 b1 b2 b1' b2' r1 r2 e,
     Generalized.__init__ ty cap t i d v1 = Ok b1 ->
     Generalized.__init__ ty cap t i d v2 = Ok b2 ->
     Generalized.update_battery_properties xlsx b1 = (b1', Ok r1) ->
     Generalized.update_battery_properties xlsx b2 = (b2', Ok r2) ->
     Generalized.current_discharge_mode b1'
     = Generalized.current_discharge_mode b2' ->
     Generalized.effective_battery_capacity b1' = VNp e ->
     positive_finite (Prim2SF e) = true ->
     representable v1 -> representable v2 -> representable i ->
     le_value v1 v2 ->
     le_value (Generalized.battery_runtime b2') (Generalized.battery_runtime b1')) /\
  (forall xlsx self self' v,
     Generalized.update_battery_properties xlsx self = (self', Ok v) ->
     py_eq (Generalized.effective_battery_capacity self') (VInt 0) = true ->
     Generalized.battery_runtime self' = VInt 0).
Proof.
  assert (Psdr : positive_finite (Prim2SF 0.01) = true) by reflexivity.
  split; [|split].
  3:{ intros xlsx self self' v Hup Hz.
      destruct (GeneralizedTrace.update_trace xlsx self self' v Hup)
        as (ty & s & avg & mode & tf & eff & r & _ & _ & _ & _ & _ & _ & Tr & ->).
      unfold GeneralizedTrace.before_runtime in *.
      cbn [Generalized.effective_battery_capacity
           Generalized._effective_battery_capacity
           Generalized.assign_battery_runtime
           Generalized.assign_effective_battery_capacity] in Hz.
      unfold Generalized.calculate_runtime in Tr.
      cbn [Generalized.effective_battery_capacity
           Generalized._effective_battery_capacity
           Generalized.assign_effective_battery_capacity] in Tr.
      rewrite Hz in Tr. injection Tr as <-. reflexivity. }
  - intros xlsx ty cap t d i' v1 v2 b1 b2 b1' b2' r1 r2 e Hinit1 Hinit2 Hup1 Hup2
      Hmode He Pe (bv1 & x1 & Hx1 & F1) (bv2 & x2 & Hx2 & F2)
      (bi' & x' & Hx' & Fx') Hle.
    destruct (runtimes_in_one_mode xlsx ty cap t d v1 i' v2 i' b1 b2 b1' b2' r1 r2
                e bv1 bi' bv2 bi' x1 x' x2 x' Hinit1 Hinit2 Hup1 Hup2 Hmode He Pe
                Hx1 Hx' Hx2 Hx')
      as (h & h' & Nh & Fh & Nh' & Fh' & -> & -> & [_ C1] & [_ Ci'] & [_ C2] & _).
    pose proof (as_float_nonneg _ _ _ C1 Hx1 F1) as N1.
    pose proof (as_float_nonneg _ _ _ C2 Hx2 F2) as N2.
    pose proof (as_float_nonneg _ _ _ Ci' Hx' Fx') as Nx'.
    pose proof (as_float_mono _ _ _ _ _ _ C1 C2 Hx1 Hx2 F1 F2 Hle) as Hx.
    pose proof (consumption_plus_signed h h' 0.01 e Nh Fh Nh' Fh' Psdr Pe
                  x1 x' N1 F1 Nx' Fx') as P1.
    pose proof (consumption_plus_signed h h' 0.01 e Nh Fh Nh' Fh' Psdr Pe
                  x2 x' N2 F2 Nx' Fx') as P2.
    pose proof (consumption_mono_load h h' 0.01 e Nh Fh Nh' Fh' Psdr Pe x1 x2 x'
                  N1 F1 N2 F2 Nx' Fx' Hx) as Ht.
    destruct (days_antitone e Pe _ _ P1 P2 Ht) as (Hr & Nr1 & Nr2).
    apply finish_antitone_shelf; try assumption. apply shelf_life_of_cases.
  - intros xlsx ty cap t i d v1 v2 b1 b2 b1' b2' r1 r2 e Hinit1 Hinit2 Hup1 Hup2
      Hmode He Pe (bv1 & x1 & Hx1 & F1) (bv2 & x2 & Hx2 & F2)
      (bi & x & Hx & Fx) Hle.
    destruct (runtimes_in_one_mode xlsx ty cap t d i v1 i v2 b1 b2 b1' b2' r1 r2
                e bi bv1 bi bv2 x x1 x x2 Hinit1 Hinit2 Hup1 Hup2 Hmode He Pe
                Hx Hx1 Hx Hx2)
      as (h & h' & Nh & Fh & Nh' & Fh' & -> & -> & [_ Ci] & [_ C1] & _ & [_ C2]).
    pose proof (as_float_nonneg _ _ _ C1 Hx1 F1) as N1.
    pose proof (as_float_nonneg _ _ _ C2 Hx2 F2) as N2.
    pose proof (as_float_nonneg _ _ _ Ci Hx Fx) as Nx.
    pose proof (as_float_mono _ _ _ _ _ _ C1 C2 Hx1 Hx2 F1 F2 Hle) as Hx12.
    pose proof (consumption_plus_signed h h' 0.01 e Nh Fh Nh' Fh' Psdr Pe
                  x x1 Nx Fx N1 F1) as P1.
    pose proof (consumption_plus_signed h h' 0.01 e Nh Fh Nh' Fh' Psdr Pe
                  x x2 Nx Fx N2 F2) as P2.
    pose proof (consumption_mono_sleep h h' 0.01 e Nh Fh Nh' Fh' Psdr Pe x x1 x2
                  Nx Fx N1 F1 N2 F2 Hx12) as Ht.
    destruct (days_antitone e Pe _ _ P1 P2 Ht) as (Hr & Nr1 & Nr2).
    apply finish_antitone_shelf; try assumption. apply shelf_life_of_cases.
Qed.

(** The sample battery, and the same with a load current of 100 mA. *)
Lemma runtime_decreases_within_mode_witness :
  le_value
    (Generalized.battery_runtime
       (fst (Generalized.update_battery_properties sample_workbook
          (Generalized.assign_sleep_current (VFloat 0.06)
            (Generalized.assign_load_duration_per_day (VInt 240)
              (Generalized.assign_load_current (VInt 100)
                (Generalized.assign_operating_temp (VInt 20)
                  (Generalized.assign_battery_capacity (VInt 16000)
                    (Generalized.assign_battery_type (VStr "Lithium Metal")
                      Generalized.blank)))))))))
    (Generalized.battery_runtime sample_battery).
Proof.
  apply (proj1 runtime_decreases_within_mode sample_workbook
           (VStr "Lithium Metal") (VInt 16000) (VInt 20) (VInt 240) (VFloat 0.06)
           (VInt 90) (VInt 100)
           (Generalized.assign_sleep_current (VFloat 0.06)
             (Generalized.assign_load_duration_per_day (VInt 240)
               (Generalized.assign_load_current (VInt 90)
                 (Generalized.assign_operating_temp (VInt 20)
                   (Generalized.assign_battery_capacity (VInt 16000)
                     (Generalized.assign_battery_type (VStr "Lithium Metal")
                       Generalized.blank))))))
           (Generalized.assign_sleep_current (VFloat 0.06)
             (Generalized.assign_load_duration_per_day (VInt 240)
               (Generalized.assign_load_current (VInt 100)
                 (Generalized.assign_operating_temp (VInt 20)
                   (Generalized.assign_battery_capacity (VInt 16000)
                     (Generalized.assign_battery_type (VStr "Lithium Metal")
                       Generalized.blank))))))
           sample_battery _ (VInt 0) (VInt 0) sample_capacity).
  - reflexivity.
  - reflexivity.
  - vm_compute. reflexivity.
  - vm_compute. reflexivity.
  - vm_compute. reflexivity.
  - reflexivity.
  - reflexivity.
  - exists false, 90%float. split; reflexivity.
  - exists false, 100%float. split; reflexivity.
  - exists false, 0.06%float. split; reflexivity.
  - reflexivity.
Defined.

Lemma zero_consumption_needs_underflow_witness :
  exists c,
    Generalized.total_daily_consumption sample_battery = Ok (VNp c) /\
    (0 <? c)%float = true.
Proof.
  apply (proj2 (proj2 zero_consumption_needs_underflow) sample_workbook
           (VStr "Lithium Metal") (VInt 16000) (VInt 20) (VInt 90) (VInt 240)
           (VFloat 0.06)
           (Generalized.assign_sleep_current (VFloat 0.06)
             (Generalized.assign_load_duration_per_day (VInt 240)
               (Generalized.assign_load_current (VInt 90)
                 (Generalized.assign_operating_temp (VInt 20)
                   (Generalized.assign_battery_capacity (VInt 16000)
                     (Generalized.assign_battery_type (VStr "Lithium Metal")
                       Generalized.blank))))))
           sample_battery (VInt 0) sample_capacity).
  - reflexivity.
  - vm_compute. reflexivity.
  - exists false, 90%float. split; reflexivity.
  - exists false, 0.06%float. split; reflexivity.
  - reflexivity.
  - reflexivity.
  - reflexivity.
Defined.

